(** * Orion ETL (Boulevard / Santa Elisa): shallow embedding and properties

    The two scripts [etl_boulevard.py] and [etl_santa_elisa.py] read a
    workbook, parse unit sections and a budget sheet, validate the parsed
    records and load them into a relational store.  This file embeds the
    header discovery, the section parsers, the normalisers, the validator and
    the loader as Rocq functions and proves properties of them.

    Conventions of the embedding:
    - a worksheet is a total function from (row, column) to a cell value;
    - a Python [dict] is an insertion-ordered association list ([Py.dict]);
    - a float produced by [round(x, 2)] is represented by its number of
      hundredths (a [Z]); a raw numeric cell holds a rational [Q];
    - the month key ["YYYY-MM"] is kept as the pair (year, month) it is
      formatted from; for four-digit years the order of the pairs is the
      order of the formatted strings;
    - identifiers assigned by the store are natural numbers (they stand for
      non-empty uuid strings, hence are always truthy);
    - [id(u)] of a parsed record is its position in [all_units]. *)

From Stdlib Require Import ZArith QArith Qround Qabs List String Ascii Bool Arith Lia.
From Stdlib Require Import Permutation Sorted DecimalString Lqa.
Import ListNotations.
Close Scope Q_scope.
Open Scope string_scope.
Open Scope list_scope.
Open Scope nat_scope.

Set Implicit Arguments.

(* ------------------------------------------------------------------------- *)
(** ** Python builtins used by the scripts *)
(* ------------------------------------------------------------------------- *)

Module Py.

(** Texts are byte strings.  The text functions of this module are those
    of Python on ASCII text: whitespace is the ASCII one and only the ASCII
    letters change case.  On other text Python also takes the Unicode
    spaces (U+00A0, ...) for whitespace and lowers the capitals beyond
    ASCII; here those bytes are left as they are. *)

(** [str.isspace] on ASCII: TAB..CR, FS..US and SPACE. *)
Definition isspace (c : ascii) : bool :=
  let n := nat_of_ascii c in
  ((9 <=? n) && (n <=? 13)) || ((28 <=? n) && (n <=? 32)).

Fixpoint lstrip (s : string) : string :=
  match s with
  | EmptyString => EmptyString
  | String c s' => if isspace c then lstrip s' else s
  end.

Fixpoint rev (s : string) : string :=
  match s with
  | EmptyString => EmptyString
  | String c s' => String.append (rev s') (String c EmptyString)
  end.

Definition rstrip (s : string) : string := rev (lstrip (rev s)).

(** [s.strip()] *)
Definition strip (s : string) : string := rstrip (lstrip s).

(** [s.strip(ch)] for a single character [ch]. *)
Fixpoint lstrip_char (ch : ascii) (s : string) : string :=
  match s with
  | EmptyString => EmptyString
  | String c s' => if Ascii.eqb c ch then lstrip_char ch s' else s
  end.

Definition strip_char (ch : ascii) (s : string) : string :=
  rev (lstrip_char ch (rev (lstrip_char ch s))).

Definition lower_ascii (c : ascii) : ascii :=
  let n := nat_of_ascii c in
  if (65 <=? n) && (n <=? 90) then ascii_of_nat (n + 32) else c.

(** [s.lower()] (strings are UTF-8 byte strings; ASCII letters are
    lowered, other bytes are left as they are). *)
Fixpoint lower (s : string) : string :=
  match s with
  | EmptyString => EmptyString
  | String c s' => String (lower_ascii c) (lower s')
  end.

(** [re.sub(r"\s+", " ", s)]: every maximal run of whitespace becomes one
    space.  [in_ws] records that the previous character was whitespace. *)
Fixpoint collapse_ws_from (in_ws : bool) (s : string) : string :=
  match s with
  | EmptyString => EmptyString
  | String c s' =>
      if isspace c
      then if in_ws then collapse_ws_from true s'
           else String " " (collapse_ws_from true s')
      else String c (collapse_ws_from false s')
  end.

Definition collapse_ws (s : string) : string := collapse_ws_from false s.

(** [p in s] on strings. *)
Fixpoint contains (p s : string) : bool :=
  prefix p s ||
  match s with
  | EmptyString => false
  | String _ s' => contains p s'
  end.

(** Truthiness of [str | None]. *)
Definition truthy_str (o : option string) : bool :=
  match o with
  | Some s => negb (String.eqb s "")
  | None => false
  end.

(** [str(z)] for an [int]. *)
Definition str_of_int (z : Z) : string :=
  NilZero.string_of_int (Z.to_int z).

(** [range(a, b)] on non-negative bounds. *)
Definition range (a b : nat) : list nat := seq a (b - a).

(** [enumerate(l, start)] *)
Fixpoint enumerate_from {A : Type} (start : nat) (l : list A) : list (nat * A) :=
  match l with
  | [] => []
  | x :: l' => (start, x) :: enumerate_from (S start) l'
  end.

Definition enumerate {A : Type} (l : list A) : list (nat * A) :=
  enumerate_from 0 l.

(** [any(f(x) for x in l)] is [existsb f l]. *)

(** *** Insertion-ordered dictionaries *)
Section Dict.
Variables K V : Type.
Variable eqb : K -> K -> bool.

Definition dict : Type := list (K * V).

Fixpoint get (d : dict) (k : K) : option V :=
  match d with
  | [] => None
  | (k', v) :: d' => if eqb k k' then Some v else get d' k
  end.

(** [d[k] = v]: an existing key keeps its position. *)
Fixpoint set (d : dict) (k : K) (v : V) : dict :=
  match d with
  | [] => [(k, v)]
  | (k', v') :: d' =>
      if eqb k k' then (k', v) :: d' else (k', v') :: set d' k v
  end.

(** [k in d] *)
Definition mem (d : dict) (k : K) : bool :=
  match get d k with Some _ => true | None => false end.

Definition keys (d : dict) : list K := map fst d.
Definition values (d : dict) : list V := map snd d.
End Dict.

(** *** [sorted]: a stable sort (insertion sort keeps equal keys in their
    original order, as Python's sort does). *)
Section Sorted.
Variable A : Type.
Variable leb : A -> A -> bool.

Fixpoint insert (x : A) (l : list A) : list A :=
  match l with
  | [] => [x]
  | y :: l' => if leb x y then x :: l else y :: insert x l'
  end.

Fixpoint sorted (l : list A) : list A :=
  match l with
  | [] => []
  | x :: l' => insert x (sorted l')
  end.
End Sorted.

End Py.

(* ------------------------------------------------------------------------- *)
(** ** Calendar dates *)
(* ------------------------------------------------------------------------- *)

Record date : Type := mkdate { year : nat; month : nat; day : nat }.

Definition date_eqb (a b : date) : bool :=
  (year a =? year b) && (month a =? month b) && (day a =? day b).

(** [a <= b] on [datetime.date]. *)
Definition date_leb (a b : date) : bool :=
  (year a <? year b) ||
  ((year a =? year b) &&
   ((month a <? month b) || ((month a =? month b) && (day a <=? day b)))).

Definition date_le (a b : date) : Prop := date_leb a b = true.

Definition is_leap (y : nat) : bool :=
  ((y mod 4 =? 0) && negb (y mod 100 =? 0)) || (y mod 400 =? 0).

Definition days_in_month (y m : nat) : nat :=
  match m with
  | 2 => if is_leap y then 29 else 28
  | 4 | 6 | 9 | 11 => 30
  | _ => 31
  end.

(** [date(y, m, 1) - timedelta(days=1)] *)
Definition day_before_first (y m : nat) : date :=
  if m <=? 1 then mkdate (y - 1) 12 31
  else mkdate y (m - 1) (days_in_month y (m - 1)).

(** The month key ["YYYY-MM"]. *)
Definition year_month : Type := (nat * nat)%type.

Definition ym_eqb (a b : year_month) : bool :=
  (fst a =? fst b) && (snd a =? snd b).

Definition ym_leb (a b : year_month) : bool :=
  (fst a <? fst b) || ((fst a =? fst b) && (snd a <=? snd b)).

(** [_month_end_to_date]: last day of the month of a key (months 1..12),
    where the call returns; the range checks of [datetime.date] are written
    out in [_month_end_to_date_checked]. *)
Definition _month_end_to_date (ym : year_month) : date :=
  let '(y, m) := ym in
  if m =? 12 then day_before_first (y + 1) 1
  else day_before_first y (m + 1).

(* ------------------------------------------------------------------------- *)
(** ** Cell values and worksheets *)
(* ------------------------------------------------------------------------- *)

(** The value of a cell as the workbook reader returns it.  [VDatetime]
    carries the calendar date and the time of day (never inspected by the
    scripts). *)
Inductive PyVal : Type :=
| VNone
| VBool (b : bool)
| VInt (z : Z)
| VFloat (q : Q)
| VStr (s : string)
| VDatetime (d : date) (time_of_day : nat)
| VDate (d : date).

(** [ws.cell(row=r, column=c).value] *)
Definition Worksheet : Type := nat -> nat -> PyVal.

(** Builtins whose result is fixed by the Python runtime and not by the
    scripts: [float(s)] on a string ([None] when it raises [ValueError]),
    [str(f)] on a float and [str(dt)] on a datetime. *)
Class PyBuiltins : Type := {
  float_of_str : string -> option Q;
  str_of_float : Q -> string;
  str_of_datetime : date -> nat -> string
}.

Definition pad_left (width : nat) (s : string) : string :=
  String.append (string_of_list_ascii (repeat "0"%char (width - String.length s))) s.

(** [d.strftime("%Y-%m")] as a string. *)
Definition strftime_ym (d : date) : string :=
  String.append (pad_left 4 (Py.str_of_int (Z.of_nat (year d))))
    (String.append "-" (pad_left 2 (Py.str_of_int (Z.of_nat (month d))))).

Definition isoformat (d : date) : string :=
  String.append (strftime_ym d)
    (String.append "-" (pad_left 2 (Py.str_of_int (Z.of_nat (day d))))).

(** Round half to even, as [round] does on the exact value of a float. *)
Definition round_half_even (x : Q) : Z :=
  let f := Qfloor x in
  match Qcompare (x - inject_Z f)%Q (1 # 2)%Q with
  | Lt => f
  | Gt => (f + 1)%Z
  | Eq => if Z.even f then f else (f + 1)%Z
  end.

(** [round(f, 2)], in hundredths. *)
Definition round2 (f : Q) : Z := round_half_even (f * 100)%Q.

(** [int(f)]: truncation toward zero. *)
Definition trunc (f : Q) : Z :=
  if Qle_bool 0 f then Qfloor f else Qceiling f.

Section Coercions.
Context {B : PyBuiltins}.

(** [str(val)] *)
Definition py_str (val : PyVal) : string :=
  match val with
  | VNone => "None"
  | VBool b => if b then "True" else "False"
  | VInt z => Py.str_of_int z
  | VFloat q => str_of_float q
  | VStr s => s
  | VDatetime d t => str_of_datetime d t
  | VDate d => isoformat d
  end.

(** [float(val)]; [None] stands for [ValueError] / [TypeError].  A float
    is its exact finite value: the rounding of [float] on an integer beyond
    2^53, its [OverflowError] beyond the range of floats and the floats
    that are not finite (of the texts nan and inf) are outside the model. *)
Definition py_float (val : PyVal) : option Q :=
  match val with
  | VBool b => Some (if b then 1 else 0)%Q
  | VInt z => Some (inject_Z z)
  | VFloat q => Some q
  | VStr s => float_of_str s
  | VNone | VDatetime _ _ | VDate _ => None
  end.

Definition _normalize_header (val : PyVal) : option string :=
  match val with
  | VNone => None
  | VDatetime d _ => Some (strftime_ym d)
  | _ => Some (Py.collapse_ws (Py.lower (Py.strip (py_str val))))
  end.

Definition _safe_float (val : PyVal) : option Z :=
  match val with
  | VNone => None
  | _ => match py_float val with
         | Some f => Some (round2 f)
         | None => None
         end
  end.

Definition _safe_int (val : PyVal) : option Z :=
  match val with
  | VNone => None
  | _ => match py_float val with
         | Some f => Some (trunc f)
         | None => None
         end
  end.

Definition _safe_date (val : PyVal) : option date :=
  match val with
  | VDatetime d _ => Some d
  | VDate d => Some d
  | _ => None
  end.

(** [isinstance(apto_raw, (int, float))] ([bool] is a subclass of [int]). *)
Definition is_number (val : PyVal) : bool :=
  match val with
  | VBool _ | VInt _ | VFloat _ => true
  | _ => false
  end.

(** [int(apto_raw)] for a number. *)
Definition py_int (val : PyVal) : Z :=
  match val with
  | VBool b => if b then 1%Z else 0%Z
  | VInt z => z
  | VFloat q => trunc q
  | _ => 0%Z
  end.

(** [str(int(apto_raw)) if isinstance(apto_raw, (int, float))
     else str(apto_raw).strip()] *)
Definition apto_of_cell (apto_raw : PyVal) : string :=
  if is_number apto_raw then Py.str_of_int (py_int apto_raw)
  else Py.strip (py_str apto_raw).

End Coercions.

(* ------------------------------------------------------------------------- *)
(** ** Header discovery (the matching loops are the same in both scripts) *)
(* ------------------------------------------------------------------------- *)

Definition HeaderPatterns : Type := list (string * list string).
Definition NamedCols : Type := Py.dict string nat.
Definition MonthCols : Type := Py.dict year_month nat.

Definition named_get (d : NamedCols) (k : string) : option nat := Py.get String.eqb d k.
Definition named_set (d : NamedCols) (k : string) (c : nat) : NamedCols := Py.set String.eqb d k c.
Definition named_mem (d : NamedCols) (k : string) : bool := Py.mem String.eqb d k.
Definition month_set (d : MonthCols) (k : year_month) (c : nat) : MonthCols := Py.set ym_eqb d k c.

(** First loop: [any(p == norm for p in pats)] over the names not yet in
    [named_cols]; the result is the name that [break]s the loop. *)
Fixpoint match_exact (patterns : HeaderPatterns) (named_cols : NamedCols)
    (norm : string) : option string :=
  match patterns with
  | [] => None
  | (logical_name, pats) :: rest =>
      if named_mem named_cols logical_name then match_exact rest named_cols norm
      else if existsb (fun p => String.eqb p norm) pats then Some logical_name
      else match_exact rest named_cols norm
  end.

(** Second loop: [any(len(p) > 4 and p in norm for p in pats)]. *)
Fixpoint match_substring (patterns : HeaderPatterns) (named_cols : NamedCols)
    (norm : string) : option string :=
  match patterns with
  | [] => None
  | (logical_name, pats) :: rest =>
      if named_mem named_cols logical_name then match_substring rest named_cols norm
      else if existsb (fun p => (4 <? String.length p) && Py.contains p norm) pats
           then Some logical_name
      else match_substring rest named_cols norm
  end.

(** The two loops of one header cell: the logical name that claims it. *)
Definition match_header (patterns : HeaderPatterns) (named_cols : NamedCols)
    (norm : string) : option string :=
  match match_exact patterns named_cols norm with
  | Some logical_name => Some logical_name
  | None => match_substring patterns named_cols norm
  end.

Definition _SPANISH_MONTH_MAP : Py.dict string nat :=
  [("ene", 1); ("feb", 2); ("mar", 3); ("abr", 4);
   ("may", 5); ("jun", 6); ("jul", 7); ("ago", 8);
   ("sep", 9); ("sept", 9); ("oct", 10); ("nov", 11); ("dic", 12)].

Fixpoint split_at_dot (s : string) : option (string * string) :=
  match s with
  | EmptyString => None
  | String c s' =>
      if Ascii.eqb c "."%char then Some (EmptyString, s')
      else match split_at_dot s' with
           | Some (a, b) => Some (String c a, b)
           | None => None
           end
  end.

(** The value of an ASCII decimal digit; [\d] and [int] also take the
    decimal digits beyond ASCII. *)
Definition digit_of (c : ascii) : option nat :=
  let n := nat_of_ascii c in
  if (48 <=? n) && (n <=? 57) then Some (n - 48) else None.

(** [_parse_spanish_month_header]: the regular expression
    [^(ene|...|dic)\.(\d{2})$] with [re.IGNORECASE], then the table; on
    ASCII text. *)
Definition _parse_spanish_month_header (val : string) : option year_month :=
  match split_at_dot (Py.strip val) with
  | Some (abbr, String d1 (String d2 EmptyString)) =>
      match Py.get String.eqb _SPANISH_MONTH_MAP (Py.lower abbr), digit_of d1, digit_of d2 with
      | Some month_num, Some a, Some b => Some (2000 + (10 * a + b), month_num)
      | _, _, _ => None
      end
  | _ => None
  end.

Section Headers.
Context {B : PyBuiltins}.

(** Body of [for col in range(col_start, col_end + 1)]. *)
Definition discover_headers_step (ws : Worksheet) (header_row : nat)
    (patterns : HeaderPatterns) (parse_spanish_months : bool)
    (acc : NamedCols * MonthCols) (col : nat) : NamedCols * MonthCols :=
  let '(named_cols, month_cols) := acc in
  let raw := ws header_row col in
  match raw with
  | VNone => acc
  | VDatetime d _ => (named_cols, month_set month_cols (year d, month d) col)
  | _ =>
      match _normalize_header raw with
      | None => acc
      | Some norm =>
          match (if parse_spanish_months
                 then _parse_spanish_month_header (Py.strip (py_str raw))
                 else None) with
          | Some ym => (named_cols, month_set month_cols ym col)
          | None =>
              match match_header patterns named_cols norm with
              | Some logical_name => (named_set named_cols logical_name col, month_cols)
              | None => acc
              end
          end
      end
  end.

(** [discover_headers]; Boulevard's version is the one with
    [parse_spanish_months = False]. *)
Definition discover_headers (ws : Worksheet) (header_row col_start col_end : nat)
    (patterns : HeaderPatterns) (parse_spanish_months : bool)
    : NamedCols * MonthCols :=
  fold_left (discover_headers_step ws header_row patterns parse_spanish_months)
    (Py.range col_start (col_end + 1)) ([], []).
End Headers.

(* ------------------------------------------------------------------------- *)
(** ** Parsing helpers shared by the section parsers and the budget parsers *)
(* ------------------------------------------------------------------------- *)

(** [sorted(months.items())]: by key (the keys of a dict are distinct). *)
Definition sorted_months (months : MonthCols) : list (year_month * nat) :=
  Py.sorted (fun a b => ym_leb (fst a) (fst b)) months.

Section MonthlyCells.
Context {B : PyBuiltins}.

(** Body of [for ym, col in sorted(months.items())]: the cell of one month
    column appends at most one [(date, amount)] tuple. *)
Definition month_cell_step (ws : Worksheet) (row : nat)
    (payments : list (date * Z)) (item : year_month * nat) : list (date * Z) :=
  let '(ym, col) := item in
  match _safe_float (ws row col) with
  | Some val => if negb (val =? 0)%Z then payments ++ [(_month_end_to_date ym, val)]
                else payments
  | None => payments
  end.

(** The monthly loop of one row. *)
Definition monthly_payments (ws : Worksheet) (row : nat) (months : MonthCols)
    : list (date * Z) :=
  fold_left (month_cell_step ws row) (sorted_months months) [].

(** [_get(name)] inside the row loop. *)
Definition _get (ws : Worksheet) (row : nat) (named : NamedCols) (name : string) : PyVal :=
  match named_get named name with
  | Some col => if col =? 0 then VNone else ws row col
  | None => VNone
  end.

(** [_safe_str] of Boulevard. *)
Definition _safe_str (val : PyVal) : option string :=
  match val with
  | VNone => None
  | _ => let s := Py.strip (py_str val) in
         if String.eqb s "" then None else Some s
  end.
End MonthlyCells.

(** [ParsedExpected] (the same dataclass in both scripts). *)
Record ParsedExpected : Type := mkParsedExpected {
  pe_apto : string;
  pe_due_date : date;
  pe_amount : Z
}.

Section Budget.
Context {B : PyBuiltins}.

(** Body of the row loop of [parse_ppto]. *)
Definition parse_ppto_row (ws : Worksheet) (apto_col : nat) (months : MonthCols)
    (records : list ParsedExpected) (row : nat) : list ParsedExpected :=
  let apto_raw := ws row apto_col in
  match apto_raw with
  | VNone => records
  | _ =>
      let apto := apto_of_cell apto_raw in
      records ++ map (fun p => mkParsedExpected apto (fst p) (snd p))
                     (monthly_payments ws row months)
  end.

(** [parse_ppto], with the sheet boundaries and patterns of the script. *)
Definition parse_ppto_with (header_row col_start col_end data_start data_end : nat)
    (patterns : HeaderPatterns) (parse_spanish_months : bool) (ws : Worksheet)
    : list ParsedExpected :=
  let '(named, months) :=
    discover_headers ws header_row col_start col_end patterns parse_spanish_months in
  match named_get named "apto" with
  | None => []
  | Some apto_col =>
      fold_left (parse_ppto_row ws apto_col months)
        (Py.range data_start (data_end + 1)) []
  end.
End Budget.

(* ------------------------------------------------------------------------- *)
(** ** Normalised values *)
(* ------------------------------------------------------------------------- *)

Inductive UnitStatus : Type := available | reserved | sold | unit_cancelled.
Inductive SaleStatus : Type := active | cancelled.
Inductive PaymentType : Type := reservation | down_payment | reimbursement.

Definition sale_status_eqb (a b : SaleStatus) : bool :=
  match a, b with
  | active, active | cancelled, cancelled => true
  | _, _ => false
  end.

Section Normalizers.
Variable STATUS_TO_UNIT_STATUS : Py.dict string UnitStatus.
Variable STATUS_TO_SALE_STATUS : Py.dict string SaleStatus.
Variable VENDEDOR_CANONICAL : Py.dict string (option string).

Definition normalize_unit_status (raw : option string) : UnitStatus :=
  match raw with
  | None => available
  | Some raw =>
      let key := Py.lower (Py.strip raw) in
      match Py.get String.eqb STATUS_TO_UNIT_STATUS key with
      | Some st => st
      | None => available
      end
  end.

Definition normalize_sale_status (raw : option string) : option SaleStatus :=
  match raw with
  | None => None
  | Some raw =>
      let key := Py.lower (Py.strip raw) in
      Py.get String.eqb STATUS_TO_SALE_STATUS key
  end.

Definition normalize_vendedor (raw : option string) : option string :=
  match raw with
  | None => None
  | Some raw =>
      let key := Py.lower (Py.strip raw) in
      match Py.get String.eqb VENDEDOR_CANONICAL key with
      | Some (Some canonical) => Some canonical
      | Some None => None
      | None => Some (Py.strip raw)
      end
  end.
End Normalizers.

(** [x or 0] on [float | None]. *)
Definition or_zero (x : option Z) : Z :=
  match x with Some v => v | None => 0%Z end.

(** Truthiness of [float | None]. *)
Definition truthy_num (x : option Z) : bool :=
  match x with Some v => negb (v =? 0)%Z | None => false end.

(** ["; ".join(parts)] *)
Fixpoint join (sep : string) (parts : list string) : string :=
  match parts with
  | [] => ""
  | [p] => p
  | p :: rest => String.append p (String.append sep (join sep rest))
  end.

(** [filter(None, xs)] on [str | None] items. *)
Definition filter_truthy (xs : list (option string)) : list string :=
  flat_map (fun o => match o with
                     | Some s => if String.eqb s "" then [] else [s]
                     | None => []
                     end) xs.

(** [s or None] *)
Definition str_or_none (s : string) : option string :=
  if String.eqb s "" then None else Some s.

(* ------------------------------------------------------------------------- *)
(** ** The destination store *)
(* ------------------------------------------------------------------------- *)

(** Row payloads: the dict literals the loader sends to each table. *)
Record ProjectRow : Type := mkProjectRow {
  pr_name : string;
  pr_display_name : string
}.

Record UnitRow : Type := mkUnitRow {
  ur_project_id : option nat;
  ur_unit_number : string;
  ur_price_with_tax : Z;
  ur_price_without_tax : Z;
  ur_down_payment_amount : Z;
  ur_status : UnitStatus
}.

Record ClientRow : Type := mkClientRow { cr_full_name : string }.

Record SalesRepRow : Type := mkSalesRepRow { sr_id : string; sr_name : string }.

Record SaleRow : Type := mkSaleRow {
  s_project_id : option nat;
  s_unit_id : nat;
  s_client_id : nat;
  s_sales_rep_id : string;
  s_sale_date : date;
  s_price_with_tax : Z;
  s_price_without_tax : Z;
  s_down_payment_amount : Z;
  s_financed_amount : Z;
  s_status : SaleStatus;
  s_referral_applies : bool;
  s_caso_especial : bool;
  s_caso_especial_type : option string;
  s_observaciones : option string;
  s_notas : option string
}.

Record PaymentRow : Type := mkPaymentRow {
  p_sale_id : nat;
  p_payment_date : date;
  p_amount : Z;
  p_payment_type : PaymentType;
  p_notes : string
}.

Record ExpectedRow : Type := mkExpectedRow {
  e_project_id : option nat;
  e_unit_number : string;
  e_due_date : date;
  e_amount : Z;
  e_installment_number : nat;
  e_schedule_type : string
}.

Definition option_nat_eqb (a b : option nat) : bool :=
  match a, b with
  | Some x, Some y => x =? y
  | None, None => true
  | _, _ => false
  end.

(** Modelled from the spec: the table store (upsert / insert / select with the
    conflict keys of section 6) is an external collaborator, not code of the
    scripts.  A table is the list of its rows, each with the identifier the
    store assigned; identifiers come from one counter.  An upsert processes
    its rows one after the other: a row that conflicts with a stored row on
    the conflict key replaces its payload and keeps its identifier, any other
    row is appended under a fresh identifier; the rows are returned with
    their identifiers, in the order given. *)
Module Table.
Section Ops.
Variable P : Type.
Variable conflict : P -> P -> bool.

Definition t : Type := list (nat * P).

Fixpoint find_conflict (new : P) (tbl : t) : option nat :=
  match tbl with
  | [] => None
  | (i, old) :: rest =>
      if conflict new old then Some i else find_conflict new rest
  end.

Fixpoint replace_conflict (new : P) (tbl : t) : t :=
  match tbl with
  | [] => []
  | (i, old) :: rest =>
      if conflict new old then (i, new) :: rest
      else (i, old) :: replace_conflict new rest
  end.

Definition upsert_row (new : P) (st : t * nat) : (t * nat) * (nat * P) :=
  let '(tbl, n) := st in
  match find_conflict new tbl with
  | Some i => ((replace_conflict new tbl, n), (i, new))
  | None => ((tbl ++ [(n, new)], S n), (n, new))
  end.

Fixpoint upsert_rows (rows : list P) (st : t * nat) : (t * nat) * list (nat * P) :=
  match rows with
  | [] => (st, [])
  | r :: rest =>
      let '(st1, x) := upsert_row r st in
      let '(st2, xs) := upsert_rows rest st1 in
      (st2, x :: xs)
  end.

Definition insert_row (new : P) (st : t * nat) : (t * nat) * (nat * P) :=
  let '(tbl, n) := st in ((tbl ++ [(n, new)], S n), (n, new)).

Fixpoint insert_rows (rows : list P) (st : t * nat) : (t * nat) * list (nat * P) :=
  match rows with
  | [] => (st, [])
  | r :: rest =>
      let '(st1, x) := insert_row r st in
      let '(st2, xs) := insert_rows rest st1 in
      (st2, x :: xs)
  end.

(** [select(...).eq(...)...]: the rows that satisfy the filters. *)
Definition select (pred : P -> bool) (tbl : t) : t :=
  filter (fun r => pred (snd r)) tbl.
End Ops.
End Table.

(** Modelled from the spec: conflict keys of section 6:
    [projects(name)], [units(project, unitNumber)], [clients(fullName)],
    [sales(unitId)] restricted to active rows,
    [expected_payments(project, unitNumber, dueDate, scheduleType)]; and
    [sales_reps(id)] as the script of Boulevard names it. *)
Definition project_conflict (new old : ProjectRow) : bool :=
  String.eqb (pr_name new) (pr_name old).

Definition unit_conflict (new old : UnitRow) : bool :=
  option_nat_eqb (ur_project_id new) (ur_project_id old) &&
  String.eqb (ur_unit_number new) (ur_unit_number old).

Definition client_conflict (new old : ClientRow) : bool :=
  String.eqb (cr_full_name new) (cr_full_name old).

Definition sales_rep_conflict (new old : SalesRepRow) : bool :=
  String.eqb (sr_id new) (sr_id old).

Definition sale_conflict (new old : SaleRow) : bool :=
  sale_status_eqb (s_status old) active &&
  sale_status_eqb (s_status new) active &&
  (s_unit_id new =? s_unit_id old).

Definition expected_conflict (new old : ExpectedRow) : bool :=
  option_nat_eqb (e_project_id new) (e_project_id old) &&
  String.eqb (e_unit_number new) (e_unit_number old) &&
  date_eqb (e_due_date new) (e_due_date old) &&
  String.eqb (e_schedule_type new) (e_schedule_type old).

(** Modelled from the spec: the store is its six tables (and [sales_reps]). *)
Record Store : Type := mkStore {
  projects : Table.t ProjectRow;
  units : Table.t UnitRow;
  clients : Table.t ClientRow;
  sales_reps : list SalesRepRow;
  sales : Table.t SaleRow;
  payments : Table.t PaymentRow;
  expected_payments : Table.t ExpectedRow;
  next_id : nat
}.

Definition empty_store : Store := mkStore [] [] [] [] [] [] [] 1.

Definition with_projects (db : Store) (st : Table.t ProjectRow * nat) : Store :=
  mkStore (fst st) (units db) (clients db) (sales_reps db) (sales db)
          (payments db) (expected_payments db) (snd st).

Definition with_units (db : Store) (st : Table.t UnitRow * nat) : Store :=
  mkStore (projects db) (fst st) (clients db) (sales_reps db) (sales db)
          (payments db) (expected_payments db) (snd st).

Definition with_clients (db : Store) (st : Table.t ClientRow * nat) : Store :=
  mkStore (projects db) (units db) (fst st) (sales_reps db) (sales db)
          (payments db) (expected_payments db) (snd st).

Definition with_sales_reps (db : Store) (reps : list SalesRepRow) : Store :=
  mkStore (projects db) (units db) (clients db) reps (sales db)
          (payments db) (expected_payments db) (next_id db).

Definition with_sales (db : Store) (st : Table.t SaleRow * nat) : Store :=
  mkStore (projects db) (units db) (clients db) (sales_reps db) (fst st)
          (payments db) (expected_payments db) (snd st).

Definition with_payments (db : Store) (st : Table.t PaymentRow * nat) : Store :=
  mkStore (projects db) (units db) (clients db) (sales_reps db) (sales db)
          (fst st) (expected_payments db) (snd st).

Definition with_expected_payments (db : Store) (st : Table.t ExpectedRow * nat) : Store :=
  mkStore (projects db) (units db) (clients db) (sales_reps db) (sales db)
          (payments db) (fst st) (snd st).

(** Upsert into [sales_reps], whose key [id] is part of the row. *)
Fixpoint upsert_sales_rep (new : SalesRepRow) (tbl : list SalesRepRow) : list SalesRepRow :=
  match tbl with
  | [] => [new]
  | old :: rest =>
      if sales_rep_conflict new old then new :: rest
      else old :: upsert_sales_rep new rest
  end.

(* ------------------------------------------------------------------------- *)
(** ** The loader ([SupabaseLoader]) *)
(* ------------------------------------------------------------------------- *)

Definition BATCH_SIZE : nat := 500.

(** [_batched]: [items[i : i + size]] for [i] in [range(0, len(items), size)]. *)
Fixpoint _batched_from {A : Type} (fuel : nat) (items : list A) (size : nat)
    : list (list A) :=
  match fuel with
  | O => []
  | S fuel' =>
      match items with
      | [] => []
      | _ :: _ => firstn size items :: _batched_from fuel' (skipn size items) size
      end
  end.

Definition _batched {A : Type} (items : list A) (size : nat) : list (list A) :=
  _batched_from (List.length items) items size.

(** The attributes of the loader object. *)
Record Loader : Type := mkLoader {
  project_id : option nat;
  unit_ids : Py.dict string nat;
  client_ids : Py.dict string nat;
  _sale_ids : Py.dict nat nat
}.

(** [SupabaseLoader.__init__] *)
Definition new_loader : Loader := mkLoader None [] [] [].

Definition set_project_id (self : Loader) (p : option nat) : Loader :=
  mkLoader p (unit_ids self) (client_ids self) (_sale_ids self).

Definition set_unit_id (self : Loader) (apto : string) (i : nat) : Loader :=
  mkLoader (project_id self) (Py.set String.eqb (unit_ids self) apto i)
           (client_ids self) (_sale_ids self).

Definition set_client_id (self : Loader) (name : string) (i : nat) : Loader :=
  mkLoader (project_id self) (unit_ids self)
           (Py.set String.eqb (client_ids self) name i) (_sale_ids self).

Definition set_sale_id (self : Loader) (unit_index : nat) (i : nat) : Loader :=
  mkLoader (project_id self) (unit_ids self) (client_ids self)
           (Py.set Nat.eqb (_sale_ids self) unit_index i).

(** [get_sale_id]; the record is named by its position in [all_units]. *)
Definition get_sale_id (self : Loader) (unit_index : nat) : option nat :=
  Py.get Nat.eqb (_sale_ids self) unit_index.

(** Why [_build_sale_row] returned [None]: the warning it logged. *)
Inductive SkipWarning : Type :=
| unit_id_not_found
| no_client_id
| cannot_derive_sale_date.

Inductive BuildResult : Type :=
| Built (row : SaleRow)
| Skipped (w : SkipWarning).

Definition upsert_project (PROJECT_NAME PROJECT_DISPLAY_NAME : string)
    (st : Loader * Store) : Loader * Store :=
  let '(self, db) := st in
  let '(tn, (i, _)) :=
    Table.upsert_row project_conflict
      (mkProjectRow PROJECT_NAME PROJECT_DISPLAY_NAME) (projects db, next_id db) in
  (set_project_id self (Some i), with_projects db tn).

Definition date_ltb (a b : date) : bool := date_leb a b && negb (date_eqb a b).

(** Order of [(date, amount)] tuples. *)
Definition payment_leb (a b : date * Z) : bool :=
  date_ltb (fst a) (fst b) || (date_eqb (fst a) (fst b) && (snd a <=? snd b)%Z).

(** [by_apto.setdefault(k, []).append(r)] *)
Fixpoint setdefault_append {V : Type} (d : Py.dict string (list V)) (k : string) (r : V)
    : Py.dict string (list V) :=
  match d with
  | [] => [(k, [r])]
  | (k', rs) :: d' =>
      if String.eqb k k' then (k', rs ++ [r]) :: d'
      else (k', rs) :: setdefault_append d' k r
  end.

(** The methods of [SupabaseLoader] that the two scripts share; what differs
    between them is passed in: the record type, the dict literal of
    [upsert_units], the condition of the [sellable] comprehension,
    [_build_sale_row], and the type and amount given to a payment. *)
Module SupabaseLoader.
Section LoaderMethods.
Variable U : Type.
Variable apto : U -> string.
Variable cliente : U -> option string.
Variable actual_payments : U -> list (date * Z).
Variable source_section : U -> string.
Variable unit_row : option nat -> U -> UnitRow.
Variable is_sellable : U -> bool.
Variable _build_sale_row : Loader -> U -> BuildResult.
Variable classify_payment : U -> nat -> Z -> PaymentType * Z.

(* ── Phase 2: Units ── *)

Definition record_unit_ids (self : Loader) (data : list (nat * UnitRow)) : Loader :=
fold_left (fun self row => set_unit_id self (ur_unit_number (snd row)) (fst row))
          data self.

Definition upsert_units_batch (st : Loader * Store) (batch : list UnitRow)
  : Loader * Store :=
let '(self, db) := st in
let '(tn, data) := Table.upsert_rows unit_conflict batch (units db, next_id db) in
(record_unit_ids self data, with_units db tn).

Definition upsert_units (main_units : list U) (st : Loader * Store) : Loader * Store :=
let rows := map (unit_row (project_id (fst st))) main_units in
fold_left upsert_units_batch (_batched rows BATCH_SIZE) st.

(* ── Phase 3: Clients ── *)

Definition unique_clients (all_units : list U) : Py.dict string string :=
fold_left
  (fun d u =>
     match cliente u with
     | Some c => if negb (String.eqb c "") && negb (Py.mem String.eqb d c)
                 then Py.set String.eqb d c c else d
     | None => d
     end)
  all_units [].

Definition record_client_ids (self : Loader) (data : list (nat * ClientRow)) : Loader :=
fold_left (fun self row => set_client_id self (cr_full_name (snd row)) (fst row))
          data self.

Definition upsert_clients_batch (st : Loader * Store) (batch : list ClientRow)
  : Loader * Store :=
let '(self, db) := st in
let '(tn, data) := Table.upsert_rows client_conflict batch (clients db, next_id db) in
(record_client_ids self data, with_clients db tn).

Definition upsert_clients (all_units : list U) (st : Loader * Store) : Loader * Store :=
let rows := map mkClientRow (Py.values (unique_clients all_units)) in
fold_left upsert_clients_batch (_batched rows BATCH_SIZE) st.

(* ── Phase 4: Sales ── *)

(** A record with the row stashed on it ([u._sale_row]), named by its
  position in [all_units]. *)
Definition Prepared : Type := (nat * U * SaleRow)%type.

Definition prepared_row (x : Prepared) : SaleRow := snd x.
Definition prepared_unit (x : Prepared) : U := snd (fst x).
Definition prepared_index (x : Prepared) : nat := fst (fst x).

Definition sellable_units (all_units : list U) : list (nat * U) :=
filter (fun iu => is_sellable (snd iu)) (Py.enumerate all_units).

(** The loop [for u in sellable]: the records whose row was built. *)
Definition built_units (self : Loader) (all_units : list U) : list Prepared :=
flat_map (fun iu => match _build_sale_row self (snd iu) with
                    | Built row => [(fst iu, snd iu, row)]
                    | Skipped _ => []
                    end)
         (sellable_units all_units).

Definition active_units (self : Loader) (all_units : list U) : list Prepared :=
filter (fun x => sale_status_eqb (s_status (prepared_row x)) active)
       (built_units self all_units).

Definition cancelled_units (self : Loader) (all_units : list U) : list Prepared :=
filter (fun x => negb (sale_status_eqb (s_status (prepared_row x)) active))
       (built_units self all_units).

(** [{r["unit_id"]: r["id"] for r in result.data}] *)
Definition returned_ids (data : list (nat * SaleRow)) : Py.dict nat nat :=
fold_left (fun d r => Py.set Nat.eqb d (s_unit_id (snd r)) (fst r)) data [].

Definition map_active_ids (returned : Py.dict nat nat) (self : Loader)
  (batch_units : list Prepared) : Loader :=
fold_left
  (fun self0 x =>
     match Py.get String.eqb (unit_ids self0) (apto (prepared_unit x)) with
     | Some unit_id =>
         match Py.get Nat.eqb returned unit_id with
         | Some sale_id => set_sale_id self0 (prepared_index x) sale_id
         | None => self0
         end
     | None => self0
     end)
  batch_units self.

Definition insert_sales_active_batch (st : Loader * Store)
  (batch : list Prepared * list SaleRow) : Loader * Store :=
let '(self, db) := st in
let '(batch_units, batch_rows) := batch in
let '(tn, data) := Table.upsert_rows sale_conflict batch_rows (sales db, next_id db) in
(map_active_ids (returned_ids data) self batch_units, with_sales db tn).

Definition is_cancelled_sale_of (row : SaleRow) (s : SaleRow) : bool :=
(s_unit_id s =? s_unit_id row) && (s_client_id s =? s_client_id row) &&
sale_status_eqb (s_status s) cancelled.

(** Body of [for u in cancelled_units]: read before write. *)
Definition insert_sales_cancelled_step (st : Loader * Store) (x : Prepared)
  : Loader * Store :=
let '(self, db) := st in
let row := prepared_row x in
let existing := firstn 1 (Table.select (is_cancelled_sale_of row) (sales db)) in
match existing with
| e :: _ => (set_sale_id self (prepared_index x) (fst e), db)
| [] =>
    let '(tn, (i, _)) := Table.insert_row row (sales db, next_id db) in
    (set_sale_id self (prepared_index x) i, with_sales db tn)
end.

Definition insert_sales (all_units : list U) (st : Loader * Store) : Loader * Store :=
let self := fst st in
let active_units := active_units self all_units in
let cancelled_units := cancelled_units self all_units in
let active_rows := map prepared_row active_units in
let st1 :=
  fold_left insert_sales_active_batch
    (combine (_batched active_units BATCH_SIZE) (_batched active_rows BATCH_SIZE)) st in
fold_left insert_sales_cancelled_step cancelled_units st1.

(* ── Phase 5: Actual payments ── *)

(** The inner loop [for idx, (pdate, amount) in enumerate(sorted(...))]. *)
Definition payment_rows_of (sale_id : nat) (u : U) : list PaymentRow :=
map (fun ip =>
       let '(idx, (pdate, amount)) := ip in
       let '(ptype, amount') := classify_payment u idx amount in
       mkPaymentRow sale_id pdate amount' ptype
         (String.append "ETL import from " (source_section u)))
    (Py.enumerate (Py.sorted payment_leb (actual_payments u))).

(** The rows one record contributes in [for u in all_units]. *)
Definition payment_rows_of_unit (self : Loader) (iu : nat * U) : list PaymentRow :=
match actual_payments (snd iu) with
| [] => []
| _ :: _ =>
    match get_sale_id self (fst iu) with
    | Some sale_id => payment_rows_of sale_id (snd iu)
    | None => []
    end
end.

Definition payment_rows (self : Loader) (all_units : list U) : list PaymentRow :=
flat_map (payment_rows_of_unit self) (Py.enumerate all_units).

(** [skipped_no_sale] *)
Definition skipped_no_sale (self : Loader) (all_units : list U) : nat :=
List.length
  (filter (fun iu => match actual_payments (snd iu), get_sale_id self (fst iu) with
                     | _ :: _, None => true
                     | _, _ => false
                     end)
          (Py.enumerate all_units)).

Definition insert_payments_batch (db : Store) (batch : list PaymentRow) : Store :=
with_payments db (fst (Table.insert_rows batch (payments db, next_id db))).

Definition insert_payments (all_units : list U) (st : Loader * Store) : Loader * Store :=
let '(self, db) := st in
(self, fold_left insert_payments_batch
         (_batched (payment_rows self all_units) BATCH_SIZE) db).
End LoaderMethods.

(* ── Phase 6: Expected payments (the same method in both scripts) ── *)

Definition group_by_apto (expected : list ParsedExpected)
  : Py.dict string (list ParsedExpected) :=
fold_left (fun by_apto r => setdefault_append by_apto (pe_apto r) r) expected [].

Definition due_date_leb (a b : ParsedExpected) : bool :=
date_leb (pe_due_date a) (pe_due_date b).

Definition expected_rows_of (pid : option nat) (item : string * list ParsedExpected)
  : list ExpectedRow :=
let '(apto, records) := item in
map (fun ir => mkExpectedRow pid apto (pe_due_date (snd ir)) (pe_amount (snd ir))
                 (fst ir) "budget")
    (Py.enumerate_from 1 (Py.sorted due_date_leb records)).

Definition expected_rows (pid : option nat) (expected : list ParsedExpected)
  : list ExpectedRow :=
flat_map (expected_rows_of pid) (group_by_apto expected).

Definition upsert_expected_batch (db : Store) (batch : list ExpectedRow) : Store :=
with_expected_payments db
  (fst (Table.upsert_rows expected_conflict batch (expected_payments db, next_id db))).

Definition upsert_expected_payments (expected : list ParsedExpected)
  (st : Loader * Store) : Loader * Store :=
let '(self, db) := st in
(self, fold_left upsert_expected_batch
         (_batched (expected_rows (project_id self) expected) BATCH_SIZE) db).

End SupabaseLoader.

(* ------------------------------------------------------------------------- *)
(** ** Validation report *)
(* ------------------------------------------------------------------------- *)

Inductive ErrorFinding : Type :=
| DuplicateApto (dupes : list string)
| UnknownStatus (apto : string) (estatus_raw : string).

Inductive WarningFinding : Type :=
| DesistNotInMain (aptos : list string)
| PptoOnly (aptos : list string)
| ActualsOnly (aptos : list string)
| SoldNoClient (aptos : list string)
| OrphanDevolucion (pairs : list (string * string)).

Record ValidationReport : Type := mkReport {
  errors : list ErrorFinding;
  warnings : list WarningFinding
}.

Definition has_errors (report : ValidationReport) : bool :=
  0 <? List.length (errors report).

Definition mem_str (x : string) (l : list string) : bool :=
  existsb (String.eqb x) l.

(** [set(l)] as the list of the distinct elements. *)
Fixpoint to_set (l : list string) : list string :=
  match l with
  | [] => []
  | x :: l' => if mem_str x l' then to_set l' else x :: to_set l'
  end.

(** [l.count(a)] *)
Definition count_str (a : string) (l : list string) : nat :=
  List.length (filter (String.eqb a) l).

(** [a - b] on sets. *)
Definition set_diff (a b : list string) : list string :=
  filter (fun x => negb (mem_str x b)) a.

(** [a | b] on sets. *)
Definition set_union (a b : list string) : list string := to_set (a ++ b).

(** [if xs: report.append(f xs)] *)
Definition when_nonempty {A F : Type} (xs : list A) (f : list A -> F) : list F :=
  match xs with [] => [] | _ :: _ => [f xs] end.

(** Environment of the process: [SUPABASE_URL] and [SUPABASE_KEY]. *)
Record Environ : Type := mkEnviron {
  SUPABASE_URL : option string;
  SUPABASE_KEY : option string
}.

(** Command line: the file exists (and is then the workbook given, a map from
    sheet names to worksheets) and the [--execute] flag. *)
Record Args : Type := mkArgs {
  file_exists : bool;
  workbook : string -> option Worksheet;
  execute : bool
}.

(* ------------------------------------------------------------------------- *)
(** ** etl_boulevard.py *)
(* ------------------------------------------------------------------------- *)

Module Boulevard.

Definition PROJECT_NAME : string := "boulevard".
Definition PROJECT_DISPLAY_NAME : string := "Boulevard 5".
Definition SHEET_ACTUALS : string := "BOULEVARD 5".
Definition SHEET_BUDGET : string := "BOULEVARD PPTO".

Definition B5_HEADER_ROW : nat := 6.
Definition B5_DATA_START : nat := 7.
Definition B5_DATA_END : nat := 304.
Definition B5_DESIST_HEADER : nat := 319.
Definition B5_DESIST_START : nat := 320.
Definition B5_DESIST_END : nat := 351.
Definition B5_PROB_DESIST_HEADER : nat := 357.
Definition B5_PROB_DESIST_START : nat := 358.
Definition B5_PROB_DESIST_END : nat := 366.

Definition PPTO_HEADER_ROW : nat := 1.
Definition PPTO_DATA_START : nat := 2.
Definition PPTO_DATA_END : nat := 299.

Definition STATUS_TO_UNIT_STATUS : Py.dict string UnitStatus :=
  [("1.disponible", available);
   ("2.reserva", reserved);
   ("2. reserva", reserved);
   ("2,reserva", reserved);
   ("4.plan de pagos", sold);
   ("desistimiento", unit_cancelled)].

Definition STATUS_TO_SALE_STATUS : Py.dict string SaleStatus :=
  [("2.reserva", active);
   ("2. reserva", active);
   ("2,reserva", active);
   ("4.plan de pagos", active);
   ("desistimiento", cancelled)].

(** String literals are UTF-8 byte strings. *)
Definition VENDEDOR_CANONICAL : Py.dict string (option string) :=
  [("ronaldo", Some "Ronaldo Ogaldez");
   ("ronaldo ogaldez", Some "Ronaldo Ogaldez");
   ("anahi cisneros", Some "Anahí Cisneros");
   ("anahí cisneros", Some "Anahí Cisneros");
   ("**", None);
   ("sin datos", None)].

Record ParsedUnit : Type := mkParsedUnit {
  apto : string;
  tipo : option string;
  vendedor : option string;
  cliente : option string;
  fecha_reserva : option date;
  estatus_raw : option string;
  precio_venta : option Z;
  enganche : option Z;
  saldo_financiar : option Z;
  cuotas_pactadas : option Z;
  monto_reserva_pactado : option Z;
  monto_cuota_pactada : option Z;
  cuotas_pagadas : option Z;
  caso_especial : option string;
  observaciones : option string;
  notas : option string;
  iva : option Z;
  timbres : option Z;
  actual_payments : list (date * Z);
  source_section : string
}.

Definition set_estatus_raw (u : ParsedUnit) (s : option string) : ParsedUnit :=
  mkParsedUnit (apto u) (tipo u) (vendedor u) (cliente u) (fecha_reserva u) s
    (precio_venta u) (enganche u) (saldo_financiar u) (cuotas_pactadas u)
    (monto_reserva_pactado u) (monto_cuota_pactada u) (cuotas_pagadas u)
    (caso_especial u) (observaciones u) (notas u) (iva u) (timbres u)
    (actual_payments u) (source_section u).

Definition B5_HEADER_PATTERNS : HeaderPatterns :=
  [("apto", ["apto"; "apto."]);
   ("tipo", ["tipo"; "tipo."; "modelo"]);
   ("notas", ["notas"]);
   ("vendedor", ["vendedor"]);
   ("cliente", ["cliente"]);
   ("fecha_reserva", ["fecha reserva"; "fecha"]);
   ("estatus", ["estatus"; "tipo de plan"]);
   ("precio_venta", ["precio de venta"; "p. venta"; "p.venta"]);
   ("enganche", ["enganche"]);
   ("total_enganches", ["total enganches y reservas"]);
   ("saldo_financiar", ["saldo a financiar por el banco"]);
   ("cuotas_pactadas", ["cuotas pactadas"]);
   ("monto_reserva_pactado", ["monto de reserva pactado"]);
   ("monto_cuota_pactada", ["monto de cuota pactada"]);
   ("cuotas_pagadas", ["cuotas pagadas"]);
   ("caso_especial", ["caso especial / f&f"; "caso especial"]);
   ("observaciones", ["observaciones"]);
   ("iva", ["iva"]);
   ("timbres", ["timbres"])].

Definition PPTO_HEADER_PATTERNS : HeaderPatterns :=
  [("apto", ["apto"; "apto."]);
   ("estatus", ["estatus"])].

Definition normalize_unit_status := normalize_unit_status STATUS_TO_UNIT_STATUS.
Definition normalize_sale_status := normalize_sale_status STATUS_TO_SALE_STATUS.
Definition normalize_vendedor := normalize_vendedor VENDEDOR_CANONICAL.

Section Parsers.
Context {B : PyBuiltins}.

(** Body of [for row in range(data_start, data_end + 1)]. *)
Definition parse_b5_row (ws : Worksheet) (named : NamedCols) (apto_col : nat)
    (months : MonthCols) (section_name : string)
    (units : list ParsedUnit) (row : nat) : list ParsedUnit :=
  let apto_raw := ws row apto_col in
  match apto_raw with
  | VNone => units
  | _ =>
      let apto := apto_of_cell apto_raw in
      if String.eqb apto "" then units
      else
        let get := _get ws row named in
        let payments := monthly_payments ws row months in
        units ++
        [mkParsedUnit apto
           (_safe_str (get "tipo"))
           (_safe_str (get "vendedor"))
           (_safe_str (get "cliente"))
           (_safe_date (get "fecha_reserva"))
           (_safe_str (get "estatus"))
           (_safe_float (get "precio_venta"))
           (_safe_float (get "enganche"))
           (_safe_float (get "saldo_financiar"))
           (_safe_int (get "cuotas_pactadas"))
           (_safe_float (get "monto_reserva_pactado"))
           (_safe_float (get "monto_cuota_pactada"))
           (_safe_int (get "cuotas_pagadas"))
           (_safe_str (get "caso_especial"))
           (_safe_str (get "observaciones"))
           (_safe_str (get "notas"))
           (_safe_float (get "iva"))
           (_safe_float (get "timbres"))
           payments
           section_name]
  end.

Definition parse_b5_section (ws : Worksheet)
    (header_row data_start data_end col_start col_end : nat)
    (section_name : string) (month_cols_override : option MonthCols)
    : list ParsedUnit :=
  let '(named, months0) :=
    discover_headers ws header_row col_start col_end B5_HEADER_PATTERNS false in
  let months := match month_cols_override with
                | Some m => m
                | None => months0
                end in
  match named_get named "apto" with
  | None => []
  | Some apto_col =>
      fold_left (parse_b5_row ws named apto_col months section_name)
        (Py.range data_start (data_end + 1)) []
  end.

Definition parse_ppto (ws : Worksheet) : list ParsedExpected :=
  parse_ppto_with PPTO_HEADER_ROW 1 62 PPTO_DATA_START PPTO_DATA_END
    PPTO_HEADER_PATTERNS false ws.
End Parsers.

Definition validate (main_units desist_units prob_desist_units : list ParsedUnit)
    (expected : list ParsedExpected) : ValidationReport :=
  (* 1. duplicate aptos within main *)
  let main_aptos := map apto main_units in
  let dupes := filter (fun a => 1 <? count_str a main_aptos) (to_set main_aptos) in
  let errors1 := when_nonempty dupes DuplicateApto in
  (* 3. desistimientos pointing to units not in main data *)
  let desist_aptos := to_set (map apto (desist_units ++ prob_desist_units)) in
  let desist_only := set_diff desist_aptos (to_set main_aptos) in
  let warnings3 := when_nonempty desist_only DesistNotInMain in
  (* 4. cross-check PPTO aptos vs B5 aptos *)
  let ppto_aptos := to_set (map pe_apto expected) in
  let all_b5_aptos := set_union (to_set main_aptos) desist_aptos in
  let ppto_only := set_diff ppto_aptos all_b5_aptos in
  let b5_only := set_diff all_b5_aptos ppto_aptos in
  let warnings4 := when_nonempty ppto_only PptoOnly ++ when_nonempty b5_only ActualsOnly in
  (* 5. sales without client *)
  let sold_no_client :=
    map apto
      (filter (fun u => match normalize_sale_status (estatus_raw u) with
                        | Some _ => negb (Py.truthy_str (cliente u))
                        | None => false
                        end) main_units) in
  let warnings5 := when_nonempty sold_no_client SoldNoClient in
  (* 6. units with unknown status *)
  let errors6 :=
    flat_map
      (fun u =>
         match estatus_raw u with
         | Some raw =>
             if negb (String.eqb raw "") &&
                negb (Py.mem String.eqb STATUS_TO_UNIT_STATUS (Py.lower (Py.strip raw)))
             then [UnknownStatus (apto u) raw] else []
         | None => []
         end) main_units in
  mkReport (errors1 ++ errors6) (warnings3 ++ warnings4 ++ warnings5).

(* ── SupabaseLoader ── *)

(** The dict appended to [rows] in [upsert_units]. *)
Definition unit_row (pid : option nat) (u : ParsedUnit) : UnitRow :=
  let precio := or_zero (precio_venta u) in
  let tax := (or_zero (iva u) + or_zero (timbres u))%Z in
  mkUnitRow pid (apto u) precio (precio - tax)%Z (or_zero (enganche u))
    (normalize_unit_status (estatus_raw u)).

Definition _build_sale_row (self : Loader) (u : ParsedUnit) : BuildResult :=
  match Py.get String.eqb (unit_ids self) (apto u) with
  | None => Skipped unit_id_not_found
  | Some unit_id =>
      match (if Py.truthy_str (cliente u)
             then match cliente u with
                  | Some c => Py.get String.eqb (client_ids self) c
                  | None => None
                  end
             else None) with
      | None => Skipped no_client_id
      | Some client_id =>
          let financed :=
            if truthy_num (saldo_financiar u) then or_zero (saldo_financiar u)
            else if truthy_num (precio_venta u)
                 then (or_zero (precio_venta u) - or_zero (enganche u))%Z
                 else 0%Z in
          let sale_status :=
            match normalize_sale_status (estatus_raw u) with
            | Some st => st
            | None => active
            end in
          let notes_parts :=
            if negb (String.eqb (source_section u) "main")
            then [String.append "Source: " (source_section u)] else [] in
          let precio := or_zero (precio_venta u) in
          let tax := (or_zero (iva u) + or_zero (timbres u))%Z in
          Built
            (mkSaleRow (project_id self) unit_id client_id
               (match normalize_vendedor (vendedor u) with
                | Some v => if String.eqb v "" then "unknown" else v
                | None => "unknown"
                end)
               (match fecha_reserva u with
                | Some d => d
                | None => mkdate 2023 3 1
                end)
               precio (precio - tax)%Z (or_zero (enganche u)) financed sale_status
               false
               (match caso_especial u with Some _ => true | None => false end)
               (caso_especial u)
               (observaciones u)
               (str_or_none
                  (join "; "
                     (filter_truthy
                        [notas u;
                         match notes_parts with
                         | [] => None
                         | _ :: _ => Some (join "; " notes_parts)
                         end]))))
      end
  end.

(** The condition of the [sellable] comprehension of [insert_sales]. *)
Definition is_sellable (u : ParsedUnit) : bool :=
  match normalize_sale_status (estatus_raw u) with
  | Some _ => true
  | None => false
  end.

(** [ptype] and [amount] of the payment at position [idx]. *)
Definition classify_payment (u : ParsedUnit) (idx : nat) (amount : Z)
    : PaymentType * Z :=
  (if idx =? 0 then reservation else down_payment, amount).

Definition upsert_units := SupabaseLoader.upsert_units unit_row.
Definition upsert_clients := SupabaseLoader.upsert_clients cliente.
Definition insert_sales := SupabaseLoader.insert_sales apto is_sellable _build_sale_row.
Definition insert_payments :=
  SupabaseLoader.insert_payments actual_payments source_section classify_payment.
Definition upsert_expected_payments := SupabaseLoader.upsert_expected_payments.

Definition name_map : Py.dict string string :=
  [("walk_in", "Puerta Abierta");
   ("unknown", "Unknown / Directo");
   ("05", "Sales Rep 05");
   ("06", "Sales Rep 06");
   ("35", "Sales Rep 35");
   ("GV1", "Sales Rep GV1")].

Definition upsert_sales_reps (all_units : list ParsedUnit) (st : Loader * Store)
    : Loader * Store :=
  let unique_reps : Py.dict string string :=
    fold_left
      (fun d u =>
         let rid := match normalize_vendedor (vendedor u) with
                    | Some v => if String.eqb v "" then "unknown" else v
                    | None => "unknown"
                    end in
         if Py.mem String.eqb d rid then d
         else Py.set String.eqb d rid
                (match Py.get String.eqb name_map rid with
                 | Some n => n
                 | None => rid
                 end))
      all_units [] in
  let rows := map (fun kv => mkSalesRepRow (fst kv) (snd kv)) unique_reps in
  let '(self, db) := st in
  (self,
   fold_left
     (fun db0 batch => with_sales_reps db0 (fold_left (fun t r => upsert_sales_rep r t) batch (sales_reps db0)))
     (_batched rows BATCH_SIZE) db).

(** The write sequence of [main] (section "Insert"). *)
Definition load (main_units desist_units prob_desist : list ParsedUnit)
    (expected : list ParsedExpected) (db : Store) : Loader * Store :=
  let all_units := main_units ++ desist_units ++ prob_desist in
  let st := (new_loader, db) in
  let st := upsert_project PROJECT_NAME PROJECT_DISPLAY_NAME st in
  let st := upsert_units main_units st in
  let st := upsert_clients all_units st in
  let st := upsert_sales_reps all_units st in
  let st := insert_sales all_units st in
  let st := insert_payments all_units st in
  upsert_expected_payments expected st.

(** [for u in desist_units + prob_desist]: both branches assign
    ["Desistimiento"]. *)
Definition force_desistimiento (u : ParsedUnit) : ParsedUnit :=
  set_estatus_raw u (Some "Desistimiento").

Section Main.
Context {B : PyBuiltins}.

(** The parsed sections of a workbook, as [main] computes them. *)
Definition parse_workbook (ws_b5 ws_ppto : Worksheet)
    : list ParsedUnit * list ParsedUnit * list ParsedUnit * list ParsedExpected :=
  let main_month_cols :=
    snd (discover_headers ws_b5 B5_HEADER_ROW 2 84 B5_HEADER_PATTERNS false) in
  let main_units :=
    parse_b5_section ws_b5 B5_HEADER_ROW B5_DATA_START B5_DATA_END 2 84 "main" None in
  let desist_units :=
    parse_b5_section ws_b5 B5_DESIST_HEADER B5_DESIST_START B5_DESIST_END 2 84
      "desistimiento" (Some main_month_cols) in
  let prob_desist :=
    parse_b5_section ws_b5 B5_PROB_DESIST_HEADER B5_PROB_DESIST_START
      B5_PROB_DESIST_END 2 84 "prob_desistimiento" (Some main_month_cols) in
  (main_units, map force_desistimiento desist_units,
   map force_desistimiento prob_desist, parse_ppto ws_ppto).

(** [main]: the exit status and the store it leaves.  A missing sheet is
    an uncaught [KeyError] (exit status 1, nothing written). *)
Definition main (args : Args) (env : Environ) (db : Store) : nat * Store :=
  if negb (file_exists args) then (1, db)
  else
    match workbook args SHEET_ACTUALS, workbook args SHEET_BUDGET with
    | Some ws_b5, Some ws_ppto =>
        let '(main_units, desist_units, prob_desist, expected) :=
          parse_workbook ws_b5 ws_ppto in
        let report := validate main_units desist_units prob_desist expected in
        if has_errors report then (1, db)
        else if negb (execute args) then (0, db)
        else if negb (Py.truthy_str (SUPABASE_URL env)) ||
                negb (Py.truthy_str (SUPABASE_KEY env)) then (1, db)
        else (0, snd (load main_units desist_units prob_desist expected db))
    | _, _ => (1, db)
    end.
End Main.

End Boulevard.

(* ------------------------------------------------------------------------- *)
(** ** etl_santa_elisa.py *)
(* ------------------------------------------------------------------------- *)

Module SantaElisa.

Definition PROJECT_NAME : string := "santa_elisa".
Definition PROJECT_DISPLAY_NAME : string := "Santa Elisa".
Definition SHEET_ACTUALS : string := "SANTA ELISA".
Definition SHEET_BUDGET : string := "SANTA ELISA PPTO".

Definition SE_HEADER_ROW : nat := 4.
Definition SE_DATA_START : nat := 5.
Definition SE_DATA_END : nat := 79.
Definition SE_COL_START : nat := 2.
Definition SE_COL_END : nat := 62.

Definition SE_DESIST_LABEL_ROW : nat := 84.
Definition SE_DESIST_START : nat := 85.
Definition SE_DESIST_END : nat := 100.

Definition SE_DEVOL_LABEL_ROW : nat := 102.
Definition SE_DEVOL_START : nat := 103.
Definition SE_DEVOL_END : nat := 106.

Definition PPTO_HEADER_ROW : nat := 4.
Definition PPTO_DATA_START : nat := 5.
Definition PPTO_DATA_END : nat := 79.
Definition PPTO_COL_START : nat := 1.
Definition PPTO_COL_END : nat := 38.

(** [price_without_tax = precio_venta / TAX_DIVISOR]; the quotient is the
    exact one, where Python divides two floats. *)
Definition TAX_DIVISOR : Q := (1093 # 1000)%Q.

Definition STATUS_TO_UNIT_STATUS : Py.dict string UnitStatus :=
  [("1.disponible", available);
   ("2.reserva", reserved);
   ("2. reserva", reserved);
   ("2,reserva", reserved);
   ("2.reservado", reserved);
   ("2. reservado", reserved);
   ("4.plan de pagos", sold);
   ("desistimiento", unit_cancelled)].

Definition STATUS_TO_SALE_STATUS : Py.dict string SaleStatus :=
  [("2.reserva", active);
   ("2. reserva", active);
   ("2,reserva", active);
   ("2.reservado", active);
   ("2. reservado", active);
   ("4.plan de pagos", active);
   ("desistimiento", cancelled)].

Definition VENDEDOR_CANONICAL : Py.dict string (option string) :=
  [("noemi m.", Some "Noemí Menendez");
   ("noemí menendez", Some "Noemí Menendez");
   ("paula h.", Some "Paula Hernández");
   ("paula hernández", Some "Paula Hernández");
   ("paula hernandez", Some "Paula Hernández");
   ("andrea g.", Some "Andrea Gonzalez");
   ("andrea gonzalez", Some "Andrea Gonzalez");
   ("antonio r", Some "Antonio Rada");
   ("antonio rada", Some "Antonio Rada");
   ("eder v.", Some "Eder Veliz");
   ("eder daniel v.", Some "Eder Veliz");
   ("eder veliz", Some "Eder Veliz");
   ("efren sanchez", Some "Efren Sánchez");
   ("efren sánchez", Some "Efren Sánchez");
   ("efren sanchéz", Some "Efren Sánchez");
   ("efrén sanchez", Some "Efren Sánchez");
   ("ricardo o.", Some "Ricardo O.");
   ("francisco s.", Some "Francisco S.");
   ("lilian g.", Some "Lilian G.");
   ("**", None);
   ("sin datos", None)].

Record ParsedUnit : Type := mkParsedUnit {
  apto : string;
  tipo : option string;
  vendedor : option string;
  cliente : option string;
  fecha_reserva : option date;
  estatus_raw : option string;
  precio_venta : option Z;
  enganche : option Z;
  saldo_financiar : option Z;
  cuotas_pactadas : option Z;
  cuotas_pagadas : option Z;
  actual_payments : list (date * Z);
  source_section : string
}.

Definition set_estatus_raw (u : ParsedUnit) (s : option string) : ParsedUnit :=
  mkParsedUnit (apto u) (tipo u) (vendedor u) (cliente u) (fecha_reserva u) s
    (precio_venta u) (enganche u) (saldo_financiar u) (cuotas_pactadas u)
    (cuotas_pagadas u) (actual_payments u) (source_section u).

Definition SE_HEADER_PATTERNS : HeaderPatterns :=
  [("apto", ["apto"; "apto."]);
   ("tipo", ["tipo"; "tipo."; "modelo"]);
   ("vendedor", ["vendedor"]);
   ("cliente", ["cliente"]);
   ("fecha_reserva", ["reservado"; "fecha reserva"; "fecha"]);
   ("estatus", ["estatus"; "tipo de plan"]);
   ("precio_venta", ["precio de venta"; "p. venta"; "p.venta"]);
   ("enganche", ["enganche"]);
   ("saldo_financiar", ["monto a financiar por banco"; "saldo a financiar por el banco"]);
   ("cuotas_pactadas", ["cuotas pactadas"]);
   ("cuotas_pagadas", ["cuotas pagadas"])].

Definition PPTO_HEADER_PATTERNS : HeaderPatterns :=
  [("apto", ["apto"; "apto."])].

Definition normalize_unit_status := normalize_unit_status STATUS_TO_UNIT_STATUS.
Definition normalize_sale_status := normalize_sale_status STATUS_TO_SALE_STATUS.
Definition normalize_vendedor := normalize_vendedor VENDEDOR_CANONICAL.

Section Parsers.
Context {B : PyBuiltins}.

(** [str(val).strip().strip("\t").strip()] *)
Definition _safe_str (val : PyVal) : option string :=
  match val with
  | VNone => None
  | _ => let s := Py.strip (Py.strip_char "009"%char (Py.strip (py_str val))) in
         if String.eqb s "" then None else Some s
  end.

(** Body of [for row in range(data_start, data_end + 1)]. *)
Definition parse_actuals_row (ws : Worksheet) (named : NamedCols) (apto_col : nat)
    (months : MonthCols) (section_name : string)
    (units : list ParsedUnit) (row : nat) : list ParsedUnit :=
  let apto_raw := ws row apto_col in
  match apto_raw with
  | VNone => units
  | _ =>
      let apto := apto_of_cell apto_raw in
      if String.eqb apto "" then units
      else
        let get := _get ws row named in
        let payments := monthly_payments ws row months in
        units ++
        [mkParsedUnit apto
           (_safe_str (get "tipo"))
           (_safe_str (get "vendedor"))
           (_safe_str (get "cliente"))
           (_safe_date (get "fecha_reserva"))
           (_safe_str (get "estatus"))
           (_safe_float (get "precio_venta"))
           (_safe_float (get "enganche"))
           (_safe_float (get "saldo_financiar"))
           (_safe_int (get "cuotas_pactadas"))
           (_safe_int (get "cuotas_pagadas"))
           payments
           section_name]
  end.

Definition parse_actuals_section (ws : Worksheet)
    (header_row data_start data_end col_start col_end : nat)
    (section_name : string) (month_cols_override : option MonthCols)
    : list ParsedUnit :=
  let '(named, months0) :=
    discover_headers ws header_row col_start col_end SE_HEADER_PATTERNS false in
  let months := match month_cols_override with
                | Some m => m
                | None => months0
                end in
  match named_get named "apto" with
  | None => []
  | Some apto_col =>
      fold_left (parse_actuals_row ws named apto_col months section_name)
        (Py.range data_start (data_end + 1)) []
  end.

Definition parse_ppto (ws : Worksheet) : list ParsedExpected :=
  parse_ppto_with PPTO_HEADER_ROW PPTO_COL_START PPTO_COL_END
    PPTO_DATA_START PPTO_DATA_END PPTO_HEADER_PATTERNS true ws.
End Parsers.

Definition pair_eqb (a b : string * string) : bool :=
  String.eqb (fst a) (fst b) && String.eqb (snd a) (snd b).

(** [{(u.apto, u.cliente) for u in units if u.cliente}] *)
Definition apto_client_pairs (l : list ParsedUnit) : list (string * string) :=
  flat_map (fun u => match cliente u with
                     | Some c => if String.eqb c "" then [] else [(apto u, c)]
                     | None => []
                     end) l.

Fixpoint dedup_pairs (l : list (string * string)) : list (string * string) :=
  match l with
  | [] => []
  | x :: l' => if existsb (pair_eqb x) l' then dedup_pairs l' else x :: dedup_pairs l'
  end.

Definition validate (main_units desist_units devol_units : list ParsedUnit)
    (expected : list ParsedExpected) : ValidationReport :=
  (* 1. duplicate aptos within main section *)
  let main_aptos := map apto main_units in
  let dupes := filter (fun a => 1 <? count_str a main_aptos) (to_set main_aptos) in
  let errors1 := when_nonempty dupes DuplicateApto in
  (* 3. desistimientos pointing to units not in main data *)
  let desist_aptos := to_set (map apto desist_units) in
  let desist_only := set_diff desist_aptos (to_set main_aptos) in
  let warnings3 := when_nonempty desist_only DesistNotInMain in
  (* 4. cross-check PPTO aptos vs actuals aptos *)
  let ppto_aptos := to_set (map pe_apto expected) in
  let all_actuals_aptos := set_union (to_set main_aptos) desist_aptos in
  let ppto_only := set_diff ppto_aptos all_actuals_aptos in
  let actuals_only := set_diff all_actuals_aptos ppto_aptos in
  let warnings4 :=
    when_nonempty ppto_only PptoOnly ++ when_nonempty actuals_only ActualsOnly in
  (* 5. sales without client *)
  let sold_no_client :=
    map apto
      (filter (fun u => match normalize_sale_status (estatus_raw u) with
                        | Some _ => negb (Py.truthy_str (cliente u))
                        | None => false
                        end) main_units) in
  let warnings5 := when_nonempty sold_no_client SoldNoClient in
  (* 6. units with unknown status *)
  let errors6 :=
    flat_map
      (fun u =>
         match estatus_raw u with
         | Some raw =>
             if negb (String.eqb raw "") &&
                negb (Py.mem String.eqb STATUS_TO_UNIT_STATUS (Py.lower (Py.strip raw)))
             then [UnknownStatus (apto u) raw] else []
         | None => []
         end) main_units in
  (* 7. devolucion records should have a matching desistimiento *)
  let devol_aptos_clients := dedup_pairs (apto_client_pairs devol_units) in
  let desist_aptos_clients := dedup_pairs (apto_client_pairs desist_units) in
  let orphan_devols :=
    filter (fun x => negb (existsb (pair_eqb x) desist_aptos_clients))
           devol_aptos_clients in
  let warnings7 := when_nonempty orphan_devols OrphanDevolucion in
  mkReport (errors1 ++ errors6) (warnings3 ++ warnings4 ++ warnings5 ++ warnings7).

(* ── SupabaseLoader ── *)

(** A rounded amount (hundredths) as a number of currency units. *)
Definition money (cents : Z) : Q := (inject_Z cents / 100)%Q.

(** The dict appended to [rows] in [upsert_units]. *)
Definition unit_row (pid : option nat) (u : ParsedUnit) : UnitRow :=
  let precio := or_zero (precio_venta u) in
  let price_without_tax := round2 (money precio / TAX_DIVISOR)%Q in
  mkUnitRow pid (apto u) precio price_without_tax (or_zero (enganche u))
    (normalize_unit_status (estatus_raw u)).

(** [min(pdate for pdate, _ in payments)] of a non-empty list. *)
Fixpoint min_date (first : date) (rest : list date) : date :=
  match rest with
  | [] => first
  | d :: rest' => min_date (if date_ltb d first then d else first) rest'
  end.

(** [sale_date], and whether it was derived from the earliest payment. *)
Definition derive_sale_date (u : ParsedUnit) : option (date * bool) :=
  match fecha_reserva u with
  | Some d => Some (d, false)
  | None =>
      match map fst (actual_payments u) with
      | [] => None
      | d :: ds => Some (min_date d ds, true)
      end
  end.

Definition _build_sale_row (self : Loader) (u : ParsedUnit) : BuildResult :=
  match Py.get String.eqb (unit_ids self) (apto u) with
  | None => Skipped unit_id_not_found
  | Some unit_id =>
      match (if Py.truthy_str (cliente u)
             then match cliente u with
                  | Some c => Py.get String.eqb (client_ids self) c
                  | None => None
                  end
             else None) with
      | None => Skipped no_client_id
      | Some client_id =>
          let financed :=
            if truthy_num (saldo_financiar u) then or_zero (saldo_financiar u)
            else if truthy_num (precio_venta u)
                 then (or_zero (precio_venta u) - or_zero (enganche u))%Z
                 else 0%Z in
          let sale_status0 :=
            match normalize_sale_status (estatus_raw u) with
            | Some st => st
            | None => active
            end in
          let sale_status :=
            if String.eqb (source_section u) "devolucion" then cancelled
            else sale_status0 in
          let notes_parts0 :=
            if negb (String.eqb (source_section u) "main")
            then [String.append "Source: " (source_section u)] else [] in
          match derive_sale_date u with
          | None => Skipped cannot_derive_sale_date
          | Some (sale_date, derived) =>
              let notes_parts :=
                if derived
                then notes_parts0 ++ ["sale_date derived from earliest payment"]
                else notes_parts0 in
              let precio := or_zero (precio_venta u) in
              let price_without_tax :=
                if negb (precio =? 0)%Z then round2 (money precio / TAX_DIVISOR)%Q
                else 0%Z in
              Built
                (mkSaleRow (project_id self) unit_id client_id
                   (match normalize_vendedor (vendedor u) with
                    | Some v => if String.eqb v "" then "Unknown" else v
                    | None => "Unknown"
                    end)
                   sale_date
                   precio price_without_tax (or_zero (enganche u)) financed sale_status
                   false false None None
                   (str_or_none (join "; " (filter_truthy (map Some notes_parts)))))
          end
      end
  end.

(** The condition of the [sellable] comprehension of [insert_sales]. *)
Definition is_sellable (u : ParsedUnit) : bool :=
  match normalize_sale_status (estatus_raw u) with
  | Some _ => true
  | None => String.eqb (source_section u) "devolucion"
  end.

(** [ptype] and [amount] of the payment at position [idx]. *)
Definition classify_payment (u : ParsedUnit) (idx : nat) (amount : Z)
    : PaymentType * Z :=
  if String.eqb (source_section u) "devolucion"
  then (reimbursement, (- Z.abs amount)%Z)
  else (if idx =? 0 then reservation else down_payment, amount).

Definition upsert_units := SupabaseLoader.upsert_units unit_row.
Definition upsert_clients := SupabaseLoader.upsert_clients cliente.
Definition insert_sales := SupabaseLoader.insert_sales apto is_sellable _build_sale_row.
Definition insert_payments :=
  SupabaseLoader.insert_payments actual_payments source_section classify_payment.
Definition upsert_expected_payments := SupabaseLoader.upsert_expected_payments.

(** The write sequence of [main] (section "Insert"). *)
Definition load (main_units desist_units devol_units : list ParsedUnit)
    (expected : list ParsedExpected) (db : Store) : Loader * Store :=
  let all_units := main_units ++ desist_units ++ devol_units in
  let st := (new_loader, db) in
  let st := upsert_project PROJECT_NAME PROJECT_DISPLAY_NAME st in
  let st := upsert_units main_units st in
  let st := upsert_clients all_units st in
  let st := insert_sales all_units st in
  let st := insert_payments all_units st in
  upsert_expected_payments expected st.

(** [for u in desist_units + devol_units: u.estatus_raw = "Desistimiento"] *)
Definition force_desistimiento (u : ParsedUnit) : ParsedUnit :=
  set_estatus_raw u (Some "Desistimiento").

Section Main.
Context {B : PyBuiltins}.

(** The parsed sections of a workbook, as [main] computes them. *)
Definition parse_workbook (ws_se ws_ppto : Worksheet)
    : list ParsedUnit * list ParsedUnit * list ParsedUnit * list ParsedExpected :=
  let main_month_cols :=
    snd (discover_headers ws_se SE_HEADER_ROW SE_COL_START SE_COL_END
           SE_HEADER_PATTERNS false) in
  let main_units :=
    parse_actuals_section ws_se SE_HEADER_ROW SE_DATA_START SE_DATA_END
      SE_COL_START SE_COL_END "main" None in
  let desist_units :=
    parse_actuals_section ws_se SE_HEADER_ROW SE_DESIST_START SE_DESIST_END
      SE_COL_START SE_COL_END "desistimiento" (Some main_month_cols) in
  let devol_units :=
    parse_actuals_section ws_se SE_HEADER_ROW SE_DEVOL_START SE_DEVOL_END
      SE_COL_START SE_COL_END "devolucion" (Some main_month_cols) in
  (main_units, map force_desistimiento desist_units,
   map force_desistimiento devol_units, parse_ppto ws_ppto).

(** [main]: the exit status and the store it leaves.  A missing sheet is
    an uncaught [KeyError] (exit status 1, nothing written). *)
Definition main (args : Args) (env : Environ) (db : Store) : nat * Store :=
  if negb (file_exists args) then (1, db)
  else
    match workbook args SHEET_ACTUALS, workbook args SHEET_BUDGET with
    | Some ws_se, Some ws_ppto =>
        let '(main_units, desist_units, devol_units, expected) :=
          parse_workbook ws_se ws_ppto in
        let report := validate main_units desist_units devol_units expected in
        if has_errors report then (1, db)
        else if negb (execute args) then (0, db)
        else if negb (Py.truthy_str (SUPABASE_URL env)) ||
                negb (Py.truthy_str (SUPABASE_KEY env)) then (1, db)
        else (0, snd (load main_units desist_units devol_units expected db))
    | _, _ => (1, db)
    end.
End Main.

End SantaElisa.

(* ------------------------------------------------------------------------- *)
(** ** Sample inputs used in the statements below *)
(* ------------------------------------------------------------------------- *)

(** A sheet whose header row holds the given texts from column [col_start]. *)
Definition header_sheet (header_row col_start : nat) (headers : list string)
    : Worksheet :=
  fun r c =>
    if (r =? header_row) && (col_start <=? c)
    then match nth_error headers (c - col_start) with
         | Some h => VStr h
         | None => VNone
         end
    else VNone.

(** A Boulevard budget sheet: header row 1 with "Apto" and the month
    2024-01; row 2 has a whitespace-only key and the amount 1000. *)
Definition blank_key_budget_boulevard : Worksheet :=
  fun r c =>
    match r, c with
    | 1, 1 => VStr "Apto"
    | 1, 2 => VDatetime (mkdate 2024 1 1) 0
    | 2, 1 => VStr "   "
    | 2, 2 => VInt 1000
    | _, _ => VNone
    end.

(** A Santa Elisa budget sheet: header row 4 with "Apto" and "ene.24";
    row 5 has a whitespace-only key and the amount 1500.50. *)
Definition blank_key_budget_santa_elisa : Worksheet :=
  fun r c =>
    match r, c with
    | 4, 1 => VStr "Apto"
    | 4, 2 => VStr "ene.24"
    | 5, 1 => VStr "  "
    | 5, 2 => VFloat (3001 # 2)
    | _, _ => VNone
    end.

(** A loader that knows unit "101" and client "Jane Doe". *)
Definition sample_loader : Loader :=
  mkLoader (Some 1) [("101", 2)] [("Jane Doe", 3)] [].

(** A Boulevard record with a sellable status, a client, no reservation date
    and the given observed payments. *)
Definition boulevard_undated_unit (payments : list (date * Z)) : Boulevard.ParsedUnit :=
  Boulevard.mkParsedUnit "101" None None (Some "Jane Doe") None
    (Some "4.plan de pagos") (Some 10000000%Z) None None None None None None
    None None None None None payments "main".

(** The same record as the Santa Elisa script holds it. *)
Definition santa_elisa_undated_unit (payments : list (date * Z)) : SantaElisa.ParsedUnit :=
  SantaElisa.mkParsedUnit "101" None None (Some "Jane Doe") None
    (Some "4.plan de pagos") (Some 10000000%Z) None None None None payments "main".

(** A loader in which the record at position 0 has the sale 7. *)
Definition loader_with_sale : Loader := mkLoader (Some 1) [] [] [(0, 7)].

(** A Santa Elisa refund record with two observed amounts. *)
Definition sample_refund_unit : SantaElisa.ParsedUnit :=
  SantaElisa.mkParsedUnit "101" None None (Some "Jane Doe") None
    (Some "Desistimiento") None None None None None
    [(mkdate 2024 4 30, (-50000)%Z); (mkdate 2024 3 31, 200000%Z)] "devolucion".

(** A Boulevard budget sheet: months 2024-01 to 2024-03 in the header, and
    unit 205 with 1000 in 2024-01 and 2024-03 and nothing in 2024-02. *)
Definition budget_sheet_205 : Worksheet :=
  fun r c =>
    match r, c with
    | 1, 1 => VStr "Apto"
    | 1, 2 => VDatetime (mkdate 2024 1 1) 0
    | 1, 3 => VDatetime (mkdate 2024 2 1) 0
    | 1, 4 => VDatetime (mkdate 2024 3 1) 0
    | 2, 1 => VInt 205
    | 2, 2 => VInt 1000
    | 2, 4 => VInt 1000
    | _, _ => VNone
    end.

(** The records of one unit key, in the order of the list. *)
Definition records_of (apto : string) (expected : list ParsedExpected)
    : list ParsedExpected :=
  filter (fun r => String.eqb (pe_apto r) apto) expected.

(** The rows of one unit number, in the order of the list. *)
Definition rows_of (apto : string) (rows : list ExpectedRow) : list ExpectedRow :=
  filter (fun row => String.eqb (e_unit_number row) apto) rows.

(** The command line of a run on a workbook with the two sheets of
    Boulevard. *)
Definition boulevard_args (ws_b5 ws_ppto : Worksheet) (execute : bool) : Args :=
  mkArgs true
    (fun name => if String.eqb name Boulevard.SHEET_ACTUALS then Some ws_b5
                 else if String.eqb name Boulevard.SHEET_BUDGET then Some ws_ppto
                 else None)
    execute.

(** The command line of a run on a workbook with the two sheets of Santa
    Elisa. *)
Definition santa_elisa_args (ws_se ws_ppto : Worksheet) (execute : bool) : Args :=
  mkArgs true
    (fun name => if String.eqb name SantaElisa.SHEET_ACTUALS then Some ws_se
                 else if String.eqb name SantaElisa.SHEET_BUDGET then Some ws_ppto
                 else None)
    execute.

(** A unit key occurs more than once among the MAIN records. *)
Definition duplicate_key (main_aptos : list string) : Prop :=
  exists a, In a main_aptos /\ 1 < count_str a main_aptos.

(** A status text is non-empty and, stripped and lowered, is not a key of
    the status table. *)
Definition unknown_status (table : Py.dict string UnitStatus) (raw : option string) : Prop :=
  exists s, raw = Some s /\ s <> "" /\
            Py.mem String.eqb table (Py.lower (Py.strip s)) = false.

(** An actuals sheet of Boulevard: unit 101 sold to Jane Doe in MAIN (row 7),
    with 5000 in 2024-01; unit 999 of John Roe in the cancellation section
    (row 320), absent from MAIN. *)
Definition boulevard_actuals_sheet : Worksheet :=
  fun r c =>
    match r, c with
    | 6, 2 | 319, 2 => VStr "Apto"
    | 6, 3 | 319, 3 => VStr "Cliente"
    | 6, 4 | 319, 4 => VStr "Estatus"
    | 6, 5 | 319, 5 => VStr "Fecha Reserva"
    | 6, 6 => VDatetime (mkdate 2024 1 1) 0
    | 7, 2 => VInt 101
    | 7, 3 => VStr "Jane Doe"
    | 7, 4 => VStr "4.Plan de Pagos"
    | 7, 5 => VDatetime (mkdate 2023 11 15) 0
    | 7, 6 => VInt 5000
    | 320, 2 => VInt 999
    | 320, 3 => VStr "John Roe"
    | 320, 5 => VDatetime (mkdate 2023 5 2) 0
    | 320, 6 => VInt 2500
    | _, _ => VNone
    end.

(** The same sheet with an unrecognised status text on unit 101. *)
Definition boulevard_actuals_sheet_bad_status : Worksheet :=
  fun r c =>
    match r, c with
    | 7, 4 => VStr "5.Escriturado"
    | _, _ => boulevard_actuals_sheet r c
    end.


(** A budget sheet of Santa Elisa for unit 101. *)
Definition santa_elisa_budget_sheet : Worksheet :=
  fun r c =>
    match r, c with
    | 4, 1 => VStr "Apto"
    | 4, 2 => VStr "ene.24"
    | 4, 3 => VDatetime (mkdate 2025 1 1) 0
    | 5, 1 => VInt 101
    | 5, 2 => VInt 1000
    | 5, 3 => VInt 1000
    | _, _ => VNone
    end.

Definition sample_environ : Environ :=
  mkEnviron (Some "https://example.supabase.co") (Some "service-role-key").

(* ------------------------------------------------------------------------- *)
(** ** The write sequence and its row counts *)
(* ------------------------------------------------------------------------- *)

(** The section "Insert" of [main] as both scripts have it; [between] is what
    runs between the clients and the sales: [upsert_sales_reps] in Boulevard,
    nothing in Santa Elisa. *)
Section WriteSequence.
Variable U : Type.
Variable apto : U -> string.
Variable cliente : U -> option string.
Variable actual_payments : U -> list (date * Z).
Variable source_section : U -> string.
Variable unit_row : option nat -> U -> UnitRow.
Variable is_sellable : U -> bool.
Variable _build_sale_row : Loader -> U -> BuildResult.
Variable classify_payment : U -> nat -> Z -> PaymentType * Z.
Variable PROJECT_NAME PROJECT_DISPLAY_NAME : string.
Variable between : Loader * Store -> Loader * Store.

Definition after_project (db : Store) : Loader * Store :=
  upsert_project PROJECT_NAME PROJECT_DISPLAY_NAME (new_loader, db).

Definition after_units (main_units : list U) (db : Store) : Loader * Store :=
  SupabaseLoader.upsert_units unit_row main_units (after_project db).

Definition after_clients (main_units all_units : list U) (db : Store) : Loader * Store :=
  SupabaseLoader.upsert_clients cliente all_units (after_units main_units db).

Definition after_between (main_units all_units : list U) (db : Store) : Loader * Store :=
  between (after_clients main_units all_units db).

Definition after_sales (main_units all_units : list U) (db : Store) : Loader * Store :=
  SupabaseLoader.insert_sales apto is_sellable _build_sale_row all_units
    (after_between main_units all_units db).

Definition after_payments (main_units all_units : list U) (db : Store) : Loader * Store :=
  SupabaseLoader.insert_payments actual_payments source_section classify_payment
    all_units (after_sales main_units all_units db).

Definition write_sequence (main_units all_units : list U)
    (expected : list ParsedExpected) (db : Store) : Loader * Store :=
  SupabaseLoader.upsert_expected_payments expected
    (after_payments main_units all_units db).
End WriteSequence.

(** Number of sales in one status bucket. *)
Definition count_sales (status : SaleStatus) (db : Store) : nat :=
  List.length (filter (fun r => sale_status_eqb (s_status (snd r)) status) (sales db)).

(** Number of observed payments of the records whose sale identifier
    resolved. *)
Definition resolved_payment_count {U : Type} (actual_payments : U -> list (date * Z))
    (self : Loader) (all_units : list U) : nat :=
  list_sum (map (fun iu => match get_sale_id self (fst iu) with
                           | Some _ => List.length (actual_payments (snd iu))
                           | None => 0
                           end)
                (Py.enumerate all_units)).

(** Boulevard records: unit 101 sold to Jane Doe (MAIN); a cancellation of
    unit 101 by John Roe; a cancellation of unit 999, which MAIN lacks. *)
Definition boulevard_main_101 : Boulevard.ParsedUnit :=
  Boulevard.mkParsedUnit "101" None None (Some "Jane Doe") (Some (mkdate 2023 11 15))
    (Some "4.Plan de Pagos") (Some 10000000%Z) (Some 500000%Z) None None None None None
    None None None None None
    [(mkdate 2024 1 31, 500000%Z); (mkdate 2024 2 29, 250000%Z)] "main".

Definition boulevard_desist (apto : string) : Boulevard.ParsedUnit :=
  Boulevard.mkParsedUnit apto None None (Some "John Roe") (Some (mkdate 2023 5 2))
    (Some "Desistimiento") None None None None None None None
    None None None None None
    [(mkdate 2023 6 30, 250000%Z)] "desistimiento".

(** The same records as the Santa Elisa script holds them, and a refund to
    John Roe. *)
Definition santa_elisa_main_101 : SantaElisa.ParsedUnit :=
  SantaElisa.mkParsedUnit "101" None None (Some "Jane Doe") (Some (mkdate 2023 11 15))
    (Some "4.Plan de Pagos") (Some 10000000%Z) (Some 500000%Z) None None None
    [(mkdate 2024 1 31, 500000%Z); (mkdate 2024 2 29, 250000%Z)] "main".

Definition santa_elisa_desist (apto : string) : SantaElisa.ParsedUnit :=
  SantaElisa.mkParsedUnit apto None None (Some "John Roe") (Some (mkdate 2023 5 2))
    (Some "Desistimiento") None None None None None
    [(mkdate 2023 6 30, 250000%Z)] "desistimiento".

Definition santa_elisa_devol (apto : string) : SantaElisa.ParsedUnit :=
  SantaElisa.mkParsedUnit apto None None (Some "John Roe") None
    (Some "Desistimiento") None None None None None
    [(mkdate 2024 3 31, 200000%Z)] "devolucion".

(* ------------------------------------------------------------------------- *)
(** ** Vocabulary of the further properties *)
(* ------------------------------------------------------------------------- *)

(** [s.isascii()] *)
Definition isascii (s : string) : bool :=
  forallb (fun c => nat_of_ascii c <? 128) (list_ascii_of_string s).

(** [datetime.MAXYEAR], 9999. *)
Definition MAXYEAR : nat := 4999 + 5000.

(** [date(y, m, d)]: [None] stands for the [ValueError] of a year outside
    1..9999, a month outside 1..12 or a day that the month lacks. *)
Definition py_date (y m d : nat) : option date :=
  if (1 <=? y) && (y <=? MAXYEAR) && (1 <=? m) && (m <=? 12) &&
     (1 <=? d) && (d <=? days_in_month y m)
  then Some (mkdate y m d) else None.

(** [_month_end_to_date] with the range checks of [datetime.date] written
    out, [y] and [m] being the two integers read from the key.  [None]
    stands for the exception the call ends with: the [ValueError] of
    [date(y + 1, 1, 1)] or [date(y, m + 1, 1)], or the [OverflowError] of
    [date(1, 1, 1) - timedelta(days=1)]. *)
Definition _month_end_to_date_checked (ym : year_month) : option date :=
  let '(y, m) := ym in
  match (if m =? 12 then py_date (y + 1) 1 1 else py_date y (m + 1) 1) with
  | Some first =>
      if (year first =? 1) && (month first =? 1) then None
      else Some (day_before_first (year first) (month first))
  | None => None
  end.

(** The month key a header cell denotes for [discover_headers]: the month of
    a datetime cell, or, when [parse_spanish_months] is set, the month a text
    such as "sept.24" spells. *)
Definition month_key {B : PyBuiltins} (parse_spanish_months : bool) (raw : PyVal)
    : option year_month :=
  match raw with
  | VNone => None
  | VDatetime d _ => Some (year d, month d)
  | _ => if parse_spanish_months
         then _parse_spanish_month_header (Py.strip (py_str raw))
         else None
  end.

(** A month key with a calendar month. *)
Definition valid_month (ym : year_month) : Prop := 1 <= snd ym <= 12.

(** A runtime on which no text converts to a float. *)
Definition text_free_builtins : PyBuiltins :=
  Build_PyBuiltins (fun _ => None) (fun _ => "") (fun _ _ => "").

(** The first character of a text, if any, is not whitespace. *)
Definition no_leading_space (s : string) : Prop :=
  match s with
  | EmptyString => True
  | String c _ => Py.isspace c = false
  end.

(** What makes a column the column of a logical name in a header row: its
    cell is not empty, denotes no month, and its normalised text is a
    pattern of the name or contains one that is longer than 4 characters. *)
Definition claims {B : PyBuiltins} (ws : Worksheet) (header_row : nat)
    (patterns : HeaderPatterns) (parse_spanish_months : bool)
    (L : string) (col : nat) : Prop :=
  ws header_row col <> VNone /\
  month_key parse_spanish_months (ws header_row col) = None /\
  exists pats norm,
    In (L, pats) patterns /\ _normalize_header (ws header_row col) = Some norm /\
    (In norm pats \/
     exists p, In p pats /\ 4 < String.length p /\ Py.contains p norm = true).

(** What a step of [insert_sales] may do to the sales and to the sale
    identifiers of the loader, for rows taken from [allowed]: stored sales
    keep their identifiers, a stored row is an old one or carries a row of
    [allowed], and a sale identifier of the loader is an old one or the
    identifier of a stored sale. *)
Definition sales_step_ok (allowed : list SaleRow) (st1 st2 : Loader * Store) : Prop :=
  (forall j, In j (map fst (sales (snd st1))) -> In j (map fst (sales (snd st2)))) /\
  (forall x, In x (sales (snd st2)) -> In x (sales (snd st1)) \/ In (snd x) allowed) /\
  (forall i sid, get_sale_id (fst st2) i = Some sid ->
                 get_sale_id (fst st1) i = Some sid \/
                 In sid (map fst (sales (snd st2)))).

(** The units of the active sales of a table, and the (unit, client) pairs
    of its cancelled sales, one entry per row. *)
Definition active_units_of (tbl : Table.t SaleRow) : list nat :=
  map (fun r => s_unit_id (snd r))
      (filter (fun r => sale_status_eqb (s_status (snd r)) active) tbl).

Definition cancelled_pairs_of (tbl : Table.t SaleRow) : list (nat * nat) :=
  map (fun r => (s_unit_id (snd r), s_client_id (snd r)))
      (filter (fun r => sale_status_eqb (s_status (snd r)) cancelled) tbl).

(* ------------------------------------------------------------------------- *)
(** * Properties *)
(* ------------------------------------------------------------------------- *)

Unset Implicit Arguments.

(* ------------------------------------------------------------------------- *)
(** ** Loops and batches *)
(* ------------------------------------------------------------------------- *)

(** An invariant of a loop body holds after the loop. *)
Lemma fold_left_invariant {S X : Type} (P : S -> Prop) (step : S -> X -> S) (xs : list X) :
  (forall s x, P s -> P (step s x)) -> forall s, P s -> P (fold_left step xs s).
Proof.
  intros Hstep. induction xs as [|x xs IH]; intros s Hs; simpl; auto.
Qed.

Lemma _batched_from_concat {A : Type} (size : nat) :
  0 < size ->
  forall fuel (items : list A),
    List.length items <= fuel -> List.concat (_batched_from fuel items size) = items.
Proof.
  intros Hsize. induction fuel as [|fuel IH]; intros items Hlen.
  - destruct items; [reflexivity | simpl in Hlen; lia].
  - destruct items as [|x items]; [reflexivity|].
    cbn [_batched_from List.concat]. rewrite IH.
    + apply firstn_skipn.
    + rewrite length_skipn.
      change (List.length (x :: items)) with (S (List.length items)) in *. lia.
Qed.

(** The batches of a list, put end to end, are the list. *)
Lemma _batched_concat {A : Type} (items : list A) :
  List.concat (_batched items BATCH_SIZE) = items.
Proof.
  apply _batched_from_concat; [unfold BATCH_SIZE; lia | reflexivity].
Qed.

Lemma _batched_from_map {A C : Type} (f : A -> C) (size : nat) :
  forall fuel (items : list A),
    _batched_from fuel (map f items) size = map (map f) (_batched_from fuel items size).
Proof.
  induction fuel as [|fuel IH]; intros items; [reflexivity|].
  destruct items as [|x items]; [reflexivity|].
  cbn [_batched_from map]. change (f x :: map f items) with (map f (x :: items)).
  rewrite firstn_map, skipn_map, IH. reflexivity.
Qed.

Lemma _batched_map {A C : Type} (f : A -> C) (items : list A) (size : nat) :
  _batched (map f items) size = map (map f) (_batched items size).
Proof.
  unfold _batched. rewrite length_map. apply _batched_from_map.
Qed.

Lemma combine_map_r {A C : Type} (f : A -> C) (l : list A) :
  combine l (map f l) = map (fun x => (x, f x)) l.
Proof.
  induction l as [|x l IH]; simpl; [reflexivity | now rewrite IH].
Qed.

(* ------------------------------------------------------------------------- *)
(** ** Tables *)
(* ------------------------------------------------------------------------- *)

Section TableFacts.
Variable P : Type.
Variable conflict : P -> P -> bool.

(** The conflict key behaves as a key: a row that replaces another is seen
    by every later row as the row it replaced. *)
Hypothesis conflict_compat :
  forall q new old, conflict new old = true -> conflict q new = conflict q old.

Local Abbreviation find := (Table.find_conflict conflict).
Local Abbreviation replace := (Table.replace_conflict conflict).

Lemma replace_length (new : P) (tbl : Table.t P) :
  List.length (replace new tbl) = List.length tbl.
Proof.
  induction tbl as [|[i old] rest IH]; simpl; [reflexivity|].
  destruct (conflict new old); simpl; [reflexivity | now rewrite IH].
Qed.

Lemma find_replace (q new : P) (tbl : Table.t P) :
  find q (replace new tbl) = find q tbl.
Proof.
  induction tbl as [|[i old] rest IH]; simpl; [reflexivity|].
  destruct (conflict new old) eqn:Hc; simpl.
  - now rewrite (conflict_compat q _ _ Hc).
  - now rewrite IH.
Qed.

Lemma find_app (q : P) (tbl more : Table.t P) :
  find q (tbl ++ more) =
  match find q tbl with
  | Some i => Some i
  | None => find q more
  end.
Proof.
  induction tbl as [|[i old] rest IH]; simpl; [reflexivity|].
  destruct (conflict q old); [reflexivity | apply IH].
Qed.

(** A projection that conflicting rows share is kept by a replacement. *)
Lemma replace_map {X : Type} (g : P -> X) (new : P) (tbl : Table.t P) :
  (forall old, conflict new old = true -> g new = g old) ->
  map (fun r => g (snd r)) (replace new tbl) = map (fun r => g (snd r)) tbl.
Proof.
  intros Hg. induction tbl as [|[i old] rest IH]; simpl; [reflexivity|].
  destruct (conflict new old) eqn:Hc; simpl.
  - now rewrite (Hg old Hc).
  - now rewrite IH.
Qed.

Lemma replace_In (new : P) (tbl : Table.t P) (x : nat * P) :
  In x tbl -> conflict new (snd x) = false -> In x (replace new tbl).
Proof.
  intros Hin Hx. induction tbl as [|[i old] rest IH]; simpl; [contradiction|].
  destruct Hin as [<- | Hin].
  - simpl in Hx. rewrite Hx. now left.
  - destruct (conflict new old); [now right | right; now apply IH].
Qed.

(** *** One upserted row *)

Lemma upsert_row_data (new : P) (st : Table.t P * nat) :
  snd (snd (Table.upsert_row conflict new st)) = new.
Proof.
  destruct st as [tbl n]. unfold Table.upsert_row.
  now destruct (find new tbl).
Qed.

Lemma upsert_row_stable (q new : P) (st : Table.t P * nat) (j : nat) :
  find q (fst st) = Some j ->
  find q (fst (fst (Table.upsert_row conflict new st))) = Some j.
Proof.
  destruct st as [tbl n]. unfold Table.upsert_row. simpl. intros Hq.
  destruct (find new tbl); simpl.
  - now rewrite find_replace.
  - now rewrite find_app, Hq.
Qed.

Lemma upsert_row_found (new : P) (st : Table.t P * nat) :
  conflict new new = true ->
  find new (fst (fst (Table.upsert_row conflict new st))) =
  Some (fst (snd (Table.upsert_row conflict new st))).
Proof.
  destruct st as [tbl n]. unfold Table.upsert_row. simpl. intros Hrefl.
  destruct (find new tbl) eqn:Hf; simpl.
  - now rewrite find_replace.
  - rewrite find_app, Hf. simpl. now rewrite Hrefl.
Qed.

Lemma upsert_row_present (new : P) (st : Table.t P * nat) (j : nat) :
  find new (fst st) = Some j ->
  List.length (fst (fst (Table.upsert_row conflict new st))) = List.length (fst st) /\
  snd (fst (Table.upsert_row conflict new st)) = snd st.
Proof.
  destruct st as [tbl n]. unfold Table.upsert_row. simpl. intros ->. simpl.
  split; [apply replace_length | reflexivity].
Qed.

Lemma upsert_row_map {X : Type} (g : P -> X) (new : P) (st : Table.t P * nat) (j : nat) :
  (forall old, conflict new old = true -> g new = g old) ->
  find new (fst st) = Some j ->
  map (fun r => g (snd r)) (fst (fst (Table.upsert_row conflict new st))) =
  map (fun r => g (snd r)) (fst st).
Proof.
  destruct st as [tbl n]. unfold Table.upsert_row. simpl. intros Hg ->. simpl.
  now apply replace_map.
Qed.

Lemma upsert_row_In (new : P) (st : Table.t P * nat) (x : nat * P) :
  In x (fst st) -> conflict new (snd x) = false ->
  In x (fst (fst (Table.upsert_row conflict new st))).
Proof.
  destruct st as [tbl n]. unfold Table.upsert_row. simpl. intros Hin Hx.
  destruct (find new tbl); simpl.
  - now apply replace_In.
  - apply in_or_app. now left.
Qed.

(** *** A batch of upserted rows *)

Lemma upsert_rows_app (a b : list P) (st : Table.t P * nat) :
  Table.upsert_rows conflict (a ++ b) st =
  (fst (Table.upsert_rows conflict b (fst (Table.upsert_rows conflict a st))),
   snd (Table.upsert_rows conflict a st) ++
   snd (Table.upsert_rows conflict b (fst (Table.upsert_rows conflict a st)))).
Proof.
  revert st. induction a as [|r a IH]; intros st; simpl.
  - now destruct (Table.upsert_rows conflict b st).
  - destruct (Table.upsert_row conflict r st) as [st1 x].
    rewrite IH.
    destruct (Table.upsert_rows conflict a st1) as [st2 xs]. simpl.
    now destruct (Table.upsert_rows conflict b st2).
Qed.

Lemma upsert_rows_data (rows : list P) :
  forall st, map snd (snd (Table.upsert_rows conflict rows st)) = rows.
Proof.
  induction rows as [|r rows IH]; intros st; simpl; [reflexivity|].
  pose proof (upsert_row_data r st) as Hr.
  destruct (Table.upsert_row conflict r st) as [st1 x].
  specialize (IH st1).
  destruct (Table.upsert_rows conflict rows st1) as [st2 xs]. simpl in *.
  now rewrite Hr, IH.
Qed.

Lemma upsert_rows_stable (q : P) (j : nat) (rows : list P) :
  forall st,
    find q (fst st) = Some j ->
    find q (fst (fst (Table.upsert_rows conflict rows st))) = Some j.
Proof.
  induction rows as [|r rows IH]; intros st Hq; simpl; [assumption|].
  pose proof (upsert_row_stable q r st j Hq) as H1.
  destruct (Table.upsert_row conflict r st) as [st1 x].
  specialize (IH st1 H1).
  now destruct (Table.upsert_rows conflict rows st1) as [st2 xs].
Qed.

(** Every returned row carries the identifier under which the final table
    finds it. *)
Lemma upsert_rows_found (rows : list P) :
  Forall (fun r => conflict r r = true) rows ->
  forall st,
    Forall (fun x => find (snd x) (fst (fst (Table.upsert_rows conflict rows st)))
                     = Some (fst x))
           (snd (Table.upsert_rows conflict rows st)).
Proof.
  induction rows as [|r rows IH]; intros Hrefl st; simpl; [constructor|].
  inversion Hrefl as [|? ? Hr Hrows]; subst.
  pose proof (upsert_row_found r st Hr) as H1.
  pose proof (upsert_row_data r st) as H2.
  destruct (Table.upsert_row conflict r st) as [st1 x].
  pose proof (upsert_rows_stable r (fst x) rows st1) as H3.
  specialize (IH Hrows st1).
  destruct (Table.upsert_rows conflict rows st1) as [st2 xs]. simpl in *.
  constructor; [|assumption]. rewrite H2. now apply H3.
Qed.

(** Rows that are all found already leave the number of rows, the counter
    and every projection shared by conflicting rows as they were. *)
Lemma upsert_rows_present {X : Type} (g : P -> X) (rows : list P) :
  (forall new old, In new rows -> conflict new old = true -> g new = g old) ->
  forall st,
    Forall (fun r => find r (fst st) <> None) rows ->
    List.length (fst (fst (Table.upsert_rows conflict rows st))) = List.length (fst st) /\
    snd (fst (Table.upsert_rows conflict rows st)) = snd st /\
    map (fun r => g (snd r)) (fst (fst (Table.upsert_rows conflict rows st))) =
    map (fun r => g (snd r)) (fst st).
Proof.
  induction rows as [|r rows IH]; intros Hg st Hall; simpl; [auto|].
  inversion Hall as [|? ? Hr Hrows]; subst.
  destruct (find r (fst st)) as [j|] eqn:Hf; [|contradiction].
  destruct (upsert_row_present r st j Hf) as [Hlen Hn].
  pose proof (upsert_row_map g r st j (fun old => Hg r old (or_introl eq_refl)) Hf) as Hmap.
  assert (Hrows' : Forall (fun r0 => find r0 (fst (fst (Table.upsert_row conflict r st)))
                                     <> None) rows).
  { eapply Forall_impl; [|exact Hrows]. intros q Hq.
    destruct (find q (fst st)) as [k|] eqn:Hk; [|contradiction].
    now rewrite (upsert_row_stable q r st k Hk). }
  destruct (Table.upsert_row conflict r st) as [st1 x]. simpl in *.
  specialize (IH (fun new old Hin => Hg new old (or_intror Hin)) st1 Hrows').
  destruct (Table.upsert_rows conflict rows st1) as [st2 xs]. simpl in *.
  destruct IH as (IH1 & IH2 & IH3).
  repeat split; congruence.
Qed.

Lemma upsert_rows_In (rows : list P) (x : nat * P) :
  Forall (fun new => conflict new (snd x) = false) rows ->
  forall st, In x (fst st) -> In x (fst (fst (Table.upsert_rows conflict rows st))).
Proof.
  induction rows as [|r rows IH]; intros Hall st Hin; simpl; [assumption|].
  inversion Hall as [|? ? Hr Hrows]; subst.
  pose proof (upsert_row_In r st x Hin Hr) as H1.
  destruct (Table.upsert_row conflict r st) as [st1 y].
  specialize (IH Hrows st1 H1).
  now destruct (Table.upsert_rows conflict rows st1) as [st2 xs].
Qed.

(** The identifiers returned by the rerun of an upsert are those returned
    the first time. *)
Lemma upsert_rows_rerun (rows : list P) (st st' : Table.t P * nat) :
  Forall (fun r => conflict r r = true) rows ->
  (forall q j, find q (fst (fst (Table.upsert_rows conflict rows st))) = Some j ->
               find q (fst st') = Some j) ->
  snd (Table.upsert_rows conflict rows st') = snd (Table.upsert_rows conflict rows st).
Proof.
  intros Hrefl Hkeep.
  pose proof (upsert_rows_found rows Hrefl st) as H1.
  pose proof (upsert_rows_found rows Hrefl st') as H2.
  pose proof (upsert_rows_data rows st) as D1.
  pose proof (upsert_rows_data rows st') as D2.
  assert (Hst : forall q j,
             find q (fst (fst (Table.upsert_rows conflict rows st))) = Some j ->
             find q (fst (fst (Table.upsert_rows conflict rows st'))) = Some j).
  { intros q j Hq. apply upsert_rows_stable. now apply Hkeep. }
  destruct (Table.upsert_rows conflict rows st) as [st1 xs].
  destruct (Table.upsert_rows conflict rows st') as [st2 ys]. simpl in *.
  clear Hkeep Hrefl. revert ys H2 D2 xs H1 D1.
  induction rows as [|r rows IH]; intros ys H2 D2 xs H1 D1.
  - destruct xs, ys; simpl in *; congruence.
  - destruct xs as [|[i p] xs], ys as [|[k p'] ys]; simpl in *; try discriminate.
    inversion D1; inversion D2; subst.
    inversion H1 as [|? ? Hx Hxs]; inversion H2 as [|? ? Hy Hys]; subst.
    simpl in *. apply Hst in Hx. rewrite Hx in Hy. inversion Hy; subst.
    f_equal. now apply IH.
Qed.

(** An upsert over a table that already finds every row of a previous
    upsert of the same rows: nothing is appended, shared projections are
    kept, and the same identifiers are returned. *)
Lemma upsert_rows_over {X : Type} (g : P -> X) (rows : list P)
    (st st' : Table.t P * nat) :
  Forall (fun r => conflict r r = true) rows ->
  (forall new old, In new rows -> conflict new old = true -> g new = g old) ->
  (forall q j, find q (fst (fst (Table.upsert_rows conflict rows st))) = Some j ->
               find q (fst st') = Some j) ->
  List.length (fst (fst (Table.upsert_rows conflict rows st'))) = List.length (fst st') /\
  snd (fst (Table.upsert_rows conflict rows st')) = snd st' /\
  map (fun r => g (snd r)) (fst (fst (Table.upsert_rows conflict rows st'))) =
  map (fun r => g (snd r)) (fst st') /\
  snd (Table.upsert_rows conflict rows st') = snd (Table.upsert_rows conflict rows st).
Proof.
  intros Hrefl Hg Hkeep.
  assert (Hpresent : Forall (fun r => find r (fst st') <> None) rows).
  { pose proof (upsert_rows_found rows Hrefl st) as Hfound.
    assert (H : Forall (fun r => find r (fst st') <> None)
                       (map snd (snd (Table.upsert_rows conflict rows st)))).
    { apply Forall_map. eapply Forall_impl; [|exact Hfound].
      intros x Hx. apply Hkeep in Hx. rewrite Hx. discriminate. }
    now rewrite upsert_rows_data in H. }
  destruct (upsert_rows_present g rows Hg st' Hpresent) as (H1 & H2 & H3).
  repeat split; try assumption.
  now apply upsert_rows_rerun.
Qed.
End TableFacts.

(* ------------------------------------------------------------------------- *)
(** ** Header matching *)
(* ------------------------------------------------------------------------- *)

Lemma existsb_eqb_In (norm : string) (pats : list string) :
  existsb (fun p => String.eqb p norm) pats = true <-> In norm pats.
Proof.
  rewrite existsb_exists. split.
  - intros [p [Hin Heq]]. apply String.eqb_eq in Heq. now subst.
  - intros Hin. exists norm. split; [assumption | apply String.eqb_refl].
Qed.

Lemma existsb_long_substring (norm : string) (pats : list string) :
  existsb (fun p => (4 <? String.length p) && Py.contains p norm) pats = true <->
  exists p, In p pats /\ 4 < String.length p /\ Py.contains p norm = true.
Proof.
  rewrite existsb_exists. split.
  - intros [p [Hin H]]. apply andb_true_iff in H. destruct H as [Hl Hc].
    apply Nat.ltb_lt in Hl. now exists p.
  - intros [p [Hin [Hl Hc]]]. exists p. split; [assumption|].
    apply andb_true_iff. split; [now apply Nat.ltb_lt | assumption].
Qed.

(** The first loop stops at an unclaimed name one of whose patterns is the
    header, and every name before it is claimed or has no such pattern. *)
Lemma match_exact_Some (patterns : HeaderPatterns) (named_cols : NamedCols)
    (norm L : string) :
  match_exact patterns named_cols norm = Some L ->
  exists before pats after,
    patterns = before ++ (L, pats) :: after /\
    named_mem named_cols L = false /\ In norm pats /\
    Forall (fun np => named_mem named_cols (fst np) = true \/ ~ In norm (snd np)) before.
Proof.
  induction patterns as [|[name pats] rest IH]; simpl; [discriminate|].
  destruct (named_mem named_cols name) eqn:Hmem.
  - intros H. destruct (IH H) as (before & ps & after & -> & Hm & Hin & Hall).
    exists ((name, pats) :: before), ps, after.
    split; [reflexivity|]. split; [assumption|]. split; [assumption|].
    constructor; [now left | assumption].
  - destruct (existsb (fun p => String.eqb p norm) pats) eqn:Hex.
    + intros [= <-]. exists [], pats, rest.
      split; [reflexivity|]. split; [assumption|].
      split; [now apply existsb_eqb_In | constructor].
    + intros H. destruct (IH H) as (before & ps & after & -> & Hm & Hin & Hall).
      exists ((name, pats) :: before), ps, after.
      split; [reflexivity|]. split; [assumption|]. split; [assumption|].
      constructor; [|assumption]. right. simpl. intros Hc.
      apply existsb_eqb_In in Hc. congruence.
Qed.

Lemma match_exact_None (patterns : HeaderPatterns) (named_cols : NamedCols)
    (norm : string) :
  match_exact patterns named_cols norm = None ->
  forall L pats, In (L, pats) patterns -> named_mem named_cols L = false ->
                 ~ In norm pats.
Proof.
  induction patterns as [|[name ps] rest IH]; simpl; [tauto|].
  intros H L pats [Heq | Hin] Hmem.
  - inversion Heq; subst. rewrite Hmem in H.
    destruct (existsb (fun p => String.eqb p norm) pats) eqn:Hex; [discriminate|].
    intros Hc. apply existsb_eqb_In in Hc. congruence.
  - destruct (named_mem named_cols name).
    + now apply (IH H L pats).
    + destruct (existsb (fun p => String.eqb p norm) ps); [discriminate|].
      now apply (IH H L pats).
Qed.

(** The second loop stops at an unclaimed name one of whose patterns is longer
    than 4 characters and occurs in the header. *)
Lemma match_substring_Some (patterns : HeaderPatterns) (named_cols : NamedCols)
    (norm L : string) :
  match_substring patterns named_cols norm = Some L ->
  exists before pats after,
    patterns = before ++ (L, pats) :: after /\
    named_mem named_cols L = false /\
    (exists p, In p pats /\ 4 < String.length p /\ Py.contains p norm = true) /\
    Forall (fun np => named_mem named_cols (fst np) = true \/
                      ~ exists p, In p (snd np) /\ 4 < String.length p /\
                                  Py.contains p norm = true) before.
Proof.
  induction patterns as [|[name pats] rest IH]; simpl; [discriminate|].
  destruct (named_mem named_cols name) eqn:Hmem.
  - intros H. destruct (IH H) as (before & ps & after & -> & Hm & Hin & Hall).
    exists ((name, pats) :: before), ps, after.
    split; [reflexivity|]. split; [assumption|]. split; [assumption|].
    constructor; [now left | assumption].
  - destruct (existsb _ pats) eqn:Hex.
    + intros [= <-]. exists [], pats, rest.
      split; [reflexivity|]. split; [assumption|].
      split; [now apply existsb_long_substring | constructor].
    + intros H. destruct (IH H) as (before & ps & after & -> & Hm & Hin & Hall).
      exists ((name, pats) :: before), ps, after.
      split; [reflexivity|]. split; [assumption|]. split; [assumption|].
      constructor; [|assumption]. right. simpl. intros Hc.
      apply existsb_long_substring in Hc. congruence.
Qed.

Lemma match_substring_None (patterns : HeaderPatterns) (named_cols : NamedCols)
    (norm : string) :
  match_substring patterns named_cols norm = None ->
  forall L pats, In (L, pats) patterns -> named_mem named_cols L = false ->
                 ~ exists p, In p pats /\ 4 < String.length p /\ Py.contains p norm = true.
Proof.
  induction patterns as [|[name ps] rest IH]; simpl; [tauto|].
  intros H L pats [Heq | Hin] Hmem.
  - inversion Heq; subst. rewrite Hmem in H.
    destruct (existsb _ pats) eqn:Hex; [discriminate|].
    intros Hc. apply existsb_long_substring in Hc. congruence.
  - destruct (named_mem named_cols name).
    + now apply (IH H L pats).
    + destruct (existsb _ ps); [discriminate|].
      now apply (IH H L pats).
Qed.

(** C6. Header matching precedence.  For a header cell: when the first loop
    finds an unclaimed logical name with a pattern equal to the header, that
    name claims the cell; a name that claims the cell was unclaimed, and has
    either a pattern equal to the header or, only when the first loop found
    nothing, a pattern longer than 4 characters that occurs in the header;
    in each loop the claimant is the first such name in the order of the
    table.  Both loops are complete: the first finds a name whenever an
    unclaimed name has a pattern equal to the header, and when it finds
    nothing the second claims the cell whenever an unclaimed name has a
    pattern longer than 4 characters that occurs in the header; the cell
    stays unclaimed exactly when no unclaimed name has either, so a pattern
    of at most 4 characters never claims a header that merely contains it.
    In a header row holding "Tipo de Plan" and "Tipo", in either order, the
    two cells go to the two fields [estatus] and [tipo], with the tables of
    both scripts; so do "Tipo de Plan Actual", which no pattern equals and
    which the second loop gives to [estatus] through "tipo de plan" although
    [tipo] comes first in the table and "tipo" occurs in it, and "Tipo";
    a header "Tipo A", which contains only the short pattern, is claimed by
    no name. *)
Theorem header_match_precedence :
  (forall (patterns : HeaderPatterns) (named_cols : NamedCols) (norm L : string),
      (match_exact patterns named_cols norm = Some L ->
       match_header patterns named_cols norm = Some L /\
       exists before pats after,
         patterns = before ++ (L, pats) :: after /\
         named_mem named_cols L = false /\ In norm pats /\
         Forall (fun np => named_mem named_cols (fst np) = true \/
                           ~ In norm (snd np)) before) /\
      (match_exact patterns named_cols norm = None ->
       match_header patterns named_cols norm = Some L ->
       (forall L' pats', In (L', pats') patterns ->
                         named_mem named_cols L' = false -> ~ In norm pats') /\
       exists before pats after,
         patterns = before ++ (L, pats) :: after /\
         named_mem named_cols L = false /\
         (exists p, In p pats /\ 4 < String.length p /\ Py.contains p norm = true) /\
         Forall (fun np => named_mem named_cols (fst np) = true \/
                           ~ exists p, In p (snd np) /\ 4 < String.length p /\
                                       Py.contains p norm = true) before)) /\
  (forall (patterns : HeaderPatterns) (named_cols : NamedCols) (norm : string),
      ((exists L pats, In (L, pats) patterns /\ named_mem named_cols L = false /\
                       In norm pats) <->
       exists L, match_exact patterns named_cols norm = Some L) /\
      (match_exact patterns named_cols norm = None ->
       ((exists L pats p, In (L, pats) patterns /\ named_mem named_cols L = false /\
                          In p pats /\ 4 < String.length p /\
                          Py.contains p norm = true) <->
        exists L, match_header patterns named_cols norm = Some L)) /\
      (match_header patterns named_cols norm = None <->
       forall L pats, In (L, pats) patterns -> named_mem named_cols L = false ->
                      ~ In norm pats /\
                      forall p, In p pats -> Py.contains p norm = true ->
                                String.length p <= 4)) /\
  (forall (B : PyBuiltins) (patterns : HeaderPatterns),
      patterns = Boulevard.B5_HEADER_PATTERNS \/
      patterns = SantaElisa.SE_HEADER_PATTERNS ->
      fst (discover_headers (header_sheet 6 2 ["Tipo de Plan"; "Tipo"]) 6 2 84
             patterns false) = [("estatus", 2); ("tipo", 3)] /\
      fst (discover_headers (header_sheet 6 2 ["Tipo"; "Tipo de Plan"]) 6 2 84
             patterns false) = [("tipo", 2); ("estatus", 3)] /\
      fst (discover_headers (header_sheet 6 2 ["Tipo de Plan Actual"; "Tipo"]) 6 2 84
             patterns false) = [("estatus", 2); ("tipo", 3)] /\
      fst (discover_headers (header_sheet 6 2 ["Tipo"; "Tipo de Plan Actual"]) 6 2 84
             patterns false) = [("tipo", 2); ("estatus", 3)] /\
      match_exact patterns [] "tipo de plan actual" = None /\
      match_substring patterns [] "tipo de plan actual" = Some "estatus" /\
      fst (discover_headers (header_sheet 6 2 ["Tipo A"]) 6 2 84 patterns false) = []).
Proof.
  split; [|split].
  - intros patterns named_cols norm L. split.
    + intros H. split.
      * unfold match_header. now rewrite H.
      * now apply match_exact_Some.
    + intros Hnone H. unfold match_header in H. rewrite Hnone in H. split.
      * now apply match_exact_None.
      * now apply match_substring_Some.
  - intros patterns named_cols norm. split; [|split].
    + split.
      * intros (L & pats & Hin & Hmem & Hnorm).
        destruct (match_exact patterns named_cols norm) as [L'|] eqn:E;
          [now exists L'|].
        exfalso. exact (match_exact_None _ _ _ E L pats Hin Hmem Hnorm).
      * intros [L E]. destruct (match_exact_Some _ _ _ _ E)
          as (before & pats & after & -> & Hmem & Hnorm & _).
        exists L, pats. split; [|auto]. apply in_or_app. right. now left.
    + intros Hnone. unfold match_header. rewrite Hnone. split.
      * intros (L & pats & p & Hin & Hmem & Hp & Hlen & Hc).
        destruct (match_substring patterns named_cols norm) as [L'|] eqn:E;
          [now exists L'|].
        exfalso. apply (match_substring_None _ _ _ E L pats Hin Hmem).
        now exists p.
      * intros [L E]. destruct (match_substring_Some _ _ _ _ E)
          as (before & pats & after & -> & Hmem & (p & Hp & Hlen & Hc) & _).
        exists L, pats, p. split; [|auto]. apply in_or_app. right. now left.
    + unfold match_header. split.
      * intros H L pats Hin Hmem.
        destruct (match_exact patterns named_cols norm) as [L'|] eqn:E;
          [discriminate|].
        split; [exact (match_exact_None _ _ _ E L pats Hin Hmem)|].
        intros p Hp Hc. apply Nat.nlt_ge. intros Hlen.
        apply (match_substring_None _ _ _ H L pats Hin Hmem). now exists p.
      * intros H.
        destruct (match_exact patterns named_cols norm) as [L|] eqn:E.
        -- exfalso. destruct (match_exact_Some _ _ _ _ E)
             as (before & pats & after & Hpat & Hmem & Hnorm & _).
           assert (Hin : In (L, pats) patterns)
             by (rewrite Hpat; apply in_or_app; right; now left).
           exact (proj1 (H L pats Hin Hmem) Hnorm).
        -- destruct (match_substring patterns named_cols norm) as [L|] eqn:E2;
             [|reflexivity].
           exfalso. destruct (match_substring_Some _ _ _ _ E2)
             as (before & pats & after & Hpat & Hmem & (p & Hp & Hlen & Hc) & _).
           assert (Hin : In (L, pats) patterns)
             by (rewrite Hpat; apply in_or_app; right; now left).
           pose proof (proj2 (H L pats Hin Hmem) p Hp Hc).
           lia.
  - intros B patterns [-> | ->]; repeat split; vm_compute; reflexivity.
Qed.

(* ------------------------------------------------------------------------- *)
(** ** Monthly cells *)
(* ------------------------------------------------------------------------- *)

Section MonthlyCellFacts.
Context {B : PyBuiltins}.

Lemma month_cell_step_app (ws : Worksheet) (row : nat) (acc : list (date * Z))
    (item : year_month * nat) :
  month_cell_step ws row acc item = acc ++ month_cell_step ws row [] item.
Proof.
  unfold month_cell_step. destruct item as [ym col].
  destruct (_safe_float (ws row col)) as [val|]; [|now rewrite app_nil_r].
  destruct (negb (val =? 0)%Z); [reflexivity | now rewrite app_nil_r].
Qed.

Lemma fold_month_cells (ws : Worksheet) (row : nat) (items : list (year_month * nat)) :
  forall acc,
    fold_left (month_cell_step ws row) items acc =
    acc ++ flat_map (month_cell_step ws row []) items.
Proof.
  induction items as [|item items IH]; intros acc; simpl.
  - now rewrite app_nil_r.
  - rewrite IH, (month_cell_step_app ws row acc item). now rewrite app_assoc.
Qed.


End MonthlyCellFacts.





(* ------------------------------------------------------------------------- *)
(** ** Unit keys of parsed records *)
(* ------------------------------------------------------------------------- *)

Section KeyFacts.
Context {B : PyBuiltins}.

Lemma parse_b5_row_keys (ws : Worksheet) (named : NamedCols) (apto_col : nat)
    (months : MonthCols) (section_name : string) (units : list Boulevard.ParsedUnit)
    (row : nat) :
  Forall (fun u => Boulevard.apto u <> "") units ->
  Forall (fun u => Boulevard.apto u <> "")
         (Boulevard.parse_b5_row ws named apto_col months section_name units row).
Proof.
  intros Hall. unfold Boulevard.parse_b5_row.
  destruct (String.eqb (apto_of_cell (ws row apto_col)) "") eqn:He.
  - destruct (ws row apto_col); assumption.
  - assert (Hne : apto_of_cell (ws row apto_col) <> "") by now apply String.eqb_neq.
    destruct (ws row apto_col); try assumption;
      (apply Forall_app; split; [assumption | constructor; [exact Hne | constructor]]).
Qed.

Lemma parse_actuals_row_keys (ws : Worksheet) (named : NamedCols) (apto_col : nat)
    (months : MonthCols) (section_name : string) (units : list SantaElisa.ParsedUnit)
    (row : nat) :
  Forall (fun u => SantaElisa.apto u <> "") units ->
  Forall (fun u => SantaElisa.apto u <> "")
         (SantaElisa.parse_actuals_row ws named apto_col months section_name units row).
Proof.
  intros Hall. unfold SantaElisa.parse_actuals_row.
  destruct (String.eqb (apto_of_cell (ws row apto_col)) "") eqn:He.
  - destruct (ws row apto_col); assumption.
  - assert (Hne : apto_of_cell (ws row apto_col) <> "") by now apply String.eqb_neq.
    destruct (ws row apto_col); try assumption;
      (apply Forall_app; split; [assumption | constructor; [exact Hne | constructor]]).
Qed.
End KeyFacts.

(** C10. The budget parser has no blank-key skip: for the sample budget
    sheets, whose key cell holds whitespace-only text next to a non-zero
    month value, [parse_ppto] emits a record whose unit key is the empty
    string; the unit-section parsers never emit a record with an empty
    key. *)
Theorem blank_key_only_in_budget_records :
  forall B : PyBuiltins,
    (blank_key_budget_boulevard 2 1 = VStr "   " /\
     blank_key_budget_boulevard 2 2 = VInt 1000 /\
     Boulevard.parse_ppto blank_key_budget_boulevard =
       [mkParsedExpected "" (mkdate 2024 1 31) 100000]) /\
    (blank_key_budget_santa_elisa 5 1 = VStr "  " /\
     blank_key_budget_santa_elisa 5 2 = VFloat (3001 # 2) /\
     SantaElisa.parse_ppto blank_key_budget_santa_elisa =
       [mkParsedExpected "" (mkdate 2024 1 31) 150050]) /\
    (forall ws header_row data_start data_end col_start col_end section_name months,
        Forall (fun u => Boulevard.apto u <> "")
               (Boulevard.parse_b5_section ws header_row data_start data_end
                  col_start col_end section_name months)) /\
    (forall ws header_row data_start data_end col_start col_end section_name months,
        Forall (fun u => SantaElisa.apto u <> "")
               (SantaElisa.parse_actuals_section ws header_row data_start data_end
                  col_start col_end section_name months)).
Proof.
  intros B. split; [|split; [|split]].
  - repeat split; vm_compute; reflexivity.
  - repeat split; vm_compute; reflexivity.
  - intros. unfold Boulevard.parse_b5_section.
    destruct (discover_headers _ _ _ _ _ _) as [named months0].
    destruct (named_get named "apto") as [apto_col|]; [|constructor].
    apply fold_left_invariant; [|constructor].
    intros s x. apply parse_b5_row_keys.
  - intros. unfold SantaElisa.parse_actuals_section.
    destruct (discover_headers _ _ _ _ _ _) as [named months0].
    destruct (named_get named "apto") as [apto_col|]; [|constructor].
    apply fold_left_invariant; [|constructor].
    intros s x. apply parse_actuals_row_keys.
Qed.

(* ------------------------------------------------------------------------- *)
(** ** Dates *)
(* ------------------------------------------------------------------------- *)

Lemma date_leb_spec (a b : date) :
  date_leb a b = true <->
  year a < year b \/
  (year a = year b /\ (month a < month b \/ (month a = month b /\ day a <= day b))).
Proof.
  unfold date_leb.
  rewrite orb_true_iff, andb_true_iff, orb_true_iff, andb_true_iff.
  rewrite Nat.ltb_lt, Nat.eqb_eq, Nat.ltb_lt, Nat.eqb_eq, Nat.leb_le. tauto.
Qed.

Lemma date_eqb_spec (a b : date) : date_eqb a b = true <-> a = b.
Proof.
  unfold date_eqb. rewrite !andb_true_iff, !Nat.eqb_eq.
  destruct a, b; simpl. split.
  - intros [[-> ->] ->]. reflexivity.
  - intros [= -> -> ->]. auto.
Qed.

Lemma date_ltb_spec (a b : date) :
  date_ltb a b = true <-> date_leb a b = true /\ a <> b.
Proof.
  unfold date_ltb. rewrite andb_true_iff, negb_true_iff.
  split; intros [H1 H2]; split; auto.
  - intros Heq. apply date_eqb_spec in Heq. congruence.
  - destruct (date_eqb a b) eqn:E; [|reflexivity].
    apply date_eqb_spec in E. contradiction.
Qed.

Lemma date_le_refl (a : date) : date_le a a.
Proof. unfold date_le. rewrite date_leb_spec. lia. Qed.

Lemma date_le_trans (a b c : date) : date_le a b -> date_le b c -> date_le a c.
Proof. unfold date_le. rewrite !date_leb_spec. lia. Qed.

Lemma date_le_total (a b : date) : date_le a b \/ date_le b a.
Proof. unfold date_le. rewrite !date_leb_spec. lia. Qed.

Lemma date_ltb_false_le (a b : date) : date_ltb a b = false -> date_le b a.
Proof.
  intros H. destruct (date_le_total b a) as [Hle | Hle]; [assumption|].
  destruct (date_eqb a b) eqn:E.
  - apply date_eqb_spec in E. subst. apply date_le_refl.
  - unfold date_ltb in H. unfold date_le in Hle. rewrite Hle, E in H. discriminate H.
Qed.

Lemma date_ltb_true_le (a b : date) : date_ltb a b = true -> date_le a b.
Proof. intros H. now apply date_ltb_spec in H. Qed.

(* ------------------------------------------------------------------------- *)
(** ** Sale date *)
(* ------------------------------------------------------------------------- *)

Lemma min_date_spec (rest : list date) :
  forall first,
    In (SantaElisa.min_date first rest) (first :: rest) /\
    Forall (date_le (SantaElisa.min_date first rest)) (first :: rest).
Proof.
  induction rest as [|d rest IH]; intros first; simpl.
  - split; [now left | constructor; [apply date_le_refl | constructor]].
  - destruct (date_ltb d first) eqn:Hlt.
    + destruct (IH d) as [Hin Hall]. split.
      * destruct Hin as [<- | Hin]; [right; now left | right; now right].
      * inversion Hall as [|? ? Hd Hrest]; subst.
        constructor; [|constructor; assumption].
        eapply date_le_trans; [exact Hd | now apply date_ltb_true_le].
    + destruct (IH first) as [Hin Hall]. split.
      * destruct Hin as [<- | Hin]; [now left | right; now right].
      * inversion Hall as [|? ? Hd Hrest]; subst.
        constructor; [assumption|]. constructor; [|assumption].
        eapply date_le_trans; [exact Hd | now apply date_ltb_false_le].
Qed.

Lemma santa_elisa_build_date (self : Loader) (u : SantaElisa.ParsedUnit) (row : SaleRow) :
  SantaElisa._build_sale_row self u = Built row ->
  exists derived, SantaElisa.derive_sale_date u = Some (s_sale_date row, derived).
Proof.
  unfold SantaElisa._build_sale_row.
  destruct (Py.get String.eqb (unit_ids self) (SantaElisa.apto u)); [|discriminate].
  destruct (if Py.truthy_str (SantaElisa.cliente u) then _ else _); [|discriminate].
  destruct (SantaElisa.derive_sale_date u) as [[d derived]|]; [|discriminate].
  intros [= <-]. now exists derived.
Qed.

Lemma santa_elisa_build_no_date (self : Loader) (u : SantaElisa.ParsedUnit) :
  SantaElisa.derive_sale_date u = None ->
  exists w, SantaElisa._build_sale_row self u = Skipped w.
Proof.
  intros Hd. unfold SantaElisa._build_sale_row.
  destruct (Py.get String.eqb (unit_ids self) (SantaElisa.apto u)); [|eauto].
  destruct (if Py.truthy_str (SantaElisa.cliente u) then _ else _); [|eauto].
  rewrite Hd. eauto.
Qed.

Lemma boulevard_build_date (self : Loader) (u : Boulevard.ParsedUnit) (row : SaleRow) :
  Boulevard._build_sale_row self u = Built row ->
  s_sale_date row = match Boulevard.fecha_reserva u with
                    | Some d => d
                    | None => mkdate 2023 3 1
                    end.
Proof.
  unfold Boulevard._build_sale_row.
  destruct (Py.get String.eqb (unit_ids self) (Boulevard.apto u)); [|discriminate].
  destruct (if Py.truthy_str (Boulevard.cliente u) then _ else _); [|discriminate].
  intros [= <-]. reflexivity.
Qed.

(** C3. Sale-date derivation.  Santa Elisa's [_build_sale_row] does what the
    claim says: the sale date is the reservation date when there is one,
    otherwise the earliest observed payment date, and a record with neither
    is skipped.  Boulevard's [_build_sale_row] does not: a record without a
    reservation date gets the fixed date 2023-03-01, whether it has payments
    (the earliest being 2024-01-31 in the sample) or none, and its sale is
    built. *)
Theorem boulevard_substitutes_sale_date :
  (* Boulevard at the failing inputs *)
  (exists row,
      Boulevard._build_sale_row sample_loader
        (boulevard_undated_unit [(mkdate 2024 2 29, 250000%Z); (mkdate 2024 1 31, 500000%Z)])
      = Built row /\ s_sale_date row = mkdate 2023 3 1) /\
  (exists row,
      Boulevard._build_sale_row sample_loader (boulevard_undated_unit []) = Built row /\
      s_sale_date row = mkdate 2023 3 1) /\
  (* Boulevard in general *)
  (forall self u row,
      Boulevard._build_sale_row self u = Built row ->
      s_sale_date row = match Boulevard.fecha_reserva u with
                        | Some d => d
                        | None => mkdate 2023 3 1
                        end) /\
  (* Santa Elisa at the same inputs *)
  (exists row,
      SantaElisa._build_sale_row sample_loader
        (santa_elisa_undated_unit [(mkdate 2024 2 29, 250000%Z); (mkdate 2024 1 31, 500000%Z)])
      = Built row /\ s_sale_date row = mkdate 2024 1 31) /\
  SantaElisa._build_sale_row sample_loader (santa_elisa_undated_unit [])
    = Skipped cannot_derive_sale_date /\
  (* Santa Elisa in general *)
  (forall self u row,
      SantaElisa._build_sale_row self u = Built row ->
      match SantaElisa.fecha_reserva u with
      | Some d => s_sale_date row = d
      | None =>
          In (s_sale_date row) (map fst (SantaElisa.actual_payments u)) /\
          Forall (date_le (s_sale_date row)) (map fst (SantaElisa.actual_payments u))
      end) /\
  (forall self u,
      SantaElisa.fecha_reserva u = None -> SantaElisa.actual_payments u = [] ->
      exists w, SantaElisa._build_sale_row self u = Skipped w).
Proof.
  split; [|split; [|split; [|split; [|split; [|split]]]]].
  - eexists. split; vm_compute; reflexivity.
  - eexists. split; vm_compute; reflexivity.
  - intros self u row H. eapply boulevard_build_date; eassumption.
  - eexists. split; vm_compute; reflexivity.
  - vm_compute. reflexivity.
  - intros self u row H. apply santa_elisa_build_date in H. destruct H as [derived H].
    unfold SantaElisa.derive_sale_date in H.
    destruct (SantaElisa.fecha_reserva u) as [d|].
    + now inversion H.
    + destruct (map fst (SantaElisa.actual_payments u)) as [|d ds]; [discriminate|].
      inversion H; subst. apply min_date_spec.
  - intros self u Hf Hp. apply santa_elisa_build_no_date.
    unfold SantaElisa.derive_sale_date. now rewrite Hf, Hp.
Qed.

(* ------------------------------------------------------------------------- *)
(** ** [sorted] and [enumerate] *)
(* ------------------------------------------------------------------------- *)

Section SortedFacts.
Variable A : Type.
Variable leb : A -> A -> bool.

Lemma insert_perm (x : A) (l : list A) : Permutation (Py.insert leb x l) (x :: l).
Proof.
  induction l as [|y l IH]; simpl; [reflexivity|].
  destruct (leb x y); [reflexivity|].
  rewrite IH. apply perm_swap.
Qed.

Lemma sorted_perm (l : list A) : Permutation (Py.sorted leb l) l.
Proof.
  induction l as [|x l IH]; simpl; [reflexivity|].
  rewrite insert_perm. now constructor.
Qed.

Lemma sorted_length (l : list A) : List.length (Py.sorted leb l) = List.length l.
Proof. apply Permutation_length, sorted_perm. Qed.

Hypothesis leb_total : forall a b, leb a b = false -> leb b a = true.
Hypothesis leb_trans : forall a b c, leb a b = true -> leb b c = true -> leb a c = true.

Lemma insert_sorted (x : A) (l : list A) :
  StronglySorted (fun a b => leb a b = true) l ->
  StronglySorted (fun a b => leb a b = true) (Py.insert leb x l).
Proof.
  induction l as [|y l IH]; intros Hs; simpl.
  - constructor; constructor.
  - inversion Hs as [|? ? Hl Hy]; subst.
    destruct (leb x y) eqn:Hxy.
    + constructor; [assumption|]. constructor; [assumption|].
      eapply Forall_impl; [|exact Hy]. intros z Hz. eapply leb_trans; eassumption.
    + constructor; [now apply IH|].
      eapply Permutation_Forall; [symmetry; apply insert_perm|].
      constructor; [now apply leb_total | assumption].
Qed.

Lemma sorted_sorted (l : list A) :
  StronglySorted (fun a b => leb a b = true) (Py.sorted leb l).
Proof.
  induction l as [|x l IH]; simpl; [constructor | now apply insert_sorted].
Qed.
End SortedFacts.

Lemma StronglySorted_map {A C : Type} (R : A -> A -> Prop) (S : C -> C -> Prop)
    (f : A -> C) (l : list A) :
  (forall a b, R a b -> S (f a) (f b)) ->
  StronglySorted R l -> StronglySorted S (map f l).
Proof.
  intros Hf Hs. induction Hs as [|a l Hs IH Hall]; simpl; constructor; auto.
  apply Forall_map. eapply Forall_impl; [|exact Hall]. intros b Hb. now apply Hf.
Qed.

Lemma nth_error_enumerate_from {A : Type} (l : list A) :
  forall start idx,
    nth_error (Py.enumerate_from start l) idx =
    option_map (fun x => (start + idx, x)) (nth_error l idx).
Proof.
  induction l as [|x l IH]; intros start idx; simpl.
  - now destruct idx.
  - destruct idx as [|idx]; simpl.
    + now rewrite Nat.add_0_r.
    + rewrite IH. now rewrite Nat.add_succ_r.
Qed.

Lemma map_snd_enumerate_from {A : Type} (l : list A) :
  forall start, map snd (Py.enumerate_from start l) = l.
Proof.
  induction l as [|x l IH]; intros start; simpl; [reflexivity | now rewrite IH].
Qed.

Lemma map_fst_enumerate_from {A : Type} (l : list A) :
  forall start, map fst (Py.enumerate_from start l) = seq start (List.length l).
Proof.
  induction l as [|x l IH]; intros start; simpl; [reflexivity | now rewrite IH].
Qed.

(* ------------------------------------------------------------------------- *)
(** ** Payment classification *)
(* ------------------------------------------------------------------------- *)

Lemma date_le_antisym (a b : date) : date_le a b -> date_le b a -> a = b.
Proof.
  unfold date_le. rewrite !date_leb_spec. destruct a, b; simpl.
  intros H1 H2. f_equal; lia.
Qed.

Lemma payment_leb_spec (a b : date * Z) :
  payment_leb a b = true <->
  (date_le (fst a) (fst b) /\ fst a <> fst b) \/ (fst a = fst b /\ (snd a <= snd b)%Z).
Proof.
  unfold payment_leb.
  rewrite orb_true_iff, andb_true_iff, date_ltb_spec, date_eqb_spec, Z.leb_le.
  reflexivity.
Qed.

Lemma payment_leb_total (a b : date * Z) :
  payment_leb a b = false -> payment_leb b a = true.
Proof.
  intros H. apply payment_leb_spec.
  destruct (date_eqb (fst a) (fst b)) eqn:E.
  - apply date_eqb_spec in E. right. split; [now symmetry|].
    destruct (Z.leb (snd a) (snd b)) eqn:Hz.
    + exfalso. assert (payment_leb a b = true); [|congruence].
      apply payment_leb_spec. right. split; [assumption | now apply Z.leb_le].
    + apply Z.leb_gt in Hz. lia.
  - left. assert (Hne : fst a <> fst b).
    { intros Heq. apply date_eqb_spec in Heq. congruence. }
    split; [|congruence].
    destruct (date_le_total (fst b) (fst a)) as [Hle | Hle]; [assumption|].
    exfalso. assert (payment_leb a b = true); [|congruence].
    apply payment_leb_spec. now left.
Qed.

Lemma payment_leb_trans (a b c : date * Z) :
  payment_leb a b = true -> payment_leb b c = true -> payment_leb a c = true.
Proof.
  rewrite !payment_leb_spec.
  intros [[H1 N1] | [E1 Z1]] [[H2 N2] | [E2 Z2]].
  - left. split; [eapply date_le_trans; eassumption|].
    intros Heq. rewrite Heq in H1. apply N2. now apply date_le_antisym.
  - left. rewrite <- E2. now split.
  - left. rewrite E1. now split.
  - right. split; [congruence | lia].
Qed.

Lemma payment_leb_date_le (a b : date * Z) :
  payment_leb a b = true -> date_le (fst a) (fst b).
Proof.
  rewrite payment_leb_spec. intros [[H _] | [-> _]]; [assumption | apply date_le_refl].
Qed.

(** The observed payments of a record, in the order the rows are built. *)
Lemma sorted_payments_by_date (payments : list (date * Z)) :
  Permutation (Py.sorted payment_leb payments) payments /\
  StronglySorted date_le (map fst (Py.sorted payment_leb payments)).
Proof.
  split; [apply sorted_perm|].
  apply (StronglySorted_map (fun a b => payment_leb a b = true) date_le fst).
  - intros a b. apply payment_leb_date_le.
  - apply sorted_sorted; [apply payment_leb_total | apply payment_leb_trans].
Qed.

Section PaymentRows.
Variable U : Type.
Variable actual_payments : U -> list (date * Z).
Variable source_section : U -> string.
Variable classify_payment : U -> nat -> Z -> PaymentType * Z.

Lemma payment_rows_of_nth (sale_id : nat) (u : U) (idx : nat) (row : PaymentRow) :
  nth_error (SupabaseLoader.payment_rows_of actual_payments source_section
               classify_payment sale_id u) idx = Some row ->
  exists pdate amount,
    nth_error (Py.sorted payment_leb (actual_payments u)) idx = Some (pdate, amount) /\
    row = mkPaymentRow sale_id pdate (snd (classify_payment u idx amount))
            (fst (classify_payment u idx amount))
            (String.append "ETL import from " (source_section u)).
Proof.
  unfold SupabaseLoader.payment_rows_of, Py.enumerate.
  rewrite nth_error_map, nth_error_enumerate_from.
  destruct (nth_error (Py.sorted payment_leb (actual_payments u)) idx)
    as [[pdate amount]|]; simpl; [|discriminate].
  intros [= <-]. exists pdate, amount. split; [reflexivity|].
  now destruct (classify_payment u idx amount).
Qed.

Lemma payment_rows_of_dates (sale_id : nat) (u : U) :
  map p_payment_date (SupabaseLoader.payment_rows_of actual_payments source_section
                        classify_payment sale_id u) =
  map fst (Py.sorted payment_leb (actual_payments u)).
Proof.
  unfold SupabaseLoader.payment_rows_of, Py.enumerate.
  rewrite map_map.
  rewrite <- (map_snd_enumerate_from (Py.sorted payment_leb (actual_payments u)) 0) at 2.
  rewrite map_map. apply map_ext. intros [idx [pdate amount]]. simpl.
  now destruct (classify_payment u idx amount).
Qed.
End PaymentRows.

(** C4. Payment classification.  For a record whose sale resolved, the rows
    are built from the payments sorted by date: the row at position [idx]
    carries the date of the payment at position [idx] of the sorted list and
    the record's sale identifier.  In Santa Elisa a record of the section
    "devolucion" gets type reimbursement and the amount [-abs(amount)] on
    every row; any other record gets type reservation at position 0 and
    down_payment after it, with the amount as read.  Boulevard has no refund
    section: every record gets reservation at position 0 and down_payment
    after it. *)
Theorem payment_classification :
  forall (self : Loader) (unit_index sale_id : nat),
    get_sale_id self unit_index = Some sale_id ->
    (forall u : SantaElisa.ParsedUnit,
        let rows := SupabaseLoader.payment_rows_of_unit SantaElisa.actual_payments
                      SantaElisa.source_section SantaElisa.classify_payment
                      self (unit_index, u) in
        let ordered := Py.sorted payment_leb (SantaElisa.actual_payments u) in
        Permutation ordered (SantaElisa.actual_payments u) /\
        StronglySorted date_le (map fst ordered) /\
        map p_payment_date rows = map fst ordered /\
        forall idx row,
          nth_error rows idx = Some row ->
          exists pdate amount,
            nth_error ordered idx = Some (pdate, amount) /\
            p_payment_date row = pdate /\ p_sale_id row = sale_id /\
            if String.eqb (SantaElisa.source_section u) "devolucion"
            then p_payment_type row = reimbursement /\
                 p_amount row = (- Z.abs amount)%Z
            else p_payment_type row = (if idx =? 0 then reservation else down_payment) /\
                 p_amount row = amount) /\
    (forall u : Boulevard.ParsedUnit,
        let rows := SupabaseLoader.payment_rows_of_unit Boulevard.actual_payments
                      Boulevard.source_section Boulevard.classify_payment
                      self (unit_index, u) in
        let ordered := Py.sorted payment_leb (Boulevard.actual_payments u) in
        Permutation ordered (Boulevard.actual_payments u) /\
        StronglySorted date_le (map fst ordered) /\
        map p_payment_date rows = map fst ordered /\
        forall idx row,
          nth_error rows idx = Some row ->
          exists pdate amount,
            nth_error ordered idx = Some (pdate, amount) /\
            p_payment_date row = pdate /\ p_sale_id row = sale_id /\
            p_payment_type row = (if idx =? 0 then reservation else down_payment) /\
            p_amount row = amount).
Proof.
  intros self unit_index sale_id Hsale.
  assert (Hrows : forall (U : Type) (ap : U -> list (date * Z)) ss cp (u : U),
             SupabaseLoader.payment_rows_of_unit ap ss cp self (unit_index, u) =
             SupabaseLoader.payment_rows_of ap ss cp sale_id u).
  { intros U ap ss cp u. unfold SupabaseLoader.payment_rows_of_unit. simpl.
    rewrite Hsale. destruct (ap u) eqn:E; [|reflexivity].
    unfold SupabaseLoader.payment_rows_of. now rewrite E. }
  split; intros u rows ordered; subst rows ordered; rewrite Hrows;
    (split; [apply sorted_payments_by_date|]);
    (split; [apply sorted_payments_by_date|]);
    (split; [apply payment_rows_of_dates|]);
    intros idx row Hnth; apply payment_rows_of_nth in Hnth;
    destruct Hnth as (pdate & amount & Hn & ->); exists pdate, amount;
    (split; [exact Hn|]); simpl; (split; [reflexivity|]); (split; [reflexivity|]).
  - unfold SantaElisa.classify_payment.
    destruct (String.eqb (SantaElisa.source_section u) "devolucion"); simpl; auto.
  - split; reflexivity.
Qed.

Lemma payment_classification_witness :
  get_sale_id loader_with_sale 0 = Some 7 /\
  map p_payment_date
    (SupabaseLoader.payment_rows_of_unit SantaElisa.actual_payments
       SantaElisa.source_section SantaElisa.classify_payment
       loader_with_sale (0, sample_refund_unit)) =
  map fst (Py.sorted payment_leb (SantaElisa.actual_payments sample_refund_unit)).
Proof.
  split; [reflexivity|].
  exact (proj1 (proj2 (proj2 (proj1
           (payment_classification loader_with_sale 0 7 eq_refl)
           sample_refund_unit)))).
Defined.

(* ------------------------------------------------------------------------- *)
(** ** Expected installments *)
(* ------------------------------------------------------------------------- *)

Lemma get_setdefault_append {V : Type} (d : Py.dict string (list V)) (k : string) (r : V)
    (q : string) :
  Py.get String.eqb (setdefault_append d k r) q =
  if String.eqb q k
  then Some (match Py.get String.eqb d k with
             | Some rs => rs ++ [r]
             | None => [r]
             end)
  else Py.get String.eqb d q.
Proof.
  induction d as [|[k' rs] d IH]; simpl.
  - reflexivity.
  - destruct (String.eqb k k') eqn:Hk; simpl.
    + apply String.eqb_eq in Hk. subst k'.
      destruct (String.eqb q k); reflexivity.
    + rewrite IH. destruct (String.eqb q k) eqn:Hq.
      * apply String.eqb_eq in Hq. subst q. now rewrite Hk.
      * reflexivity.
Qed.

Lemma keys_setdefault_append {V : Type} (d : Py.dict string (list V)) (k : string) (r : V) :
  map fst (setdefault_append d k r) =
  if Py.mem String.eqb d k then map fst d else map fst d ++ [k].
Proof.
  unfold Py.mem. induction d as [|[k' rs] d IH]; simpl; [reflexivity|].
  destruct (String.eqb k k') eqn:Hk; simpl; [reflexivity|].
  rewrite IH. now destruct (Py.get String.eqb d k).
Qed.

Lemma get_None_not_key {V : Type} (d : Py.dict string V) (k : string) :
  Py.get String.eqb d k = None <-> ~ In k (map fst d).
Proof.
  induction d as [|[k' v] d IH]; simpl; [tauto|].
  destruct (String.eqb k k') eqn:Hk.
  - apply String.eqb_eq in Hk. subst. split; [discriminate | tauto].
  - apply String.eqb_neq in Hk. rewrite IH. split.
    + intros Hn [Heq | Hin]; [congruence | tauto].
    + tauto.
Qed.

Lemma group_by_apto_app (pre : list ParsedExpected) (r : ParsedExpected) :
  SupabaseLoader.group_by_apto (pre ++ [r]) =
  setdefault_append (SupabaseLoader.group_by_apto pre) (pe_apto r) r.
Proof.
  unfold SupabaseLoader.group_by_apto. now rewrite fold_left_app.
Qed.

Lemma group_by_apto_keys (expected : list ParsedExpected) :
  NoDup (map fst (SupabaseLoader.group_by_apto expected)).
Proof.
  induction expected as [|r pre IH] using rev_ind; [constructor|].
  rewrite group_by_apto_app, keys_setdefault_append. unfold Py.mem.
  destruct (Py.get String.eqb (SupabaseLoader.group_by_apto pre) (pe_apto r)) eqn:Hg;
    [assumption|].
  apply get_None_not_key in Hg.
  apply NoDup_rev in IH. rewrite <- (rev_involutive (_ ++ _)). apply NoDup_rev.
  rewrite rev_app_distr. simpl. constructor; [|assumption].
  now rewrite <- in_rev.
Qed.

(** The group of a unit key holds its records, in the order of the input. *)
Lemma group_by_apto_get (expected : list ParsedExpected) (apto : string) :
  Py.get String.eqb (SupabaseLoader.group_by_apto expected) apto =
  match records_of apto expected with
  | [] => None
  | rs => Some rs
  end.
Proof.
  induction expected as [|r pre IH] using rev_ind; [reflexivity|].
  rewrite group_by_apto_app, get_setdefault_append.
  unfold records_of in *. rewrite filter_app. simpl.
  destruct (String.eqb apto (pe_apto r)) eqn:Hk.
  - apply String.eqb_eq in Hk. subst apto. rewrite String.eqb_refl, IH.
    destruct (filter _ pre); reflexivity.
  - rewrite String.eqb_sym, Hk, app_nil_r. exact IH.
Qed.

Lemma expected_rows_of_unit_number (pid : option nat) (apto : string)
    (records : list ParsedExpected) :
  Forall (fun row => e_unit_number row = apto)
         (SupabaseLoader.expected_rows_of pid (apto, records)).
Proof.
  unfold SupabaseLoader.expected_rows_of. apply Forall_map, Forall_forall.
  intros ir _. reflexivity.
Qed.

Lemma filter_all {A : Type} (f : A -> bool) (l : list A) :
  Forall (fun x => f x = true) l -> filter f l = l.
Proof.
  induction 1 as [|x l Hx _ IH]; simpl; [reflexivity | now rewrite Hx, IH].
Qed.

Lemma filter_none {A : Type} (f : A -> bool) (l : list A) :
  Forall (fun x => f x = false) l -> filter f l = [].
Proof.
  induction 1 as [|x l Hx _ IH]; simpl; [reflexivity | now rewrite Hx, IH].
Qed.

Lemma rows_of_groups (pid : option nat) (apto : string)
    (groups : Py.dict string (list ParsedExpected)) :
  NoDup (map fst groups) ->
  rows_of apto (flat_map (SupabaseLoader.expected_rows_of pid) groups) =
  match Py.get String.eqb groups apto with
  | Some records => SupabaseLoader.expected_rows_of pid (apto, records)
  | None => []
  end.
Proof.
  unfold rows_of.
  induction groups as [|[k rs] groups IH]; intros Hnd; [reflexivity|].
  inversion Hnd as [|? ? Hk Hnd']; subst.
  cbn [flat_map Py.get]. rewrite filter_app, (IH Hnd').
  destruct (String.eqb apto k) eqn:He.
  - apply String.eqb_eq in He. subst k.
    apply get_None_not_key in Hk. rewrite Hk, app_nil_r.
    apply filter_all. eapply Forall_impl; [|apply expected_rows_of_unit_number].
    intros row ->. apply String.eqb_refl.
  - rewrite filter_none; [reflexivity|].
    eapply Forall_impl; [|apply expected_rows_of_unit_number].
    intros row ->. now rewrite String.eqb_sym.
Qed.

Lemma due_date_leb_total (a b : ParsedExpected) :
  SupabaseLoader.due_date_leb a b = false -> SupabaseLoader.due_date_leb b a = true.
Proof.
  unfold SupabaseLoader.due_date_leb. intros H.
  destruct (date_le_total (pe_due_date a) (pe_due_date b)) as [Hl | Hl];
    unfold date_le in Hl; congruence.
Qed.

Lemma due_date_leb_trans (a b c : ParsedExpected) :
  SupabaseLoader.due_date_leb a b = true -> SupabaseLoader.due_date_leb b c = true -> SupabaseLoader.due_date_leb a c = true.
Proof. unfold SupabaseLoader.due_date_leb. apply date_le_trans. Qed.

Lemma expected_conflict_spec (new old : ExpectedRow) :
  expected_conflict new old = true <->
  e_project_id new = e_project_id old /\ e_unit_number new = e_unit_number old /\
  e_due_date new = e_due_date old /\ e_schedule_type new = e_schedule_type old.
Proof.
  unfold expected_conflict.
  rewrite !andb_true_iff, !String.eqb_eq, date_eqb_spec.
  assert (Ho : option_nat_eqb (e_project_id new) (e_project_id old) = true <->
               e_project_id new = e_project_id old).
  { destruct (e_project_id new), (e_project_id old); simpl;
      rewrite ?Nat.eqb_eq; split; congruence. }
  rewrite Ho. tauto.
Qed.

Lemma expected_conflict_compat (q new old : ExpectedRow) :
  expected_conflict new old = true -> expected_conflict q new = expected_conflict q old.
Proof.
  intros H. apply expected_conflict_spec in H. destruct H as (H1 & H2 & H3 & H4).
  unfold expected_conflict. now rewrite H1, H2, H3, H4.
Qed.

Lemma expected_conflict_refl (r : ExpectedRow) : expected_conflict r r = true.
Proof. apply expected_conflict_spec. auto. Qed.

Lemma with_expected_payments_same (db : Store) :
  with_expected_payments db (expected_payments db, next_id db) = db.
Proof. now destruct db. Qed.

Lemma upsert_expected_batches (batches : list (list ExpectedRow)) :
  forall db,
    fold_left SupabaseLoader.upsert_expected_batch batches db =
    with_expected_payments db
      (fst (Table.upsert_rows expected_conflict (List.concat batches)
              (expected_payments db, next_id db))).
Proof.
  induction batches as [|b batches IH]; intros db; simpl.
  - now rewrite with_expected_payments_same.
  - rewrite IH, upsert_rows_app. unfold SupabaseLoader.upsert_expected_batch.
    destruct (Table.upsert_rows expected_conflict b (expected_payments db, next_id db))
      as [[tbl n] data]. simpl. now destruct db.
Qed.

Lemma upsert_expected_payments_whole (expected : list ParsedExpected) (self : Loader)
    (db : Store) :
  SupabaseLoader.upsert_expected_payments expected (self, db) =
  (self,
   with_expected_payments db
     (fst (Table.upsert_rows expected_conflict
             (SupabaseLoader.expected_rows (project_id self) expected)
             (expected_payments db, next_id db)))).
Proof.
  unfold SupabaseLoader.upsert_expected_payments.
  now rewrite upsert_expected_batches, _batched_concat.
Qed.

(** The rows built for a unit key carry the installment numbers 1, 2, ...
    in steps of one, as many as the key has budget records; their due dates
    ascend; they hold the due dates and amounts of the key's records; and
    they carry the project and the schedule type "budget".  A second upsert
    of the same records leaves the number of rows unchanged. *)
Lemma expected_rows_numbering :
  forall (pid : option nat) (expected : list ParsedExpected) (apto : string),
    let rows := rows_of apto (SupabaseLoader.expected_rows pid expected) in
    let records := records_of apto expected in
    map e_installment_number rows = seq 1 (List.length records) /\
    StronglySorted date_le (map e_due_date rows) /\
    Permutation (map (fun row => (e_due_date row, e_amount row)) rows)
                (map (fun r => (pe_due_date r, pe_amount r)) records) /\
    Forall (fun row => e_project_id row = pid /\ e_schedule_type row = "budget") rows /\
    (forall new old,
        expected_conflict new old = true <->
        e_project_id new = e_project_id old /\ e_unit_number new = e_unit_number old /\
        e_due_date new = e_due_date old /\ e_schedule_type new = e_schedule_type old) /\
    (forall (self : Loader) (db : Store),
        let st1 := SupabaseLoader.upsert_expected_payments expected (self, db) in
        let st2 := SupabaseLoader.upsert_expected_payments expected st1 in
        List.length (expected_payments (snd st2)) =
        List.length (expected_payments (snd st1))) /\
    (forall B : PyBuiltins,
        SupabaseLoader.expected_rows pid (Boulevard.parse_ppto budget_sheet_205) =
        [mkExpectedRow pid "205" (mkdate 2024 1 31) 100000 1 "budget";
         mkExpectedRow pid "205" (mkdate 2024 3 31) 100000 2 "budget"]).
Proof.
  intros pid expected apto rows records. subst rows records.
  unfold SupabaseLoader.expected_rows.
  rewrite rows_of_groups by apply group_by_apto_keys.
  rewrite group_by_apto_get.
  assert (Hrows :
    match records_of apto expected with
    | [] => None
    | _ :: _ => Some (records_of apto expected)
    end = match records_of apto expected with
          | [] => None
          | r :: rs => Some (r :: rs)
          end) by now destruct (records_of apto expected).
  assert (Hsame :
    match (match records_of apto expected with
           | [] => None
           | r :: rs => Some (r :: rs)
           end) with
    | Some records => SupabaseLoader.expected_rows_of pid (apto, records)
    | None => []
    end = SupabaseLoader.expected_rows_of pid (apto, records_of apto expected)).
  { now destruct (records_of apto expected). }
  rewrite Hsame. clear Hrows Hsame.
  set (records := records_of apto expected).
  unfold SupabaseLoader.expected_rows_of.
  set (ordered := Py.sorted SupabaseLoader.due_date_leb records).
  split; [|split; [|split; [|split; [|split; [|split]]]]].
  - rewrite map_map. simpl.
    change (fun x : nat * ParsedExpected => fst x) with (@fst nat ParsedExpected).
    rewrite map_fst_enumerate_from. subst ordered. now rewrite sorted_length.
  - rewrite map_map. simpl.
    rewrite <- (map_map snd pe_due_date), map_snd_enumerate_from.
    apply (StronglySorted_map (fun a b => SupabaseLoader.due_date_leb a b = true)
             date_le pe_due_date).
    + intros a b H. exact H.
    + apply sorted_sorted; [apply due_date_leb_total | apply due_date_leb_trans].
  - rewrite map_map. simpl.
    rewrite <- (map_map snd (fun r => (pe_due_date r, pe_amount r))),
      map_snd_enumerate_from.
    apply Permutation_map, sorted_perm.
  - apply Forall_map, Forall_forall. intros ir _. simpl. auto.
  - apply expected_conflict_spec.
  - intros self db. cbv zeta.
    rewrite (upsert_expected_payments_whole expected self db).
    rewrite upsert_expected_payments_whole. simpl.
    set (rs := SupabaseLoader.expected_rows (project_id self) expected).
    set (st := (expected_payments db, next_id db)).
    pose proof (upsert_rows_found ExpectedRow expected_conflict expected_conflict_compat
                  rs (proj2 (Forall_forall _ _) (fun r _ => expected_conflict_refl r)) st)
      as Hfound.
    assert (Hpresent :
      Forall (fun r => Table.find_conflict expected_conflict r
                         (fst (fst (Table.upsert_rows expected_conflict rs st))) <> None)
             (map snd (snd (Table.upsert_rows expected_conflict rs st)))).
    { apply Forall_map. eapply Forall_impl; [|exact Hfound].
      intros x Hx. rewrite Hx. discriminate. }
    rewrite upsert_rows_data in Hpresent.
    destruct (upsert_rows_present ExpectedRow expected_conflict expected_conflict_compat
                (fun _ => tt) rs (fun _ _ _ _ => eq_refl)
                (fst (Table.upsert_rows expected_conflict rs st))) as [Hlen _].
    + exact Hpresent.
    + destruct (Table.upsert_rows expected_conflict rs st) as [[tbl n] data].
      simpl in *. exact Hlen.
  - intros B. vm_compute. reflexivity.
Qed.

(* ------------------------------------------------------------------------- *)
(** ** Validation *)
(* ------------------------------------------------------------------------- *)

Lemma mem_str_In (x : string) (l : list string) : mem_str x l = true <-> In x l.
Proof.
  unfold mem_str. rewrite existsb_exists. split.
  - intros [y [Hin Heq]]. apply String.eqb_eq in Heq. now subst.
  - intros Hin. exists x. split; [assumption | apply String.eqb_refl].
Qed.

Lemma to_set_In (x : string) (l : list string) : In x (to_set l) <-> In x l.
Proof.
  induction l as [|y l IH]; simpl; [tauto|].
  destruct (mem_str y l) eqn:Hm.
  - apply mem_str_In in Hm. rewrite IH. split; [tauto|].
    intros [<- | H]; assumption.
  - simpl. rewrite IH. tauto.
Qed.

Lemma nonempty_length {A : Type} (l : list A) : (0 <? List.length l) = true <-> l <> [].
Proof.
  destruct l; simpl; split; try discriminate; try congruence; reflexivity.
Qed.

Lemma filter_nonempty {A : Type} (f : A -> bool) (l : list A) :
  filter f l <> [] <-> exists x, In x l /\ f x = true.
Proof.
  split.
  - intros H. destruct (filter f l) as [|x rest] eqn:E; [congruence|].
    exists x. apply filter_In. rewrite E. now left.
  - intros [x Hx] E. apply filter_In in Hx. rewrite E in Hx. contradiction.
Qed.

Lemma flat_map_nonempty {A C : Type} (f : A -> list C) (l : list A) :
  flat_map f l <> [] <-> exists x, In x l /\ f x <> [].
Proof.
  induction l as [|y l IH]; simpl.
  - split; [congruence | intros [x [[] _]]].
  - split.
    + intros H. destruct (f y) as [|c cs] eqn:E.
      * simpl in H. apply IH in H. destruct H as [x [Hin Hx]]. exists x. auto.
      * exists y. split; [now left | congruence].
    + intros [x [[<- | Hin] Hx]] E; apply app_eq_nil in E; destruct E as [E1 E2].
      * contradiction.
      * apply (proj2 IH); [exists x; auto | assumption].
Qed.

Lemma when_nonempty_nil {A F : Type} (xs : list A) (f : list A -> F) :
  when_nonempty xs f = [] <-> xs = [].
Proof. destruct xs; simpl; split; congruence. Qed.

(** The errors of a report: what both [validate] functions compute. *)
Lemma fatal_findings (table : Py.dict string UnitStatus) (U : Type)
    (apto : U -> string) (estatus_raw : U -> option string) (main_units : list U) :
  let main_aptos := map apto main_units in
  when_nonempty (filter (fun a => 1 <? count_str a main_aptos) (to_set main_aptos))
                DuplicateApto ++
  flat_map (fun u => match estatus_raw u with
                     | Some raw =>
                         if negb (String.eqb raw "") &&
                            negb (Py.mem String.eqb table (Py.lower (Py.strip raw)))
                         then [UnknownStatus (apto u) raw] else []
                     | None => []
                     end) main_units <> [] <->
  duplicate_key main_aptos \/
  exists u, In u main_units /\ unknown_status table (estatus_raw u).
Proof.
  intros main_aptos. split.
  - intros H.
    destruct (when_nonempty _ DuplicateApto) eqn:E1.
    + right. simpl in H. apply flat_map_nonempty in H.
      destruct H as [u [Hin Hu]]. exists u. split; [assumption|].
      destruct (estatus_raw u) as [raw|]; [|congruence].
      exists raw. split; [reflexivity|].
      destruct (String.eqb raw "") eqn:Hr; simpl in Hu; [congruence|].
      destruct (Py.mem String.eqb table (Py.lower (Py.strip raw))); simpl in Hu;
        [congruence|].
      split; [now apply String.eqb_neq | reflexivity].
    + left. assert (Hd : filter (fun a => 1 <? count_str a main_aptos)
                                (to_set main_aptos) <> []).
      { intros Hn. apply (proj2 (when_nonempty_nil _ DuplicateApto)) in Hn. congruence. }
      apply filter_nonempty in Hd. destruct Hd as [a [Hin Hc]].
      exists a. split; [now apply to_set_In | now apply Nat.ltb_lt].
  - intros [[a [Hin Hc]] | [u [Hin [raw [Hraw [Hne Hmem]]]]]] E;
      apply app_eq_nil in E; destruct E as [E1 E2].
    + apply when_nonempty_nil in E1. revert E1. apply filter_nonempty.
      exists a. split; [now apply to_set_In | now apply Nat.ltb_lt].
    + revert E2. apply flat_map_nonempty. exists u. split; [assumption|].
      rewrite Hraw, Hmem. apply String.eqb_neq in Hne. rewrite Hne. simpl. congruence.
Qed.

Lemma boulevard_has_errors (main_units desist_units prob_desist : list Boulevard.ParsedUnit)
    (expected : list ParsedExpected) :
  has_errors (Boulevard.validate main_units desist_units prob_desist expected) = true <->
  duplicate_key (map Boulevard.apto main_units) \/
  exists u, In u main_units /\
            unknown_status Boulevard.STATUS_TO_UNIT_STATUS (Boulevard.estatus_raw u).
Proof.
  unfold has_errors, Boulevard.validate. cbn [errors].
  rewrite nonempty_length. apply fatal_findings.
Qed.

Lemma santa_elisa_has_errors (main_units desist_units devol_units : list SantaElisa.ParsedUnit)
    (expected : list ParsedExpected) :
  has_errors (SantaElisa.validate main_units desist_units devol_units expected) = true <->
  duplicate_key (map SantaElisa.apto main_units) \/
  exists u, In u main_units /\
            unknown_status SantaElisa.STATUS_TO_UNIT_STATUS (SantaElisa.estatus_raw u).
Proof.
  unfold has_errors, SantaElisa.validate. cbn [errors].
  rewrite nonempty_length. apply fatal_findings.
Qed.

(** C7. Validation gating.  In both scripts: the report has errors exactly
    when a unit key is duplicated in MAIN or a MAIN record has a non-empty
    status text that is not in the status table; when it has errors, [main]
    returns exit status 1 and leaves the store as it was, in dry-run and in
    execute mode; when it has none, whatever its warnings, a dry run returns
    0 without writing and an execute run with both credentials returns 0
    and leaves the store written by the load.  On the sample workbook, whose
    report has warnings only, the execute run writes; with an unrecognised
    status in MAIN it returns 1 and writes nothing. *)
Theorem validation_gating :
  forall (B : PyBuiltins) (ws_actuals ws_ppto : Worksheet) (env : Environ) (db : Store),
    (let '(main_units, desist_units, prob_desist, expected) :=
       Boulevard.parse_workbook ws_actuals ws_ppto in
     let report := Boulevard.validate main_units desist_units prob_desist expected in
     (has_errors report = true <->
      duplicate_key (map Boulevard.apto main_units) \/
      exists u, In u main_units /\
                unknown_status Boulevard.STATUS_TO_UNIT_STATUS (Boulevard.estatus_raw u)) /\
     (has_errors report = true ->
      forall execute,
        Boulevard.main (boulevard_args ws_actuals ws_ppto execute) env db = (1, db)) /\
     (has_errors report = false ->
      Boulevard.main (boulevard_args ws_actuals ws_ppto false) env db = (0, db) /\
      (Py.truthy_str (SUPABASE_URL env) = true ->
       Py.truthy_str (SUPABASE_KEY env) = true ->
       Boulevard.main (boulevard_args ws_actuals ws_ppto true) env db =
       (0, snd (Boulevard.load main_units desist_units prob_desist expected db))))) /\
    (let '(main_units, desist_units, devol_units, expected) :=
       SantaElisa.parse_workbook ws_actuals ws_ppto in
     let report := SantaElisa.validate main_units desist_units devol_units expected in
     (has_errors report = true <->
      duplicate_key (map SantaElisa.apto main_units) \/
      exists u, In u main_units /\
                unknown_status SantaElisa.STATUS_TO_UNIT_STATUS (SantaElisa.estatus_raw u)) /\
     (has_errors report = true ->
      forall execute,
        SantaElisa.main (santa_elisa_args ws_actuals ws_ppto execute) env db = (1, db)) /\
     (has_errors report = false ->
      SantaElisa.main (santa_elisa_args ws_actuals ws_ppto false) env db = (0, db) /\
      (Py.truthy_str (SUPABASE_URL env) = true ->
       Py.truthy_str (SUPABASE_KEY env) = true ->
       SantaElisa.main (santa_elisa_args ws_actuals ws_ppto true) env db =
       (0, snd (SantaElisa.load main_units desist_units devol_units expected db))))) /\
    (let '(main_units, desist_units, prob_desist, expected) :=
       Boulevard.parse_workbook boulevard_actuals_sheet budget_sheet_205 in
     warnings (Boulevard.validate main_units desist_units prob_desist expected) <> [] /\
     errors (Boulevard.validate main_units desist_units prob_desist expected) = []) /\
    fst (Boulevard.main (boulevard_args boulevard_actuals_sheet budget_sheet_205 true)
           sample_environ empty_store) = 0 /\
    List.length (units (snd (Boulevard.main
                   (boulevard_args boulevard_actuals_sheet budget_sheet_205 true)
                   sample_environ empty_store))) = 1 /\
    Boulevard.main (boulevard_args boulevard_actuals_sheet_bad_status budget_sheet_205 true)
      sample_environ empty_store = (1, empty_store).
Proof.
  intros B ws_actuals ws_ppto env db.
  split; [|split; [|split; [|split; [|split]]]].
  - unfold Boulevard.main, boulevard_args. cbn [file_exists workbook execute negb].
    change (String.eqb Boulevard.SHEET_ACTUALS Boulevard.SHEET_ACTUALS) with true.
    change (String.eqb Boulevard.SHEET_BUDGET Boulevard.SHEET_ACTUALS) with false.
    change (String.eqb Boulevard.SHEET_BUDGET Boulevard.SHEET_BUDGET) with true.
    cbv iota.
    destruct (Boulevard.parse_workbook ws_actuals ws_ppto)
      as [[[main_units desist_units] prob_desist] expected].
    split; [apply boulevard_has_errors|]. split.
    + intros He execute. now rewrite He.
    + intros He. rewrite He. split; [reflexivity|].
      intros Hu Hk. now rewrite Hu, Hk.
  - unfold SantaElisa.main, santa_elisa_args. cbn [file_exists workbook execute negb].
    change (String.eqb SantaElisa.SHEET_ACTUALS SantaElisa.SHEET_ACTUALS) with true.
    change (String.eqb SantaElisa.SHEET_BUDGET SantaElisa.SHEET_ACTUALS) with false.
    change (String.eqb SantaElisa.SHEET_BUDGET SantaElisa.SHEET_BUDGET) with true.
    cbv iota.
    destruct (SantaElisa.parse_workbook ws_actuals ws_ppto)
      as [[[main_units desist_units] devol_units] expected].
    split; [apply santa_elisa_has_errors|]. split.
    + intros He execute. now rewrite He.
    + intros He. rewrite He. split; [reflexivity|].
      intros Hu Hk. now rewrite Hu, Hk.
  - vm_compute. split; [discriminate | reflexivity].
  - vm_compute. reflexivity.
  - vm_compute. reflexivity.
  - vm_compute. reflexivity.
Qed.

(* ------------------------------------------------------------------------- *)
(** ** Dictionaries *)
(* ------------------------------------------------------------------------- *)

Section DictFacts.
Variables K V : Type.
Variable eqb : K -> K -> bool.
Hypothesis eqb_spec : forall a b, eqb a b = true <-> a = b.

Lemma get_set (d : Py.dict K V) (k : K) (v : V) (q : K) :
  Py.get eqb (Py.set eqb d k v) q = if eqb q k then Some v else Py.get eqb d q.
Proof.
  induction d as [|[k' v'] d IH]; simpl; [reflexivity|].
  destruct (eqb k k') eqn:Hk; simpl.
  - apply eqb_spec in Hk. subst k'. now destruct (eqb q k).
  - rewrite IH. destruct (eqb q k') eqn:Hq; [|reflexivity].
    destruct (eqb q k) eqn:Hqk; [|reflexivity].
    apply eqb_spec in Hq, Hqk. subst.
    assert (eqb k' k' = true) by now apply eqb_spec. congruence.
Qed.

(** A loop of assignments [d[key x] = value x]. *)
Lemma get_fold_set {X : Type} (key : X -> K) (value : X -> V) (xs : list X) (q : K) :
  forall d,
    Py.get eqb (fold_left (fun d x => Py.set eqb d (key x) (value x)) xs d) q <> None <->
    Py.get eqb d q <> None \/ In q (map key xs).
Proof.
  induction xs as [|x xs IH]; intros d; simpl; [tauto|].
  rewrite IH, get_set. destruct (eqb q (key x)) eqn:Hq.
  - apply eqb_spec in Hq. subst. split; [auto | intros _; left; discriminate].
  - split; [tauto|]. intros [H | [H | H]]; auto.
    subst q. assert (eqb (key x) (key x) = true) by now apply eqb_spec. congruence.
Qed.
End DictFacts.

Lemma nat_eqb_spec (a b : nat) : Nat.eqb a b = true <-> a = b.
Proof. apply Nat.eqb_eq. Qed.

Lemma string_eqb_spec (a b : string) : String.eqb a b = true <-> a = b.
Proof. apply String.eqb_eq. Qed.

(* ------------------------------------------------------------------------- *)
(** ** Conflict keys *)
(* ------------------------------------------------------------------------- *)

Lemma option_nat_eqb_spec (a b : option nat) : option_nat_eqb a b = true <-> a = b.
Proof.
  destruct a, b; simpl; rewrite ?Nat.eqb_eq; split; congruence.
Qed.

Lemma project_conflict_compat (q new old : ProjectRow) :
  project_conflict new old = true -> project_conflict q new = project_conflict q old.
Proof.
  unfold project_conflict. intros H. apply String.eqb_eq in H. now rewrite H.
Qed.

Lemma project_conflict_refl (r : ProjectRow) : project_conflict r r = true.
Proof. apply String.eqb_refl. Qed.

Lemma unit_conflict_compat (q new old : UnitRow) :
  unit_conflict new old = true -> unit_conflict q new = unit_conflict q old.
Proof.
  unfold unit_conflict. intros H. apply andb_true_iff in H. destruct H as [H1 H2].
  apply option_nat_eqb_spec in H1. apply String.eqb_eq in H2. now rewrite H1, H2.
Qed.

Lemma unit_conflict_refl (r : UnitRow) : unit_conflict r r = true.
Proof.
  unfold unit_conflict. apply andb_true_iff. split.
  - now apply option_nat_eqb_spec.
  - apply String.eqb_refl.
Qed.

Lemma client_conflict_compat (q new old : ClientRow) :
  client_conflict new old = true -> client_conflict q new = client_conflict q old.
Proof.
  unfold client_conflict. intros H. apply String.eqb_eq in H. now rewrite H.
Qed.

Lemma client_conflict_refl (r : ClientRow) : client_conflict r r = true.
Proof. apply String.eqb_refl. Qed.

Lemma sale_status_eqb_spec (a b : SaleStatus) : sale_status_eqb a b = true <-> a = b.
Proof. destruct a, b; simpl; split; congruence. Qed.

Lemma sale_conflict_compat (q new old : SaleRow) :
  sale_conflict new old = true -> sale_conflict q new = sale_conflict q old.
Proof.
  unfold sale_conflict. intros H.
  apply andb_true_iff in H. destruct H as [H H3].
  apply andb_true_iff in H. destruct H as [H1 H2].
  apply Nat.eqb_eq in H3. now rewrite H1, H2, H3.
Qed.

Lemma sale_conflict_active (new old : SaleRow) :
  sale_conflict new old = true -> s_status new = active /\ s_status old = active.
Proof.
  unfold sale_conflict. intros H.
  apply andb_true_iff in H. destruct H as [H H3].
  apply andb_true_iff in H. destruct H as [H1 H2].
  split; now apply sale_status_eqb_spec.
Qed.

Lemma sale_conflict_refl (r : SaleRow) : s_status r = active -> sale_conflict r r = true.
Proof.
  unfold sale_conflict. intros ->. simpl. apply Nat.eqb_refl.
Qed.

(* ------------------------------------------------------------------------- *)
(** ** Store fields *)
(* ------------------------------------------------------------------------- *)

Lemma with_units_same (db : Store) : with_units db (units db, next_id db) = db.
Proof. now destruct db. Qed.

Lemma with_clients_same (db : Store) : with_clients db (clients db, next_id db) = db.
Proof. now destruct db. Qed.

Lemma with_sales_same (db : Store) : with_sales db (sales db, next_id db) = db.
Proof. now destruct db. Qed.

Lemma with_payments_same (db : Store) : with_payments db (payments db, next_id db) = db.
Proof. now destruct db. Qed.

(* ------------------------------------------------------------------------- *)
(** ** The phases of the write sequence *)
(* ------------------------------------------------------------------------- *)

Lemma record_unit_ids_app (self : Loader) (a b : list (nat * UnitRow)) :
  SupabaseLoader.record_unit_ids self (a ++ b) =
  SupabaseLoader.record_unit_ids (SupabaseLoader.record_unit_ids self a) b.
Proof. unfold SupabaseLoader.record_unit_ids. apply fold_left_app. Qed.

Lemma record_client_ids_app (self : Loader) (a b : list (nat * ClientRow)) :
  SupabaseLoader.record_client_ids self (a ++ b) =
  SupabaseLoader.record_client_ids (SupabaseLoader.record_client_ids self a) b.
Proof. unfold SupabaseLoader.record_client_ids. apply fold_left_app. Qed.

Lemma upsert_units_batch_eq (self : Loader) (db : Store) (batch : list UnitRow) :
  SupabaseLoader.upsert_units_batch (self, db) batch =
  (SupabaseLoader.record_unit_ids self
     (snd (Table.upsert_rows unit_conflict batch (units db, next_id db))),
   with_units db (fst (Table.upsert_rows unit_conflict batch (units db, next_id db)))).
Proof.
  unfold SupabaseLoader.upsert_units_batch.
  now destruct (Table.upsert_rows unit_conflict batch (units db, next_id db)).
Qed.

Lemma upsert_clients_batch_eq (self : Loader) (db : Store) (batch : list ClientRow) :
  SupabaseLoader.upsert_clients_batch (self, db) batch =
  (SupabaseLoader.record_client_ids self
     (snd (Table.upsert_rows client_conflict batch (clients db, next_id db))),
   with_clients db (fst (Table.upsert_rows client_conflict batch (clients db, next_id db)))).
Proof.
  unfold SupabaseLoader.upsert_clients_batch.
  now destruct (Table.upsert_rows client_conflict batch (clients db, next_id db)).
Qed.

(** The batches of [upsert_units] amount to one upsert of all the rows. *)
Lemma upsert_units_batches (batches : list (list UnitRow)) :
  forall self db,
    fold_left SupabaseLoader.upsert_units_batch batches (self, db) =
    (SupabaseLoader.record_unit_ids self
       (snd (Table.upsert_rows unit_conflict (List.concat batches) (units db, next_id db))),
     with_units db
       (fst (Table.upsert_rows unit_conflict (List.concat batches) (units db, next_id db)))).
Proof.
  induction batches as [|b batches IH]; intros self db.
  - simpl. now rewrite with_units_same.
  - cbn [fold_left List.concat].
    rewrite upsert_units_batch_eq, IH, upsert_rows_app.
    destruct (Table.upsert_rows unit_conflict b (units db, next_id db))
      as [[tbl n] data].
    simpl. rewrite record_unit_ids_app. now destruct db.
Qed.

Lemma upsert_units_whole (U : Type) (unit_row : option nat -> U -> UnitRow)
    (main_units : list U) (self : Loader) (db : Store) :
  SupabaseLoader.upsert_units unit_row main_units (self, db) =
  (SupabaseLoader.record_unit_ids self
     (snd (Table.upsert_rows unit_conflict (map (unit_row (project_id self)) main_units)
             (units db, next_id db))),
   with_units db
     (fst (Table.upsert_rows unit_conflict (map (unit_row (project_id self)) main_units)
             (units db, next_id db)))).
Proof.
  unfold SupabaseLoader.upsert_units. simpl.
  now rewrite upsert_units_batches, _batched_concat.
Qed.

Lemma upsert_clients_batches (batches : list (list ClientRow)) :
  forall self db,
    fold_left SupabaseLoader.upsert_clients_batch batches (self, db) =
    (SupabaseLoader.record_client_ids self
       (snd (Table.upsert_rows client_conflict (List.concat batches)
               (clients db, next_id db))),
     with_clients db
       (fst (Table.upsert_rows client_conflict (List.concat batches)
               (clients db, next_id db)))).
Proof.
  induction batches as [|b batches IH]; intros self db.
  - simpl. now rewrite with_clients_same.
  - cbn [fold_left List.concat].
    rewrite upsert_clients_batch_eq, IH, upsert_rows_app.
    destruct (Table.upsert_rows client_conflict b (clients db, next_id db))
      as [[tbl n] data].
    simpl. rewrite record_client_ids_app. now destruct db.
Qed.

Lemma upsert_clients_whole (U : Type) (cliente : U -> option string)
    (all_units : list U) (self : Loader) (db : Store) :
  SupabaseLoader.upsert_clients cliente all_units (self, db) =
  (SupabaseLoader.record_client_ids self
     (snd (Table.upsert_rows client_conflict
             (map mkClientRow (Py.values (SupabaseLoader.unique_clients cliente all_units)))
             (clients db, next_id db))),
   with_clients db
     (fst (Table.upsert_rows client_conflict
             (map mkClientRow (Py.values (SupabaseLoader.unique_clients cliente all_units)))
             (clients db, next_id db)))).
Proof.
  unfold SupabaseLoader.upsert_clients.
  now rewrite upsert_clients_batches, _batched_concat.
Qed.

(** What the loops over returned rows leave of the loader. *)
Lemma record_unit_ids_fields (data : list (nat * UnitRow)) :
  forall self,
    project_id (SupabaseLoader.record_unit_ids self data) = project_id self /\
    client_ids (SupabaseLoader.record_unit_ids self data) = client_ids self /\
    _sale_ids (SupabaseLoader.record_unit_ids self data) = _sale_ids self /\
    unit_ids (SupabaseLoader.record_unit_ids self data) =
    fold_left (fun d row => Py.set String.eqb d (ur_unit_number (snd row)) (fst row))
              data (unit_ids self).
Proof.
  unfold SupabaseLoader.record_unit_ids.
  induction data as [|row data IH]; intros self; simpl; [auto|].
  destruct (IH (set_unit_id self (ur_unit_number (snd row)) (fst row)))
    as (H1 & H2 & H3 & H4).
  rewrite H1, H2, H3, H4. auto.
Qed.

Lemma record_client_ids_fields (data : list (nat * ClientRow)) :
  forall self,
    project_id (SupabaseLoader.record_client_ids self data) = project_id self /\
    unit_ids (SupabaseLoader.record_client_ids self data) = unit_ids self /\
    _sale_ids (SupabaseLoader.record_client_ids self data) = _sale_ids self.
Proof.
  unfold SupabaseLoader.record_client_ids.
  induction data as [|row data IH]; intros self; simpl; [auto|].
  destruct (IH (set_client_id self (cr_full_name (snd row)) (fst row)))
    as (H1 & H2 & H3).
  rewrite H1, H2, H3. auto.
Qed.

(** *** Payments *)

Lemma insert_rows_length {P : Type} (rows : list P) :
  forall st : Table.t P * nat,
    List.length (fst (fst (Table.insert_rows rows st))) =
    List.length (fst st) + List.length rows.
Proof.
  induction rows as [|r rows IH]; intros [tbl n]; simpl; [lia|].
  specialize (IH (tbl ++ [(n, r)], S n)).
  destruct (Table.insert_rows rows (tbl ++ [(n, r)], S n)) as [st2 xs].
  simpl in *. rewrite IH, length_app. simpl. lia.
Qed.

Lemma insert_payments_batches (batches : list (list PaymentRow)) :
  forall db,
    let db' := fold_left SupabaseLoader.insert_payments_batch batches db in
    List.length (payments db') = List.length (payments db) + List.length (List.concat batches) /\
    projects db' = projects db /\ units db' = units db /\ clients db' = clients db /\
    sales db' = sales db.
Proof.
  induction batches as [|b batches IH]; intros db; simpl; [repeat split; lia|].
  destruct (IH (SupabaseLoader.insert_payments_batch db b)) as (H1 & H2 & H3 & H4 & H5).
  rewrite H1, H2, H3, H4, H5. unfold SupabaseLoader.insert_payments_batch. simpl.
  rewrite insert_rows_length, length_app. simpl. repeat split; lia.
Qed.

(* ------------------------------------------------------------------------- *)
(** ** The sales phase *)
(* ------------------------------------------------------------------------- *)

Lemma get_sale_id_set (self : Loader) (k i q : nat) :
  get_sale_id (set_sale_id self k i) q = if q =? k then Some i else get_sale_id self q.
Proof. unfold get_sale_id, set_sale_id. simpl. apply get_set, nat_eqb_spec. Qed.

Lemma returned_ids_key (data : list (nat * SaleRow)) (k : nat) :
  Py.get Nat.eqb (SupabaseLoader.returned_ids data) k <> None <->
  In k (map (fun r => s_unit_id (snd r)) data).
Proof.
  unfold SupabaseLoader.returned_ids.
  rewrite (get_fold_set nat nat Nat.eqb nat_eqb_spec
             (fun r : nat * SaleRow => s_unit_id (snd r)) fst data k []).
  simpl. tauto.
Qed.

Section SalesPhase.
Variable U : Type.
Variable apto : U -> string.

Local Abbreviation row := (@SupabaseLoader.prepared_row U).
Local Abbreviation unit_of := (@SupabaseLoader.prepared_unit U).
Local Abbreviation index := (@SupabaseLoader.prepared_index U).

Lemma map_active_ids_facts (returned : Py.dict nat nat)
    (batch_units : list (SupabaseLoader.Prepared U)) :
  forall self,
    let self' := SupabaseLoader.map_active_ids apto returned self batch_units in
    project_id self' = project_id self /\
    unit_ids self' = unit_ids self /\
    client_ids self' = client_ids self /\
    (forall x uid,
        In x batch_units ->
        Py.get String.eqb (unit_ids self) (apto (unit_of x)) = Some uid ->
        Py.get Nat.eqb returned uid <> None ->
        get_sale_id self' (index x) <> None) /\
    (forall i, get_sale_id self' i <> None ->
               get_sale_id self i <> None \/ In i (map index batch_units)) /\
    (forall i, get_sale_id self i <> None -> get_sale_id self' i <> None).
Proof.
  unfold SupabaseLoader.map_active_ids.
  induction batch_units as [|x xs IH]; intros self; cbn [fold_left].
  - repeat split; auto; intros x uid [].
  - set (self1 :=
           match Py.get String.eqb (unit_ids self) (apto (unit_of x)) with
           | Some unit_id =>
               match Py.get Nat.eqb returned unit_id with
               | Some sale_id => set_sale_id self (index x) sale_id
               | None => self
               end
           | None => self
           end).
    assert (Hf : project_id self1 = project_id self /\
                 unit_ids self1 = unit_ids self /\
                 client_ids self1 = client_ids self).
    { subst self1.
      destruct (Py.get String.eqb (unit_ids self) (apto (unit_of x))) as [uid|]; auto.
      destruct (Py.get Nat.eqb returned uid); auto. }
    assert (Hmono : forall i, get_sale_id self i <> None -> get_sale_id self1 i <> None).
    { subst self1. intros i Hi.
      destruct (Py.get String.eqb (unit_ids self) (apto (unit_of x))) as [uid|]; auto.
      destruct (Py.get Nat.eqb returned uid); auto.
      rewrite get_sale_id_set. destruct (i =? index x); [discriminate | assumption]. }
    assert (Hdom : forall i, get_sale_id self1 i <> None ->
                             get_sale_id self i <> None \/ i = index x).
    { subst self1. intros i Hi.
      destruct (Py.get String.eqb (unit_ids self) (apto (unit_of x))) as [uid|]; auto.
      destruct (Py.get Nat.eqb returned uid); auto.
      rewrite get_sale_id_set in Hi. destruct (i =? index x) eqn:E; auto.
      right. now apply Nat.eqb_eq. }
    destruct Hf as (Hp & Hu & Hc).
    destruct (IH self1) as (I1 & I2 & I3 & I4 & I5 & I6).
    split; [congruence|]. split; [congruence|]. split; [congruence|].
    split; [|split].
    + intros y uid [<- | Hin] Hget Hret.
      * apply I6. subst self1. rewrite Hget.
        destruct (Py.get Nat.eqb returned uid) as [sid|]; [|contradiction].
        rewrite get_sale_id_set, Nat.eqb_refl. discriminate.
      * apply (I4 y uid Hin); [now rewrite Hu | assumption].
    + intros i Hi. apply I5 in Hi. destruct Hi as [Hi | Hi].
      * apply Hdom in Hi. destruct Hi as [Hi | ->]; [now left | right; now left].
      * right. now right.
    + intros i Hi. apply I6, Hmono, Hi.
Qed.

Lemma insert_sales_active_batch_eq (self : Loader) (db : Store)
    (batch_units : list (SupabaseLoader.Prepared U)) (batch_rows : list SaleRow) :
  SupabaseLoader.insert_sales_active_batch apto (self, db) (batch_units, batch_rows) =
  (SupabaseLoader.map_active_ids apto
     (SupabaseLoader.returned_ids
        (snd (Table.upsert_rows sale_conflict batch_rows (sales db, next_id db))))
     self batch_units,
   with_sales db (fst (Table.upsert_rows sale_conflict batch_rows (sales db, next_id db)))).
Proof.
  unfold SupabaseLoader.insert_sales_active_batch.
  now destruct (Table.upsert_rows sale_conflict batch_rows (sales db, next_id db)).
Qed.

(** The batches of active sales: the table is that of one upsert of all the
    rows; every record whose unit identifier is known gets a sale
    identifier, and no other record gets one. *)
Lemma insert_sales_active_batches (batches : list (list (SupabaseLoader.Prepared U))) :
  forall self db,
    let res := fold_left (SupabaseLoader.insert_sales_active_batch apto)
                 (map (fun b => (b, map row b)) batches) (self, db) in
    snd res =
      with_sales db
        (fst (Table.upsert_rows sale_conflict (map row (List.concat batches))
                (sales db, next_id db))) /\
    project_id (fst res) = project_id self /\
    unit_ids (fst res) = unit_ids self /\
    client_ids (fst res) = client_ids self /\
    (forall x, In x (List.concat batches) ->
               Py.get String.eqb (unit_ids self) (apto (unit_of x))
               = Some (s_unit_id (row x)) ->
               get_sale_id (fst res) (index x) <> None) /\
    (forall i, get_sale_id (fst res) i <> None ->
               get_sale_id self i <> None \/ In i (map index (List.concat batches))) /\
    (forall i, get_sale_id self i <> None -> get_sale_id (fst res) i <> None).
Proof.
  induction batches as [|b batches IH]; intros self db.
  - simpl. rewrite with_sales_same. repeat split; auto; intros x [].
  - cbn [map fold_left List.concat]. rewrite insert_sales_active_batch_eq.
    set (R := Table.upsert_rows sale_conflict (map row b) (sales db, next_id db)).
    set (self1 := SupabaseLoader.map_active_ids apto
                    (SupabaseLoader.returned_ids (snd R)) self b).
    destruct (map_active_ids_facts (SupabaseLoader.returned_ids (snd R)) b self)
      as (M1 & M2 & M3 & M4 & M5 & M6). fold self1 in M1, M2, M3, M4, M5, M6.
    destruct (IH self1 (with_sales db (fst R))) as (I0 & I1 & I2 & I3 & I4 & I5 & I6).
    split; [|split; [congruence|split; [congruence|split; [congruence|split; [|split]]]]].
    + rewrite I0, map_app, upsert_rows_app. fold R.
      destruct R as [[tbl n] data]. simpl. now destruct db.
    + intros x Hin Hget. apply in_app_or in Hin. destruct Hin as [Hin | Hin].
      * apply I6. apply (M4 x (s_unit_id (row x)) Hin Hget).
        apply returned_ids_key. subst R.
        rewrite <- (map_map snd s_unit_id), upsert_rows_data.
        apply in_map_iff. exists (row x). split; [reflexivity|].
        now apply in_map.
      * apply I4; [assumption | now rewrite M2].
    + intros i Hi. apply I5 in Hi. rewrite map_app, in_app_iff.
      destruct Hi as [Hi | Hi]; [|tauto].
      apply M5 in Hi. tauto.
    + intros i Hi. apply I6, M6, Hi.
Qed.

(** *** Cancelled sales: read before write *)

Lemma select_nonempty (pred : SaleRow -> bool) (tbl : Table.t SaleRow) :
  firstn 1 (Table.select pred tbl) <> [] <->
  exists e, In e tbl /\ pred (snd e) = true.
Proof.
  unfold Table.select. split.
  - intros H. destruct (filter _ tbl) as [|e rest] eqn:E; [now simpl in H|].
    exists e. apply (filter_In (fun r => pred (snd r))). rewrite E. now left.
  - intros [e He] H.
    apply (filter_In (fun r => pred (snd r))) in He.
    destruct (filter _ tbl); [contradiction | discriminate].
Qed.

Lemma insert_sales_cancelled_fold (cancelled_units : list (SupabaseLoader.Prepared U)) :
  Forall (fun x => s_status (row x) = cancelled) cancelled_units ->
  forall self db,
    let res := fold_left (@SupabaseLoader.insert_sales_cancelled_step U)
                 cancelled_units (self, db) in
    (project_id (fst res) = project_id self /\
     unit_ids (fst res) = unit_ids self /\
     client_ids (fst res) = client_ids self) /\
    (projects (snd res) = projects db /\ units (snd res) = units db /\
     clients (snd res) = clients db /\ payments (snd res) = payments db) /\
    (forall x, In x cancelled_units -> get_sale_id (fst res) (index x) <> None) /\
    (forall i, get_sale_id (fst res) i <> None ->
               get_sale_id self i <> None \/ In i (map index cancelled_units)) /\
    (forall i, get_sale_id self i <> None -> get_sale_id (fst res) i <> None) /\
    (exists inserted,
        sales (snd res) = sales db ++ inserted /\
        Forall (fun e => s_status (snd e) = cancelled) inserted) /\
    (forall x, In x cancelled_units ->
               exists e, In e (sales (snd res)) /\
                         SupabaseLoader.is_cancelled_sale_of (row x) (snd e) = true) /\
    ((forall x, In x cancelled_units ->
                exists e, In e (sales db) /\
                          SupabaseLoader.is_cancelled_sale_of (row x) (snd e) = true) ->
     snd res = db).
Proof.
  induction cancelled_units as [|x xs IH]; intros Hst self db.
  - simpl. repeat split; auto; try (intros ? []).
    exists []. split; [now rewrite app_nil_r | constructor].
  - inversion Hst as [|? ? Hx Hxs]; subst.
    cbn [fold_left].
    set (st1 := SupabaseLoader.insert_sales_cancelled_step (self, db) x).
    assert (Hstep :
      (project_id (fst st1) = project_id self /\
       unit_ids (fst st1) = unit_ids self /\
       client_ids (fst st1) = client_ids self) /\
      (projects (snd st1) = projects db /\ units (snd st1) = units db /\
       clients (snd st1) = clients db /\ payments (snd st1) = payments db) /\
      get_sale_id (fst st1) (index x) <> None /\
      (forall i, get_sale_id (fst st1) i <> None ->
                 get_sale_id self i <> None \/ i = index x) /\
      (forall i, get_sale_id self i <> None -> get_sale_id (fst st1) i <> None) /\
      (exists inserted,
          sales (snd st1) = sales db ++ inserted /\
          Forall (fun e => s_status (snd e) = cancelled) inserted) /\
      (exists e, In e (sales (snd st1)) /\
                 SupabaseLoader.is_cancelled_sale_of (row x) (snd e) = true) /\
      ((exists e, In e (sales db) /\
                  SupabaseLoader.is_cancelled_sale_of (row x) (snd e) = true) ->
       snd st1 = db)).
    { subst st1. unfold SupabaseLoader.insert_sales_cancelled_step.
      destruct (firstn 1 (Table.select
                            (SupabaseLoader.is_cancelled_sale_of (row x)) (sales db)))
        as [|e rest] eqn:E.
      - simpl.
        split; [auto|]. split; [auto|].
        split; [rewrite get_sale_id_set, Nat.eqb_refl; discriminate|].
        split.
        { intros i Hi. rewrite get_sale_id_set in Hi.
          destruct (i =? index x) eqn:Ei; [right; now apply Nat.eqb_eq | now left]. }
        split.
        { intros i Hi. rewrite get_sale_id_set.
          destruct (i =? index x); [discriminate | assumption]. }
        split.
        { exists [(next_id db, row x)]. split; [reflexivity|].
          constructor; [exact Hx | constructor]. }
        split.
        { exists (next_id db, row x). split; [apply in_or_app; right; now left|].
          simpl. unfold SupabaseLoader.is_cancelled_sale_of.
          rewrite !Nat.eqb_refl. fold (row x). rewrite Hx. reflexivity. }
        intros Hex. exfalso.
        apply (proj2 (select_nonempty
                        (SupabaseLoader.is_cancelled_sale_of (row x)) (sales db)));
          assumption.
      - simpl.
        assert (Hin : exists e0, In e0 (sales db) /\
                        SupabaseLoader.is_cancelled_sale_of (row x) (snd e0) = true).
        { apply select_nonempty. rewrite E. discriminate. }
        split; [auto|]. split; [auto|].
        split; [rewrite get_sale_id_set, Nat.eqb_refl; discriminate|].
        split.
        { intros i Hi. rewrite get_sale_id_set in Hi.
          destruct (i =? index x) eqn:Ei; [right; now apply Nat.eqb_eq | now left]. }
        split.
        { intros i Hi. rewrite get_sale_id_set.
          destruct (i =? index x); [discriminate | assumption]. }
        split; [exists []; split; [now rewrite app_nil_r | constructor]|].
        split; [assumption | reflexivity]. }
    destruct Hstep as ((S1 & S2 & S3) & (T1 & T2 & T3 & T4) & S4 & S5 & S6 &
                       (ins1 & Hins1 & Hall1) & S7 & S8).
    destruct st1 as [self1 db1]. simpl in *.
    destruct (IH Hxs self1 db1) as ((I1 & I2 & I3) & (J1 & J2 & J3 & J4) & I4 & I5 & I6 &
                                    (ins2 & Hins2 & Hall2) & I7 & I8).
    split; [repeat split; congruence|]. split; [repeat split; congruence|].
    split; [|split; [|split; [|split; [|split]]]].
    + intros y [<- | Hin]; [apply I6, S4 | now apply I4].
    + intros i Hi. apply I5 in Hi. destruct Hi as [Hi | Hi]; [|tauto].
      apply S5 in Hi. destruct Hi as [Hi | ->]; tauto.
    + intros i Hi. apply I6, S6, Hi.
    + exists (ins1 ++ ins2). split.
      * rewrite Hins2, Hins1. now rewrite app_assoc.
      * apply Forall_app. now split.
    + intros y [<- | Hin]; [|now apply I7].
      destruct S7 as [e [He Hm]]. exists e. split; [|assumption].
      rewrite Hins2. apply in_or_app. now left.
    + intros Hall.
      assert (Hdb1 : db1 = db) by (apply S8, Hall; now left).
      subst db1. apply I8. intros y Hy. apply Hall. now right.
Qed.
End SalesPhase.

Lemma replace_payloads {P : Type} (conflict : P -> P -> bool) (new : P)
    (tbl : Table.t P) (x : nat * P) :
  In x (Table.replace_conflict conflict new tbl) -> In x tbl \/ snd x = new.
Proof.
  induction tbl as [|[i old] rest IH]; simpl; [tauto|].
  destruct (conflict new old); simpl.
  - intros [<- | Hin]; [now right | left; now right].
  - intros [<- | Hin]; [left; now left|].
    apply IH in Hin. tauto.
Qed.

Lemma upsert_row_payloads {P : Type} (conflict : P -> P -> bool) (new : P)
    (st : Table.t P * nat) (x : nat * P) :
  In x (fst (fst (Table.upsert_row conflict new st))) -> In x (fst st) \/ snd x = new.
Proof.
  destruct st as [tbl n]. unfold Table.upsert_row.
  destruct (Table.find_conflict conflict new tbl); simpl.
  - apply replace_payloads.
  - intros Hin. apply in_app_or in Hin.
    destruct Hin as [Hin | [<- | []]]; [now left | now right].
Qed.

(** The rows of a table after an upsert were there before or were sent. *)
Lemma upsert_rows_payloads {P : Type} (conflict : P -> P -> bool) (rows : list P) :
  forall (st : Table.t P * nat) (x : nat * P),
    In x (fst (fst (Table.upsert_rows conflict rows st))) ->
    In x (fst st) \/ In (snd x) rows.
Proof.
  induction rows as [|r rows IH]; intros st x; simpl; [auto|].
  pose proof (upsert_row_payloads conflict r st x) as H1.
  destruct (Table.upsert_row conflict r st) as [st1 y].
  specialize (IH st1 x).
  destruct (Table.upsert_rows conflict rows st1) as [st2 xs]. simpl in *.
  intros Hin. apply IH in Hin. destruct Hin as [Hin | Hin]; [|auto].
  apply H1 in Hin. destruct Hin as [Hin | Hin]; [now left | right; left; now symmetry].
Qed.

Lemma enumerate_from_In {A : Type} (l : list A) :
  forall start i x,
    In (i, x) (Py.enumerate_from start l) <-> start <= i /\ nth_error l (i - start) = Some x.
Proof.
  induction l as [|y l IH]; intros start i x; simpl.
  - split; [tauto | intros [_ H]]. now destruct (i - start).
  - rewrite IH. split.
    + intros [[= <- <-] | [Hle Hn]].
      * rewrite Nat.sub_diag. auto.
      * split; [lia|]. replace (i - start) with (S (i - S start)) by lia. exact Hn.
    + intros [Hle Hn]. destruct (i - start) as [|k] eqn:E.
      * left. simpl in Hn. inversion Hn. f_equal. lia.
      * right. split; [lia|]. simpl in Hn. replace (i - S start) with k by lia. exact Hn.
Qed.

Lemma enumerate_In {A : Type} (l : list A) (i : nat) (x : A) :
  In (i, x) (Py.enumerate l) <-> nth_error l i = Some x.
Proof.
  unfold Py.enumerate. rewrite enumerate_from_In, Nat.sub_0_r. split; [tauto|].
  intros H. split; [lia | assumption].
Qed.

Arguments Table.upsert_row : simpl never.
Arguments Table.upsert_rows : simpl never.

Section WriteSequenceFacts.
Variable U : Type.
Variable apto : U -> string.
Variable cliente : U -> option string.
Variable actual_payments : U -> list (date * Z).
Variable source_section : U -> string.
Variable unit_row : option nat -> U -> UnitRow.
Variable is_sellable : U -> bool.
Variable _build_sale_row : Loader -> U -> BuildResult.
Variable classify_payment : U -> nat -> Z -> PaymentType * Z.
Variable PROJECT_NAME PROJECT_DISPLAY_NAME : string.
Variable between : Loader * Store -> Loader * Store.

(** What runs between the clients and the sales leaves the loader and the
    five tables of the claims as they are. *)
Hypothesis between_loader : forall st, fst (between st) = fst st.
Hypothesis between_tables :
  forall st,
    projects (snd (between st)) = projects (snd st) /\
    units (snd (between st)) = units (snd st) /\
    clients (snd (between st)) = clients (snd st) /\
    sales (snd (between st)) = sales (snd st) /\
    payments (snd (between st)) = payments (snd st).

(** A built row carries the unit identifier the loader holds for the key. *)
Hypothesis build_unit_id :
  forall self u r,
    _build_sale_row self u = Built r ->
    Py.get String.eqb (unit_ids self) (apto u) = Some (s_unit_id r).

Hypothesis unit_row_number :
  forall pid u, ur_unit_number (unit_row pid u) = apto u.

Local Abbreviation project_row := (mkProjectRow PROJECT_NAME PROJECT_DISPLAY_NAME).
Local Abbreviation a_project := (after_project PROJECT_NAME PROJECT_DISPLAY_NAME).
Local Abbreviation a_units := (after_units unit_row PROJECT_NAME PROJECT_DISPLAY_NAME).
Local Abbreviation a_clients :=
  (after_clients cliente unit_row PROJECT_NAME PROJECT_DISPLAY_NAME).
Local Abbreviation a_between :=
  (after_between cliente unit_row PROJECT_NAME PROJECT_DISPLAY_NAME between).
Local Abbreviation a_sales :=
  (after_sales apto cliente unit_row is_sellable _build_sale_row
     PROJECT_NAME PROJECT_DISPLAY_NAME between).
Local Abbreviation a_payments :=
  (after_payments apto cliente actual_payments source_section unit_row is_sellable
     _build_sale_row classify_payment PROJECT_NAME PROJECT_DISPLAY_NAME between).
Local Abbreviation sequence :=
  (write_sequence apto cliente actual_payments source_section unit_row is_sellable
     _build_sale_row classify_payment PROJECT_NAME PROJECT_DISPLAY_NAME between).
Local Abbreviation built := (SupabaseLoader.built_units is_sellable _build_sale_row).
Local Abbreviation actives := (SupabaseLoader.active_units is_sellable _build_sale_row).
Local Abbreviation cancelleds :=
  (SupabaseLoader.cancelled_units is_sellable _build_sale_row).
Local Abbreviation row := (@SupabaseLoader.prepared_row U).
Local Abbreviation index := (@SupabaseLoader.prepared_index U).

(** *** Project *)

Lemma after_project_eq (db : Store) :
  a_project db =
  (set_project_id new_loader
     (Some (fst (snd (Table.upsert_row project_conflict project_row
                        (projects db, next_id db))))),
   with_projects db
     (fst (Table.upsert_row project_conflict project_row (projects db, next_id db)))).
Proof.
  unfold after_project, upsert_project.
  now destruct (Table.upsert_row project_conflict project_row (projects db, next_id db))
    as [tn [i r]].
Qed.

Lemma after_project_tables (db : Store) :
  units (snd (a_project db)) = units db /\
  clients (snd (a_project db)) = clients db /\
  sales (snd (a_project db)) = sales db /\
  payments (snd (a_project db)) = payments db.
Proof. rewrite after_project_eq. simpl. auto. Qed.

Lemma after_project_found (db : Store) :
  Table.find_conflict project_conflict project_row (projects (snd (a_project db))) =
  Some (fst (snd (Table.upsert_row project_conflict project_row
                    (projects db, next_id db)))).
Proof.
  rewrite after_project_eq. simpl.
  apply (upsert_row_found ProjectRow project_conflict project_conflict_compat).
  apply project_conflict_refl.
Qed.

(** A rerun finds the project row and returns its identifier. *)
Lemma after_project_rerun (db db' : Store) :
  projects db' = projects (snd (a_project db)) ->
  fst (a_project db') = fst (a_project db) /\
  projects (snd (a_project db')) = projects (snd (a_project db')) /\
  Table.find_conflict project_conflict project_row (projects db') <> None.
Proof.
  intros Hp. pose proof (after_project_found db) as Hf. rewrite <- Hp in Hf.
  split; [|split; [reflexivity | now rewrite Hf]].
  rewrite (after_project_eq db'), (after_project_eq db). simpl.
  unfold Table.upsert_row at 1. now rewrite Hf.
Qed.

(** *** Units *)

Lemma after_units_eq (main_units : list U) (db : Store) :
  a_units main_units db =
  (SupabaseLoader.record_unit_ids (fst (a_project db))
     (snd (Table.upsert_rows unit_conflict
             (map (unit_row (project_id (fst (a_project db)))) main_units)
             (units (snd (a_project db)), next_id (snd (a_project db))))),
   with_units (snd (a_project db))
     (fst (Table.upsert_rows unit_conflict
             (map (unit_row (project_id (fst (a_project db)))) main_units)
             (units (snd (a_project db)), next_id (snd (a_project db)))))).
Proof.
  unfold after_units. rewrite (surjective_pairing (a_project db)) at 1.
  apply upsert_units_whole.
Qed.

Lemma after_units_tables (main_units : list U) (db : Store) :
  projects (snd (a_units main_units db)) = projects (snd (a_project db)) /\
  clients (snd (a_units main_units db)) = clients db /\
  sales (snd (a_units main_units db)) = sales db /\
  payments (snd (a_units main_units db)) = payments db.
Proof.
  rewrite after_units_eq. simpl.
  destruct (after_project_tables db) as (_ & H2 & H3 & H4). auto.
Qed.

Lemma after_units_rerun (main_units : list U) (db db' : Store) :
  fst (a_project db') = fst (a_project db) ->
  units db' = units (snd (a_units main_units db)) ->
  fst (a_units main_units db') = fst (a_units main_units db) /\
  List.length (units (snd (a_units main_units db'))) = List.length (units db').
Proof.
  intros Hl Hu.
  rewrite (after_units_eq main_units db) in Hu. simpl in Hu.
  rewrite (after_units_eq main_units db'), (after_units_eq main_units db). simpl.
  rewrite Hl.
  destruct (after_project_tables db') as (Hu' & _). rewrite Hu', Hu.
  set (rows := map (unit_row (project_id (fst (a_project db)))) main_units).
  set (st := (units (snd (a_project db)), next_id (snd (a_project db)))).
  destruct (upsert_rows_over UnitRow unit_conflict unit_conflict_compat
              (fun _ => tt) rows st
              (fst (fst (Table.upsert_rows unit_conflict rows st)),
               next_id (snd (a_project db'))))
    as (H1 & _ & _ & H4).
  - apply Forall_forall. intros r _. apply unit_conflict_refl.
  - reflexivity.
  - auto.
  - simpl in H1. rewrite H4. split; [reflexivity | exact H1].
Qed.

(** *** Clients *)

Lemma after_clients_eq (main_units all_units : list U) (db : Store) :
  a_clients main_units all_units db =
  (SupabaseLoader.record_client_ids (fst (a_units main_units db))
     (snd (Table.upsert_rows client_conflict
             (map mkClientRow
                (Py.values (SupabaseLoader.unique_clients cliente all_units)))
             (clients (snd (a_units main_units db)),
              next_id (snd (a_units main_units db))))),
   with_clients (snd (a_units main_units db))
     (fst (Table.upsert_rows client_conflict
             (map mkClientRow
                (Py.values (SupabaseLoader.unique_clients cliente all_units)))
             (clients (snd (a_units main_units db)),
              next_id (snd (a_units main_units db)))))).
Proof.
  unfold after_clients. rewrite (surjective_pairing (a_units main_units db)) at 1.
  apply upsert_clients_whole.
Qed.

Lemma after_clients_tables (main_units all_units : list U) (db : Store) :
  projects (snd (a_clients main_units all_units db)) = projects (snd (a_project db)) /\
  units (snd (a_clients main_units all_units db)) = units (snd (a_units main_units db)) /\
  sales (snd (a_clients main_units all_units db)) = sales db /\
  payments (snd (a_clients main_units all_units db)) = payments db.
Proof.
  rewrite after_clients_eq. simpl.
  destruct (after_units_tables main_units db) as (H1 & _ & H3 & H4). auto.
Qed.

Lemma after_clients_rerun (main_units all_units : list U) (db db' : Store) :
  fst (a_units main_units db') = fst (a_units main_units db) ->
  clients db' = clients (snd (a_clients main_units all_units db)) ->
  fst (a_clients main_units all_units db') = fst (a_clients main_units all_units db) /\
  List.length (clients (snd (a_clients main_units all_units db'))) =
  List.length (clients db').
Proof.
  intros Hl Hc.
  rewrite (after_clients_eq main_units all_units db) in Hc. simpl in Hc.
  rewrite (after_clients_eq main_units all_units db'),
    (after_clients_eq main_units all_units db). simpl.
  rewrite Hl.
  destruct (after_units_tables main_units db') as (_ & Hc' & _). rewrite Hc', Hc.
  set (rows := map mkClientRow
                 (Py.values (SupabaseLoader.unique_clients cliente all_units))).
  set (st := (clients (snd (a_units main_units db)),
              next_id (snd (a_units main_units db)))).
  destruct (upsert_rows_over ClientRow client_conflict client_conflict_compat
              (fun _ => tt) rows st
              (fst (fst (Table.upsert_rows client_conflict rows st)),
               next_id (snd (a_units main_units db'))))
    as (H1 & _ & _ & H4).
  - apply Forall_forall. intros r _. apply client_conflict_refl.
  - reflexivity.
  - auto.
  - simpl in H1. rewrite H4. split; [reflexivity | exact H1].
Qed.

(** *** Sales *)

Lemma after_between_facts (main_units all_units : list U) (db : Store) :
  fst (a_between main_units all_units db) = fst (a_clients main_units all_units db) /\
  projects (snd (a_between main_units all_units db)) = projects (snd (a_project db)) /\
  units (snd (a_between main_units all_units db)) = units (snd (a_units main_units db)) /\
  clients (snd (a_between main_units all_units db)) =
    clients (snd (a_clients main_units all_units db)) /\
  sales (snd (a_between main_units all_units db)) = sales db /\
  payments (snd (a_between main_units all_units db)) = payments db.
Proof.
  unfold after_between. rewrite between_loader.
  destruct (between_tables (a_clients main_units all_units db))
    as (H1 & H2 & H3 & H4 & H5).
  destruct (after_clients_tables main_units all_units db) as (C1 & C2 & C3 & C4).
  rewrite H1, H2, H3, H4, H5. repeat split; auto.
Qed.

Lemma built_units_In (self : Loader) (all_units : list U) (x : SupabaseLoader.Prepared U) :
  In x (built self all_units) <->
  nth_error all_units (index x) = Some (SupabaseLoader.prepared_unit x) /\
  is_sellable (SupabaseLoader.prepared_unit x) = true /\
  _build_sale_row self (SupabaseLoader.prepared_unit x) = Built (row x).
Proof.
  unfold SupabaseLoader.built_units, SupabaseLoader.sellable_units.
  rewrite in_flat_map. destruct x as [[i u] r].
  unfold SupabaseLoader.prepared_unit, SupabaseLoader.prepared_row,
    SupabaseLoader.prepared_index. simpl. split.
  - intros [[j v] [Hin Hx]]. apply filter_In in Hin. destruct Hin as [Hin Hs].
    simpl in *. destruct (_build_sale_row self v) as [r'|] eqn:Hb; [|contradiction].
    destruct Hx as [Hx | []]. inversion Hx; subst.
    apply enumerate_In in Hin. auto.
  - intros (Hn & Hs & Hb). exists (i, u). split.
    + apply filter_In. split; [now apply enumerate_In | exact Hs].
    + simpl. rewrite Hb. now left.
Qed.

Lemma built_units_split (self : Loader) (all_units : list U) (i : nat) :
  In i (map index (built self all_units)) <->
  In i (map index (actives self all_units)) \/
  In i (map index (cancelleds self all_units)).
Proof.
  unfold SupabaseLoader.active_units, SupabaseLoader.cancelled_units.
  rewrite !in_map_iff. split.
  - intros [x [Hi Hin]].
    destruct (sale_status_eqb (s_status (row x)) active) eqn:E.
    + left. exists x. split; [assumption|]. apply filter_In. auto.
    + right. exists x. split; [assumption|]. apply filter_In. rewrite E. auto.
  - intros [[x [Hi Hin]] | [x [Hi Hin]]]; apply filter_In in Hin;
      exists x; tauto.
Qed.

Lemma insert_sales_eq (all_units : list U) (self : Loader) (db : Store) :
  SupabaseLoader.insert_sales apto is_sellable _build_sale_row all_units (self, db) =
  fold_left (@SupabaseLoader.insert_sales_cancelled_step U)
    (cancelleds self all_units)
    (fold_left (SupabaseLoader.insert_sales_active_batch apto)
       (map (fun b => (b, map row b)) (_batched (actives self all_units) BATCH_SIZE))
       (self, db)).
Proof.
  unfold SupabaseLoader.insert_sales. cbn [fst].
  now rewrite _batched_map, combine_map_r.
Qed.

Lemma insert_sales_facts (all_units : list U) (self : Loader) (db : Store) :
  let res := SupabaseLoader.insert_sales apto is_sellable _build_sale_row
               all_units (self, db) in
  let active_table :=
    fst (fst (Table.upsert_rows sale_conflict (map row (actives self all_units))
                (sales db, next_id db))) in
  (project_id (fst res) = project_id self /\
   unit_ids (fst res) = unit_ids self /\
   client_ids (fst res) = client_ids self) /\
  (projects (snd res) = projects db /\ units (snd res) = units db /\
   clients (snd res) = clients db /\ payments (snd res) = payments db) /\
  (exists inserted,
      sales (snd res) = active_table ++ inserted /\
      Forall (fun e => s_status (snd e) = cancelled) inserted) /\
  (forall x, In x (cancelleds self all_units) ->
             exists e, In e (sales (snd res)) /\
                       SupabaseLoader.is_cancelled_sale_of (row x) (snd e) = true) /\
  ((forall x, In x (cancelleds self all_units) ->
              exists e, In e active_table /\
                        SupabaseLoader.is_cancelled_sale_of (row x) (snd e) = true) ->
   sales (snd res) = active_table) /\
  (forall i, get_sale_id (fst res) i <> None <->
             get_sale_id self i <> None \/ In i (map index (built self all_units))).
Proof.
  intros res active_table. subst res. rewrite insert_sales_eq.
  destruct (insert_sales_active_batches U apto
              (_batched (actives self all_units) BATCH_SIZE) self db)
    as (A0 & A1 & A2 & A3 & A4 & A5 & A6).
  rewrite _batched_concat in A0, A4, A5.
  set (st_a := fold_left (SupabaseLoader.insert_sales_active_batch apto)
                 (map (fun b => (b, map row b))
                      (_batched (actives self all_units) BATCH_SIZE)) (self, db)) in *.
  assert (Hc : Forall (fun x => s_status (row x) = cancelled)
                      (cancelleds self all_units)).
  { apply Forall_forall. intros x Hx.
    unfold SupabaseLoader.cancelled_units in Hx. apply filter_In in Hx.
    destruct Hx as [_ Hx]. now destruct (s_status (row x)). }
  destruct (insert_sales_cancelled_fold U (cancelleds self all_units) Hc
              (fst st_a) (snd st_a))
    as ((C1 & C2 & C3) & (D1 & D2 & D3 & D4) & C4 & C5 & C6 &
        (ins & Hins & Hall) & C7 & C8).
  rewrite <- (surjective_pairing st_a) in *.
  assert (Hsa : sales (snd st_a) = active_table) by (rewrite A0; reflexivity).
  split; [repeat split; congruence|].
  split; [rewrite D1, D2, D3, D4, A0; simpl; auto|].
  split; [exists ins; split; [now rewrite Hins, Hsa | exact Hall]|].
  split; [exact C7|].
  split.
  - intros Hex. rewrite C8; [exact Hsa|]. now rewrite Hsa.
  - intros i. split.
    + intros Hi. apply C5 in Hi. rewrite built_units_split.
      destruct Hi as [Hi | Hi]; [|tauto]. apply A5 in Hi. tauto.
    + intros [Hi | Hi]; [apply C6, A6, Hi|].
      apply built_units_split in Hi. destruct Hi as [Hi | Hi].
      * apply C6. apply in_map_iff in Hi. destruct Hi as [x [<- Hx]].
        apply A4; [exact Hx|].
        apply build_unit_id.
        unfold SupabaseLoader.active_units in Hx. apply filter_In in Hx.
        destruct Hx as [Hx _]. now apply built_units_In in Hx.
      * apply in_map_iff in Hi. destruct Hi as [x [<- Hx]]. now apply C4.
Qed.

Lemma actives_active (self : Loader) (all_units : list U) :
  Forall (fun r => sale_conflict r r = true) (map row (actives self all_units)).
Proof.
  apply Forall_map, Forall_forall. intros x Hx.
  unfold SupabaseLoader.active_units in Hx. apply filter_In in Hx.
  destruct Hx as [_ Hx]. apply sale_conflict_refl. now apply sale_status_eqb_spec.
Qed.

Lemma is_cancelled_sale_of_status (r e : SaleRow) :
  SupabaseLoader.is_cancelled_sale_of r e = true -> s_status e = cancelled.
Proof.
  unfold SupabaseLoader.is_cancelled_sale_of. intros H.
  apply andb_true_iff in H. destruct H as [_ H]. now apply sale_status_eqb_spec.
Qed.

Lemma after_sales_eq (main_units all_units : list U) (db : Store) :
  a_sales main_units all_units db =
  SupabaseLoader.insert_sales apto is_sellable _build_sale_row all_units
    (fst (a_between main_units all_units db), snd (a_between main_units all_units db)).
Proof. unfold after_sales. now rewrite <- surjective_pairing. Qed.

Lemma after_sales_tables (main_units all_units : list U) (db : Store) :
  projects (snd (a_sales main_units all_units db)) = projects (snd (a_project db)) /\
  units (snd (a_sales main_units all_units db)) = units (snd (a_units main_units db)) /\
  clients (snd (a_sales main_units all_units db)) =
    clients (snd (a_clients main_units all_units db)) /\
  payments (snd (a_sales main_units all_units db)) = payments db.
Proof.
  rewrite after_sales_eq.
  destruct (insert_sales_facts all_units (fst (a_between main_units all_units db))
              (snd (a_between main_units all_units db)))
    as (_ & (T1 & T2 & T3 & T4) & _).
  destruct (after_between_facts main_units all_units db) as (_ & B1 & B2 & B3 & _ & B5).
  rewrite T1, T2, T3, T4. auto.
Qed.

(** The sale identifiers after the sales phase: exactly the records whose
    row was built have one. *)
Lemma after_sales_ids (main_units all_units : list U) (db : Store) (i : nat) :
  get_sale_id (fst (a_sales main_units all_units db)) i <> None <->
  In i (map index (built (fst (a_between main_units all_units db)) all_units)).
Proof.
  rewrite after_sales_eq.
  destruct (insert_sales_facts all_units (fst (a_between main_units all_units db))
              (snd (a_between main_units all_units db)))
    as (_ & _ & _ & _ & _ & Hids).
  rewrite Hids.
  destruct (after_between_facts main_units all_units db) as (B0 & _).
  assert (Hnone : get_sale_id (fst (a_between main_units all_units db)) i = None).
  { rewrite B0, after_clients_eq. cbn [fst].
    unfold get_sale_id.
    destruct (record_client_ids_fields
                (snd (Table.upsert_rows client_conflict
                        (map mkClientRow
                           (Py.values (SupabaseLoader.unique_clients cliente all_units)))
                        (clients (snd (a_units main_units db)),
                         next_id (snd (a_units main_units db)))))
                (fst (a_units main_units db))) as (_ & _ & Hs).
    rewrite Hs, after_units_eq. cbn [fst].
    destruct (record_unit_ids_fields
                (snd (Table.upsert_rows unit_conflict
                        (map (unit_row (project_id (fst (a_project db)))) main_units)
                        (units (snd (a_project db)), next_id (snd (a_project db)))))
                (fst (a_project db))) as (_ & _ & Hs2 & _).
    rewrite Hs2, after_project_eq. reflexivity. }
  rewrite Hnone. tauto.
Qed.

Lemma after_sales_rerun (main_units all_units : list U) (db db' : Store) :
  fst (a_between main_units all_units db') = fst (a_between main_units all_units db) ->
  sales db' = sales (snd (a_sales main_units all_units db)) ->
  map (fun r => s_status (snd r)) (sales (snd (a_sales main_units all_units db'))) =
  map (fun r => s_status (snd r)) (sales db') /\
  (forall i,
      get_sale_id (fst (a_sales main_units all_units db')) i <> None <->
      get_sale_id (fst (a_sales main_units all_units db)) i <> None).
Proof.
  intros Hl Hs. split; [|intros i; now rewrite !after_sales_ids, Hl].
  rewrite (after_sales_eq main_units all_units db) in Hs.
  rewrite (after_sales_eq main_units all_units db'), Hl.
  set (L := fst (a_between main_units all_units db)) in *.
  set (d := snd (a_between main_units all_units db)) in *.
  set (d' := snd (a_between main_units all_units db')) in *.
  assert (Hd' : sales d' = sales db').
  { subst d'. now destruct (after_between_facts main_units all_units db')
      as (_ & _ & _ & _ & H & _). }
  destruct (insert_sales_facts all_units L d)
    as (_ & _ & (ins & Hins & Hall) & Hmatch & _ & _).
  destruct (insert_sales_facts all_units L d') as (_ & _ & _ & _ & Hsame & _).
  set (rows := map row (actives L all_units)) in *.
  destruct (upsert_rows_over SaleRow sale_conflict sale_conflict_compat s_status rows
              (sales d, next_id d) (sales d', next_id d'))
    as (_ & _ & Hmap & _).
  - apply actives_active.
  - intros new old _ Hc. apply sale_conflict_active in Hc. destruct Hc; congruence.
  - intros q j Hq. cbn [fst]. rewrite Hd', Hs, Hins.
    rewrite (find_app SaleRow sale_conflict). cbn [fst] in Hq. now rewrite Hq.
  - cbn [fst] in Hmap. rewrite Hsame; [now rewrite Hmap, Hd'|].
    intros x Hx. destruct (Hmatch x Hx) as [e [He Hm]]. exists e. split; [|exact Hm].
    apply (upsert_rows_In SaleRow sale_conflict).
    + apply Forall_forall. intros new _. unfold sale_conflict.
      rewrite (is_cancelled_sale_of_status _ _ Hm). reflexivity.
    + cbn [fst]. now rewrite Hd', Hs.
Qed.

(** *** Payments and expected installments *)

Lemma payment_rows_length (self : Loader) (all_units : list U) :
  List.length (SupabaseLoader.payment_rows actual_payments source_section
                 classify_payment self all_units) =
  resolved_payment_count actual_payments self all_units.
Proof.
  unfold SupabaseLoader.payment_rows, resolved_payment_count.
  induction (Py.enumerate all_units) as [|[i u] l IH]; [reflexivity|].
  cbn [flat_map map list_sum]. rewrite length_app, IH. f_equal.
  unfold SupabaseLoader.payment_rows_of_unit. cbn [fst snd].
  destruct (get_sale_id self i) as [sid|]; [|now destruct (actual_payments u)].
  destruct (actual_payments u) as [|p ps] eqn:E; [reflexivity|].
  unfold SupabaseLoader.payment_rows_of, Py.enumerate.
  rewrite length_map, <- (length_map snd), map_snd_enumerate_from, sorted_length, E.
  reflexivity.
Qed.

Lemma resolved_payment_count_ext (self self' : Loader) (all_units : list U) :
  (forall i, get_sale_id self' i <> None <-> get_sale_id self i <> None) ->
  resolved_payment_count actual_payments self' all_units =
  resolved_payment_count actual_payments self all_units.
Proof.
  intros H. unfold resolved_payment_count. f_equal. apply map_ext.
  intros [i u]. cbn [fst snd]. specialize (H i).
  destruct (get_sale_id self' i), (get_sale_id self i); try reflexivity.
  - exfalso. apply (proj1 H); [discriminate | reflexivity].
  - exfalso. apply (proj2 H); [discriminate | reflexivity].
Qed.

Lemma after_payments_facts (main_units all_units : list U) (db : Store) :
  fst (a_payments main_units all_units db) = fst (a_sales main_units all_units db) /\
  List.length (payments (snd (a_payments main_units all_units db))) =
    List.length (payments db) +
    resolved_payment_count actual_payments (fst (a_sales main_units all_units db))
      all_units /\
  projects (snd (a_payments main_units all_units db)) = projects (snd (a_project db)) /\
  units (snd (a_payments main_units all_units db)) = units (snd (a_units main_units db)) /\
  clients (snd (a_payments main_units all_units db)) =
    clients (snd (a_clients main_units all_units db)) /\
  sales (snd (a_payments main_units all_units db)) =
    sales (snd (a_sales main_units all_units db)).
Proof.
  unfold after_payments, SupabaseLoader.insert_payments.
  destruct (a_sales main_units all_units db) as [self d] eqn:E. cbn [fst snd].
  destruct (insert_payments_batches
              (_batched (SupabaseLoader.payment_rows actual_payments source_section
                           classify_payment self all_units) BATCH_SIZE) d)
    as (H1 & H2 & H3 & H4 & H5).
  rewrite _batched_concat, payment_rows_length in H1.
  destruct (after_sales_tables main_units all_units db) as (T1 & T2 & T3 & T4).
  rewrite E in T1, T2, T3, T4. cbn [snd] in T1, T2, T3, T4.
  rewrite H1, H2, H3, H4, H5, T1, T2, T3, T4. repeat split; reflexivity.
Qed.

Lemma write_sequence_facts (main_units all_units : list U)
    (expected : list ParsedExpected) (db : Store) :
  let res := sequence main_units all_units expected db in
  fst res = fst (a_sales main_units all_units db) /\
  List.length (payments (snd res)) =
    List.length (payments db) +
    resolved_payment_count actual_payments (fst (a_sales main_units all_units db))
      all_units /\
  projects (snd res) = projects (snd (a_project db)) /\
  units (snd res) = units (snd (a_units main_units db)) /\
  clients (snd res) = clients (snd (a_clients main_units all_units db)) /\
  sales (snd res) = sales (snd (a_sales main_units all_units db)).
Proof.
  intros res. subst res. unfold write_sequence.
  rewrite (surjective_pairing (a_payments main_units all_units db)).
  rewrite upsert_expected_payments_whole. cbn [fst snd].
  destruct (after_payments_facts main_units all_units db)
    as (H0 & H1 & H2 & H3 & H4 & H5).
  unfold with_expected_payments. cbn [projects units clients sales payments].
  rewrite H0, H1, H2, H3, H4, H5. repeat split; reflexivity.
Qed.

Lemma count_sales_status (status : SaleStatus) (db : Store) :
  count_sales status db =
  List.length (filter (fun s => sale_status_eqb s status)
                      (map (fun r => s_status (snd r)) (sales db))).
Proof.
  unfold count_sales. induction (sales db) as [|r l IH]; [reflexivity|].
  simpl. destruct (sale_status_eqb (s_status (snd r)) status); simpl; now rewrite IH.
Qed.

(** *** The write sequence run twice *)

Lemma write_sequence_rerun (main_units all_units : list U)
    (expected : list ParsedExpected) (db : Store) :
  let first := sequence main_units all_units expected db in
  let second := sequence main_units all_units expected (snd first) in
  List.length (units (snd second)) = List.length (units (snd first)) /\
  List.length (clients (snd second)) = List.length (clients (snd first)) /\
  count_sales active (snd second) = count_sales active (snd first) /\
  count_sales cancelled (snd second) = count_sales cancelled (snd first) /\
  List.length (payments (snd first)) =
    List.length (payments db) +
    resolved_payment_count actual_payments (fst first) all_units /\
  List.length (payments (snd second)) =
    List.length (payments (snd first)) +
    resolved_payment_count actual_payments (fst first) all_units.
Proof.
  intros first second. subst second.
  destruct (write_sequence_facts main_units all_units expected db)
    as (F0 & F1 & F2 & F3 & F4 & F5). fold first in F0, F1, F2, F3, F4, F5.
  set (db' := snd first) in *.
  destruct (write_sequence_facts main_units all_units expected db')
    as (S0 & S1 & S2 & S3 & S4 & S5).
  destruct (after_project_rerun db db' F2) as (Lp & _).
  destruct (after_units_rerun main_units db db' Lp F3) as (Lu & Nu).
  destruct (after_clients_rerun main_units all_units db db' Lu F4) as (Lc & Nc).
  assert (Lb : fst (a_between main_units all_units db') =
               fst (a_between main_units all_units db)).
  { destruct (after_between_facts main_units all_units db') as (B' & _).
    destruct (after_between_facts main_units all_units db) as (B & _).
    now rewrite B', B. }
  destruct (after_sales_rerun main_units all_units db db' Lb F5) as (Hmap & Hids).
  split; [now rewrite S3|]. split; [now rewrite S4|].
  split; [rewrite !count_sales_status, S5, Hmap; reflexivity|].
  split; [rewrite !count_sales_status, S5, Hmap; reflexivity|].
  split; [now rewrite F1, F0|].
  rewrite S1, F0. f_equal. now apply resolved_payment_count_ext.
Qed.

(** *** Unit keys absent from MAIN *)

Lemma after_units_ids (main_units : list U) (db : Store) (k : string) :
  Py.get String.eqb (unit_ids (fst (a_units main_units db))) k <> None ->
  In k (map apto main_units).
Proof.
  rewrite after_units_eq. cbn [fst].
  set (data := snd (Table.upsert_rows unit_conflict
                      (map (unit_row (project_id (fst (a_project db)))) main_units)
                      (units (snd (a_project db)), next_id (snd (a_project db))))).
  destruct (record_unit_ids_fields data (fst (a_project db))) as (_ & _ & _ & Hu).
  rewrite Hu, after_project_eq. cbn [fst unit_ids set_project_id new_loader].
  rewrite (get_fold_set string nat String.eqb string_eqb_spec
             (fun r : nat * UnitRow => ur_unit_number (snd r)) fst data k []).
  intros [H | H]; [now simpl in H|].
  rewrite <- (map_map snd ur_unit_number) in H. subst data.
  rewrite (upsert_rows_data UnitRow unit_conflict), map_map in H.
  erewrite map_ext in H; [exact H|]. intros u. apply unit_row_number.
Qed.

Lemma sequence_unit_ids (main_units all_units : list U)
    (expected : list ParsedExpected) (db : Store) :
  unit_ids (fst (a_between main_units all_units db)) =
  unit_ids (fst (a_units main_units db)).
Proof.
  destruct (after_between_facts main_units all_units db) as (B0 & _).
  rewrite B0, after_clients_eq. cbn [fst].
  now destruct (record_client_ids_fields
                  (snd (Table.upsert_rows client_conflict
                          (map mkClientRow
                             (Py.values (SupabaseLoader.unique_clients cliente all_units)))
                          (clients (snd (a_units main_units db)),
                           next_id (snd (a_units main_units db)))))
                  (fst (a_units main_units db))) as (_ & H & _).
Qed.

(** A record whose unit key is not a key of MAIN gets no unit row (on a
    store without units) and no sale identifier. *)
Lemma write_sequence_absent_unit (main_units all_units : list U)
    (expected : list ParsedExpected) (db : Store) (i : nat) (u : U) :
  nth_error all_units i = Some u ->
  ~ In (apto u) (map apto main_units) ->
  let res := sequence main_units all_units expected db in
  get_sale_id (fst res) i = None /\
  Py.get String.eqb (unit_ids (fst res)) (apto u) = None /\
  (units db = [] ->
   forall x, In x (units (snd res)) -> ur_unit_number (snd x) <> apto u).
Proof.
  intros Hn Hu res. subst res.
  destruct (write_sequence_facts main_units all_units expected db)
    as (F0 & _ & _ & F3 & _).
  assert (Hk : Py.get String.eqb
                 (unit_ids (fst (a_between main_units all_units db))) (apto u) = None).
  { rewrite (sequence_unit_ids main_units all_units expected db).
    destruct (Py.get String.eqb (unit_ids (fst (a_units main_units db))) (apto u))
      eqn:E; [|reflexivity].
    exfalso. apply Hu, (after_units_ids main_units db). rewrite E. discriminate. }
  split; [|split].
  - rewrite F0.
    destruct (get_sale_id (fst (a_sales main_units all_units db)) i) eqn:E;
      [|reflexivity].
    exfalso.
    assert (Hi : get_sale_id (fst (a_sales main_units all_units db)) i <> None)
      by (rewrite E; discriminate).
    apply after_sales_ids in Hi. apply in_map_iff in Hi. destruct Hi as [x [<- Hx]].
    apply built_units_In in Hx. destruct Hx as (Hx1 & _ & Hx3).
    rewrite Hn in Hx1. inversion Hx1; subst.
    apply build_unit_id in Hx3. congruence.
  - rewrite F0, after_sales_eq.
    destruct (insert_sales_facts all_units (fst (a_between main_units all_units db))
                (snd (a_between main_units all_units db)))
      as ((_ & Hids & _) & _).
    now rewrite Hids.
  - intros Hempty x Hx Heq. rewrite F3, after_units_eq in Hx. cbn [snd] in Hx.
    unfold with_units in Hx. cbn [units] in Hx.
    apply upsert_rows_payloads in Hx. cbn [fst] in Hx.
    destruct (after_project_tables db) as (Hup & _). rewrite Hup, Hempty in Hx.
    destruct Hx as [[] | Hx]. apply in_map_iff in Hx. destruct Hx as [v [Hv Hin]].
    apply Hu. rewrite <- Heq, <- Hv, unit_row_number. now apply in_map.
Qed.
End WriteSequenceFacts.

(* ------------------------------------------------------------------------- *)
(** ** The two loaders *)
(* ------------------------------------------------------------------------- *)

Lemma boulevard_load_sequence (main_units desist_units prob_desist : list Boulevard.ParsedUnit)
    (expected : list ParsedExpected) (db : Store) :
  Boulevard.load main_units desist_units prob_desist expected db =
  write_sequence Boulevard.apto Boulevard.cliente Boulevard.actual_payments
    Boulevard.source_section Boulevard.unit_row Boulevard.is_sellable
    Boulevard._build_sale_row Boulevard.classify_payment
    Boulevard.PROJECT_NAME Boulevard.PROJECT_DISPLAY_NAME
    (Boulevard.upsert_sales_reps (main_units ++ desist_units ++ prob_desist))
    main_units (main_units ++ desist_units ++ prob_desist) expected db.
Proof. reflexivity. Qed.

Lemma santa_elisa_load_sequence
    (main_units desist_units devol_units : list SantaElisa.ParsedUnit)
    (expected : list ParsedExpected) (db : Store) :
  SantaElisa.load main_units desist_units devol_units expected db =
  write_sequence SantaElisa.apto SantaElisa.cliente SantaElisa.actual_payments
    SantaElisa.source_section SantaElisa.unit_row SantaElisa.is_sellable
    SantaElisa._build_sale_row SantaElisa.classify_payment
    SantaElisa.PROJECT_NAME SantaElisa.PROJECT_DISPLAY_NAME
    (fun st => st)
    main_units (main_units ++ desist_units ++ devol_units) expected db.
Proof. reflexivity. Qed.

Lemma upsert_sales_reps_loader (all_units : list Boulevard.ParsedUnit) (st : Loader * Store) :
  fst (Boulevard.upsert_sales_reps all_units st) = fst st.
Proof. unfold Boulevard.upsert_sales_reps. now destruct st. Qed.

Lemma upsert_sales_reps_tables (all_units : list Boulevard.ParsedUnit) (st : Loader * Store) :
  projects (snd (Boulevard.upsert_sales_reps all_units st)) = projects (snd st) /\
  units (snd (Boulevard.upsert_sales_reps all_units st)) = units (snd st) /\
  clients (snd (Boulevard.upsert_sales_reps all_units st)) = clients (snd st) /\
  sales (snd (Boulevard.upsert_sales_reps all_units st)) = sales (snd st) /\
  payments (snd (Boulevard.upsert_sales_reps all_units st)) = payments (snd st).
Proof.
  unfold Boulevard.upsert_sales_reps. destruct st as [self db]. cbn [snd].
  apply (fold_left_invariant
           (fun db0 => projects db0 = projects db /\ units db0 = units db /\
                       clients db0 = clients db /\ sales db0 = sales db /\
                       payments db0 = payments db)).
  - intros db0 batch H. exact H.
  - repeat split; reflexivity.
Qed.

Lemma boulevard_build_unit_id (self : Loader) (u : Boulevard.ParsedUnit) (r : SaleRow) :
  Boulevard._build_sale_row self u = Built r ->
  Py.get String.eqb (unit_ids self) (Boulevard.apto u) = Some (s_unit_id r).
Proof.
  unfold Boulevard._build_sale_row.
  destruct (Py.get String.eqb (unit_ids self) (Boulevard.apto u)); [|discriminate].
  destruct (if Py.truthy_str (Boulevard.cliente u) then _ else _); [|discriminate].
  intros [= <-]. reflexivity.
Qed.

Lemma santa_elisa_build_unit_id (self : Loader) (u : SantaElisa.ParsedUnit) (r : SaleRow) :
  SantaElisa._build_sale_row self u = Built r ->
  Py.get String.eqb (unit_ids self) (SantaElisa.apto u) = Some (s_unit_id r).
Proof.
  unfold SantaElisa._build_sale_row.
  destruct (Py.get String.eqb (unit_ids self) (SantaElisa.apto u)); [|discriminate].
  destruct (if Py.truthy_str (SantaElisa.cliente u) then _ else _); [|discriminate].
  destruct (SantaElisa.derive_sale_date u) as [[d derived]|]; [|discriminate].
  intros [= <-]. reflexivity.
Qed.

Lemma boulevard_rerun (main_units desist_units prob_desist : list Boulevard.ParsedUnit)
    (expected : list ParsedExpected) (db : Store) :
  let all_units := main_units ++ desist_units ++ prob_desist in
  let first := Boulevard.load main_units desist_units prob_desist expected db in
  let second := Boulevard.load main_units desist_units prob_desist expected (snd first) in
  List.length (units (snd second)) = List.length (units (snd first)) /\
  List.length (clients (snd second)) = List.length (clients (snd first)) /\
  count_sales active (snd second) = count_sales active (snd first) /\
  count_sales cancelled (snd second) = count_sales cancelled (snd first) /\
  List.length (payments (snd first)) =
    List.length (payments db) +
    resolved_payment_count Boulevard.actual_payments (fst first) all_units /\
  List.length (payments (snd second)) =
    List.length (payments (snd first)) +
    resolved_payment_count Boulevard.actual_payments (fst first) all_units.
Proof.
  intros all_units first second. subst first second all_units.
  rewrite !boulevard_load_sequence.
  apply write_sequence_rerun.
  - apply upsert_sales_reps_loader.
  - apply upsert_sales_reps_tables.
  - apply boulevard_build_unit_id.
Qed.

Lemma santa_elisa_rerun (main_units desist_units devol_units : list SantaElisa.ParsedUnit)
    (expected : list ParsedExpected) (db : Store) :
  let all_units := main_units ++ desist_units ++ devol_units in
  let first := SantaElisa.load main_units desist_units devol_units expected db in
  let second := SantaElisa.load main_units desist_units devol_units expected (snd first) in
  List.length (units (snd second)) = List.length (units (snd first)) /\
  List.length (clients (snd second)) = List.length (clients (snd first)) /\
  count_sales active (snd second) = count_sales active (snd first) /\
  count_sales cancelled (snd second) = count_sales cancelled (snd first) /\
  List.length (payments (snd first)) =
    List.length (payments db) +
    resolved_payment_count SantaElisa.actual_payments (fst first) all_units /\
  List.length (payments (snd second)) =
    List.length (payments (snd first)) +
    resolved_payment_count SantaElisa.actual_payments (fst first) all_units.
Proof.
  intros all_units first second. subst first second all_units.
  rewrite !santa_elisa_load_sequence.
  apply write_sequence_rerun.
  - reflexivity.
  - intros st. repeat split; reflexivity.
  - apply santa_elisa_build_unit_id.
Qed.

(** C1. Idempotence of the load.  In both scripts, for every parsed dataset
    and every store the first load starts from (the empty store among them),
    a second load of the same dataset against the store the first one left
    yields the same number of rows in units, in clients, among the active
    sales and among the cancelled sales.  For the sample records (a unit
    sold once and cancelled once) these numbers are 1, 2, 1 and 1 after the
    first load from the empty store. *)
Theorem load_is_idempotent_on_counts :
  (forall (main_units desist_units prob_desist : list Boulevard.ParsedUnit)
          (expected : list ParsedExpected) (db : Store),
      let first := Boulevard.load main_units desist_units prob_desist expected db in
      let second := Boulevard.load main_units desist_units prob_desist expected (snd first) in
      List.length (units (snd second)) = List.length (units (snd first)) /\
      List.length (clients (snd second)) = List.length (clients (snd first)) /\
      count_sales active (snd second) = count_sales active (snd first) /\
      count_sales cancelled (snd second) = count_sales cancelled (snd first)) /\
  (forall (main_units desist_units devol_units : list SantaElisa.ParsedUnit)
          (expected : list ParsedExpected) (db : Store),
      let first := SantaElisa.load main_units desist_units devol_units expected db in
      let second := SantaElisa.load main_units desist_units devol_units expected (snd first) in
      List.length (units (snd second)) = List.length (units (snd first)) /\
      List.length (clients (snd second)) = List.length (clients (snd first)) /\
      count_sales active (snd second) = count_sales active (snd first) /\
      count_sales cancelled (snd second) = count_sales cancelled (snd first)) /\
  (let first := Boulevard.load [boulevard_main_101]
                  [boulevard_desist "101"; boulevard_desist "999"] [] [] empty_store in
   List.length (units (snd first)) = 1 /\ List.length (clients (snd first)) = 2 /\
   count_sales active (snd first) = 1 /\ count_sales cancelled (snd first) = 1) /\
  (let first := SantaElisa.load [santa_elisa_main_101]
                  [santa_elisa_desist "101"; santa_elisa_desist "999"]
                  [santa_elisa_devol "101"] [] empty_store in
   List.length (units (snd first)) = 1 /\ List.length (clients (snd first)) = 2 /\
   count_sales active (snd first) = 1 /\ count_sales cancelled (snd first) = 1).
Proof.
  split; [|split; [|split]].
  - intros main_units desist_units prob_desist expected db first second.
    destruct (boulevard_rerun main_units desist_units prob_desist expected db)
      as (H1 & H2 & H3 & H4 & _).
    repeat split; assumption.
  - intros main_units desist_units devol_units expected db first second.
    destruct (santa_elisa_rerun main_units desist_units devol_units expected db)
      as (H1 & H2 & H3 & H4 & _).
    repeat split; assumption.
  - vm_compute. repeat split; reflexivity.
  - vm_compute. repeat split; reflexivity.
Qed.

(** C9. Payments are not idempotent.  In both scripts a load appends one
    payments row per observed payment tuple of every record whose sale
    identifier resolved: after a load from the empty store the payments
    table has that many rows, and after a second load of the same dataset
    against the resulting store it has twice as many.  For the sample
    records the numbers are 3 and 6 in Boulevard, 4 and 8 in Santa Elisa. *)
Theorem payments_double_on_rerun :
  (forall (main_units desist_units prob_desist : list Boulevard.ParsedUnit)
          (expected : list ParsedExpected),
      let all_units := main_units ++ desist_units ++ prob_desist in
      let first := Boulevard.load main_units desist_units prob_desist expected empty_store in
      let second := Boulevard.load main_units desist_units prob_desist expected (snd first) in
      List.length (payments (snd first)) =
        resolved_payment_count Boulevard.actual_payments (fst first) all_units /\
      List.length (payments (snd second)) = 2 * List.length (payments (snd first))) /\
  (forall (main_units desist_units devol_units : list SantaElisa.ParsedUnit)
          (expected : list ParsedExpected),
      let all_units := main_units ++ desist_units ++ devol_units in
      let first := SantaElisa.load main_units desist_units devol_units expected empty_store in
      let second := SantaElisa.load main_units desist_units devol_units expected (snd first) in
      List.length (payments (snd first)) =
        resolved_payment_count SantaElisa.actual_payments (fst first) all_units /\
      List.length (payments (snd second)) = 2 * List.length (payments (snd first))) /\
  (let first := Boulevard.load [boulevard_main_101]
                  [boulevard_desist "101"; boulevard_desist "999"] [] [] empty_store in
   let second := Boulevard.load [boulevard_main_101]
                   [boulevard_desist "101"; boulevard_desist "999"] [] [] (snd first) in
   List.length (payments (snd first)) = 3 /\ List.length (payments (snd second)) = 6) /\
  (let first := SantaElisa.load [santa_elisa_main_101]
                  [santa_elisa_desist "101"; santa_elisa_desist "999"]
                  [santa_elisa_devol "101"] [] empty_store in
   let second := SantaElisa.load [santa_elisa_main_101]
                   [santa_elisa_desist "101"; santa_elisa_desist "999"]
                   [santa_elisa_devol "101"] [] (snd first) in
   List.length (payments (snd first)) = 4 /\ List.length (payments (snd second)) = 8).
Proof.
  split; [|split; [|split]].
  - intros main_units desist_units prob_desist expected all_units first second.
    destruct (boulevard_rerun main_units desist_units prob_desist expected empty_store)
      as (_ & _ & _ & _ & H5 & H6).
    fold first in H5, H6. fold second in H6. fold all_units in H5, H6.
    simpl in H5. split; [exact H5 | lia].
  - intros main_units desist_units devol_units expected all_units first second.
    destruct (santa_elisa_rerun main_units desist_units devol_units expected empty_store)
      as (_ & _ & _ & _ & H5 & H6).
    fold first in H5, H6. fold second in H6. fold all_units in H5, H6.
    simpl in H5. split; [exact H5 | lia].
  - vm_compute. split; reflexivity.
  - vm_compute. split; reflexivity.
Qed.

(* ------------------------------------------------------------------------- *)
(** ** Unit keys that MAIN lacks *)
(* ------------------------------------------------------------------------- *)

Lemma boulevard_build_without_unit (self : Loader) (u : Boulevard.ParsedUnit) :
  Py.get String.eqb (unit_ids self) (Boulevard.apto u) = None ->
  Boulevard._build_sale_row self u = Skipped unit_id_not_found.
Proof. unfold Boulevard._build_sale_row. now intros ->. Qed.

Lemma santa_elisa_build_without_unit (self : Loader) (u : SantaElisa.ParsedUnit) :
  Py.get String.eqb (unit_ids self) (SantaElisa.apto u) = None ->
  SantaElisa._build_sale_row self u = Skipped unit_id_not_found.
Proof. unfold SantaElisa._build_sale_row. now intros ->. Qed.

(** C2 as stated fails: unit 999 occurs in the cancellation section and not
    in MAIN; after the load from the empty store no unit row has the number
    999 and the record has no sale. *)
Lemma historical_unit_is_not_synthesized :
  (let res := Boulevard.load [boulevard_main_101] [boulevard_desist "999"] [] []
                empty_store in
   ~ (exists x, In x (units (snd res)) /\ ur_unit_number (snd x) = "999") /\
   get_sale_id (fst res) 1 = None /\ List.length (sales (snd res)) = 1) /\
  (let res := SantaElisa.load [santa_elisa_main_101] [santa_elisa_desist "999"]
                [santa_elisa_devol "999"] [] empty_store in
   ~ (exists x, In x (units (snd res)) /\ ur_unit_number (snd x) = "999") /\
   get_sale_id (fst res) 1 = None /\ get_sale_id (fst res) 2 = None /\
   List.length (sales (snd res)) = 1).
Proof.
  split; cbv zeta.
  - split; [|vm_compute; split; reflexivity].
    intros [x [Hin Heq]]. vm_compute in Hin.
    destruct Hin as [<- | []]. discriminate Heq.
  - split; [|vm_compute; repeat split; reflexivity].
    intros [x [Hin Heq]]. vm_compute in Hin.
    destruct Hin as [<- | []]. discriminate Heq.
Qed.


(* ------------------------------------------------------------------------- *)
(** * Further properties of the scripts *)
(* ------------------------------------------------------------------------- *)

(* ------------------------------------------------------------------------- *)
(** ** Month ends *)
(* ------------------------------------------------------------------------- *)

Lemma _month_end_to_date_value (y m : nat) :
  1 <= m <= 12 -> _month_end_to_date (y, m) = mkdate y m (days_in_month y m).
Proof.
  intros [H1 H12]. unfold _month_end_to_date, day_before_first.
  destruct (m =? 12) eqn:E.
  - apply Nat.eqb_eq in E. subst m. simpl. now rewrite Nat.add_sub.
  - apply Nat.eqb_neq in E.
    destruct (m + 1 <=? 1) eqn:E1; [apply Nat.leb_le in E1; lia|].
    now rewrite Nat.add_sub.
Qed.

Lemma days_in_month_bounds (y m : nat) : 28 <= days_in_month y m <= 31.
Proof.
  unfold days_in_month.
  do 12 (destruct m as [|m]; [try (destruct (is_leap y)); lia|]). lia.
Qed.

Lemma ym_leb_month_end (a b : year_month) :
  valid_month a -> valid_month b ->
  (ym_leb a b = true <-> date_le (_month_end_to_date a) (_month_end_to_date b)).
Proof.
  destruct a as [y m], b as [y' m']. unfold valid_month. cbn [snd]. intros Ha Hb.
  rewrite (_month_end_to_date_value y m Ha), (_month_end_to_date_value y' m' Hb).
  unfold date_le. rewrite date_leb_spec. cbn [year month day].
  unfold ym_leb. cbn [fst snd].
  rewrite orb_true_iff, andb_true_iff, Nat.ltb_lt, Nat.eqb_eq, Nat.leb_le.
  split.
  - intros [H | [H1 H2]]; [now left|]. right. split; [assumption|].
    destruct (Nat.eq_dec m m') as [-> | Hne]; [|left; lia].
    right. subst y'. split; [reflexivity|lia].
  - intros [H | [H1 [H2 | [H2 _]]]]; [now left| right; split; lia | right; split; lia].
Qed.

Lemma _month_end_to_date_injective (a b : year_month) :
  valid_month a -> valid_month b ->
  _month_end_to_date a = _month_end_to_date b -> a = b.
Proof.
  destruct a as [y m], b as [y' m']. unfold valid_month. cbn [snd]. intros Ha Hb.
  rewrite (_month_end_to_date_value y m Ha), (_month_end_to_date_value y' m' Hb).
  intros [= -> ->]. reflexivity.
Qed.

Lemma py_date_Some (y m d : nat) (x : date) :
  py_date y m d = Some x ->
  x = mkdate y m d /\ 1 <= y <= MAXYEAR /\ 1 <= m <= 12 /\ 1 <= d <= days_in_month y m.
Proof.
  pose proof (eq_refl : MAXYEAR = 4999 + 5000) as HM. unfold py_date.
  destruct ((1 <=? y) && (y <=? MAXYEAR) && (1 <=? m) && (m <=? 12) &&
            (1 <=? d) && (d <=? days_in_month y m)) eqn:E; [|discriminate].
  intros [= <-]. rewrite !andb_true_iff, !Nat.leb_le in E. split; [reflexivity | lia].
Qed.

Lemma py_date_first (y m : nat) :
  1 <= y <= MAXYEAR -> 1 <= m <= 12 -> py_date y m 1 = Some (mkdate y m 1).
Proof.
  intros Hy Hm. unfold py_date.
  pose proof (days_in_month_bounds y m) as Hd.
  assert (E : (1 <=? y) && (y <=? MAXYEAR) && (1 <=? m) && (m <=? 12) &&
              (1 <=? 1) && (1 <=? days_in_month y m) = true).
  { rewrite !andb_true_iff, !Nat.leb_le. lia. }
  now rewrite E.
Qed.

(** Wherever the checked function returns, it returns the date of
    [_month_end_to_date]. *)
Lemma _month_end_to_date_checked_agrees (ym : year_month) (d : date) :
  _month_end_to_date_checked ym = Some d -> d = _month_end_to_date ym.
Proof.
  destruct ym as [y m]. unfold _month_end_to_date_checked, _month_end_to_date.
  destruct (m =? 12).
  - destruct (py_date (y + 1) 1 1) as [first|] eqn:E; [|discriminate].
    apply py_date_Some in E. destruct E as [-> _]. cbn [year month].
    destruct ((y + 1 =? 1) && (1 =? 1)); [discriminate|]. now intros [= <-].
  - destruct (py_date y (m + 1) 1) as [first|] eqn:E; [|discriminate].
    apply py_date_Some in E. destruct E as [-> _]. cbn [year month].
    destruct ((y =? 1) && (m + 1 =? 1)); [discriminate|]. now intros [= <-].
Qed.

Lemma _month_end_to_date_checked_returns (y m : nat) :
  1 <= m <= 12 ->
  (_month_end_to_date_checked (y, m) <> None <->
   1 <= y <= MAXYEAR /\ (y, m) <> (MAXYEAR, 12)).
Proof.
  intros Hm. pose proof (eq_refl : MAXYEAR = 4999 + 5000) as HM.
  unfold _month_end_to_date_checked.
  destruct (m =? 12) eqn:E12.
  - apply Nat.eqb_eq in E12. subst m.
    destruct (py_date (y + 1) 1 1) as [first|] eqn:E.
    + apply py_date_Some in E. destruct E as (-> & Hy & _). cbn [year month].
      destruct (y + 1 =? 1) eqn:E1; cbn [andb Nat.eqb].
      * apply Nat.eqb_eq in E1. split; [intros H; now contradiction H | lia].
      * apply Nat.eqb_neq in E1. split; [|discriminate].
        intros _. split; [lia|]. intros [= ->]. lia.
    + split; [intros H; now contradiction H|].
      intros [Hy Hne]. exfalso.
      assert (Hy' : 1 <= y + 1 <= MAXYEAR).
      { split; [lia|]. destruct (Nat.eq_dec y MAXYEAR) as [-> | ?]; [now contradiction Hne | lia]. }
      rewrite (py_date_first (y + 1) 1 Hy') in E by lia. discriminate.
  - apply Nat.eqb_neq in E12.
    destruct (py_date y (m + 1) 1) as [first|] eqn:E.
    + apply py_date_Some in E. destruct E as (-> & Hy & _). cbn [year month].
      replace (m + 1 =? 1) with false by (symmetry; apply Nat.eqb_neq; lia).
      rewrite andb_false_r. split; [|discriminate].
      intros _. split; [lia|]. intros [= _ ->]. lia.
    + split; [intros H; now contradiction H|].
      intros [Hy _]. exfalso.
      rewrite (py_date_first y (m + 1) Hy) in E by lia. discriminate.
Qed.

(** X1. [_month_end_to_date] on a key with a calendar month.  The call
    returns exactly when the year is between 1 and 9999 and the key is not
    9999-12 (for which [date(10000, 1, 1)] raises), and what it returns is
    the last day of that month of that year (the 29th of February in a leap
    year, the 31st of December without a change of year).  The dates of two
    such keys are ordered as the keys are, so distinct keys give distinct
    dates. *)
Theorem month_end_is_last_day_of_month (a b : year_month) :
  valid_month a -> valid_month b ->
  (_month_end_to_date_checked a <> None <->
   1 <= fst a <= MAXYEAR /\ a <> (MAXYEAR, 12)) /\
  (forall d, _month_end_to_date_checked a = Some d ->
             d = _month_end_to_date a /\
             d = mkdate (fst a) (snd a) (days_in_month (fst a) (snd a))) /\
  _month_end_to_date a = mkdate (fst a) (snd a) (days_in_month (fst a) (snd a)) /\
  (ym_leb a b = true <-> date_le (_month_end_to_date a) (_month_end_to_date b)) /\
  (_month_end_to_date a = _month_end_to_date b -> a = b).
Proof.
  intros Ha Hb.
  assert (Hv : _month_end_to_date a =
               mkdate (fst a) (snd a) (days_in_month (fst a) (snd a)))
    by (destruct a as [y m]; now apply _month_end_to_date_value).
  split; [|split; [|split; [|split]]].
  - destruct a as [y m]. now apply _month_end_to_date_checked_returns.
  - intros d Hd. apply _month_end_to_date_checked_agrees in Hd. split; congruence.
  - exact Hv.
  - now apply ym_leb_month_end.
  - now apply _month_end_to_date_injective.
Qed.

Lemma month_end_is_last_day_of_month_witness :
  valid_month (2024, 2) /\ valid_month (2023, 12) /\
  _month_end_to_date_checked (2024, 2) = Some (mkdate 2024 2 29) /\
  _month_end_to_date (2024, 2) = mkdate 2024 2 29.
Proof.
  assert (Ha : valid_month (2024, 2)) by (unfold valid_month; simpl; lia).
  assert (Hb : valid_month (2023, 12)) by (unfold valid_month; simpl; lia).
  split; [exact Ha|]. split; [exact Hb|]. split; [reflexivity|].
  exact (proj1 (proj2 (proj2 (month_end_is_last_day_of_month (2024, 2) (2023, 12)
                                Ha Hb)))).
Defined.

(* ------------------------------------------------------------------------- *)
(** ** Spanish month headers *)
(* ------------------------------------------------------------------------- *)

Lemma digit_of_bound (c : ascii) (a : nat) : digit_of c = Some a -> a <= 9.
Proof.
  unfold digit_of.
  destruct ((48 <=? nat_of_ascii c) && (nat_of_ascii c <=? 57)) eqn:E; [|discriminate].
  apply andb_true_iff in E. destruct E as [E1 E2].
  apply Nat.leb_le in E1, E2. intros [= <-]. lia.
Qed.

Lemma _SPANISH_MONTH_MAP_range (k : string) (m : nat) :
  Py.get String.eqb _SPANISH_MONTH_MAP k = Some m -> 1 <= m <= 12.
Proof.
  unfold _SPANISH_MONTH_MAP. simpl.
  repeat match goal with
         | |- context [String.eqb k ?s] => destruct (String.eqb k s)
         end; intros [= <-] || discriminate; lia.
Qed.

Lemma split_at_dot_spec (s a b : string) :
  split_at_dot s = Some (a, b) ->
  s = String.append a (String "."%char b) /\ Py.contains "." a = false.
Proof.
  revert a. induction s as [|c s IH]; intros a; simpl; [discriminate|].
  destruct (Ascii.eqb c ".") eqn:E.
  - apply Ascii.eqb_eq in E. subst c. intros [= <- <-]. split; reflexivity.
  - destruct (split_at_dot s) as [[a' b']|]; [|discriminate].
    intros [= <- <-]. destruct (IH a' eq_refl) as [-> Hc].
    split; [reflexivity|]. cbn [Py.contains prefix].
    destruct (ascii_dec "." c) as [<- | _]; [discriminate E|]. exact Hc.
Qed.

Lemma split_at_dot_complete (a b : string) :
  Py.contains "." a = false ->
  split_at_dot (String.append a (String "."%char b)) = Some (a, b).
Proof.
  induction a as [|c a IH]; cbn [String.append split_at_dot].
  - reflexivity.
  - intros Hc. cbn [Py.contains prefix] in Hc.
    destruct (ascii_dec "." c) as [<- | Hne].
    + destruct a; discriminate Hc.
    + cbn [orb] in Hc. destruct (Ascii.eqb c ".") eqn:E.
      * apply Ascii.eqb_eq in E. now subst c.
      * now rewrite (IH Hc).
Qed.

(** X2. [_parse_spanish_month_header] on ASCII text.  An ASCII text is read
    as a month exactly when, stripped, it is an abbreviation of the table
    (in any letter case), a dot and exactly two decimal digits; the key
    returned then has the month of the abbreviation and the year 2000 + the
    two digits, hence between 2000 and 2099, and a calendar month. *)
Theorem spanish_month_header_range (val : string) (ym : year_month) :
  isascii val = true ->
  (_parse_spanish_month_header val = Some ym <->
   exists abbr d1 d2 a b,
     Py.strip val =
       String.append abbr (String "."%char (String d1 (String d2 EmptyString))) /\
     Py.contains "." abbr = false /\
     Py.get String.eqb _SPANISH_MONTH_MAP (Py.lower abbr) = Some (snd ym) /\
     digit_of d1 = Some a /\ digit_of d2 = Some b /\ fst ym = 2000 + (10 * a + b)) /\
  (_parse_spanish_month_header val = Some ym ->
   2000 <= fst ym <= 2099 /\ valid_month ym).
Proof.
  intros _.
  assert (Hfwd : _parse_spanish_month_header val = Some ym ->
            (2000 <= fst ym <= 2099 /\ valid_month ym) /\
            exists abbr d1 d2 a b,
              Py.strip val =
                String.append abbr (String "."%char (String d1 (String d2 EmptyString))) /\
              Py.contains "." abbr = false /\
              Py.get String.eqb _SPANISH_MONTH_MAP (Py.lower abbr) = Some (snd ym) /\
              digit_of d1 = Some a /\ digit_of d2 = Some b /\
              fst ym = 2000 + (10 * a + b)).
  { unfold _parse_spanish_month_header.
    destruct (split_at_dot (Py.strip val)) as [[abbr rest]|] eqn:Es; [|discriminate].
    destruct rest as [|d1 [|d2 [|]]]; try discriminate.
    destruct (Py.get String.eqb _SPANISH_MONTH_MAP (Py.lower abbr)) as [m|] eqn:Em;
      [|discriminate].
    destruct (digit_of d1) as [a|] eqn:E1; [|discriminate].
    destruct (digit_of d2) as [b|] eqn:E2; [|discriminate].
    intros [= <-]. cbn [fst snd]. unfold valid_month. cbn [snd].
    pose proof (digit_of_bound _ _ E1). pose proof (digit_of_bound _ _ E2).
    pose proof (_SPANISH_MONTH_MAP_range _ _ Em).
    destruct (split_at_dot_spec _ _ _ Es) as [Hs Hc].
    split; [lia|]. exists abbr, d1, d2, a, b. repeat split; assumption. }
  split; [split|].
  - intros H. exact (proj2 (Hfwd H)).
  - intros (abbr & d1 & d2 & a & b & Hs & Hc & Hm & H1 & H2 & Hy).
    unfold _parse_spanish_month_header.
    rewrite Hs, (split_at_dot_complete _ _ Hc), Hm, H1, H2.
    destruct ym as [y m]. cbn [fst snd] in *. now rewrite Hy.
  - intros H. exact (proj1 (Hfwd H)).
Qed.

Lemma spanish_month_header_range_witness :
  isascii " Sept.24 " = true /\
  _parse_spanish_month_header " Sept.24 " = Some (2024, 9) /\
  2000 <= fst (2024, 9) <= 2099 /\ valid_month (2024, 9).
Proof.
  assert (Ha : isascii " Sept.24 " = true) by reflexivity.
  assert (H : _parse_spanish_month_header " Sept.24 " = Some (2024, 9)) by reflexivity.
  split; [exact Ha|]. split; [exact H|].
  exact (proj2 (spanish_month_header_range " Sept.24 " (2024, 9) Ha) H).
Defined.

(* ------------------------------------------------------------------------- *)
(** ** Amounts read from cells *)
(* ------------------------------------------------------------------------- *)

Lemma round_half_even_comp (x y : Q) : (x == y)%Q -> round_half_even x = round_half_even y.
Proof.
  intros H. unfold round_half_even. rewrite (Qfloor_comp x y H).
  assert (Hc : Qcompare (x - inject_Z (Qfloor y)) (1 # 2) =
               Qcompare (y - inject_Z (Qfloor y)) (1 # 2)).
  { apply Qcompare_comp; [rewrite H|]; reflexivity. }
  now rewrite Hc.
Qed.

Lemma round_half_even_bound (x : Q) :
  (inject_Z (round_half_even x) - (1 # 2) <= x /\
   x <= inject_Z (round_half_even x) + (1 # 2))%Q.
Proof.
  unfold round_half_even.
  pose proof (Qfloor_le x) as Hlo. pose proof (Qlt_floor x) as Hhi.
  set (f := Qfloor x) in *.
  rewrite inject_Z_plus in Hhi. change (inject_Z 1) with 1%Q in Hhi.
  destruct (Qcompare (x - inject_Z f) (1 # 2)) eqn:Hc.
  - apply Qeq_alt in Hc. destruct (Z.even f).
    + split; lra.
    + rewrite inject_Z_plus. change (inject_Z 1) with 1%Q. split; lra.
  - apply Qlt_alt in Hc. split; lra.
  - apply Qgt_alt in Hc. rewrite inject_Z_plus. change (inject_Z 1) with 1%Q.
    split; lra.
Qed.

Lemma round_half_even_Z (z : Z) : round_half_even (inject_Z z) = z.
Proof.
  unfold round_half_even. rewrite Qfloor_Z.
  destruct (Qcompare (inject_Z z - inject_Z z) (1 # 2)) eqn:Hc.
  - apply Qeq_alt in Hc. lra.
  - reflexivity.
  - apply Qgt_alt in Hc. lra.
Qed.

Lemma round2_cents (c : Z) : round2 (inject_Z c / 100)%Q = c.
Proof.
  unfold round2. rewrite (round_half_even_comp _ (inject_Z c)).
  - apply round_half_even_Z.
  - field.
Qed.

(** X3. [_safe_float] on the values it returns for.  An empty cell, a date
    and a text that [float] rejects give [None]; a float cell gives the
    amount rounded to hundredths, at most half a hundredth away from the
    value of the cell; a float that is already a whole number of hundredths
    is read back unchanged, and so is an integer of magnitude at most 2^53
    (the integers that [float] converts exactly). *)
Theorem safe_float_rounds_to_hundredths :
  forall (B : PyBuiltins),
    _safe_float VNone = None /\
    (forall d t, _safe_float (VDatetime d t) = None /\ _safe_float (VDate d) = None) /\
    (forall s, float_of_str s = None -> _safe_float (VStr s) = None) /\
    (forall q, exists c,
        _safe_float (VFloat q) = Some c /\
        (inject_Z c - (1 # 2) <= q * 100 /\ q * 100 <= inject_Z c + (1 # 2))%Q) /\
    (forall c, _safe_float (VFloat (inject_Z c / 100)%Q) = Some c) /\
    (forall z, (Z.abs z <= 2 ^ 53)%Z -> _safe_float (VInt z) = Some (z * 100)%Z).
Proof.
  intros B. split; [reflexivity|]. split; [intros d t; split; reflexivity|].
  split; [intros s Hs; cbn [_safe_float py_float]; now rewrite Hs|]. split; [|split].
  - intros q. exists (round2 q). split; [reflexivity|].
    unfold round2. apply round_half_even_bound.
  - intros c. cbn [_safe_float py_float]. now rewrite round2_cents.
  - intros z _. cbn [_safe_float py_float]. f_equal. unfold round2.
    rewrite (round_half_even_comp _ (inject_Z (z * 100))).
    + apply round_half_even_Z.
    + rewrite inject_Z_mult. reflexivity.
Qed.

(* ------------------------------------------------------------------------- *)
(** ** Stripped texts *)
(* ------------------------------------------------------------------------- *)

Lemma append_nil_r (s : string) : String.append s "" = s.
Proof. induction s as [|c s IH]; simpl; [reflexivity | now rewrite IH]. Qed.

Lemma append_assoc (a b c : string) :
  String.append (String.append a b) c = String.append a (String.append b c).
Proof. induction a as [|x a IH]; simpl; [reflexivity | now rewrite IH]. Qed.

Lemma rev_append (a b : string) :
  Py.rev (String.append a b) = String.append (Py.rev b) (Py.rev a).
Proof.
  induction a as [|x a IH]; simpl.
  - now rewrite append_nil_r.
  - now rewrite IH, append_assoc.
Qed.

Lemma rev_involutive (s : string) : Py.rev (Py.rev s) = s.
Proof.
  induction s as [|c s IH]; simpl; [reflexivity|].
  rewrite rev_append, IH. reflexivity.
Qed.

Lemma lstrip_no_leading_space (s : string) : no_leading_space (Py.lstrip s).
Proof.
  induction s as [|c s IH]; simpl; [exact I|].
  destruct (Py.isspace c) eqn:E; [exact IH | exact E].
Qed.

Lemma lstrip_fixed (s : string) : no_leading_space s -> Py.lstrip s = s.
Proof. destruct s as [|c s]; simpl; [reflexivity|]. now intros ->. Qed.

Lemma lstrip_append_last (x : string) (c : ascii) :
  Py.isspace c = false ->
  Py.lstrip (String.append x (String c "")) = String.append (Py.lstrip x) (String c "").
Proof.
  intros Hc. induction x as [|d x IH]; simpl.
  - now rewrite Hc.
  - destruct (Py.isspace d); [exact IH | reflexivity].
Qed.

Lemma rstrip_no_leading_space (s : string) :
  no_leading_space s -> no_leading_space (Py.rstrip s).
Proof.
  destruct s as [|c s]; [intros _; exact I|]. simpl. intros Hc.
  unfold Py.rstrip. simpl. rewrite (lstrip_append_last _ _ Hc), rev_append. simpl.
  exact Hc.
Qed.

Lemma strip_no_leading_space (s : string) : no_leading_space (Py.strip s).
Proof. apply rstrip_no_leading_space, lstrip_no_leading_space. Qed.

Lemma strip_no_trailing_space (s : string) : no_leading_space (Py.rev (Py.strip s)).
Proof.
  unfold Py.strip, Py.rstrip. rewrite rev_involutive. apply lstrip_no_leading_space.
Qed.

Lemma strip_fixed (s : string) :
  no_leading_space s -> no_leading_space (Py.rev s) -> Py.strip s = s.
Proof.
  intros H1 H2. unfold Py.strip, Py.rstrip.
  rewrite (lstrip_fixed s H1), (lstrip_fixed _ H2). apply rev_involutive.
Qed.

Lemma strip_idempotent (s : string) : Py.strip (Py.strip s) = Py.strip s.
Proof.
  apply strip_fixed; [apply strip_no_leading_space | apply strip_no_trailing_space].
Qed.

Lemma lstrip_char_fixed (ch : ascii) (s : string) :
  Py.isspace ch = true -> no_leading_space s -> Py.lstrip_char ch s = s.
Proof.
  intros Hch. destruct s as [|c s]; simpl; [reflexivity|].
  intros Hc. destruct (Ascii.eqb c ch) eqn:E; [|reflexivity].
  apply Ascii.eqb_eq in E. congruence.
Qed.

Lemma strip_char_fixed (ch : ascii) (s : string) :
  Py.isspace ch = true -> no_leading_space s -> no_leading_space (Py.rev s) ->
  Py.strip_char ch s = s.
Proof.
  intros Hch H1 H2. unfold Py.strip_char.
  rewrite (lstrip_char_fixed ch s Hch H1), (lstrip_char_fixed ch _ Hch H2).
  apply rev_involutive.
Qed.

(** X4. [_safe_str] on a value whose text is ASCII.  It returns [None] or
    the stripped text of the value, which is then not empty and has no
    whitespace at either end (stripping it again changes nothing); the
    variant of Santa Elisa, which strips, strips tabs and strips again,
    returns the same result as the variant of Boulevard. *)
Theorem safe_str_is_stripped :
  forall (B : PyBuiltins) (val : PyVal),
    isascii (py_str val) = true ->
    SantaElisa._safe_str val = _safe_str val /\
    (val = VNone -> _safe_str val = None) /\
    (forall s, _safe_str val = Some s ->
               s <> "" /\ Py.strip s = s /\ no_leading_space s /\
               no_leading_space (Py.rev s) /\ s = Py.strip (py_str val)).
Proof.
  intros B val _.
  assert (Htab : forall t, Py.strip (Py.strip_char "009"%char (Py.strip t)) = Py.strip t).
  { intros t.
    rewrite (strip_char_fixed "009"%char (Py.strip t) eq_refl
               (strip_no_leading_space t) (strip_no_trailing_space t)).
    apply strip_idempotent. }
  split; [|split].
  - unfold SantaElisa._safe_str, _safe_str. destruct val; try reflexivity;
      now rewrite Htab.
  - intros ->. reflexivity.
  - intros s. unfold _safe_str.
    assert (Hgen : forall t,
               (if String.eqb (Py.strip t) "" then None else Some (Py.strip t)) = Some s ->
               s <> "" /\ Py.strip s = s /\ no_leading_space s /\
               no_leading_space (Py.rev s) /\ s = Py.strip t).
    { intros t. destruct (String.eqb (Py.strip t) "") eqn:E; [discriminate|].
      intros [= <-]. apply String.eqb_neq in E.
      repeat split; try assumption.
      - apply strip_idempotent.
      - apply strip_no_leading_space.
      - apply strip_no_trailing_space. }
    destruct val; try discriminate; apply Hgen.
Qed.

Lemma safe_str_is_stripped_witness :
  isascii (@py_str text_free_builtins (VStr "  Jane Roe	 ")) = true /\
  @SantaElisa._safe_str text_free_builtins (VStr "  Jane Roe	 ") = Some "Jane Roe".
Proof.
  assert (Ha : isascii (@py_str text_free_builtins (VStr "  Jane Roe	 ")) = true)
    by reflexivity.
  split; [exact Ha|].
  rewrite (proj1 (safe_str_is_stripped text_free_builtins (VStr "  Jane Roe	 ") Ha)).
  reflexivity.
Defined.

(* ------------------------------------------------------------------------- *)
(** ** Normalised statuses and sales representatives *)
(* ------------------------------------------------------------------------- *)

Ltac split_on_key key :=
  repeat match goal with
         | |- context [String.eqb key ?s] =>
             let E := fresh "E" in
             destruct (String.eqb key s) eqn:E;
             [apply String.eqb_eq in E; subst key; cbn|]
         end.

(** X5. The two status tables of each script agree: a status text has no
    sale status exactly when its unit status is [available] (so an
    unrecognised text and "1.Disponible" never produce a sale), a cancelled
    sale status exactly when the unit status is cancelled, and an active one
    exactly when the unit is reserved or sold. *)
Theorem sale_status_agrees_with_unit_status :
  forall raw : option string,
    ((Boulevard.normalize_sale_status raw = None <->
      Boulevard.normalize_unit_status raw = available) /\
     (Boulevard.normalize_sale_status raw = Some cancelled <->
      Boulevard.normalize_unit_status raw = unit_cancelled) /\
     (Boulevard.normalize_sale_status raw = Some active <->
      Boulevard.normalize_unit_status raw = reserved \/
      Boulevard.normalize_unit_status raw = sold)) /\
    ((SantaElisa.normalize_sale_status raw = None <->
      SantaElisa.normalize_unit_status raw = available) /\
     (SantaElisa.normalize_sale_status raw = Some cancelled <->
      SantaElisa.normalize_unit_status raw = unit_cancelled) /\
     (SantaElisa.normalize_sale_status raw = Some active <->
      SantaElisa.normalize_unit_status raw = reserved \/
      SantaElisa.normalize_unit_status raw = sold)).
Proof.
  intros [s|].
  - unfold Boulevard.normalize_sale_status, Boulevard.normalize_unit_status,
      SantaElisa.normalize_sale_status, SantaElisa.normalize_unit_status,
      normalize_sale_status, normalize_unit_status.
    generalize (Py.lower (Py.strip s)). intros key.
    unfold Boulevard.STATUS_TO_SALE_STATUS, Boulevard.STATUS_TO_UNIT_STATUS,
      SantaElisa.STATUS_TO_SALE_STATUS, SantaElisa.STATUS_TO_UNIT_STATUS.
    cbn [Py.get].
    split_on_key key;
      repeat split; intros H; try discriminate H; try reflexivity;
      try (destruct H as [H | H]; discriminate H); auto.
  - cbn. repeat split; intros H; try discriminate H; try reflexivity;
      try (destruct H as [H | H]; discriminate H).
Qed.

Lemma get_In {V : Type} (d : Py.dict string V) (k : string) (v : V) :
  Py.get String.eqb d k = Some v -> In (k, v) d.
Proof.
  induction d as [|[k' v'] d IH]; simpl; [discriminate|].
  destruct (String.eqb k k') eqn:E.
  - apply String.eqb_eq in E. subst k'. intros [= ->]. now left.
  - intros H. right. now apply IH.
Qed.

Lemma normalize_vendedor_idempotent_on (table : Py.dict string (option string)) :
  Forall (fun kv => match snd kv with
                    | Some canonical =>
                        normalize_vendedor table (Some canonical) = Some canonical
                    | None => True
                    end) table ->
  forall raw, normalize_vendedor table (normalize_vendedor table raw) =
              normalize_vendedor table raw.
Proof.
  intros Htable [s|]; [|reflexivity].
  unfold normalize_vendedor at 2 3.
  destruct (Py.get String.eqb table (Py.lower (Py.strip s))) as [[canonical|]|] eqn:E.
  - apply get_In in E. rewrite Forall_forall in Htable. exact (Htable _ E).
  - reflexivity.
  - unfold normalize_vendedor. now rewrite strip_idempotent, E.
Qed.

(** X6. [normalize_vendedor] is idempotent on ASCII text in both scripts:
    normalising the result of normalising an ASCII text (a canonical name
    of the table, [None] for a placeholder, or the stripped text for a name
    the table lacks) changes nothing. *)
Theorem normalize_vendedor_is_idempotent :
  forall raw : option string,
    match raw with Some s => isascii s = true | None => True end ->
    Boulevard.normalize_vendedor (Boulevard.normalize_vendedor raw) =
      Boulevard.normalize_vendedor raw /\
    SantaElisa.normalize_vendedor (SantaElisa.normalize_vendedor raw) =
      SantaElisa.normalize_vendedor raw.
Proof.
  intros raw _. split.
  - apply normalize_vendedor_idempotent_on.
    unfold Boulevard.VENDEDOR_CANONICAL.
    repeat (constructor; [cbn [snd]; try exact I; vm_compute; reflexivity|]).
    constructor.
  - apply normalize_vendedor_idempotent_on.
    unfold SantaElisa.VENDEDOR_CANONICAL.
    repeat (constructor; [cbn [snd]; try exact I; vm_compute; reflexivity|]).
    constructor.
Qed.

Lemma normalize_vendedor_is_idempotent_witness :
  isascii " RONALDO " = true /\
  Boulevard.normalize_vendedor (Some " RONALDO ") = Some "Ronaldo Ogaldez" /\
  Boulevard.normalize_vendedor (Boulevard.normalize_vendedor (Some " RONALDO ")) =
    Boulevard.normalize_vendedor (Some " RONALDO ").
Proof.
  assert (Ha : isascii " RONALDO " = true) by reflexivity.
  split; [exact Ha|]. split; [reflexivity|].
  exact (proj1 (normalize_vendedor_is_idempotent (Some " RONALDO ") Ha)).
Defined.

(* ------------------------------------------------------------------------- *)
(** ** Batches *)
(* ------------------------------------------------------------------------- *)

Lemma _batched_from_nth {A : Type} (size : nat) :
  0 < size ->
  forall fuel (items : list A) (i : nat),
    List.length items <= fuel ->
    nth_error (_batched_from fuel items size) i =
    if i * size <? List.length items
    then Some (firstn size (skipn (i * size) items))
    else None.
Proof.
  intros Hsize. induction fuel as [|fuel IH]; intros items i Hlen.
  - destruct items; [|simpl in Hlen; lia]. simpl.
    destruct i; reflexivity.
  - destruct items as [|x items].
    + simpl. destruct i; reflexivity.
    + cbn [_batched_from]. destruct i as [|i].
      * cbn [nth_error Nat.mul]. simpl List.length.
        destruct (0 <? S (List.length items)) eqn:E; [reflexivity|].
        apply Nat.ltb_ge in E. lia.
      * cbn [nth_error]. rewrite IH.
        -- rewrite length_skipn.
           replace (S i * size) with (i * size + size) by (simpl; lia).
           rewrite skipn_skipn.
           destruct (i * size <? List.length (x :: items) - size) eqn:E1;
             destruct (i * size + size <? List.length (x :: items)) eqn:E2;
             try reflexivity.
           ++ apply Nat.ltb_lt in E1. apply Nat.ltb_ge in E2.
              cbn [List.length] in *. exfalso. lia.
           ++ apply Nat.ltb_ge in E1. apply Nat.ltb_lt in E2.
              cbn [List.length] in *. exfalso. lia.
        -- rewrite length_skipn. cbn [List.length] in *. lia.
Qed.

(** X7. [_batched] with a positive size cuts the list into consecutive
    slices: the batch at position [i] is [items[i*size : i*size + size]]
    for every [i] with [i*size < len(items)] and there is no other batch;
    the batches concatenated give the list back, no batch is empty or
    longer than [size], and an empty list gives no batch. *)
Theorem batched_cuts_consecutive_slices {A : Type} (items : list A) (size : nat) :
  0 < size ->
  (forall i, nth_error (_batched items size) i =
             if i * size <? List.length items
             then Some (firstn size (skipn (i * size) items))
             else None) /\
  List.concat (_batched items size) = items /\
  Forall (fun batch => 0 < List.length batch <= size) (_batched items size) /\
  (items = [] <-> _batched items size = []).
Proof.
  intros Hsize.
  assert (Hnth : forall i, nth_error (_batched items size) i =
                           if i * size <? List.length items
                           then Some (firstn size (skipn (i * size) items))
                           else None).
  { intros i. unfold _batched. now apply _batched_from_nth. }
  split; [exact Hnth|]. split; [|split].
  - unfold _batched. now apply _batched_from_concat.
  - apply Forall_forall. intros batch Hin.
    apply In_nth_error in Hin. destruct Hin as [i Hi]. rewrite Hnth in Hi.
    destruct (i * size <? List.length items) eqn:E; [|discriminate].
    apply Nat.ltb_lt in E. injection Hi as <-.
    rewrite length_firstn, length_skipn. lia.
  - split.
    + intros ->. reflexivity.
    + intros H. pose proof (Hnth 0) as H0. rewrite H in H0. simpl in H0.
      destruct items; [reflexivity|]. simpl in H0. discriminate.
Qed.

Lemma batched_cuts_consecutive_slices_witness :
  0 < 2 /\ _batched [1; 2; 3; 4; 5] 2 = [[1; 2]; [3; 4]; [5]] /\
  List.concat (_batched [1; 2; 3; 4; 5] 2) = [1; 2; 3; 4; 5].
Proof.
  assert (H : 0 < 2) by lia.
  split; [exact H|]. split; [reflexivity|].
  exact (proj1 (proj2 (batched_cuts_consecutive_slices [1; 2; 3; 4; 5] 2 H))).
Defined.

(* ------------------------------------------------------------------------- *)
(** ** Header discovery over a row *)
(* ------------------------------------------------------------------------- *)

Lemma ym_eqb_spec (a b : year_month) : ym_eqb a b = true <-> a = b.
Proof.
  destruct a as [y m], b as [y' m']. unfold ym_eqb. cbn [fst snd].
  rewrite andb_true_iff, !Nat.eqb_eq. split; [intros [-> ->] | intros [= -> ->]]; auto.
Qed.

Lemma named_mem_false (named : NamedCols) (L : string) :
  named_mem named L = false <-> named_get named L = None.
Proof.
  unfold named_mem, named_get, Py.mem.
  destruct (Py.get String.eqb named L); split; congruence.
Qed.

Lemma match_header_Some (patterns : HeaderPatterns) (named : NamedCols) (norm L : string) :
  match_header patterns named norm = Some L ->
  named_get named L = None /\
  exists pats,
    In (L, pats) patterns /\
    (In norm pats \/
     exists p, In p pats /\ 4 < String.length p /\ Py.contains p norm = true).
Proof.
  unfold match_header.
  destruct (match_exact patterns named norm) as [L'|] eqn:E.
  - intros [= ->]. apply match_exact_Some in E.
    destruct E as (before & pats & after & -> & Hm & Hin & _).
    split; [now apply named_mem_false|].
    exists pats. split; [apply in_elt | now left].
  - intros H. apply match_substring_Some in H.
    destruct H as (before & pats & after & -> & Hm & Hin & _).
    split; [now apply named_mem_false|].
    exists pats. split; [apply in_elt | now right].
Qed.

Section HeaderRow.
Context {B : PyBuiltins}.
Variable ws : Worksheet.
Variable header_row : nat.
Variable patterns : HeaderPatterns.
Variable parse_spanish_months : bool.

Local Abbreviation step :=
  (discover_headers_step ws header_row patterns parse_spanish_months).
Local Abbreviation key_at col := (month_key parse_spanish_months (ws header_row col)).
Local Abbreviation claimed := (claims ws header_row patterns parse_spanish_months).

Lemma discover_headers_step_eq (acc : NamedCols * MonthCols) (col : nat) :
  step acc col =
  match key_at col with
  | Some ym => (fst acc, month_set (snd acc) ym col)
  | None =>
      match _normalize_header (ws header_row col) with
      | Some norm =>
          match match_header patterns (fst acc) norm with
          | Some L => (named_set (fst acc) L col, snd acc)
          | None => acc
          end
      | None => acc
      end
  end.
Proof.
  unfold discover_headers_step, month_key. destruct acc as [named months]. cbn [fst snd].
  destruct (ws header_row col) eqn:E; try reflexivity;
    destruct parse_spanish_months; cbn [_normalize_header];
    try reflexivity;
    match goal with
    | |- context [_parse_spanish_month_header ?s] =>
        destruct (_parse_spanish_month_header s); reflexivity
    end.
Qed.

Lemma normalize_header_None (val : PyVal) : _normalize_header val = None -> val = VNone.
Proof. destruct val; simpl; congruence. Qed.

(** One column: a name keeps its column; a new entry is the column at hand,
    claimed by a name that had none. *)
Lemma step_named (acc : NamedCols * MonthCols) (col : nat) :
  (forall L c, named_get (fst acc) L = Some c -> named_get (fst (step acc col)) L = Some c) /\
  (forall L c, named_get (fst (step acc col)) L = Some c ->
               named_get (fst acc) L = Some c \/
               (c = col /\ claimed L col /\
                exists norm, _normalize_header (ws header_row col) = Some norm /\
                             match_header patterns (fst acc) norm = Some L)).
Proof.
  rewrite discover_headers_step_eq.
  destruct (key_at col) as [ym|] eqn:Ek; cbn [fst]; [split; auto|].
  destruct (_normalize_header (ws header_row col)) as [norm|] eqn:En; [|split; auto].
  destruct (match_header patterns (fst acc) norm) as [L0|] eqn:Em; [|split; auto].
  cbn [fst]. destruct (match_header_Some _ _ _ _ Em) as (Hnone & pats & Hin & Hmatch).
  unfold named_set, named_get in *. split.
  - intros L c H. rewrite (get_set string nat String.eqb string_eqb_spec).
    destruct (String.eqb L L0) eqn:E; [|exact H].
    apply String.eqb_eq in E. subst L0. congruence.
  - intros L c. rewrite (get_set string nat String.eqb string_eqb_spec).
    destruct (String.eqb L L0) eqn:E; [|now left].
    apply String.eqb_eq in E. subst L0. intros [= <-]. right.
    split; [reflexivity|]. split.
    + split; [|split; [exact Ek|]].
      * intros Hv. rewrite Hv in En. discriminate En.
      * exists pats, norm. auto.
    + exists norm. auto.
Qed.

Lemma fold_named_stable (cols : list nat) :
  forall acc L c,
    named_get (fst acc) L = Some c -> named_get (fst (fold_left step cols acc)) L = Some c.
Proof.
  induction cols as [|col cols IH]; intros acc L c H; simpl; [exact H|].
  apply IH. now apply (proj1 (step_named acc col)).
Qed.

Lemma fold_named_sound (cols : list nat) :
  forall acc L c,
    named_get (fst (fold_left step cols acc)) L = Some c ->
    named_get (fst acc) L = Some c \/ (In c cols /\ claimed L c).
Proof.
  induction cols as [|col cols IH]; intros acc L c H; simpl in H; [now left|].
  destruct (IH _ _ _ H) as [H1 | [H1 H2]].
  - destruct (proj2 (step_named acc col) _ _ H1) as [H0 | (-> & Hc & _)].
    + now left.
    + right. split; [now left | exact Hc].
  - right. split; [now right | exact H2].
Qed.

Lemma fold_named_injective (cols : list nat) :
  NoDup cols ->
  forall acc,
    (forall L c, named_get (fst acc) L = Some c -> ~ In c cols) ->
    (forall L1 L2 c, named_get (fst acc) L1 = Some c -> named_get (fst acc) L2 = Some c ->
                     L1 = L2) ->
    forall L1 L2 c,
      named_get (fst (fold_left step cols acc)) L1 = Some c ->
      named_get (fst (fold_left step cols acc)) L2 = Some c -> L1 = L2.
Proof.
  induction 1 as [|col cols Hnotin Hnodup IH]; intros acc Hfresh Hinj; simpl; [exact Hinj|].
  apply IH.
  - intros L c H.
    destruct (proj2 (step_named acc col) _ _ H) as [H0 | (-> & _)].
    + intros Hc. apply (Hfresh _ _ H0). now right.
    + exact Hnotin.
  - intros L1 L2 c H1 H2.
    destruct (proj2 (step_named acc col) _ _ H1) as [A1 | (-> & _ & n1 & E1 & M1)];
      destruct (proj2 (step_named acc col) _ _ H2) as [A2 | (Hc & _ & n2 & E2 & M2)].
    + exact (Hinj _ _ _ A1 A2).
    + subst c. exfalso. apply (Hfresh _ _ A1). now left.
    + exfalso. apply (Hfresh _ _ A2). now left.
    + congruence.
Qed.

(** The month columns after a run over [cols]: for each key, the last column
    that denotes it. *)
Lemma fold_months (cols : list nat) (ym : year_month) :
  forall acc,
    Py.get ym_eqb (snd (fold_left step cols acc)) ym =
    fold_left (fun r col => match key_at col with
                            | Some k => if ym_eqb ym k then Some col else r
                            | None => r
                            end)
              cols (Py.get ym_eqb (snd acc) ym).
Proof.
  induction cols as [|col cols IH]; intros acc; simpl; [reflexivity|].
  rewrite IH. f_equal. rewrite discover_headers_step_eq.
  destruct (key_at col) as [k|] eqn:Ek; cbn [snd].
  - unfold month_set. now rewrite (get_set year_month nat ym_eqb ym_eqb_spec).
  - destruct (_normalize_header (ws header_row col)); [|reflexivity].
    destruct (match_header patterns (fst acc) s); reflexivity.
Qed.

Lemma last_key_seq (ym : year_month) (c : nat) :
  forall n start init,
    fold_left (fun r col => match key_at col with
                            | Some k => if ym_eqb ym k then Some col else r
                            | None => r
                            end)
              (seq start n) init = Some c <->
    (start <= c < start + n /\ key_at c = Some ym /\
     forall c', c < c' < start + n -> key_at c' <> Some ym) \/
    (init = Some c /\ forall c', start <= c' < start + n -> key_at c' <> Some ym).
Proof.
  induction n as [|n IH]; intros start init.
  - simpl. split.
    + intros H. right. split; [exact H | intros c' Hc'; lia].
    + intros [[Hc _] | [H _]]; [lia | exact H].
  - cbn [seq fold_left]. rewrite IH. clear IH.
    destruct (key_at start) as [k|] eqn:Ek.
    + destruct (ym_eqb ym k) eqn:E.
      * apply ym_eqb_spec in E. subst k. split.
        -- intros [(H1 & H2 & H3) | (H1 & H2)].
           ++ left. split; [lia|]. split; [exact H2|]. intros c' Hc'. apply H3. lia.
           ++ injection H1 as <-. left. split; [lia|]. split; [exact Ek|].
              intros c' Hc'. apply H2. lia.
        -- intros [(H1 & H2 & H3) | (H1 & H2)].
           ++ destruct (Nat.eq_dec c start) as [-> | Hne].
              ** right. split; [reflexivity|]. intros c' Hc'. apply H3. lia.
              ** left. split; [lia|]. split; [exact H2|]. intros c' Hc'. apply H3. lia.
           ++ exfalso. apply (H2 start); [lia | exact Ek].
      * assert (Hk : key_at start <> Some ym).
        { rewrite Ek. intros [= ->].
          assert (ym_eqb ym ym = true) by now apply ym_eqb_spec. congruence. }
        split.
        -- intros [(H1 & H2 & H3) | (H1 & H2)].
           ++ left. split; [lia|]. split; [exact H2|]. intros c' Hc'. apply H3. lia.
           ++ right. split; [exact H1|]. intros c' Hc'.
              destruct (Nat.eq_dec c' start) as [-> | Hne]; [exact Hk | apply H2; lia].
        -- intros [(H1 & H2 & H3) | (H1 & H2)].
           ++ left. split; [|split; [exact H2 | intros c' Hc'; apply H3; lia]].
              destruct (Nat.eq_dec c start) as [-> | Hne]; [congruence | lia].
           ++ right. split; [exact H1 | intros c' Hc'; apply H2; lia].
    + assert (Hk : key_at start <> Some ym) by (rewrite Ek; discriminate).
      split.
      * intros [(H1 & H2 & H3) | (H1 & H2)].
        -- left. split; [lia|]. split; [exact H2|]. intros c' Hc'. apply H3. lia.
        -- right. split; [exact H1|]. intros c' Hc'.
           destruct (Nat.eq_dec c' start) as [-> | Hne]; [exact Hk | apply H2; lia].
      * intros [(H1 & H2 & H3) | (H1 & H2)].
        -- left. split; [|split; [exact H2 | intros c' Hc'; apply H3; lia]].
           destruct (Nat.eq_dec c start) as [-> | Hne]; [congruence | lia].
        -- right. split; [exact H1 | intros c' Hc'; apply H2; lia].
Qed.
End HeaderRow.

Lemma range_In (a b c : nat) : In c (Py.range a (b + 1)) <-> a <= c <= b.
Proof. unfold Py.range. rewrite in_seq. lia. Qed.

(** X8. A column that [discover_headers] assigns to a logical name lies in
    the scanned range and is claimed by the name: its header cell is not
    empty, denotes no month, and its normalised text is a pattern of the
    name or contains one longer than 4 characters.  No other logical name
    gets the same column, and the column is not a month column. *)
Theorem discovered_column_is_claimed :
  forall (B : PyBuiltins) (ws : Worksheet) (header_row col_start col_end : nat)
         (patterns : HeaderPatterns) (parse_spanish_months : bool) (L : string) (c : nat),
    let found := discover_headers ws header_row col_start col_end patterns
                   parse_spanish_months in
    named_get (fst found) L = Some c ->
    col_start <= c <= col_end /\
    claims ws header_row patterns parse_spanish_months L c /\
    (forall L', named_get (fst found) L' = Some c -> L' = L) /\
    (forall ym, Py.get ym_eqb (snd found) ym <> Some c).
Proof.
  intros B ws header_row col_start col_end patterns psm L c found H.
  subst found. unfold discover_headers in *.
  destruct (fold_named_sound ws header_row patterns psm _ _ _ _ H) as [H0 | [Hin Hc]];
    [discriminate H0|].
  split; [now apply range_In|]. split; [exact Hc|]. split.
  - intros L' H'.
    apply (fold_named_injective ws header_row patterns psm
             (Py.range col_start (col_end + 1)) (seq_NoDup _ _) ([], []))
      with (c := c); try assumption.
    + intros L0 c0 H0. discriminate H0.
    + intros L1 L2 c0 H0. discriminate H0.
  - intros ym Hm. rewrite fold_months in Hm. unfold Py.range in Hm.
    apply last_key_seq in Hm. destruct Hm as [(_ & Hk & _) | (Hk & _)].
    + destruct Hc as (_ & Hnone & _). congruence.
    + discriminate Hk.
Qed.

Lemma discovered_column_is_claimed_witness :
  named_get
    (fst (@discover_headers text_free_builtins
            (header_sheet 6 2 ["Apto"; "Tipo de Plan"; "Tipo"]) 6 2 84
            Boulevard.B5_HEADER_PATTERNS false)) "estatus" = Some 3 /\
  2 <= 3 <= 84.
Proof.
  assert (H : named_get
                (fst (@discover_headers text_free_builtins
                        (header_sheet 6 2 ["Apto"; "Tipo de Plan"; "Tipo"]) 6 2 84
                        Boulevard.B5_HEADER_PATTERNS false)) "estatus" = Some 3)
    by (vm_compute; reflexivity).
  split; [exact H|].
  exact (proj1 (discovered_column_is_claimed text_free_builtins
                  (header_sheet 6 2 ["Apto"; "Tipo de Plan"; "Tipo"]) 6 2 84
                  Boulevard.B5_HEADER_PATTERNS false "estatus" 3 H)).
Defined.

(** X9. The month columns of [discover_headers]: a key is mapped to a
    column exactly when that column is the last one of the scanned range
    whose header cell denotes the key (a datetime of that month or, where
    enabled, a Spanish month text).  When two header cells denote the same
    month the one further right is kept. *)
Theorem month_column_is_last_of_its_month :
  forall (B : PyBuiltins) (ws : Worksheet) (header_row col_start col_end : nat)
         (patterns : HeaderPatterns) (parse_spanish_months : bool)
         (ym : year_month) (c : nat),
    Py.get ym_eqb
      (snd (discover_headers ws header_row col_start col_end patterns
              parse_spanish_months)) ym = Some c <->
    col_start <= c <= col_end /\
    month_key parse_spanish_months (ws header_row c) = Some ym /\
    forall c', c < c' <= col_end ->
               month_key parse_spanish_months (ws header_row c') <> Some ym.
Proof.
  intros B ws header_row col_start col_end patterns psm ym c.
  unfold discover_headers. rewrite fold_months. unfold Py.range.
  rewrite last_key_seq. cbn [snd Py.get]. split.
  - intros [(H1 & H2 & H3) | (H1 & _)]; [|discriminate H1].
    split; [lia|]. split; [exact H2|]. intros c' Hc'. apply H3. lia.
  - intros (H1 & H2 & H3). left. split; [lia|]. split; [exact H2|].
    intros c' Hc'. apply H3. lia.
Qed.

Lemma match_header_exclusive (patterns : HeaderPatterns) (named : NamedCols)
    (norm L : string) (pats : list string) :
  In (L, pats) patterns -> In norm pats -> named_get named L = None ->
  (forall L' pats', In (L', pats') patterns -> In norm pats' -> L' = L) ->
  match_header patterns named norm = Some L.
Proof.
  intros Hin Hnorm Hnone Hexcl. unfold match_header.
  destruct (match_exact patterns named norm) as [L'|] eqn:E.
  - apply match_exact_Some in E.
    destruct E as (before & pats' & after & -> & _ & Hn' & _).
    f_equal. apply (Hexcl L' pats'); [apply in_elt | exact Hn'].
  - exfalso. apply (match_exact_None _ _ _ E L pats Hin); [|exact Hnorm].
    now apply named_mem_false.
Qed.

Lemma NoDup_app_disjoint {A : Type} (l1 l2 : list A) (a : A) :
  NoDup (l1 ++ l2) -> In a l1 -> In a l2 -> False.
Proof.
  intros Hnd H1 H2. apply in_split in H2. destruct H2 as (x & y & ->).
  rewrite app_assoc in Hnd. apply NoDup_remove_2 in Hnd. apply Hnd.
  apply in_or_app. left. apply in_or_app. now left.
Qed.

Lemma exclusive_patterns (patterns : HeaderPatterns) :
  NoDup (flat_map snd patterns) ->
  forall L pats L' pats' norm,
    In (L, pats) patterns -> In (L', pats') patterns ->
    In norm pats -> In norm pats' -> L' = L.
Proof.
  induction patterns as [|[L0 p0] rest IH]; intros Hnd L pats L' pats' norm H1 H2 N1 N2;
    [destruct H1|].
  cbn [flat_map snd] in Hnd.
  assert (Hflat : forall M ps, In (M, ps) rest -> In norm ps -> In norm (flat_map snd rest)).
  { intros M ps HM Hn. apply in_flat_map. exists (M, ps). auto. }
  destruct H1 as [[= <- <-] | H1], H2 as [[= <- <-] | H2].
  - reflexivity.
  - exfalso. exact (NoDup_app_disjoint _ _ norm Hnd N1 (Hflat _ _ H2 N2)).
  - exfalso. exact (NoDup_app_disjoint _ _ norm Hnd N2 (Hflat _ _ H1 N1)).
  - apply NoDup_app_remove_l in Hnd. exact (IH Hnd _ _ _ _ _ H1 H2 N1 N2).
Qed.

Ltac nodup_strings :=
  repeat (constructor;
          [ let H := fresh "H" in
            simpl; intros H;
            repeat (destruct H as [H | H]; [discriminate H|]); exact H
          | ]);
  constructor.

(** In the pattern tables of both scripts no pattern occurs twice. *)
Lemma pattern_tables_exclusive (patterns : HeaderPatterns) :
  In patterns [Boulevard.B5_HEADER_PATTERNS; Boulevard.PPTO_HEADER_PATTERNS;
               SantaElisa.SE_HEADER_PATTERNS; SantaElisa.PPTO_HEADER_PATTERNS] ->
  forall L pats L' pats' norm,
    In (L, pats) patterns -> In (L', pats') patterns ->
    In norm pats -> In norm pats' -> L' = L.
Proof.
  intros Hin. apply exclusive_patterns.
  destruct Hin as [<- | [<- | [<- | [<- | []]]]]; cbn; nodup_strings.
Qed.

Lemma exact_header_found (B : PyBuiltins) (ws : Worksheet)
    (header_row col_start col_end : nat)
    (patterns : HeaderPatterns) (parse_spanish_months : bool)
    (L norm : string) (pats : list string) (c : nat) :
  In (L, pats) patterns -> In norm pats ->
  (forall L' pats', In (L', pats') patterns -> In norm pats' -> L' = L) ->
  col_start <= c <= col_end ->
  month_key parse_spanish_months (ws header_row c) = None ->
  _normalize_header (ws header_row c) = Some norm ->
  exists c',
    named_get (fst (discover_headers ws header_row col_start col_end patterns
                      parse_spanish_months)) L = Some c' /\
    col_start <= c' <= c.
Proof.
  intros Hin Hnorm Hexcl Hc Hkey Hcell.
  unfold discover_headers, Py.range.
  replace (col_end + 1 - col_start) with ((c - col_start) + S (col_end - c)) by lia.
  rewrite seq_app, fold_left_app.
  replace (col_start + (c - col_start)) with c by lia. cbn [seq fold_left].
  set (acc1 := fold_left (discover_headers_step ws header_row patterns parse_spanish_months)
                 (seq col_start (c - col_start)) ([], [])).
  destruct (named_get (fst acc1) L) as [c1|] eqn:E1.
  - exists c1. split.
    + apply fold_named_stable.
      now apply (proj1 (step_named ws header_row patterns parse_spanish_months acc1 c)).
    + destruct (fold_named_sound ws header_row patterns parse_spanish_months _ _ _ _ E1)
        as [H0 | [H0 _]]; [discriminate H0|].
      apply in_seq in H0. lia.
  - exists c. split; [|lia].
    apply fold_named_stable. rewrite discover_headers_step_eq, Hkey, Hcell.
    rewrite (match_header_exclusive patterns (fst acc1) norm L pats Hin Hnorm E1 Hexcl).
    cbn [fst]. unfold named_set, named_get.
    rewrite (get_set string nat String.eqb string_eqb_spec), String.eqb_refl. reflexivity.
Qed.

(** X10. An ASCII header that is exactly a pattern is found.  With any of
    the four pattern tables of the scripts: when a header cell of the
    scanned range has an ASCII text, denotes no month and its normalised
    text is a pattern of a logical name, [discover_headers] gives that name
    a column, at that cell or further left.  So a sheet with an "Apto"
    header in the range always has its key column found, whatever the
    letter case and the ASCII spaces around it. *)
Theorem exact_header_is_found :
  forall (B : PyBuiltins) (ws : Worksheet) (header_row col_start col_end : nat)
         (patterns : HeaderPatterns) (parse_spanish_months : bool)
         (L norm : string) (pats : list string) (c : nat),
    In patterns [Boulevard.B5_HEADER_PATTERNS; Boulevard.PPTO_HEADER_PATTERNS;
                 SantaElisa.SE_HEADER_PATTERNS; SantaElisa.PPTO_HEADER_PATTERNS] ->
    In (L, pats) patterns -> In norm pats ->
    col_start <= c <= col_end ->
    isascii (py_str (ws header_row c)) = true ->
    month_key parse_spanish_months (ws header_row c) = None ->
    _normalize_header (ws header_row c) = Some norm ->
    exists c',
      named_get (fst (discover_headers ws header_row col_start col_end patterns
                        parse_spanish_months)) L = Some c' /\
      col_start <= c' <= c.
Proof.
  intros B ws header_row col_start col_end patterns psm L norm pats c
         Htable Hin Hnorm Hc _ Hkey Hcell.
  apply (exact_header_found B ws header_row col_start col_end patterns psm L norm pats c);
    try assumption.
  intros L' pats' H1 H2.
  exact (pattern_tables_exclusive patterns Htable L pats L' pats' norm Hin H1 Hnorm H2).
Qed.

Lemma exact_header_is_found_witness :
  exists c',
    named_get
      (fst (@discover_headers text_free_builtins
              (header_sheet 6 2 ["Tipo"; "  APTO "]) 6 2 84
              Boulevard.B5_HEADER_PATTERNS false)) "apto" = Some c' /\
    2 <= c' <= 3.
Proof.
  apply (exact_header_is_found text_free_builtins
           (header_sheet 6 2 ["Tipo"; "  APTO "]) 6 2 84
           Boulevard.B5_HEADER_PATTERNS false "apto" "apto" ["apto"; "apto."] 3).
  - simpl. now left.
  - simpl. now left.
  - simpl. now left.
  - lia.
  - reflexivity.
  - reflexivity.
  - reflexivity.
Defined.

(* ------------------------------------------------------------------------- *)
(** ** The payments of a row *)
(* ------------------------------------------------------------------------- *)







Section RowPayments.
Context {B : PyBuiltins}.
Variable ws : Worksheet.
Variable row : nat.

(** The month columns whose cell of the row holds an amount that is not 0
    once rounded. *)
Local Abbreviation paid :=
  (fun item : year_month * nat =>
     match _safe_float (ws row (snd item)) with
     | Some val => negb (val =? 0)%Z
     | None => false
     end).
Local Abbreviation payment_of :=
  (fun item : year_month * nat =>
     (_month_end_to_date (fst item), or_zero (_safe_float (ws row (snd item))))).

Lemma month_cells_filter (items : list (year_month * nat)) :
  flat_map (month_cell_step ws row []) items = map payment_of (filter paid items).
Proof.
  induction items as [|[ym col] items IH]; [reflexivity|].
  cbn [flat_map filter]. cbn beta. cbn [snd fst]. unfold month_cell_step at 1.
  destruct (_safe_float (ws row col)) as [val|] eqn:E; [|exact IH].
  destruct (negb (val =? 0)%Z); [|exact IH].
  cbn [app map fst snd]. rewrite E. cbn [or_zero]. now rewrite IH.
Qed.

Lemma monthly_payments_filter (months : MonthCols) :
  monthly_payments ws row months = map payment_of (filter paid (sorted_months months)).
Proof.
  unfold monthly_payments. rewrite fold_month_cells. cbn [app].
  apply month_cells_filter.
Qed.
End RowPayments.



(* ------------------------------------------------------------------------- *)
(** ** Records and the rows they come from *)
(* ------------------------------------------------------------------------- *)

Lemma fold_left_append {A X : Type} (body : X -> list A) (step : list A -> X -> list A) :
  (forall acc x, step acc x = acc ++ body x) ->
  forall xs acc, fold_left step xs acc = acc ++ flat_map body xs.
Proof.
  intros Hstep. induction xs as [|x xs IH]; intros acc; simpl.
  - now rewrite app_nil_r.
  - now rewrite IH, Hstep, app_assoc.
Qed.

Lemma flat_map_length_le {A X : Type} (body : X -> list A) (xs : list X) :
  (forall x, List.length (body x) <= 1) ->
  List.length (flat_map body xs) <= List.length xs.
Proof.
  intros Hbody. induction xs as [|x xs IH]; simpl; [lia|].
  rewrite length_app. specialize (Hbody x). lia.
Qed.

Lemma monthly_payments_nonzero {B : PyBuiltins} (ws : Worksheet) (row : nat)
    (months : MonthCols) (p : date * Z) :
  In p (monthly_payments ws row months) ->
  snd p <> 0%Z /\
  exists ym col, In (ym, col) months /\ fst p = _month_end_to_date ym /\
                 _safe_float (ws row col) = Some (snd p).
Proof.
  rewrite monthly_payments_filter. rewrite in_map_iff.
  intros [[ym col] [<- Hin]]. apply filter_In in Hin. destruct Hin as [Hin Hpaid].
  cbn [fst snd] in *.
  destruct (_safe_float (ws row col)) as [val|] eqn:E; [|discriminate]. cbn [or_zero].
  split; [now apply negb_true_iff, Z.eqb_neq in Hpaid|].
  exists ym, col. split; [|split; [reflexivity | exact E]].
  assert (Hperm : Permutation (sorted_months months) months) by apply sorted_perm.
  exact (Permutation_in _ Hperm Hin).
Qed.

Section SectionRows.
Context {B : PyBuiltins}.
Variable ws : Worksheet.

Lemma parse_b5_row_append (named : NamedCols) (apto_col : nat) (months : MonthCols)
    (section_name : string) (units : list Boulevard.ParsedUnit) (row : nat) :
  Boulevard.parse_b5_row ws named apto_col months section_name units row =
  units ++ Boulevard.parse_b5_row ws named apto_col months section_name [] row.
Proof.
  unfold Boulevard.parse_b5_row.
  destruct (ws row apto_col); try (now rewrite app_nil_r);
    destruct (String.eqb _ ""); try reflexivity; now rewrite app_nil_r.
Qed.

Lemma parse_actuals_row_append (named : NamedCols) (apto_col : nat) (months : MonthCols)
    (section_name : string) (units : list SantaElisa.ParsedUnit) (row : nat) :
  SantaElisa.parse_actuals_row ws named apto_col months section_name units row =
  units ++ SantaElisa.parse_actuals_row ws named apto_col months section_name [] row.
Proof.
  unfold SantaElisa.parse_actuals_row.
  destruct (ws row apto_col); try (now rewrite app_nil_r);
    destruct (String.eqb _ ""); try reflexivity; now rewrite app_nil_r.
Qed.

Lemma parse_b5_row_record (named : NamedCols) (apto_col : nat) (months : MonthCols)
    (section_name : string) (row : nat) :
  let body := Boulevard.parse_b5_row ws named apto_col months section_name [] row in
  List.length body <= 1 /\
  forall u, In u body ->
            ws row apto_col <> VNone /\
            Boulevard.apto u = apto_of_cell (ws row apto_col) /\
            Boulevard.apto u <> "" /\
            Boulevard.source_section u = section_name /\
            Boulevard.actual_payments u = monthly_payments ws row months /\
            Boulevard.cliente u = _safe_str (_get ws row named "cliente") /\
            Boulevard.estatus_raw u = _safe_str (_get ws row named "estatus") /\
            Boulevard.fecha_reserva u = _safe_date (_get ws row named "fecha_reserva") /\
            Boulevard.precio_venta u = _safe_float (_get ws row named "precio_venta").
Proof.
  unfold Boulevard.parse_b5_row.
  destruct (ws row apto_col) eqn:Ecell;
    [split; [simpl; lia | intros u []] | | | | | |];
    (destruct (String.eqb _ "") eqn:Ek;
     [split; [simpl; lia | intros u []]
     | split; [simpl; lia|];
       intros u [<- | []]; cbn;
       apply String.eqb_neq in Ek;
       repeat split; try reflexivity; try discriminate; exact Ek]).
Qed.

Lemma parse_actuals_row_record (named : NamedCols) (apto_col : nat) (months : MonthCols)
    (section_name : string) (row : nat) :
  let body := SantaElisa.parse_actuals_row ws named apto_col months section_name [] row in
  List.length body <= 1 /\
  forall u, In u body ->
            ws row apto_col <> VNone /\
            SantaElisa.apto u = apto_of_cell (ws row apto_col) /\
            SantaElisa.apto u <> "" /\
            SantaElisa.source_section u = section_name /\
            SantaElisa.actual_payments u = monthly_payments ws row months /\
            SantaElisa.cliente u = SantaElisa._safe_str (_get ws row named "cliente") /\
            SantaElisa.estatus_raw u = SantaElisa._safe_str (_get ws row named "estatus") /\
            SantaElisa.fecha_reserva u = _safe_date (_get ws row named "fecha_reserva") /\
            SantaElisa.precio_venta u = _safe_float (_get ws row named "precio_venta").
Proof.
  unfold SantaElisa.parse_actuals_row.
  destruct (ws row apto_col) eqn:Ecell;
    [split; [simpl; lia | intros u []] | | | | | |];
    (destruct (String.eqb _ "") eqn:Ek;
     [split; [simpl; lia | intros u []]
     | split; [simpl; lia|];
       intros u [<- | []]; cbn;
       apply String.eqb_neq in Ek;
       repeat split; try reflexivity; try discriminate; exact Ek]).
Qed.
End SectionRows.

(** X12. The records of a unit section.  [parse_b5_section] and
    [parse_actuals_section] return no record when the header row gives no
    key column, and never more records than the data range has rows (none
    when the range is empty).  Every record is read from one row of the
    range, through the key column, whose key cell is not empty: its key
    is the text of that cell and is not empty, its section is the section
    name given, its payments are those of that row under the month columns
    in force (the override when there is one), and its client, status,
    reservation date and price are the coerced cells of that row. *)
Theorem section_records_come_from_rows :
  forall (B : PyBuiltins) (ws : Worksheet)
         (header_row data_start data_end col_start col_end : nat)
         (section_name : string) (month_cols_override : option MonthCols),
    (let found := discover_headers ws header_row col_start col_end
                    Boulevard.B5_HEADER_PATTERNS false in
     let months := match month_cols_override with Some m => m | None => snd found end in
     let units := Boulevard.parse_b5_section ws header_row data_start data_end
                    col_start col_end section_name month_cols_override in
     (named_get (fst found) "apto" = None -> units = []) /\
     List.length units <= data_end + 1 - data_start /\
     (forall u, In u units ->
        exists row apto_col,
          data_start <= row <= data_end /\
          named_get (fst found) "apto" = Some apto_col /\
          ws row apto_col <> VNone /\
          Boulevard.apto u = apto_of_cell (ws row apto_col) /\
          Boulevard.apto u <> "" /\
          Boulevard.source_section u = section_name /\
          Boulevard.actual_payments u = monthly_payments ws row months /\
          Boulevard.cliente u = _safe_str (_get ws row (fst found) "cliente") /\
          Boulevard.estatus_raw u = _safe_str (_get ws row (fst found) "estatus") /\
          Boulevard.fecha_reserva u = _safe_date (_get ws row (fst found) "fecha_reserva") /\
          Boulevard.precio_venta u = _safe_float (_get ws row (fst found) "precio_venta"))) /\
    (let found := discover_headers ws header_row col_start col_end
                    SantaElisa.SE_HEADER_PATTERNS false in
     let months := match month_cols_override with Some m => m | None => snd found end in
     let units := SantaElisa.parse_actuals_section ws header_row data_start data_end
                    col_start col_end section_name month_cols_override in
     (named_get (fst found) "apto" = None -> units = []) /\
     List.length units <= data_end + 1 - data_start /\
     (forall u, In u units ->
        exists row apto_col,
          data_start <= row <= data_end /\
          named_get (fst found) "apto" = Some apto_col /\
          ws row apto_col <> VNone /\
          SantaElisa.apto u = apto_of_cell (ws row apto_col) /\
          SantaElisa.apto u <> "" /\
          SantaElisa.source_section u = section_name /\
          SantaElisa.actual_payments u = monthly_payments ws row months /\
          SantaElisa.cliente u = SantaElisa._safe_str (_get ws row (fst found) "cliente") /\
          SantaElisa.estatus_raw u =
            SantaElisa._safe_str (_get ws row (fst found) "estatus") /\
          SantaElisa.fecha_reserva u =
            _safe_date (_get ws row (fst found) "fecha_reserva") /\
          SantaElisa.precio_venta u =
            _safe_float (_get ws row (fst found) "precio_venta"))).
Proof.
  intros B ws header_row data_start data_end col_start col_end section_name ov.
  split.
  - cbv zeta. unfold Boulevard.parse_b5_section.
    destruct (discover_headers ws header_row col_start col_end
                Boulevard.B5_HEADER_PATTERNS false) as [named months0].
    cbn [fst snd].
    set (months := match ov with Some m => m | None => months0 end).
    destruct (named_get named "apto") as [apto_col|] eqn:Ea.
    + rewrite (fold_left_append
                 (Boulevard.parse_b5_row ws named apto_col months section_name [])
                 (Boulevard.parse_b5_row ws named apto_col months section_name)
                 (parse_b5_row_append ws named apto_col months section_name)).
      cbn [app]. split; [discriminate|]. split.
      * etransitivity.
        -- apply flat_map_length_le. intros row.
           apply (parse_b5_row_record ws named apto_col months section_name row).
        -- unfold Py.range. now rewrite length_seq.
      * intros u Hu. apply in_flat_map in Hu. destruct Hu as [row [Hrow Hu]].
        apply range_In in Hrow. exists row, apto_col.
        split; [exact Hrow|]. split; [reflexivity|].
        exact (proj2 (parse_b5_row_record ws named apto_col months section_name row) u Hu).
    + split; [reflexivity|]. split; [simpl; lia | intros u []].
  - cbv zeta. unfold SantaElisa.parse_actuals_section.
    destruct (discover_headers ws header_row col_start col_end
                SantaElisa.SE_HEADER_PATTERNS false) as [named months0].
    cbn [fst snd].
    set (months := match ov with Some m => m | None => months0 end).
    destruct (named_get named "apto") as [apto_col|] eqn:Ea.
    + rewrite (fold_left_append
                 (SantaElisa.parse_actuals_row ws named apto_col months section_name [])
                 (SantaElisa.parse_actuals_row ws named apto_col months section_name)
                 (parse_actuals_row_append ws named apto_col months section_name)).
      cbn [app]. split; [discriminate|]. split.
      * etransitivity.
        -- apply flat_map_length_le. intros row.
           apply (parse_actuals_row_record ws named apto_col months section_name row).
        -- unfold Py.range. now rewrite length_seq.
      * intros u Hu. apply in_flat_map in Hu. destruct Hu as [row [Hrow Hu]].
        apply range_In in Hrow. exists row, apto_col.
        split; [exact Hrow|]. split; [reflexivity|].
        exact (proj2 (parse_actuals_row_record ws named apto_col months section_name row)
                 u Hu).
    + split; [reflexivity|]. split; [simpl; lia | intros u []].
Qed.

Lemma parse_ppto_row_append {B : PyBuiltins} (ws : Worksheet) (apto_col : nat)
    (months : MonthCols) (records : list ParsedExpected) (row : nat) :
  parse_ppto_row ws apto_col months records row =
  records ++ parse_ppto_row ws apto_col months [] row.
Proof.
  unfold parse_ppto_row. destruct (ws row apto_col); try reflexivity.
  now rewrite app_nil_r.
Qed.

Lemma parse_ppto_with_records {B : PyBuiltins}
    (header_row col_start col_end data_start data_end : nat)
    (patterns : HeaderPatterns) (parse_spanish_months : bool) (ws : Worksheet) :
  let found := discover_headers ws header_row col_start col_end patterns
                 parse_spanish_months in
  let records := parse_ppto_with header_row col_start col_end data_start data_end
                   patterns parse_spanish_months ws in
  (named_get (fst found) "apto" = None -> records = []) /\
  Forall (fun r =>
            pe_amount r <> 0%Z /\
            exists row apto_col ym col,
              data_start <= row <= data_end /\
              named_get (fst found) "apto" = Some apto_col /\
              ws row apto_col <> VNone /\
              pe_apto r = apto_of_cell (ws row apto_col) /\
              In (ym, col) (snd found) /\
              pe_due_date r = _month_end_to_date ym /\
              _safe_float (ws row col) = Some (pe_amount r))
         records.
Proof.
  cbv zeta. unfold parse_ppto_with.
  destruct (discover_headers ws header_row col_start col_end patterns
              parse_spanish_months) as [named months].
  cbn [fst snd].
  destruct (named_get named "apto") as [apto_col|] eqn:Ea;
    [|split; [reflexivity | constructor]].
  split; [discriminate|].
  rewrite (fold_left_append (parse_ppto_row ws apto_col months [])
             (parse_ppto_row ws apto_col months)
             (parse_ppto_row_append ws apto_col months)).
  cbn [app]. apply Forall_forall. intros r Hr.
  apply in_flat_map in Hr. destruct Hr as [row [Hrow Hr]].
  apply range_In in Hrow. unfold parse_ppto_row in Hr.
  assert (Hgen : ws row apto_col <> VNone ->
                 In r (map (fun p => mkParsedExpected (apto_of_cell (ws row apto_col))
                                       (fst p) (snd p))
                           (monthly_payments ws row months)) ->
                 pe_amount r <> 0%Z /\
                 exists row0 apto_col0 ym col,
                   data_start <= row0 <= data_end /\
                   Some apto_col = Some apto_col0 /\
                   ws row0 apto_col0 <> VNone /\
                   pe_apto r = apto_of_cell (ws row0 apto_col0) /\
                   In (ym, col) months /\
                   pe_due_date r = _month_end_to_date ym /\
                   _safe_float (ws row0 col) = Some (pe_amount r)).
  { intros Hcell Hin. apply in_map_iff in Hin. destruct Hin as [p [<- Hp]].
    apply monthly_payments_nonzero in Hp.
    destruct Hp as (Hnz & ym & col & Hm & Hd & Hv). cbn [pe_amount pe_apto pe_due_date].
    split; [exact Hnz|]. exists row, apto_col, ym, col. repeat split; auto; lia. }
  destruct (ws row apto_col) eqn:Ecell; cbn [app] in Hr;
    [destruct Hr | | | | | |]; apply Hgen; try discriminate; exact Hr.
Qed.

(** X13. The records of the budget sheet.  [parse_ppto] of either script
    returns no record when the header row has no key column; every record
    it returns has a non-zero amount and comes from one row of the data
    range whose key cell is not empty and one month column of the header
    row: its key is the text of the key cell, its amount is the rounded
    value of the cell of that row in the month column, and its due date is
    the last day of the month of the column. *)
Theorem budget_records_come_from_cells :
  forall (B : PyBuiltins) (ws : Worksheet),
    (let found := discover_headers ws Boulevard.PPTO_HEADER_ROW 1 62
                    Boulevard.PPTO_HEADER_PATTERNS false in
     (named_get (fst found) "apto" = None -> Boulevard.parse_ppto ws = []) /\
     Forall (fun r =>
               pe_amount r <> 0%Z /\
               exists row apto_col ym col,
                 Boulevard.PPTO_DATA_START <= row <= Boulevard.PPTO_DATA_END /\
                 named_get (fst found) "apto" = Some apto_col /\
                 ws row apto_col <> VNone /\
                 pe_apto r = apto_of_cell (ws row apto_col) /\
                 In (ym, col) (snd found) /\
                 pe_due_date r = _month_end_to_date ym /\
                 _safe_float (ws row col) = Some (pe_amount r))
            (Boulevard.parse_ppto ws)) /\
    (let found := discover_headers ws SantaElisa.PPTO_HEADER_ROW
                    SantaElisa.PPTO_COL_START SantaElisa.PPTO_COL_END
                    SantaElisa.PPTO_HEADER_PATTERNS true in
     (named_get (fst found) "apto" = None -> SantaElisa.parse_ppto ws = []) /\
     Forall (fun r =>
               pe_amount r <> 0%Z /\
               exists row apto_col ym col,
                 SantaElisa.PPTO_DATA_START <= row <= SantaElisa.PPTO_DATA_END /\
                 named_get (fst found) "apto" = Some apto_col /\
                 ws row apto_col <> VNone /\
                 pe_apto r = apto_of_cell (ws row apto_col) /\
                 In (ym, col) (snd found) /\
                 pe_due_date r = _month_end_to_date ym /\
                 _safe_float (ws row col) = Some (pe_amount r))
            (SantaElisa.parse_ppto ws)).
Proof.
  intros B ws. split.
  - apply (parse_ppto_with_records Boulevard.PPTO_HEADER_ROW 1 62
             Boulevard.PPTO_DATA_START Boulevard.PPTO_DATA_END
             Boulevard.PPTO_HEADER_PATTERNS false ws).
  - apply (parse_ppto_with_records SantaElisa.PPTO_HEADER_ROW
             SantaElisa.PPTO_COL_START SantaElisa.PPTO_COL_END
             SantaElisa.PPTO_DATA_START SantaElisa.PPTO_DATA_END
             SantaElisa.PPTO_HEADER_PATTERNS true ws).
Qed.

(* ------------------------------------------------------------------------- *)
(** ** Advisory findings of the validator *)
(* ------------------------------------------------------------------------- *)

Lemma in_when_nonempty {A F : Type} (xs : list A) (f : list A -> F) (x : F) :
  In x (when_nonempty xs f) <-> xs <> [] /\ x = f xs.
Proof.
  destruct xs as [|a xs]; simpl.
  - split; [intros [] | intros [H _]; now apply H].
  - split; [intros [<- | []]; split; [discriminate | reflexivity]
           | intros [_ ->]; now left].
Qed.

Lemma set_diff_In (a : string) (xs ys : list string) :
  In a (set_diff xs ys) <-> In a xs /\ ~ In a ys.
Proof.
  unfold set_diff. rewrite filter_In, negb_true_iff.
  split; intros [H1 H2]; split; try assumption.
  - intros Hin. apply mem_str_In in Hin. congruence.
  - destruct (mem_str a ys) eqn:E; [|reflexivity].
    apply mem_str_In in E. contradiction.
Qed.

Lemma set_union_In (a : string) (xs ys : list string) :
  In a (set_union xs ys) <-> In a xs \/ In a ys.
Proof. unfold set_union. rewrite to_set_In. apply in_app_iff. Qed.

Lemma nonempty_In {A : Type} (l : list A) (a : A) : In a l -> l <> [].
Proof. destruct l; [intros [] | discriminate]. Qed.

Lemma pair_eqb_spec (a b : string * string) : SantaElisa.pair_eqb a b = true <-> a = b.
Proof.
  destruct a as [a1 a2], b as [b1 b2]. unfold SantaElisa.pair_eqb. cbn [fst snd].
  rewrite andb_true_iff, !String.eqb_eq. split; [intros [-> ->] | intros [= -> ->]]; auto.
Qed.

Lemma existsb_pair_In (x : string * string) (l : list (string * string)) :
  existsb (SantaElisa.pair_eqb x) l = true <-> In x l.
Proof.
  rewrite existsb_exists. split.
  - intros [y [Hy E]]. apply pair_eqb_spec in E. now subst.
  - intros H. exists x. split; [exact H | now apply pair_eqb_spec].
Qed.

Lemma dedup_pairs_In (x : string * string) (l : list (string * string)) :
  In x (SantaElisa.dedup_pairs l) <-> In x l.
Proof.
  induction l as [|y l IH]; simpl; [reflexivity|].
  destruct (existsb (SantaElisa.pair_eqb y) l) eqn:E.
  - rewrite IH. split; [now right|]. intros [<- | H]; [|exact H].
    now apply existsb_pair_In.
  - simpl. now rewrite IH.
Qed.

Lemma apto_client_pairs_In (x : string * string) (l : list SantaElisa.ParsedUnit) :
  In x (SantaElisa.apto_client_pairs l) <->
  exists u, In u l /\ SantaElisa.apto u = fst x /\ SantaElisa.cliente u = Some (snd x) /\
            snd x <> "".
Proof.
  unfold SantaElisa.apto_client_pairs. rewrite in_flat_map. split.
  - intros [u [Hu Hx]]. exists u. split; [exact Hu|].
    destruct (SantaElisa.cliente u) as [c|]; [|destruct Hx].
    destruct (String.eqb c "") eqn:E; [destruct Hx|].
    destruct Hx as [<- | []]. apply String.eqb_neq in E. auto.
  - intros [u (Hu & Ha & Hc & Hne)]. exists u. split; [exact Hu|].
    rewrite Hc. apply String.eqb_neq in Hne. rewrite Hne. left.
    destruct x. cbn [fst snd] in *. now subst.
Qed.

Ltac pick_warning :=
  repeat rewrite in_app_iff; repeat rewrite in_when_nonempty;
  split;
  [ intros H;
    repeat match goal with
           | H : _ \/ _ |- _ => destruct H as [H | H]
           | H : _ /\ _ = _ |- _ => destruct H as [? H]
           end;
    try discriminate H; injection H as ->; split; [reflexivity | assumption]
  | intros [-> H]; tauto ].

(** X14. What the advisory findings of [validate] are computed from.  Each
    warning carries the whole collection its message counts (the message
    itself prints the count and the first ten entries).  A key belongs to
    the "desistimiento not in main" warning exactly when it is the key of a
    cancellation record (in Boulevard of either cancellation section, in
    Santa Elisa of the desistimiento section only, not of the refund
    section) and of no MAIN record; to "in PPTO only" or "in actuals only"
    exactly when it occurs on one side and not on the other, the actuals
    side being MAIN and those cancellation records; to "sold without client"
    exactly when a MAIN record with that key has a sale status and no
    client.  In Santa Elisa a pair (key, client) belongs to the orphan
    refund warning exactly when a refund record has it and no desistimiento
    record does; Boulevard never raises that warning. *)
Theorem advisory_findings_list :
  (forall (main_units desist_units prob_desist : list Boulevard.ParsedUnit)
          (expected : list ParsedExpected) (a : string),
      let report := Boulevard.validate main_units desist_units prob_desist expected in
      let actuals := map Boulevard.apto (main_units ++ desist_units ++ prob_desist) in
      ((exists l, In (DesistNotInMain l) (warnings report) /\ In a l) <->
       In a (map Boulevard.apto (desist_units ++ prob_desist)) /\
       ~ In a (map Boulevard.apto main_units)) /\
      ((exists l, In (PptoOnly l) (warnings report) /\ In a l) <->
       In a (map pe_apto expected) /\ ~ In a actuals) /\
      ((exists l, In (ActualsOnly l) (warnings report) /\ In a l) <->
       In a actuals /\ ~ In a (map pe_apto expected)) /\
      ((exists l, In (SoldNoClient l) (warnings report) /\ In a l) <->
       exists u, In u main_units /\ Boulevard.apto u = a /\
                 Boulevard.normalize_sale_status (Boulevard.estatus_raw u) <> None /\
                 Py.truthy_str (Boulevard.cliente u) = false) /\
      (forall pairs, ~ In (OrphanDevolucion pairs) (warnings report))) /\
  (forall (main_units desist_units devol_units : list SantaElisa.ParsedUnit)
          (expected : list ParsedExpected) (a : string),
      let report := SantaElisa.validate main_units desist_units devol_units expected in
      let actuals := map SantaElisa.apto (main_units ++ desist_units) in
      ((exists l, In (DesistNotInMain l) (warnings report) /\ In a l) <->
       In a (map SantaElisa.apto desist_units) /\
       ~ In a (map SantaElisa.apto main_units)) /\
      ((exists l, In (PptoOnly l) (warnings report) /\ In a l) <->
       In a (map pe_apto expected) /\ ~ In a actuals) /\
      ((exists l, In (ActualsOnly l) (warnings report) /\ In a l) <->
       In a actuals /\ ~ In a (map pe_apto expected)) /\
      ((exists l, In (SoldNoClient l) (warnings report) /\ In a l) <->
       exists u, In u main_units /\ SantaElisa.apto u = a /\
                 SantaElisa.normalize_sale_status (SantaElisa.estatus_raw u) <> None /\
                 Py.truthy_str (SantaElisa.cliente u) = false) /\
      (forall client,
          (exists pairs, In (OrphanDevolucion pairs) (warnings report) /\
                         In (a, client) pairs) <->
          (exists u, In u devol_units /\ SantaElisa.apto u = a /\
                     SantaElisa.cliente u = Some client /\ client <> "") /\
          ~ (exists u, In u desist_units /\ SantaElisa.apto u = a /\
                       SantaElisa.cliente u = Some client))).
Proof.
  split.
  - intros main_units desist_units prob_desist expected a report actuals.
    subst report actuals. unfold Boulevard.validate. cbn [warnings].
    set (main_aptos := map Boulevard.apto main_units).
    set (desist_aptos := to_set (map Boulevard.apto (desist_units ++ prob_desist))).
    set (ppto_aptos := to_set (map pe_apto expected)).
    set (all_b5 := set_union (to_set main_aptos) desist_aptos).
    set (sold := map Boulevard.apto (filter _ main_units)).
    assert (Hall : forall x, In x all_b5 <->
                             In x (map Boulevard.apto
                                     (main_units ++ desist_units ++ prob_desist))).
    { intros x. subst all_b5 desist_aptos main_aptos.
      rewrite set_union_In, !to_set_In, !map_app, !in_app_iff. tauto. }
    assert (W3 : forall l, In (DesistNotInMain l)
                             (when_nonempty (set_diff desist_aptos (to_set main_aptos))
                                DesistNotInMain ++
                              (when_nonempty (set_diff ppto_aptos all_b5) PptoOnly ++
                               when_nonempty (set_diff all_b5 ppto_aptos) ActualsOnly) ++
                              when_nonempty sold SoldNoClient) <->
                           l = set_diff desist_aptos (to_set main_aptos) /\ l <> [])
      by (intros l; pick_warning).
    assert (W4 : forall l, In (PptoOnly l)
                             (when_nonempty (set_diff desist_aptos (to_set main_aptos))
                                DesistNotInMain ++
                              (when_nonempty (set_diff ppto_aptos all_b5) PptoOnly ++
                               when_nonempty (set_diff all_b5 ppto_aptos) ActualsOnly) ++
                              when_nonempty sold SoldNoClient) <->
                           l = set_diff ppto_aptos all_b5 /\ l <> [])
      by (intros l; pick_warning).
    assert (W4' : forall l, In (ActualsOnly l)
                             (when_nonempty (set_diff desist_aptos (to_set main_aptos))
                                DesistNotInMain ++
                              (when_nonempty (set_diff ppto_aptos all_b5) PptoOnly ++
                               when_nonempty (set_diff all_b5 ppto_aptos) ActualsOnly) ++
                              when_nonempty sold SoldNoClient) <->
                           l = set_diff all_b5 ppto_aptos /\ l <> [])
      by (intros l; pick_warning).
    assert (W5 : forall l, In (SoldNoClient l)
                             (when_nonempty (set_diff desist_aptos (to_set main_aptos))
                                DesistNotInMain ++
                              (when_nonempty (set_diff ppto_aptos all_b5) PptoOnly ++
                               when_nonempty (set_diff all_b5 ppto_aptos) ActualsOnly) ++
                              when_nonempty sold SoldNoClient) <->
                           l = sold /\ l <> [])
      by (intros l; pick_warning).
    split; [|split; [|split; [|split]]].
    + split.
      * intros [l [Hl Ha]]. apply W3 in Hl. destruct Hl as [-> _].
        apply set_diff_In in Ha. subst desist_aptos. now rewrite !to_set_In in Ha.
      * intros [H1 H2]. exists (set_diff desist_aptos (to_set main_aptos)).
        assert (Ha : In a (set_diff desist_aptos (to_set main_aptos))).
        { apply set_diff_In. subst desist_aptos. now rewrite !to_set_In. }
        split; [|exact Ha]. apply W3. split; [reflexivity | now apply (nonempty_In _ a)].
    + split.
      * intros [l [Hl Ha]]. apply W4 in Hl. destruct Hl as [-> _].
        apply set_diff_In in Ha. subst ppto_aptos. now rewrite to_set_In, Hall in Ha.
      * intros [H1 H2]. exists (set_diff ppto_aptos all_b5).
        assert (Ha : In a (set_diff ppto_aptos all_b5)).
        { apply set_diff_In. subst ppto_aptos. now rewrite to_set_In, Hall. }
        split; [|exact Ha]. apply W4. split; [reflexivity | now apply (nonempty_In _ a)].
    + split.
      * intros [l [Hl Ha]]. apply W4' in Hl. destruct Hl as [-> _].
        apply set_diff_In in Ha. subst ppto_aptos. now rewrite to_set_In, Hall in Ha.
      * intros [H1 H2]. exists (set_diff all_b5 ppto_aptos).
        assert (Ha : In a (set_diff all_b5 ppto_aptos)).
        { apply set_diff_In. subst ppto_aptos. now rewrite to_set_In, Hall. }
        split; [|exact Ha]. apply W4'. split; [reflexivity | now apply (nonempty_In _ a)].
    + assert (Hsold : In a sold <->
                      exists u, In u main_units /\ Boulevard.apto u = a /\
                                Boulevard.normalize_sale_status (Boulevard.estatus_raw u)
                                  <> None /\
                                Py.truthy_str (Boulevard.cliente u) = false).
      { subst sold. rewrite in_map_iff. split.
        - intros [u [Hu Hin]]. apply filter_In in Hin. destruct Hin as [Hin Hf].
          exists u. split; [exact Hin|]. split; [exact Hu|].
          destruct (Boulevard.normalize_sale_status (Boulevard.estatus_raw u));
            [|discriminate].
          split; [discriminate | now apply negb_true_iff].
        - intros [u (Hin & Hu & Hs & Hc)]. exists u. split; [exact Hu|].
          apply filter_In. split; [exact Hin|].
          destruct (Boulevard.normalize_sale_status (Boulevard.estatus_raw u));
            [now apply negb_true_iff | contradiction]. }
      rewrite <- Hsold. split.
      * intros [l [Hl Ha]]. apply W5 in Hl. now destruct Hl as [-> _].
      * intros Ha. exists sold. split; [|exact Ha].
        apply W5. split; [reflexivity | now apply (nonempty_In _ a)].
    + intros pairs H.
      repeat rewrite in_app_iff in H; repeat rewrite in_when_nonempty in H.
      repeat match goal with
             | H : _ \/ _ |- _ => destruct H as [H | H]
             | H : _ /\ _ = _ |- _ => destruct H as [? H]
             end; discriminate H.
  - intros main_units desist_units devol_units expected a report actuals.
    subst report actuals. unfold SantaElisa.validate. cbn [warnings].
    set (main_aptos := map SantaElisa.apto main_units).
    set (desist_aptos := to_set (map SantaElisa.apto desist_units)).
    set (ppto_aptos := to_set (map pe_apto expected)).
    set (all_act := set_union (to_set main_aptos) desist_aptos).
    set (sold := map SantaElisa.apto (filter _ main_units)).
    set (orphans := filter _ (SantaElisa.dedup_pairs
                                (SantaElisa.apto_client_pairs devol_units))).
    assert (Hall : forall x, In x all_act <->
                             In x (map SantaElisa.apto (main_units ++ desist_units))).
    { intros x. subst all_act desist_aptos main_aptos.
      rewrite set_union_In, !to_set_In, !map_app, !in_app_iff. tauto. }
    assert (W3 : forall l, In (DesistNotInMain l)
                             (when_nonempty (set_diff desist_aptos (to_set main_aptos))
                                DesistNotInMain ++
                              (when_nonempty (set_diff ppto_aptos all_act) PptoOnly ++
                               when_nonempty (set_diff all_act ppto_aptos) ActualsOnly) ++
                              when_nonempty sold SoldNoClient ++
                              when_nonempty orphans OrphanDevolucion) <->
                           l = set_diff desist_aptos (to_set main_aptos) /\ l <> [])
      by (intros l; pick_warning).
    assert (W4 : forall l, In (PptoOnly l)
                             (when_nonempty (set_diff desist_aptos (to_set main_aptos))
                                DesistNotInMain ++
                              (when_nonempty (set_diff ppto_aptos all_act) PptoOnly ++
                               when_nonempty (set_diff all_act ppto_aptos) ActualsOnly) ++
                              when_nonempty sold SoldNoClient ++
                              when_nonempty orphans OrphanDevolucion) <->
                           l = set_diff ppto_aptos all_act /\ l <> [])
      by (intros l; pick_warning).
    assert (W4' : forall l, In (ActualsOnly l)
                             (when_nonempty (set_diff desist_aptos (to_set main_aptos))
                                DesistNotInMain ++
                              (when_nonempty (set_diff ppto_aptos all_act) PptoOnly ++
                               when_nonempty (set_diff all_act ppto_aptos) ActualsOnly) ++
                              when_nonempty sold SoldNoClient ++
                              when_nonempty orphans OrphanDevolucion) <->
                           l = set_diff all_act ppto_aptos /\ l <> [])
      by (intros l; pick_warning).
    assert (W5 : forall l, In (SoldNoClient l)
                             (when_nonempty (set_diff desist_aptos (to_set main_aptos))
                                DesistNotInMain ++
                              (when_nonempty (set_diff ppto_aptos all_act) PptoOnly ++
                               when_nonempty (set_diff all_act ppto_aptos) ActualsOnly) ++
                              when_nonempty sold SoldNoClient ++
                              when_nonempty orphans OrphanDevolucion) <->
                           l = sold /\ l <> [])
      by (intros l; pick_warning).
    assert (W7 : forall l, In (OrphanDevolucion l)
                             (when_nonempty (set_diff desist_aptos (to_set main_aptos))
                                DesistNotInMain ++
                              (when_nonempty (set_diff ppto_aptos all_act) PptoOnly ++
                               when_nonempty (set_diff all_act ppto_aptos) ActualsOnly) ++
                              when_nonempty sold SoldNoClient ++
                              when_nonempty orphans OrphanDevolucion) <->
                           l = orphans /\ l <> [])
      by (intros l; pick_warning).
    split; [|split; [|split; [|split]]].
    + split.
      * intros [l [Hl Ha]]. apply W3 in Hl. destruct Hl as [-> _].
        apply set_diff_In in Ha. subst desist_aptos. now rewrite !to_set_In in Ha.
      * intros [H1 H2]. exists (set_diff desist_aptos (to_set main_aptos)).
        assert (Ha : In a (set_diff desist_aptos (to_set main_aptos))).
        { apply set_diff_In. subst desist_aptos. now rewrite !to_set_In. }
        split; [|exact Ha]. apply W3. split; [reflexivity | now apply (nonempty_In _ a)].
    + split.
      * intros [l [Hl Ha]]. apply W4 in Hl. destruct Hl as [-> _].
        apply set_diff_In in Ha. subst ppto_aptos. now rewrite to_set_In, Hall in Ha.
      * intros [H1 H2]. exists (set_diff ppto_aptos all_act).
        assert (Ha : In a (set_diff ppto_aptos all_act)).
        { apply set_diff_In. subst ppto_aptos. now rewrite to_set_In, Hall. }
        split; [|exact Ha]. apply W4. split; [reflexivity | now apply (nonempty_In _ a)].
    + split.
      * intros [l [Hl Ha]]. apply W4' in Hl. destruct Hl as [-> _].
        apply set_diff_In in Ha. subst ppto_aptos. now rewrite to_set_In, Hall in Ha.
      * intros [H1 H2]. exists (set_diff all_act ppto_aptos).
        assert (Ha : In a (set_diff all_act ppto_aptos)).
        { apply set_diff_In. subst ppto_aptos. now rewrite to_set_In, Hall. }
        split; [|exact Ha]. apply W4'. split; [reflexivity | now apply (nonempty_In _ a)].
    + assert (Hsold : In a sold <->
                      exists u, In u main_units /\ SantaElisa.apto u = a /\
                                SantaElisa.normalize_sale_status (SantaElisa.estatus_raw u)
                                  <> None /\
                                Py.truthy_str (SantaElisa.cliente u) = false).
      { subst sold. rewrite in_map_iff. split.
        - intros [u [Hu Hin]]. apply filter_In in Hin. destruct Hin as [Hin Hf].
          exists u. split; [exact Hin|]. split; [exact Hu|].
          destruct (SantaElisa.normalize_sale_status (SantaElisa.estatus_raw u));
            [|discriminate].
          split; [discriminate | now apply negb_true_iff].
        - intros [u (Hin & Hu & Hs & Hc)]. exists u. split; [exact Hu|].
          apply filter_In. split; [exact Hin|].
          destruct (SantaElisa.normalize_sale_status (SantaElisa.estatus_raw u));
            [now apply negb_true_iff | contradiction]. }
      rewrite <- Hsold. split.
      * intros [l [Hl Ha]]. apply W5 in Hl. now destruct Hl as [-> _].
      * intros Ha. exists sold. split; [|exact Ha].
        apply W5. split; [reflexivity | now apply (nonempty_In _ a)].
    + intros client.
      assert (Horph : In (a, client) orphans <->
                      (exists u, In u devol_units /\ SantaElisa.apto u = a /\
                                 SantaElisa.cliente u = Some client /\ client <> "") /\
                      ~ (exists u, In u desist_units /\ SantaElisa.apto u = a /\
                                   SantaElisa.cliente u = Some client)).
      { subst orphans. rewrite filter_In, dedup_pairs_In, apto_client_pairs_In,
          negb_true_iff. cbn [fst snd].
        split; intros [H1 H2]; (split; [exact H1|]).
        - intros [u (Hu & Ha & Hc)].
          assert (Hin : In (a, client)
                          (SantaElisa.dedup_pairs
                             (SantaElisa.apto_client_pairs desist_units))).
          { apply dedup_pairs_In, apto_client_pairs_In. exists u. cbn [fst snd].
            destruct H1 as [_ (_ & _ & _ & Hne)]. auto. }
          apply existsb_pair_In in Hin. congruence.
        - destruct (existsb _ _) eqn:E; [|reflexivity]. exfalso. apply H2.
          apply existsb_pair_In, dedup_pairs_In, apto_client_pairs_In in E.
          destruct E as [u (Hu & Ha & Hc & _)]. exists u. auto. }
      rewrite <- Horph. split.
      * intros [l [Hl Ha]]. apply W7 in Hl. now destruct Hl as [-> _].
      * intros Ha. exists orphans. split; [|exact Ha].
        apply W7. split; [reflexivity | now apply (nonempty_In _ (a, client))].
Qed.

(* ------------------------------------------------------------------------- *)
(** ** Identifiers handed out by the store *)
(* ------------------------------------------------------------------------- *)

Lemma fold_left_invariant_In {S X : Type} (P : S -> Prop) (step : S -> X -> S)
    (xs : list X) :
  (forall s x, In x xs -> P s -> P (step s x)) ->
  forall s, P s -> P (fold_left step xs s).
Proof.
  induction xs as [|x xs IH]; intros Hstep s Hs; simpl; [exact Hs|].
  apply IH.
  - intros s' x' Hx'. apply Hstep. now right.
  - apply Hstep; [now left | exact Hs].
Qed.

Section TableIds.
Variable P : Type.
Variable conflict : P -> P -> bool.

Lemma replace_ids (new : P) (tbl : Table.t P) :
  map fst (Table.replace_conflict conflict new tbl) = map fst tbl.
Proof.
  induction tbl as [|[i old] tbl IH]; simpl; [reflexivity|].
  destruct (conflict new old); simpl; [reflexivity | now rewrite IH].
Qed.

Lemma find_conflict_In (new : P) (tbl : Table.t P) (i : nat) :
  Table.find_conflict conflict new tbl = Some i ->
  exists old, In (i, old) tbl /\ conflict new old = true.
Proof.
  induction tbl as [|[j old] tbl IH]; simpl; [discriminate|].
  destruct (conflict new old) eqn:E.
  - intros [= <-]. exists old. split; [now left | exact E].
  - intros H. destruct (IH H) as [o [Ho Hc]]. exists o. split; [now right | exact Hc].
Qed.

Lemma find_conflict_None (new : P) (tbl : Table.t P) :
  Table.find_conflict conflict new tbl = None ->
  forall x, In x tbl -> conflict new (snd x) = false.
Proof.
  induction tbl as [|[j old] tbl IH]; simpl; [intros _ x []|].
  destruct (conflict new old) eqn:E; [discriminate|].
  intros H x [<- | Hx]; [exact E | now apply IH].
Qed.

Lemma upsert_row_ids (new : P) (st : Table.t P * nat) (j : nat) :
  In j (map fst (fst st)) ->
  In j (map fst (fst (fst (Table.upsert_row conflict new st)))).
Proof.
  destruct st as [tbl n]. unfold Table.upsert_row. cbn [fst].
  destruct (Table.find_conflict conflict new tbl); cbn [fst].
  - now rewrite replace_ids.
  - rewrite map_app, in_app_iff. now left.
Qed.

Lemma upsert_row_returned (new : P) (st : Table.t P * nat) :
  In (fst (snd (Table.upsert_row conflict new st)))
     (map fst (fst (fst (Table.upsert_row conflict new st)))).
Proof.
  destruct st as [tbl n]. unfold Table.upsert_row.
  destruct (Table.find_conflict conflict new tbl) as [i|] eqn:E; cbn [fst snd].
  - rewrite replace_ids. apply find_conflict_In in E. destruct E as [old [Ho _]].
    apply in_map_iff. exists (i, old). auto.
  - rewrite map_app, in_app_iff. right. now left.
Qed.

Lemma upsert_rows_cons (r : P) (rows : list P) (st : Table.t P * nat) :
  Table.upsert_rows conflict (r :: rows) st =
  (fst (Table.upsert_rows conflict rows (fst (Table.upsert_row conflict r st))),
   snd (Table.upsert_row conflict r st) ::
   snd (Table.upsert_rows conflict rows (fst (Table.upsert_row conflict r st)))).
Proof.
  change (Table.upsert_rows conflict (r :: rows) st)
    with (let '(st1, x) := Table.upsert_row conflict r st in
          let '(st2, xs) := Table.upsert_rows conflict rows st1 in
          (st2, x :: xs)).
  destruct (Table.upsert_row conflict r st) as [st1 x]. cbn [fst snd].
  now destruct (Table.upsert_rows conflict rows st1).
Qed.

Lemma upsert_rows_ids (rows : list P) :
  forall (st : Table.t P * nat) (j : nat),
    In j (map fst (fst st)) ->
    In j (map fst (fst (fst (Table.upsert_rows conflict rows st)))).
Proof.
  induction rows as [|r rows IH]; intros st j Hj; [exact Hj|].
  rewrite upsert_rows_cons. cbn [fst]. apply IH. now apply upsert_row_ids.
Qed.

Lemma upsert_rows_returned (rows : list P) :
  forall st : Table.t P * nat,
    Forall (fun x => In (fst x) (map fst (fst (fst (Table.upsert_rows conflict rows st)))))
           (snd (Table.upsert_rows conflict rows st)).
Proof.
  induction rows as [|r rows IH]; intros st; [constructor|].
  rewrite upsert_rows_cons. cbn [fst snd]. constructor.
  - apply upsert_rows_ids, upsert_row_returned.
  - apply IH.
Qed.

Lemma insert_rows_table (rows : list P) :
  forall st : Table.t P * nat,
    fst (fst (Table.insert_rows rows st)) =
      fst st ++ combine (seq (snd st) (List.length rows)) rows /\
    snd (fst (Table.insert_rows rows st)) = snd st + List.length rows.
Proof.
  induction rows as [|r rows IH]; intros [tbl n]; cbn [Table.insert_rows].
  - simpl. now rewrite app_nil_r, Nat.add_0_r.
  - unfold Table.insert_row.
    destruct (Table.insert_rows rows (tbl ++ [(n, r)], S n)) as [st2 xs] eqn:E2.
    cbn [fst snd]. destruct (IH (tbl ++ [(n, r)], S n)) as [H1 H2].
    rewrite E2 in H1, H2. cbn [fst snd] in H1, H2. rewrite H1, H2.
    cbn [List.length seq combine]. rewrite <- app_assoc. split; [reflexivity | lia].
Qed.
End TableIds.

Section DictValues.
Variables K V : Type.
Variable eqb : K -> K -> bool.
Hypothesis eqb_spec : forall a b, eqb a b = true <-> a = b.

Lemma get_fold_set_value {X : Type} (key : X -> K) (value : X -> V) (xs : list X)
    (q : K) (v : V) :
  forall d,
    Py.get eqb (fold_left (fun d x => Py.set eqb d (key x) (value x)) xs d) q = Some v ->
    Py.get eqb d q = Some v \/ exists x, In x xs /\ key x = q /\ value x = v.
Proof.
  induction xs as [|x xs IH]; intros d H; [now left|].
  cbn [fold_left] in H. apply IH in H. destruct H as [H | [y (Hy & Hk & Hv)]].
  - rewrite (get_set K V eqb eqb_spec) in H. destruct (eqb q (key x)) eqn:E.
    + right. exists x. apply eqb_spec in E. injection H as <-. split; [now left | auto].
    + now left.
  - right. exists y. split; [now right | auto].
Qed.

Lemma get_fold_set_unchanged {X : Type} (key : X -> K) (value : X -> V) (xs : list X)
    (q : K) :
  ~ In q (map key xs) ->
  forall d, Py.get eqb (fold_left (fun d x => Py.set eqb d (key x) (value x)) xs d) q =
            Py.get eqb d q.
Proof.
  induction xs as [|x xs IH]; intros Hq d; [reflexivity|].
  cbn [fold_left]. rewrite IH.
  - rewrite (get_set K V eqb eqb_spec). destruct (eqb q (key x)) eqn:E; [|reflexivity].
    apply eqb_spec in E. exfalso. apply Hq. left. now symmetry.
  - intros H. apply Hq. now right.
Qed.
End DictValues.

Section DictLast.
Variables K V : Type.
Variable eqb : K -> K -> bool.
Hypothesis eqb_spec : forall a b, eqb a b = true <-> a = b.

Lemma eqb_In_dec (q : K) (l : list K) : In q l \/ ~ In q l.
Proof.
  induction l as [|k l IH]; [now right|].
  destruct (eqb q k) eqn:E.
  - left. left. apply eqb_spec in E. now symmetry.
  - destruct IH as [H | H]; [left; now right|].
    right. intros [-> | Hin]; [|contradiction].
    assert (eqb q q = true) by now apply eqb_spec. congruence.
Qed.

Lemma get_fold_set_key {X : Type} (key : X -> K) (value : X -> V) (xs : list X) (q : K) :
  In q (map key xs) ->
  forall d, exists x, In x xs /\ key x = q /\
                      Py.get eqb (fold_left (fun d x => Py.set eqb d (key x) (value x)) xs d) q
                      = Some (value x).
Proof.
  induction xs as [|x xs IH]; intros Hq d; [destruct Hq|].
  cbn [fold_left]. destruct (eqb_In_dec q (map key xs)) as [Hin | Hout].
  - destruct (IH Hin (Py.set eqb d (key x) (value x))) as [y (Hy & Hk & Hv)].
    exists y. split; [now right | auto].
  - destruct Hq as [Hq | Hq]; [|contradiction].
    exists x. split; [now left|]. split; [exact Hq|].
    rewrite (get_fold_set_unchanged K V eqb eqb_spec key value xs q Hout).
    rewrite (get_set K V eqb eqb_spec). subst q.
    assert (E : eqb (key x) (key x) = true) by now apply eqb_spec.
    now rewrite E.
Qed.
End DictLast.

Section TableKept.
Variable P : Type.
Variable conflict : P -> P -> bool.

Lemma replace_In_new (new : P) (tbl : Table.t P) (i : nat) :
  Table.find_conflict conflict new tbl = Some i ->
  In (i, new) (Table.replace_conflict conflict new tbl).
Proof.
  induction tbl as [|[j old] tbl IH]; simpl; [discriminate|].
  destruct (conflict new old).
  - intros [= <-]. now left.
  - intros H. right. now apply IH.
Qed.

Lemma upsert_row_self (new : P) (st : Table.t P * nat) :
  In (snd (Table.upsert_row conflict new st))
     (fst (fst (Table.upsert_row conflict new st))).
Proof.
  destruct st as [tbl n]. unfold Table.upsert_row.
  destruct (Table.find_conflict conflict new tbl) as [i|] eqn:E; cbn [fst snd].
  - now apply replace_In_new.
  - apply in_or_app. right. now left.
Qed.

(** Rows of which none conflicts with an earlier one are all in the table
    after the upsert, under the identifiers returned for them. *)
Lemma upsert_rows_kept (rows : list P) :
  ForallOrdPairs (fun a b => conflict b a = false) rows ->
  forall st, Forall (fun x => In x (fst (fst (Table.upsert_rows conflict rows st))))
                    (snd (Table.upsert_rows conflict rows st)).
Proof.
  induction 1 as [|r rows Hr Hrows IH]; intros st; [constructor|].
  rewrite upsert_rows_cons. cbn [fst snd]. constructor; [|apply IH].
  apply upsert_rows_In.
  - rewrite Forall_forall in *. intros new Hnew.
    rewrite (upsert_row_data P conflict r st). now apply Hr.
  - apply upsert_row_self.
Qed.
Lemma find_conflict_fresh (new : P) (tbl : Table.t P) :
  (forall x, In x tbl -> conflict new (snd x) = false) ->
  Table.find_conflict conflict new tbl = None.
Proof.
  induction tbl as [|[j old] tbl IH]; intros H; simpl; [reflexivity|].
  pose proof (H (j, old) (or_introl eq_refl)) as E. cbn [snd] in E. rewrite E.
  apply IH. intros x Hx. apply H. now right.
Qed.

(** Rows that conflict neither with the table nor with one another are
    appended, in order, under consecutive fresh identifiers. *)
Lemma upsert_rows_fresh (rows : list P) :
  ForallOrdPairs (fun a b => conflict b a = false) rows ->
  forall tbl n,
    Forall (fun r => forall x, In x tbl -> conflict r (snd x) = false) rows ->
    Table.upsert_rows conflict rows (tbl, n) =
    ((tbl ++ combine (seq n (List.length rows)) rows, n + List.length rows),
     combine (seq n (List.length rows)) rows).
Proof.
  induction 1 as [|r rows Hr Hrows IH]; intros tbl n Hfresh.
  - change (Table.upsert_rows conflict [] (tbl, n)) with ((tbl, n), @nil (nat * P)).
    simpl. now rewrite app_nil_r, Nat.add_0_r.
  - rewrite upsert_rows_cons.
    inversion Hfresh as [|? ? Hr0 Hrest]; subst.
    assert (E : Table.upsert_row conflict r (tbl, n) = ((tbl ++ [(n, r)], S n), (n, r))).
    { unfold Table.upsert_row. now rewrite (find_conflict_fresh r tbl Hr0). }
    rewrite E. cbn [fst snd]. rewrite IH.
    + cbn [fst snd List.length seq combine]. rewrite <- app_assoc.
      cbn [app]. f_equal. f_equal. lia.
    + rewrite Forall_forall in *. intros new Hnew x Hx. apply in_app_or in Hx.
      destruct Hx as [Hx | [<- | []]]; [now apply Hrest | now apply Hr].
Qed.
End TableKept.

Lemma map_snd_combine_seq {A : Type} (rows : list A) (n : nat) :
  map snd (combine (seq n (List.length rows)) rows) = rows.
Proof.
  revert n. induction rows as [|r rows IH]; intros n; simpl; [reflexivity|].
  now rewrite IH.
Qed.

Lemma length_combine_seq {A : Type} (rows : list A) (n : nat) :
  List.length (combine (seq n (List.length rows)) rows) = List.length rows.
Proof. rewrite length_combine, length_seq. apply Nat.min_id. Qed.

Lemma unit_conflict_spec (new old : UnitRow) :
  unit_conflict new old = true <->
  ur_project_id new = ur_project_id old /\ ur_unit_number new = ur_unit_number old.
Proof.
  unfold unit_conflict. now rewrite andb_true_iff, option_nat_eqb_spec, string_eqb_spec.
Qed.

Lemma NoDup_ForallOrdPairs {A K : Type} (key : A -> K) (l : list A) :
  NoDup (map key l) -> ForallOrdPairs (fun a b => key a <> key b) l.
Proof.
  induction l as [|a l IH]; intros H; [constructor|].
  inversion H as [|? ? Hnotin Hnd]; subst. constructor; [|now apply IH].
  apply Forall_forall. intros b Hb E. apply Hnotin. rewrite E. now apply in_map.
Qed.

Lemma ForallOrdPairs_impl {A : Type} (R S : A -> A -> Prop) (l : list A) :
  (forall a b, R a b -> S a b) -> ForallOrdPairs R l -> ForallOrdPairs S l.
Proof.
  intros Himp H. induction H as [|a l Ha Hl IH]; constructor; [|exact IH].
  eapply Forall_impl; [|exact Ha]. intros b. apply Himp.
Qed.

Lemma ForallOrdPairs_map {A C : Type} (f : A -> C) (R : C -> C -> Prop) (l : list A) :
  ForallOrdPairs (fun a b => R (f a) (f b)) l -> ForallOrdPairs R (map f l).
Proof.
  induction 1 as [|a l Ha Hl IH]; simpl; constructor; [|exact IH].
  apply Forall_forall. intros c Hc. apply in_map_iff in Hc. destruct Hc as [b [<- Hb]].
  rewrite Forall_forall in Ha. now apply Ha.
Qed.

Lemma NoDup_map_unique {A K : Type} (key : A -> K) (l : list A) (x y : A) :
  NoDup (map key l) -> In x l -> In y l -> key x = key y -> x = y.
Proof.
  induction l as [|a l IH]; intros H Hx Hy E; [destruct Hx|].
  inversion H as [|? ? Hnotin Hnd]; subst.
  destruct Hx as [-> | Hx], Hy as [-> | Hy].
  - reflexivity.
  - exfalso. apply Hnotin. rewrite E. now apply in_map.
  - exfalso. apply Hnotin. rewrite <- E. now apply in_map.
  - now apply IH.
Qed.

Section UnitsPhase.
Variable U : Type.
Variable apto : U -> string.
Variable unit_row : option nat -> U -> UnitRow.
Hypothesis unit_row_number : forall pid u, ur_unit_number (unit_row pid u) = apto u.
Hypothesis unit_row_project : forall pid u, ur_project_id (unit_row pid u) = pid.

Lemma upsert_units_lookup (main_units : list U) (self : Loader) (db : Store) :
  let st := SupabaseLoader.upsert_units unit_row main_units (self, db) in
  (forall k, In k (map apto main_units) ->
             exists i row,
               Py.get String.eqb (unit_ids (fst st)) k = Some i /\
               In (i, row) (units (snd st)) /\
               ur_unit_number row = k /\ ur_project_id row = project_id self) /\
  (forall k, ~ In k (map apto main_units) ->
             Py.get String.eqb (unit_ids (fst st)) k =
             Py.get String.eqb (unit_ids self) k) /\
  (forall j, In j (map fst (units db)) -> In j (map fst (units (snd st)))) /\
  (forall x, In x (units (snd st)) ->
             In x (units db) \/ exists u, In u main_units /\
                                          snd x = unit_row (project_id self) u) /\
  (NoDup (map apto main_units) ->
   forall u, In u main_units ->
             exists i, Py.get String.eqb (unit_ids (fst st)) (apto u) = Some i /\
                       In (i, unit_row (project_id self) u) (units (snd st))).
Proof.
  cbv zeta. rewrite upsert_units_whole. cbn [fst snd].
  set (rows := map (unit_row (project_id self)) main_units).
  set (R := Table.upsert_rows unit_conflict rows (units db, next_id db)).
  destruct (record_unit_ids_fields (snd R) self) as (_ & _ & _ & Hids). rewrite Hids.
  unfold with_units. cbn [units].
  assert (Hdata : map snd (snd R) = rows) by apply upsert_rows_data.
  assert (Hkeys : map (fun r : nat * UnitRow => ur_unit_number (snd r)) (snd R) =
                  map apto main_units).
  { rewrite <- (map_map snd ur_unit_number), Hdata. subst rows. rewrite map_map.
    apply map_ext. intros u. apply unit_row_number. }
  assert (Hfound : Forall (fun x => Table.find_conflict unit_conflict (snd x) (fst (fst R))
                                    = Some (fst x)) (snd R)).
  { apply (upsert_rows_found UnitRow unit_conflict unit_conflict_compat).
    apply Forall_forall. intros r _. apply unit_conflict_refl. }
  split; [|split; [|split; [|split]]].
  - intros k Hk. rewrite <- Hkeys in Hk.
    destruct (get_fold_set_key string nat String.eqb string_eqb_spec
                (fun r : nat * UnitRow => ur_unit_number (snd r)) fst (snd R) k Hk
                (unit_ids self)) as [x (Hx & Hkx & Hget)].
    rewrite Forall_forall in Hfound. specialize (Hfound x Hx).
    apply find_conflict_In in Hfound. destruct Hfound as [old [Hold Hc]].
    apply unit_conflict_spec in Hc. destruct Hc as [Hp Hn].
    exists (fst x), old. split; [exact Hget|]. split; [exact Hold|].
    assert (Hrow : In (snd x) rows) by (rewrite <- Hdata; now apply in_map).
    subst rows. apply in_map_iff in Hrow. destruct Hrow as [u [Hu _]].
    split; [congruence|]. rewrite <- Hp, <- Hu. apply unit_row_project.
  - intros k Hk. rewrite <- Hkeys in Hk.
    apply (get_fold_set_unchanged string nat String.eqb string_eqb_spec). exact Hk.
  - intros j Hj. now apply upsert_rows_ids.
  - intros x Hx. apply upsert_rows_payloads in Hx. cbn [fst] in Hx.
    destruct Hx as [Hx | Hx]; [now left|]. right. subst rows.
    apply in_map_iff in Hx. destruct Hx as [u [Hu Hin]]. exists u. auto.
  - intros Hnd u Hu.
    assert (Hk : In (apto u) (map (fun r : nat * UnitRow => ur_unit_number (snd r)) (snd R)))
      by (rewrite Hkeys; now apply in_map).
    destruct (get_fold_set_key string nat String.eqb string_eqb_spec
                (fun r : nat * UnitRow => ur_unit_number (snd r)) fst (snd R) _ Hk
                (unit_ids self)) as [x (Hx & Hkx & Hget)].
    exists (fst x). split; [exact Hget|].
    assert (Hkept : Forall (fun x => In x (fst (fst R))) (snd R)).
    { apply upsert_rows_kept. subst rows. apply ForallOrdPairs_map.
      apply (ForallOrdPairs_impl (fun a b => apto a <> apto b)).
      - intros a b Hab. destruct (unit_conflict _ _) eqn:E; [|reflexivity].
        apply unit_conflict_spec in E. destruct E as [_ E].
        rewrite !unit_row_number in E. congruence.
      - now apply NoDup_ForallOrdPairs. }
    rewrite Forall_forall in Hkept. specialize (Hkept x Hx).
    assert (Hsnd : snd x = unit_row (project_id self) u).
    { assert (Hrow : In (snd x) rows) by (rewrite <- Hdata; now apply in_map).
      subst rows. apply in_map_iff in Hrow. destruct Hrow as [v [Hv Hvin]].
      rewrite <- Hv. f_equal.
      apply (NoDup_map_unique apto main_units v u Hnd Hvin Hu).
      rewrite <- (unit_row_number (project_id self) v), Hv. exact Hkx. }
    rewrite <- Hsnd. now destruct x.
Qed.
End UnitsPhase.

(** X15. [upsert_units] and the identifiers it keeps.  In both scripts,
    after [upsert_units]: every key of a MAIN record is mapped by
    [unit_ids] to the identifier of a stored unit row of this project with
    that unit number; the other keys keep what [unit_ids] held for them;
    the units that were stored keep their identifiers; every stored row is
    an old one or the row built from a MAIN record.  When the keys of MAIN
    are distinct (which the validator enforces), the row stored under the
    identifier of a record is the row built from that record. *)
Theorem upsert_units_records_identifiers :
  (forall (main_units : list Boulevard.ParsedUnit) (self : Loader) (db : Store),
      let st := Boulevard.upsert_units main_units (self, db) in
      (forall k, In k (map Boulevard.apto main_units) ->
                 exists i row,
                   Py.get String.eqb (unit_ids (fst st)) k = Some i /\
                   In (i, row) (units (snd st)) /\
                   ur_unit_number row = k /\ ur_project_id row = project_id self) /\
      (forall k, ~ In k (map Boulevard.apto main_units) ->
                 Py.get String.eqb (unit_ids (fst st)) k =
                 Py.get String.eqb (unit_ids self) k) /\
      (forall j, In j (map fst (units db)) -> In j (map fst (units (snd st)))) /\
      (forall x, In x (units (snd st)) ->
                 In x (units db) \/
                 exists u, In u main_units /\
                           snd x = Boulevard.unit_row (project_id self) u) /\
      (NoDup (map Boulevard.apto main_units) ->
       forall u, In u main_units ->
                 exists i, Py.get String.eqb (unit_ids (fst st)) (Boulevard.apto u) = Some i /\
                           In (i, Boulevard.unit_row (project_id self) u)
                              (units (snd st)))) /\
  (forall (main_units : list SantaElisa.ParsedUnit) (self : Loader) (db : Store),
      let st := SantaElisa.upsert_units main_units (self, db) in
      (forall k, In k (map SantaElisa.apto main_units) ->
                 exists i row,
                   Py.get String.eqb (unit_ids (fst st)) k = Some i /\
                   In (i, row) (units (snd st)) /\
                   ur_unit_number row = k /\ ur_project_id row = project_id self) /\
      (forall k, ~ In k (map SantaElisa.apto main_units) ->
                 Py.get String.eqb (unit_ids (fst st)) k =
                 Py.get String.eqb (unit_ids self) k) /\
      (forall j, In j (map fst (units db)) -> In j (map fst (units (snd st)))) /\
      (forall x, In x (units (snd st)) ->
                 In x (units db) \/
                 exists u, In u main_units /\
                           snd x = SantaElisa.unit_row (project_id self) u) /\
      (NoDup (map SantaElisa.apto main_units) ->
       forall u, In u main_units ->
                 exists i, Py.get String.eqb (unit_ids (fst st)) (SantaElisa.apto u) = Some i /\
                           In (i, SantaElisa.unit_row (project_id self) u)
                              (units (snd st)))).
Proof.
  split.
  - intros main_units self db.
    apply (upsert_units_lookup Boulevard.ParsedUnit Boulevard.apto Boulevard.unit_row
             (fun _ _ => eq_refl) (fun _ _ => eq_refl)).
  - intros main_units self db.
    apply (upsert_units_lookup SantaElisa.ParsedUnit SantaElisa.apto SantaElisa.unit_row
             (fun _ _ => eq_refl) (fun _ _ => eq_refl)).
Qed.

Lemma set_absent {V : Type} (d : Py.dict string V) (k : string) (v : V) :
  Py.get String.eqb d k = None -> Py.set String.eqb d k v = d ++ [(k, v)].
Proof.
  induction d as [|[k' v'] d IH]; simpl; [reflexivity|].
  destruct (String.eqb k k'); [discriminate|]. intros H. now rewrite IH.
Qed.

Lemma client_conflict_spec (new old : ClientRow) :
  client_conflict new old = true <-> cr_full_name new = cr_full_name old.
Proof. unfold client_conflict. apply string_eqb_spec. Qed.

Section ClientsPhase.
Variable U : Type.
Variable cliente : U -> option string.

(** The record has the client name [c] (a non-empty text). *)
Local Abbreviation has_client u c := (cliente u = Some c /\ c <> "").

Lemma unique_clients_fold (all_units : list U) :
  forall d : Py.dict string string,
    (forall k v, In (k, v) d -> k = v) -> NoDup (map fst d) ->
    let d' := fold_left
                (fun d u =>
                   match cliente u with
                   | Some c => if negb (String.eqb c "") && negb (Py.mem String.eqb d c)
                               then Py.set String.eqb d c c else d
                   | None => d
                   end) all_units d in
    (forall k v, In (k, v) d' -> k = v) /\ NoDup (map fst d') /\
    (forall c, In c (map fst d') <->
               In c (map fst d) \/ exists u, In u all_units /\ has_client u c).
Proof.
  induction all_units as [|u us IH]; intros d Hkv Hnd; cbn [fold_left].
  - split; [exact Hkv|]. split; [exact Hnd|]. intros c. split; [now left|].
    intros [H | [u [[] _]]]. exact H.
  - set (d1 := match cliente u with
               | Some c => if negb (String.eqb c "") && negb (Py.mem String.eqb d c)
                           then Py.set String.eqb d c c else d
               | None => d
               end).
    assert (H1 : (forall k v, In (k, v) d1 -> k = v) /\ NoDup (map fst d1) /\
                 (forall c, In c (map fst d1) <->
                            In c (map fst d) \/ has_client u c)).
    { subst d1. destruct (cliente u) as [c0|] eqn:Ec.
      - destruct (String.eqb c0 "") eqn:Ee; cbn [negb andb].
        + apply String.eqb_eq in Ee. split; [exact Hkv|]. split; [exact Hnd|].
          intros c. split; [now left|]. intros [H | [[= <-] Hne]]; [exact H|].
          contradiction.
        + apply String.eqb_neq in Ee. unfold Py.mem.
          destruct (Py.get String.eqb d c0) as [v0|] eqn:Eg; cbn [negb].
          * split; [exact Hkv|]. split; [exact Hnd|].
            intros c. split; [now left|]. intros [H | [[= <-] Hne]]; [exact H|].
            apply get_In in Eg. apply in_map_iff. exists (c0, v0). auto.
          * rewrite (set_absent d c0 c0 Eg). split; [|split].
            -- intros k v Hin. apply in_app_or in Hin.
               destruct Hin as [Hin | [[= <- <-] | []]]; [now apply Hkv | reflexivity].
            -- rewrite map_app. cbn [map fst]. apply NoDup_app; [exact Hnd | | ].
               ++ repeat constructor. intros [].
               ++ intros a Ha [<- | []]. apply get_None_not_key in Eg. contradiction.
            -- intros c. rewrite map_app, in_app_iff. cbn [map fst In]. split.
               ++ intros [H | [<- | []]]; [now left | right; auto].
               ++ intros [H | [[= <-] _]]; [now left | right; now left].
      - split; [exact Hkv|]. split; [exact Hnd|]. intros c. split; [now left|].
        intros [H | [H _]]; [exact H | discriminate H]. }
    destruct H1 as (K1 & N1 & C1).
    destruct (IH d1 K1 N1) as (K2 & N2 & C2).
    split; [exact K2|]. split; [exact N2|]. intros c. rewrite C2, C1. split.
    + intros [[H | H] | [v [Hv Hc]]].
      * now left.
      * right. exists u. split; [now left | exact H].
      * right. exists v. split; [now right | exact Hc].
    + intros [H | [v [[<- | Hv] Hc]]].
      * left. now left.
      * left. now right.
      * right. exists v. auto.
Qed.

Lemma unique_clients_names (all_units : list U) :
  NoDup (Py.values (SupabaseLoader.unique_clients cliente all_units)) /\
  forall c, In c (Py.values (SupabaseLoader.unique_clients cliente all_units)) <->
            exists u, In u all_units /\ has_client u c.
Proof.
  destruct (unique_clients_fold all_units [] (fun k v H => match H with end)
              (NoDup_nil _)) as (K & N & C).
  fold (SupabaseLoader.unique_clients cliente all_units) in K, N, C.
  assert (E : Py.values (SupabaseLoader.unique_clients cliente all_units) =
              map fst (SupabaseLoader.unique_clients cliente all_units)).
  { unfold Py.values. apply map_ext_in. intros [k v] Hin. cbn [fst snd].
    symmetry. now apply K. }
  rewrite E. split; [exact N|]. intros c. rewrite C. cbn [map].
  split; [intros [[] | H]; exact H | now right].
Qed.

Lemma upsert_clients_lookup (all_units : list U) (self : Loader) (db : Store) :
  let st := SupabaseLoader.upsert_clients cliente all_units (self, db) in
  (forall u c, In u all_units -> has_client u c ->
               exists i, Py.get String.eqb (client_ids (fst st)) c = Some i /\
                         In (i, mkClientRow c) (clients (snd st))) /\
  (forall c, ~ (exists u, In u all_units /\ has_client u c) ->
             Py.get String.eqb (client_ids (fst st)) c =
             Py.get String.eqb (client_ids self) c) /\
  (forall j, In j (map fst (clients db)) -> In j (map fst (clients (snd st)))) /\
  (forall x, In x (clients (snd st)) ->
             In x (clients db) \/ exists u, In u all_units /\ has_client u (cr_full_name (snd x))) /\
  (clients db = [] ->
   NoDup (map (fun x => cr_full_name (snd x)) (clients (snd st))) /\
   forall c, In c (map (fun x => cr_full_name (snd x)) (clients (snd st))) <->
             exists u, In u all_units /\ has_client u c).
Proof.
  cbv zeta. rewrite upsert_clients_whole. cbn [fst snd].
  destruct (unique_clients_names all_units) as [Hnd Hnames].
  set (names := Py.values (SupabaseLoader.unique_clients cliente all_units)) in *.
  set (R := Table.upsert_rows client_conflict (map mkClientRow names)
              (clients db, next_id db)).
  assert (Hids : client_ids (SupabaseLoader.record_client_ids self (snd R)) =
                 fold_left (fun d (row : nat * ClientRow) =>
                              Py.set String.eqb d (cr_full_name (snd row)) (fst row))
                           (snd R) (client_ids self)).
  { unfold SupabaseLoader.record_client_ids. generalize (snd R). intros data.
    revert self. induction data as [|x data IH]; intros self; [reflexivity|].
    cbn [fold_left]. now rewrite IH. }
  rewrite Hids. unfold with_clients. cbn [clients].
  assert (Hdata : map snd (snd R) = map mkClientRow names) by apply upsert_rows_data.
  assert (Hkeys : map (fun r : nat * ClientRow => cr_full_name (snd r)) (snd R) = names).
  { rewrite <- (map_map snd cr_full_name), Hdata, map_map. cbn [cr_full_name].
    apply map_id. }
  assert (Hkept : Forall (fun x => In x (fst (fst R))) (snd R)).
  { apply upsert_rows_kept. apply ForallOrdPairs_map.
    apply (ForallOrdPairs_impl (fun a b : string => a <> b)).
    - intros a b Hab. destruct (client_conflict _ _) eqn:E; [|reflexivity].
      apply client_conflict_spec in E. cbn [cr_full_name] in E. congruence.
    - rewrite <- (map_id names) in Hnd. now apply NoDup_ForallOrdPairs in Hnd. }
  split; [|split; [|split; [|split]]].
  - intros u c Hu Hc.
    assert (Hk : In c (map (fun r : nat * ClientRow => cr_full_name (snd r)) (snd R))).
    { rewrite Hkeys. apply Hnames. exists u. auto. }
    destruct (get_fold_set_key string nat String.eqb string_eqb_spec
                (fun r : nat * ClientRow => cr_full_name (snd r)) fst (snd R) c Hk
                (client_ids self)) as [x (Hx & Hkx & Hget)].
    exists (fst x). split; [exact Hget|].
    rewrite Forall_forall in Hkept. specialize (Hkept x Hx).
    destruct x as [i [name]]. cbn [fst snd cr_full_name] in *. now subst.
  - intros c Hc.
    apply (get_fold_set_unchanged string nat String.eqb string_eqb_spec).
    rewrite Hkeys. intros Hin. apply Hc. now apply Hnames.
  - intros j Hj. now apply upsert_rows_ids.
  - intros x Hx. apply upsert_rows_payloads in Hx. cbn [fst] in Hx.
    destruct Hx as [Hx | Hx]; [now left|]. right.
    apply in_map_iff in Hx. destruct Hx as [c [Hc Hin]]. rewrite <- Hc.
    cbn [cr_full_name]. now apply Hnames.
  - intros Hempty. subst R. rewrite Hempty.
    rewrite (upsert_rows_fresh ClientRow client_conflict).
    + cbn [fst app]. rewrite <- (map_map snd cr_full_name), map_snd_combine_seq, map_map.
      cbn [cr_full_name]. rewrite map_id. split; [exact Hnd | exact Hnames].
    + apply ForallOrdPairs_map.
      apply (ForallOrdPairs_impl (fun a b : string => a <> b)).
      * intros a b Hab. destruct (client_conflict _ _) eqn:E; [|reflexivity].
        apply client_conflict_spec in E. cbn [cr_full_name] in E. congruence.
      * rewrite <- (map_id names) in Hnd. now apply NoDup_ForallOrdPairs in Hnd.
    + apply Forall_forall. intros r _ x [].
Qed.
End ClientsPhase.

(** X16. [upsert_clients] and the identifiers it keeps.  In both scripts,
    after [upsert_clients]: every non-empty client name of a record of any
    section is mapped by [client_ids] to the identifier of a stored client
    row with that name; names of no record keep what [client_ids] held; the
    clients that were stored keep their identifiers; every stored row is an
    old one or carries a client name of a record.  On a store without
    clients the table then holds each client name of the records exactly
    once and nothing else. *)
Theorem upsert_clients_records_identifiers :
  (forall (all_units : list Boulevard.ParsedUnit) (self : Loader) (db : Store),
      let st := Boulevard.upsert_clients all_units (self, db) in
      let named c := exists u, In u all_units /\ Boulevard.cliente u = Some c /\ c <> "" in
      (forall c, named c ->
                 exists i, Py.get String.eqb (client_ids (fst st)) c = Some i /\
                           In (i, mkClientRow c) (clients (snd st))) /\
      (forall c, ~ named c ->
                 Py.get String.eqb (client_ids (fst st)) c =
                 Py.get String.eqb (client_ids self) c) /\
      (forall j, In j (map fst (clients db)) -> In j (map fst (clients (snd st)))) /\
      (forall x, In x (clients (snd st)) ->
                 In x (clients db) \/ named (cr_full_name (snd x))) /\
      (clients db = [] ->
       NoDup (map (fun x => cr_full_name (snd x)) (clients (snd st))) /\
       forall c, In c (map (fun x => cr_full_name (snd x)) (clients (snd st))) <->
                 named c)) /\
  (forall (all_units : list SantaElisa.ParsedUnit) (self : Loader) (db : Store),
      let st := SantaElisa.upsert_clients all_units (self, db) in
      let named c := exists u, In u all_units /\ SantaElisa.cliente u = Some c /\ c <> "" in
      (forall c, named c ->
                 exists i, Py.get String.eqb (client_ids (fst st)) c = Some i /\
                           In (i, mkClientRow c) (clients (snd st))) /\
      (forall c, ~ named c ->
                 Py.get String.eqb (client_ids (fst st)) c =
                 Py.get String.eqb (client_ids self) c) /\
      (forall j, In j (map fst (clients db)) -> In j (map fst (clients (snd st)))) /\
      (forall x, In x (clients (snd st)) ->
                 In x (clients db) \/ named (cr_full_name (snd x))) /\
      (clients db = [] ->
       NoDup (map (fun x => cr_full_name (snd x)) (clients (snd st))) /\
       forall c, In c (map (fun x => cr_full_name (snd x)) (clients (snd st))) <->
                 named c)).
Proof.
  split.
  - intros all_units self db st named.
    destruct (upsert_clients_lookup Boulevard.ParsedUnit Boulevard.cliente all_units self db)
      as (H1 & H2 & H3 & H4 & H5).
    fold st in H1, H2, H3, H4, H5.
    split; [|split; [|split; [|split]]]; try assumption.
    intros c [u [Hu Hc]]. exact (H1 u c Hu Hc).
  - intros all_units self db st named.
    destruct (upsert_clients_lookup SantaElisa.ParsedUnit SantaElisa.cliente all_units self db)
      as (H1 & H2 & H3 & H4 & H5).
    fold st in H1, H2, H3, H4, H5.
    split; [|split; [|split; [|split]]]; try assumption.
    intros c [u [Hu Hc]]. exact (H1 u c Hu Hc).
Qed.

(* ------------------------------------------------------------------------- *)
(** ** The project row *)
(* ------------------------------------------------------------------------- *)

Lemma upsert_project_facts (name display : string) (self : Loader) (db : Store) :
  let st := upsert_project name display (self, db) in
  let row := mkProjectRow name display in
  exists i,
    project_id (fst st) = Some i /\
    In (i, row) (projects (snd st)) /\
    (unit_ids (fst st) = unit_ids self /\ client_ids (fst st) = client_ids self /\
     _sale_ids (fst st) = _sale_ids self) /\
    (units (snd st) = units db /\ clients (snd st) = clients db /\
     sales (snd st) = sales db /\ payments (snd st) = payments db /\
     expected_payments (snd st) = expected_payments db) /\
    (forall j, In j (map fst (projects db)) -> In j (map fst (projects (snd st)))) /\
    ((exists x, In x (projects db) /\ pr_name (snd x) = name) ->
     In i (map fst (projects db)) /\
     List.length (projects (snd st)) = List.length (projects db) /\
     next_id (snd st) = next_id db) /\
    ((forall x, In x (projects db) -> pr_name (snd x) <> name) ->
     i = next_id db /\ projects (snd st) = projects db ++ [(i, row)] /\
     next_id (snd st) = S (next_id db)).
Proof.
  cbv zeta. unfold upsert_project, Table.upsert_row.
  destruct (Table.find_conflict project_conflict (mkProjectRow name display) (projects db))
    as [i|] eqn:E.
  - exists i. cbn [fst snd project_id set_project_id with_projects projects units clients
                   sales payments expected_payments next_id unit_ids client_ids _sale_ids].
    split; [reflexivity|]. split; [now apply replace_In_new|].
    split; [auto|]. split; [repeat split|]. split; [|split].
    + intros j Hj. now rewrite replace_ids.
    + intros _. apply find_conflict_In in E. destruct E as [old [Hold _]].
      split; [apply in_map_iff; exists (i, old); auto|].
      split; [apply replace_length | reflexivity].
    + intros Hnone. apply find_conflict_In in E. destruct E as [old [Hold Hc]].
      exfalso. apply (Hnone (i, old) Hold). cbn [snd].
      unfold project_conflict in Hc. cbn [pr_name] in Hc.
      apply String.eqb_eq in Hc. now symmetry.
  - exists (next_id db).
    cbn [fst snd project_id set_project_id with_projects projects units clients
         sales payments expected_payments next_id unit_ids client_ids _sale_ids].
    split; [reflexivity|]. split; [apply in_or_app; right; now left|].
    split; [auto|]. split; [repeat split|]. split; [|split].
    + intros j Hj. rewrite map_app, in_app_iff. now left.
    + intros [x [Hx Hn]]. exfalso.
      pose proof (find_conflict_None ProjectRow project_conflict _ _ E x Hx) as Hc.
      unfold project_conflict in Hc. cbn [pr_name] in Hc.
      apply String.eqb_neq in Hc. congruence.
    + intros _. auto.
Qed.

(** X17. [upsert_project] (called by both scripts with their project name
    and display name).  The loader leaves it holding the identifier of a
    stored project row with that name and display name, and nothing else
    of the loader or of the other tables has changed.  When the store
    already has a project of that name, no row is added and the identifier
    is the one of that project; otherwise exactly one row is appended under
    a fresh identifier. *)
Theorem upsert_project_finds_or_creates (name display : string) (self : Loader) (db : Store) :
  let st := upsert_project name display (self, db) in
  let row := mkProjectRow name display in
  exists i,
    project_id (fst st) = Some i /\
    In (i, row) (projects (snd st)) /\
    (unit_ids (fst st) = unit_ids self /\ client_ids (fst st) = client_ids self /\
     _sale_ids (fst st) = _sale_ids self) /\
    (units (snd st) = units db /\ clients (snd st) = clients db /\
     sales (snd st) = sales db /\ payments (snd st) = payments db /\
     expected_payments (snd st) = expected_payments db) /\
    (forall j, In j (map fst (projects db)) -> In j (map fst (projects (snd st)))) /\
    ((exists x, In x (projects db) /\ pr_name (snd x) = name) ->
     In i (map fst (projects db)) /\
     List.length (projects (snd st)) = List.length (projects db) /\
     next_id (snd st) = next_id db) /\
    ((forall x, In x (projects db) -> pr_name (snd x) <> name) ->
     i = next_id db /\ projects (snd st) = projects db ++ [(i, row)] /\
     next_id (snd st) = S (next_id db)).
Proof. apply upsert_project_facts. Qed.

(* ------------------------------------------------------------------------- *)
(** ** Rows written and the rows they refer to *)
(* ------------------------------------------------------------------------- *)

Lemma _batched_In {A : Type} (items b : list A) (r : A) :
  In b (_batched items BATCH_SIZE) -> In r b -> In r items.
Proof.
  intros Hb Hr. rewrite <- (_batched_concat items). apply in_concat. exists b. auto.
Qed.

Lemma firstn_incl {A : Type} (n : nat) (l : list A) (x : A) :
  In x (firstn n l) -> In x l.
Proof.
  revert l. induction n as [|n IH]; intros l H; [destruct H|].
  destruct l as [|a l]; [destruct H|]. simpl in H.
  destruct H as [-> | H]; [now left | right; now apply IH].
Qed.

Lemma returned_ids_values (data : list (nat * SaleRow)) (uid sid : nat) :
  Py.get Nat.eqb (SupabaseLoader.returned_ids data) uid = Some sid -> In sid (map fst data).
Proof.
  unfold SupabaseLoader.returned_ids. intros H.
  apply (get_fold_set_value nat nat Nat.eqb nat_eqb_spec
           (fun r : nat * SaleRow => s_unit_id (snd r)) fst) in H.
  destruct H as [H | [x (Hx & _ & Hv)]]; [discriminate H|].
  rewrite <- Hv. now apply in_map.
Qed.

Section SalesIntegrity.
Variable U : Type.
Variable apto : U -> string.
Variable is_sellable : U -> bool.
Variable _build_sale_row : Loader -> U -> BuildResult.

Local Abbreviation row := (@SupabaseLoader.prepared_row U).
Local Abbreviation index := (@SupabaseLoader.prepared_index U).
Local Abbreviation ids db := (map fst (sales db)).

Lemma map_active_ids_values (returned : Py.dict nat nat)
    (batch_units : list (SupabaseLoader.Prepared U)) :
  forall self i sid,
    get_sale_id (SupabaseLoader.map_active_ids apto returned self batch_units) i = Some sid ->
    get_sale_id self i = Some sid \/ exists uid, Py.get Nat.eqb returned uid = Some sid.
Proof.
  unfold SupabaseLoader.map_active_ids.
  induction batch_units as [|x xs IH]; intros self i sid H; cbn [fold_left] in H;
    [now left|].
  apply IH in H. destruct H as [H | H]; [|now right].
  destruct (Py.get String.eqb (unit_ids self) (apto (SupabaseLoader.prepared_unit x)))
    as [uid|]; [|now left].
  destruct (Py.get Nat.eqb returned uid) as [s|] eqn:E; [|now left].
  rewrite get_sale_id_set in H. destruct (i =? index x); [|now left].
  injection H as <-. right. now exists uid.
Qed.

Lemma sales_step_ok_refl (allowed : list SaleRow) (st : Loader * Store) :
  sales_step_ok allowed st st.
Proof. repeat split; auto. Qed.

Lemma sales_step_ok_trans (allowed : list SaleRow) (st1 st2 st3 : Loader * Store) :
  sales_step_ok allowed st1 st2 -> sales_step_ok allowed st2 st3 ->
  sales_step_ok allowed st1 st3.
Proof.
  intros (A1 & A2 & A3) (B1 & B2 & B3). split; [|split].
  - auto.
  - intros x Hx. destruct (B2 x Hx) as [H | H]; [auto | now right].
  - intros i sid H. destruct (B3 i sid H) as [H' | H']; [|now right].
    destruct (A3 i sid H') as [H'' | H'']; [now left | right; auto].
Qed.

Lemma active_batch_ok (allowed : list SaleRow) (st : Loader * Store)
    (batch_units : list (SupabaseLoader.Prepared U)) (batch_rows : list SaleRow) :
  (forall r, In r batch_rows -> In r allowed) ->
  sales_step_ok allowed st
    (SupabaseLoader.insert_sales_active_batch apto st (batch_units, batch_rows)).
Proof.
  intros Hallowed. destruct st as [self db].
  rewrite insert_sales_active_batch_eq.
  set (R := Table.upsert_rows sale_conflict batch_rows (sales db, next_id db)).
  unfold sales_step_ok. cbn [fst snd]. unfold with_sales. cbn [sales].
  split; [|split].
  - intros j Hj. now apply upsert_rows_ids.
  - intros x Hx. apply upsert_rows_payloads in Hx. cbn [fst] in Hx.
    destruct Hx as [Hx | Hx]; [now left | right; auto].
  - intros i sid H. apply map_active_ids_values in H.
    destruct H as [H | [uid H]]; [now left|]. right.
    apply returned_ids_values in H.
    pose proof (upsert_rows_returned SaleRow sale_conflict batch_rows (sales db, next_id db))
      as Hret. fold R in Hret. rewrite Forall_forall in Hret.
    apply in_map_iff in H. destruct H as [x [<- Hx]]. now apply Hret.
Qed.

Lemma cancelled_step_ok (allowed : list SaleRow) (st : Loader * Store)
    (x : SupabaseLoader.Prepared U) :
  In (row x) allowed ->
  sales_step_ok allowed st (SupabaseLoader.insert_sales_cancelled_step st x).
Proof.
  intros Hallowed. destruct st as [self db].
  unfold SupabaseLoader.insert_sales_cancelled_step, sales_step_ok.
  destruct (firstn 1 (Table.select (SupabaseLoader.is_cancelled_sale_of (row x)) (sales db)))
    as [|e rest] eqn:E.
  - unfold Table.insert_row. cbn [fst snd]. unfold with_sales. cbn [sales fst snd].
    split; [|split].
    + intros j Hj. rewrite map_app, in_app_iff. now left.
    + intros y Hy. apply in_app_or in Hy.
      destruct Hy as [Hy | [<- | []]]; [now left | right; exact Hallowed].
    + intros i sid H. rewrite get_sale_id_set in H.
      destruct (i =? index x); [|now left].
      injection H as <-. right. rewrite map_app, in_app_iff. right. now left.
  - cbn [fst snd]. split; [auto|]. split; [auto|].
    intros i sid H. rewrite get_sale_id_set in H.
    destruct (i =? index x); [|now left].
    injection H as <-. right.
    assert (He : In e (firstn 1 (Table.select (SupabaseLoader.is_cancelled_sale_of (row x))
                                   (sales db)))) by (rewrite E; now left).
    apply firstn_incl in He. unfold Table.select in He. apply filter_In in He.
    apply in_map. exact (proj1 He).
Qed.

Lemma fold_steps_ok {X : Type} (allowed : list SaleRow)
    (step : Loader * Store -> X -> Loader * Store) (xs : list X) :
  (forall st x, In x xs -> sales_step_ok allowed st (step st x)) ->
  forall st, sales_step_ok allowed st (fold_left step xs st).
Proof.
  induction xs as [|x xs IH]; intros Hstep st; cbn [fold_left];
    [apply sales_step_ok_refl|].
  apply (sales_step_ok_trans allowed st (step st x)).
  - apply Hstep. now left.
  - apply IH. intros st' x' Hx'. apply Hstep. now right.
Qed.

Lemma insert_sales_ok (all_units : list U) (self : Loader) (db : Store) :
  sales_step_ok
    (map row (SupabaseLoader.built_units is_sellable _build_sale_row self all_units))
    (self, db)
    (SupabaseLoader.insert_sales apto is_sellable _build_sale_row all_units (self, db)).
Proof.
  unfold SupabaseLoader.insert_sales. cbn [fst].
  set (allowed := map row (SupabaseLoader.built_units is_sellable _build_sale_row
                             self all_units)).
  set (actives := SupabaseLoader.active_units is_sellable _build_sale_row self all_units).
  set (cancelleds := SupabaseLoader.cancelled_units is_sellable _build_sale_row
                       self all_units).
  apply (sales_step_ok_trans allowed (self, db)
           (fold_left (SupabaseLoader.insert_sales_active_batch apto)
              (combine (_batched actives BATCH_SIZE) (_batched (map row actives) BATCH_SIZE))
              (self, db))).
  - apply fold_steps_ok. intros st [bu br] Hin. apply active_batch_ok.
    intros r Hr. apply in_combine_r in Hin.
    apply (_batched_In _ _ r Hin) in Hr. subst allowed actives.
    apply in_map_iff in Hr. destruct Hr as [p [<- Hp]]. apply in_map.
    unfold SupabaseLoader.active_units in Hp. apply filter_In in Hp. exact (proj1 Hp).
  - apply fold_steps_ok. intros st x Hin. apply cancelled_step_ok.
    subst allowed cancelleds. apply in_map.
    unfold SupabaseLoader.cancelled_units in Hin. apply filter_In in Hin. exact (proj1 Hin).
Qed.
End SalesIntegrity.

(* ------------------------------------------------------------------------- *)
(** ** The loader before and after the sales *)
(* ------------------------------------------------------------------------- *)

Section LoadFacts.
Variable U : Type.
Variable apto : U -> string.
Variable cliente : U -> option string.
Variable actual_payments : U -> list (date * Z).
Variable source_section : U -> string.
Variable unit_row : option nat -> U -> UnitRow.
Variable is_sellable : U -> bool.
Variable _build_sale_row : Loader -> U -> BuildResult.
Variable classify_payment : U -> nat -> Z -> PaymentType * Z.
Variable PROJECT_NAME PROJECT_DISPLAY_NAME : string.
Variable between : Loader * Store -> Loader * Store.

(** What a record needs, besides identifiers, for its sale row to be built. *)
Variable buildable : U -> Prop.

Hypothesis between_loader : forall st, fst (between st) = fst st.
Hypothesis between_tables :
  forall st,
    projects (snd (between st)) = projects (snd st) /\
    units (snd (between st)) = units (snd st) /\
    clients (snd (between st)) = clients (snd st) /\
    sales (snd (between st)) = sales (snd st) /\
    payments (snd (between st)) = payments (snd st).
Hypothesis build_unit_id :
  forall self u r,
    _build_sale_row self u = Built r ->
    Py.get String.eqb (unit_ids self) (apto u) = Some (s_unit_id r).
Hypothesis unit_row_number : forall pid u, ur_unit_number (unit_row pid u) = apto u.
Hypothesis unit_row_project : forall pid u, ur_project_id (unit_row pid u) = pid.
Hypothesis build_spec :
  forall self u,
    (exists r, _build_sale_row self u = Built r) <->
    Py.get String.eqb (unit_ids self) (apto u) <> None /\
    (exists c, cliente u = Some c /\ c <> "" /\
               Py.get String.eqb (client_ids self) c <> None) /\
    buildable u.
Hypothesis build_ids :
  forall self u r,
    _build_sale_row self u = Built r ->
    s_project_id r = project_id self /\
    exists c, cliente u = Some c /\ c <> "" /\
              Py.get String.eqb (client_ids self) c = Some (s_client_id r).

Local Abbreviation a_project := (after_project PROJECT_NAME PROJECT_DISPLAY_NAME).
Local Abbreviation a_units := (after_units unit_row PROJECT_NAME PROJECT_DISPLAY_NAME).
Local Abbreviation a_clients :=
  (after_clients cliente unit_row PROJECT_NAME PROJECT_DISPLAY_NAME).
Local Abbreviation a_between :=
  (after_between cliente unit_row PROJECT_NAME PROJECT_DISPLAY_NAME between).
Local Abbreviation a_sales :=
  (after_sales apto cliente unit_row is_sellable _build_sale_row
     PROJECT_NAME PROJECT_DISPLAY_NAME between).
Local Abbreviation a_payments :=
  (after_payments apto cliente actual_payments source_section unit_row is_sellable
     _build_sale_row classify_payment PROJECT_NAME PROJECT_DISPLAY_NAME between).
Local Abbreviation sequence :=
  (write_sequence apto cliente actual_payments source_section unit_row is_sellable
     _build_sale_row classify_payment PROJECT_NAME PROJECT_DISPLAY_NAME between).
Local Abbreviation built := (SupabaseLoader.built_units is_sellable _build_sale_row).
Local Abbreviation named all_units c :=
  (exists u, In u all_units /\ cliente u = Some c /\ c <> "").

(** The loader when [insert_sales] starts. *)
Lemma before_sales_loader (main_units all_units : list U) (db : Store) :
  let L := fst (a_between main_units all_units db) in
  (forall k, Py.get String.eqb (unit_ids L) k <> None <-> In k (map apto main_units)) /\
  (forall k i, Py.get String.eqb (unit_ids L) k = Some i ->
               In i (map fst (units (snd (a_units main_units db))))) /\
  (forall c, Py.get String.eqb (client_ids L) c <> None <-> named all_units c) /\
  (forall c i, Py.get String.eqb (client_ids L) c = Some i ->
               In i (map fst (clients (snd (a_clients main_units all_units db))))) /\
  (exists i, project_id L = Some i /\ In i (map fst (projects (snd (a_project db))))) /\
  _sale_ids L = [].
Proof.
  cbv zeta.
  (* project *)
  destruct (upsert_project_facts PROJECT_NAME PROJECT_DISPLAY_NAME new_loader db)
    as [pid (P1 & P2 & (P3 & P4 & P5) & _)].
  fold (a_project db) in P1, P2, P3, P4, P5.
  cbn [new_loader unit_ids client_ids _sale_ids] in P3, P4, P5.
  (* units *)
  pose proof (upsert_units_lookup U apto unit_row unit_row_number unit_row_project
                main_units (fst (a_project db)) (snd (a_project db))) as Hu.
  rewrite <- (surjective_pairing (a_project db)) in Hu.
  fold (a_units main_units db) in Hu. cbv zeta in Hu.
  destruct Hu as (U1 & U2 & _).
  assert (Hu_fields : project_id (fst (a_units main_units db)) = project_id (fst (a_project db)) /\
                      client_ids (fst (a_units main_units db)) = [] /\
                      _sale_ids (fst (a_units main_units db)) = []).
  { unfold after_units. rewrite (surjective_pairing (a_project db)).
    rewrite upsert_units_whole. cbn [fst].
    destruct (record_unit_ids_fields
                (snd (Table.upsert_rows unit_conflict
                        (map (unit_row (project_id (fst (a_project db)))) main_units)
                        (units (snd (a_project db)), next_id (snd (a_project db)))))
                (fst (a_project db))) as (F1 & F2 & F3 & _).
    rewrite F1, F2, F3, P4, P5. auto. }
  destruct Hu_fields as (UF1 & UF2 & UF3).
  (* clients *)
  pose proof (upsert_clients_lookup U cliente all_units (fst (a_units main_units db))
                (snd (a_units main_units db))) as Hc.
  rewrite <- (surjective_pairing (a_units main_units db)) in Hc.
  fold (a_clients main_units all_units db) in Hc. cbv zeta in Hc.
  destruct Hc as (C1 & C2 & _).
  assert (Hc_fields : project_id (fst (a_clients main_units all_units db)) =
                        project_id (fst (a_units main_units db)) /\
                      unit_ids (fst (a_clients main_units all_units db)) =
                        unit_ids (fst (a_units main_units db)) /\
                      _sale_ids (fst (a_clients main_units all_units db)) = []).
  { unfold after_clients. rewrite (surjective_pairing (a_units main_units db)).
    rewrite upsert_clients_whole. cbn [fst].
    destruct (record_client_ids_fields
                (snd (Table.upsert_rows client_conflict
                        (map mkClientRow
                           (Py.values (SupabaseLoader.unique_clients cliente all_units)))
                        (clients (snd (a_units main_units db)),
                         next_id (snd (a_units main_units db)))))
                (fst (a_units main_units db))) as (F1 & F2 & F3).
    rewrite F1, F2, F3, UF3. auto. }
  destruct Hc_fields as (CF1 & CF2 & CF3).
  assert (HL : fst (a_between main_units all_units db) =
               fst (a_clients main_units all_units db)) by apply between_loader.
  rewrite HL, CF2.
  assert (Hukey : forall k, Py.get String.eqb (unit_ids (fst (a_units main_units db))) k
                            <> None <-> In k (map apto main_units)).
  { intros k. split.
    - intros H. destruct (in_dec string_dec k (map apto main_units)) as [Hin | Hout];
        [exact Hin|].
      rewrite (U2 k Hout), P3 in H. now simpl in H.
    - intros Hin. destruct (U1 k Hin) as (i & row & Hget & _). rewrite Hget. discriminate. }
  assert (Hckey : forall c, Py.get String.eqb
                              (client_ids (fst (a_clients main_units all_units db))) c
                            <> None -> named all_units c).
  { intros c H.
    destruct (Py.get String.eqb (client_ids (fst (a_clients main_units all_units db))) c)
      as [i|] eqn:E; [|contradiction].
    assert (Hdec : named all_units c \/ ~ named all_units c).
    { clear. induction all_units as [|u us IH].
      - right. intros [u [[] _]].
      - destruct IH as [[v (Hv & Hc)] | IH]; [left; exists v; split; [now right | exact Hc]|].
        destruct (cliente u) as [c0|] eqn:Ec.
        + destruct (string_dec c0 c) as [-> | Hne].
          * destruct (string_dec c "") as [-> | Hne'].
            -- right. intros [v ([<- | Hv] & Hc1 & Hc2)]; [now apply Hc2|].
               apply IH. exists v. auto.
            -- left. exists u. split; [now left | auto].
          * right. intros [v ([<- | Hv] & Hc1 & Hc2)]; [congruence|].
            apply IH. exists v. auto.
        + right. intros [v ([<- | Hv] & Hc1 & Hc2)]; [congruence|].
          apply IH. exists v. auto. }
    destruct Hdec as [Hn | Hn]; [exact Hn|].
    rewrite (C2 c Hn), UF2 in E. discriminate E. }
  split; [exact Hukey|]. split; [|split; [|split; [|split]]].
  - intros k i Hget.
    assert (Hin : In k (map apto main_units)) by (apply Hukey; rewrite Hget; discriminate).
    destruct (U1 k Hin) as (i' & row & Hget' & Hrow & _).
    rewrite Hget in Hget'. injection Hget' as <-.
    apply in_map_iff. exists (i, row). auto.
  - intros c. split; [apply Hckey|].
    intros [u (Hu & Hc)]. destruct (C1 u c Hu Hc) as (i & Hget & _).
    rewrite Hget. discriminate.
  - intros c i Hget.
    assert (Hn : named all_units c) by (apply Hckey; rewrite Hget; discriminate).
    destruct Hn as [u (Hu & Hc)]. destruct (C1 u c Hu Hc) as (i' & Hget' & Hrow).
    rewrite Hget in Hget'. injection Hget' as <-.
    apply in_map_iff. exists (i, mkClientRow c). auto.
  - exists pid. split; [now rewrite CF1, UF1|].
    apply in_map_iff. exists (pid, mkProjectRow PROJECT_NAME PROJECT_DISPLAY_NAME). auto.
  - exact CF3.
Qed.

(** Which records get a sale identifier. *)
Lemma sale_resolution (main_units all_units : list U) (expected : list ParsedExpected)
    (db : Store) (i : nat) :
  get_sale_id (fst (sequence main_units all_units expected db)) i <> None <->
  exists u, nth_error all_units i = Some u /\ is_sellable u = true /\
            In (apto u) (map apto main_units) /\
            (exists c, cliente u = Some c /\ c <> "") /\ buildable u.
Proof.
  destruct (write_sequence_facts U apto cliente actual_payments source_section unit_row
              is_sellable _build_sale_row classify_payment PROJECT_NAME
              PROJECT_DISPLAY_NAME between between_loader between_tables build_unit_id
              main_units all_units expected db) as (F0 & _).
  rewrite F0.
  rewrite (after_sales_ids U apto cliente unit_row is_sellable _build_sale_row
             PROJECT_NAME PROJECT_DISPLAY_NAME between between_loader between_tables
             build_unit_id main_units all_units db i).
  destruct (before_sales_loader main_units all_units db) as (L1 & _ & L3 & _).
  rewrite in_map_iff. split.
  - intros [x [<- Hx]]. apply built_units_In in Hx. destruct Hx as (Hn & Hs & Hb).
    exists (SupabaseLoader.prepared_unit x). split; [exact Hn|]. split; [exact Hs|].
    assert (Hex : exists r, _build_sale_row (fst (a_between main_units all_units db))
                              (SupabaseLoader.prepared_unit x) = Built r) by eauto.
    apply build_spec in Hex. destruct Hex as (Hu & (c & Hc & Hne & _) & Hbuild).
    split; [now apply L1|]. split; [exists c; auto | exact Hbuild].
  - intros [u (Hn & Hs & Hin & (c & Hc & Hne) & Hbuild)].
    assert (Hex : exists r, _build_sale_row (fst (a_between main_units all_units db)) u
                            = Built r).
    { apply build_spec. split; [now apply L1|]. split; [|exact Hbuild].
      exists c. split; [exact Hc|]. split; [exact Hne|]. apply L3.
      exists u. split; [now apply (nth_error_In _ i) | auto]. }
    destruct Hex as [r Hr]. exists (i, u, r). split; [reflexivity|].
    apply built_units_In. cbn. auto.
Qed.

Lemma insert_payment_batches_rows (batches : list (list PaymentRow)) :
  forall db, exists tail,
    payments (fold_left SupabaseLoader.insert_payments_batch batches db) =
      payments db ++ tail /\
    map snd tail = List.concat batches.
Proof.
  induction batches as [|b batches IH]; intros db; cbn [fold_left List.concat].
  - exists []. now rewrite app_nil_r.
  - destruct (IH (SupabaseLoader.insert_payments_batch db b)) as [tail [H1 H2]].
    assert (Hb : payments (SupabaseLoader.insert_payments_batch db b) =
                 payments db ++ combine (seq (next_id db) (List.length b)) b).
    { unfold SupabaseLoader.insert_payments_batch, with_payments. cbn [payments].
      now destruct (insert_rows_table PaymentRow b (payments db, next_id db)) as [T1 _]. }
    rewrite Hb in H1.
    exists (combine (seq (next_id db) (List.length b)) b ++ tail).
    split; [now rewrite H1, app_assoc|].
    now rewrite map_app, map_snd_combine_seq, H2.
Qed.

(** The rows [insert_payments] appends. *)
Lemma insert_payments_rows (all_units : list U) (self : Loader) (db : Store) :
  let res := SupabaseLoader.insert_payments actual_payments source_section
               classify_payment all_units (self, db) in
  fst res = self /\
  exists tail,
    payments (snd res) = payments db ++ tail /\
    map snd tail = SupabaseLoader.payment_rows actual_payments source_section
                     classify_payment self all_units.
Proof.
  cbv zeta. unfold SupabaseLoader.insert_payments. cbn [fst snd].
  split; [reflexivity|].
  destruct (insert_payment_batches_rows
              (_batched (SupabaseLoader.payment_rows actual_payments source_section
                           classify_payment self all_units) BATCH_SIZE) db)
    as [tail [H1 H2]].
  exists tail. split; [exact H1|]. now rewrite H2, _batched_concat.
Qed.

(** Every sale row the write sequence leaves is an old one or refers to a
    stored unit, a stored client and the stored project. *)
Lemma sequence_sales_integrity (main_units all_units : list U)
    (expected : list ParsedExpected) (db : Store) :
  let res := sequence main_units all_units expected db in
  forall x, In x (sales (snd res)) ->
            In x (sales db) \/
            (In (s_unit_id (snd x)) (map fst (units (snd res))) /\
             In (s_client_id (snd x)) (map fst (clients (snd res))) /\
             exists pid, s_project_id (snd x) = Some pid /\
                         In pid (map fst (projects (snd res)))).
Proof.
  cbv zeta.
  destruct (write_sequence_facts U apto cliente actual_payments source_section unit_row
              is_sellable _build_sale_row classify_payment PROJECT_NAME
              PROJECT_DISPLAY_NAME between between_loader between_tables build_unit_id
              main_units all_units expected db) as (_ & _ & F2 & F3 & F4 & F5).
  rewrite F2, F3, F4, F5.
  rewrite (after_sales_eq U apto cliente unit_row is_sellable _build_sale_row
             PROJECT_NAME PROJECT_DISPLAY_NAME between main_units all_units db).
  destruct (before_sales_loader main_units all_units db)
    as (_ & L2 & _ & L4 & (pid & L5 & L6) & _).
  destruct (insert_sales_ok U apto is_sellable _build_sale_row all_units
              (fst (a_between main_units all_units db))
              (snd (a_between main_units all_units db))) as (_ & S2 & _).
  cbn [fst snd] in S2.
  intros x Hx. destruct (S2 x Hx) as [H | H].
  - left. destruct (between_tables (a_clients main_units all_units db)) as (_ & _ & _ & B4 & _).
    fold (a_between main_units all_units db) in B4.
    destruct (after_between_facts U cliente unit_row PROJECT_NAME PROJECT_DISPLAY_NAME
                between between_loader between_tables main_units all_units db)
      as (_ & _ & _ & _ & B5 & _).
    now rewrite B5 in H.
  - right. apply in_map_iff in H. destruct H as [p [Hp Hin]].
    apply built_units_In in Hin. destruct Hin as (_ & _ & Hb). rewrite Hp in Hb.
    split; [|split].
    + apply (L2 (apto (SupabaseLoader.prepared_unit p))). now apply build_unit_id.
    + destruct (build_ids _ _ _ Hb) as (_ & c & _ & _ & Hc). now apply (L4 c).
    + exists pid. destruct (build_ids _ _ _ Hb) as (Hpid & _).
      split; [now rewrite Hpid | exact L6].
Qed.

(** Every payment row the write sequence leaves is an old one or belongs to
    a stored sale, the one of the record it was read from. *)
Lemma sequence_payments_integrity (main_units all_units : list U)
    (expected : list ParsedExpected) (db : Store) :
  let res := sequence main_units all_units expected db in
  forall x, In x (payments (snd res)) ->
            In x (payments db) \/
            (In (p_sale_id (snd x)) (map fst (sales (snd res))) /\
             exists i u,
               nth_error all_units i = Some u /\
               get_sale_id (fst res) i = Some (p_sale_id (snd x)) /\
               In (snd x) (SupabaseLoader.payment_rows_of actual_payments source_section
                             classify_payment (p_sale_id (snd x)) u)).
Proof.
  cbv zeta.
  destruct (write_sequence_facts U apto cliente actual_payments source_section unit_row
              is_sellable _build_sale_row classify_payment PROJECT_NAME
              PROJECT_DISPLAY_NAME between between_loader between_tables build_unit_id
              main_units all_units expected db) as (F0 & _ & _ & _ & _ & F5).
  rewrite F0, F5.
  assert (Hpay : payments (snd (sequence main_units all_units expected db)) =
                 payments (snd (a_payments main_units all_units db))).
  { unfold write_sequence.
    rewrite (surjective_pairing (a_payments main_units all_units db)).
    rewrite upsert_expected_payments_whole. reflexivity. }
  rewrite Hpay. unfold after_payments.
  rewrite (surjective_pairing (a_sales main_units all_units db)).
  destruct (insert_payments_rows all_units (fst (a_sales main_units all_units db))
              (snd (a_sales main_units all_units db))) as (_ & tail & T1 & T2).
  rewrite T1.
  destruct (after_sales_tables U apto cliente unit_row is_sellable _build_sale_row
              PROJECT_NAME PROJECT_DISPLAY_NAME between between_loader between_tables
              build_unit_id main_units all_units db) as (_ & _ & _ & P4).
  rewrite P4.
  intros x Hx. apply in_app_or in Hx. destruct Hx as [Hx | Hx]; [now left|]. right.
  assert (Hrow : In (snd x) (SupabaseLoader.payment_rows actual_payments source_section
                               classify_payment (fst (a_sales main_units all_units db))
                               all_units)) by (rewrite <- T2; now apply in_map).
  unfold SupabaseLoader.payment_rows in Hrow. apply in_flat_map in Hrow.
  destruct Hrow as [[i u] [Hiu Hrow]]. apply enumerate_In in Hiu.
  unfold SupabaseLoader.payment_rows_of_unit in Hrow. cbn [fst snd] in Hrow.
  destruct (actual_payments u) as [|p0 ps] eqn:Eap; [destruct Hrow|].
  destruct (get_sale_id (fst (a_sales main_units all_units db)) i) as [sid|] eqn:Es;
    [|destruct Hrow].
  assert (Hsid : p_sale_id (snd x) = sid).
  { unfold SupabaseLoader.payment_rows_of in Hrow. apply in_map_iff in Hrow.
    destruct Hrow as [[idx [pdate amount]] [<- _]].
    destruct (classify_payment u idx amount). reflexivity. }
  rewrite Hsid. split.
  - rewrite (after_sales_eq U apto cliente unit_row is_sellable _build_sale_row
               PROJECT_NAME PROJECT_DISPLAY_NAME between main_units all_units db) in Es |- *.
    destruct (insert_sales_ok U apto is_sellable _build_sale_row all_units
                (fst (a_between main_units all_units db))
                (snd (a_between main_units all_units db))) as (_ & _ & S3).
    cbn [fst snd] in S3. destruct (S3 i sid Es) as [H | H]; [|exact H].
    destruct (before_sales_loader main_units all_units db) as (_ & _ & _ & _ & _ & L6).
    unfold get_sale_id in H. rewrite L6 in H. discriminate H.
  - exists i, u. split; [exact Hiu|]. split; [exact Es | exact Hrow].
Qed.
End LoadFacts.

Lemma truthy_str_spec (o : option string) :
  Py.truthy_str o = true <-> exists c, o = Some c /\ c <> "".
Proof.
  destruct o as [c|]; simpl.
  - rewrite negb_true_iff, String.eqb_neq. split.
    + intros H. exists c. auto.
    + intros [c' [[= <-] H]]. exact H.
  - split; [discriminate | intros [c [H _]]; discriminate H].
Qed.

Lemma boulevard_build_spec (self : Loader) (u : Boulevard.ParsedUnit) :
  (exists r, Boulevard._build_sale_row self u = Built r) <->
  Py.get String.eqb (unit_ids self) (Boulevard.apto u) <> None /\
  (exists c, Boulevard.cliente u = Some c /\ c <> "" /\
             Py.get String.eqb (client_ids self) c <> None) /\
  True.
Proof.
  unfold Boulevard._build_sale_row.
  destruct (Py.get String.eqb (unit_ids self) (Boulevard.apto u)) as [uid|].
  - destruct (Boulevard.cliente u) as [c|] eqn:Ec; cbn [Py.truthy_str].
    + destruct (String.eqb c "") eqn:Ee; cbn [negb].
      * apply String.eqb_eq in Ee. split; [intros [r H]; discriminate H|].
        intros (_ & (c' & [= <-] & Hne & _) & _). contradiction.
      * apply String.eqb_neq in Ee.
        destruct (Py.get String.eqb (client_ids self) c) as [cid|] eqn:Eg.
        -- split; [|intros _; eauto]. intros _. split; [discriminate|].
           split; [|exact I]. exists c. rewrite Eg. repeat split; auto; discriminate.
        -- split; [intros [r H]; discriminate H|].
           intros (_ & (c' & [= <-] & _ & Hg) & _). congruence.
    + split; [intros [r H]; discriminate H|].
      intros (_ & (c' & H & _) & _). discriminate H.
  - split; [intros [r H]; discriminate H | intros [H _]; contradiction].
Qed.

Lemma boulevard_build_ids (self : Loader) (u : Boulevard.ParsedUnit) (r : SaleRow) :
  Boulevard._build_sale_row self u = Built r ->
  s_project_id r = project_id self /\
  exists c, Boulevard.cliente u = Some c /\ c <> "" /\
            Py.get String.eqb (client_ids self) c = Some (s_client_id r).
Proof.
  unfold Boulevard._build_sale_row.
  destruct (Py.get String.eqb (unit_ids self) (Boulevard.apto u)) as [uid|];
    [|discriminate].
  destruct (Boulevard.cliente u) as [c|] eqn:Ec; cbn [Py.truthy_str]; [|discriminate].
  destruct (String.eqb c "") eqn:Ee; cbn [negb]; [discriminate|].
  apply String.eqb_neq in Ee.
  destruct (Py.get String.eqb (client_ids self) c) as [cid|] eqn:Eg; [|discriminate].
  intros [= <-]. cbn [s_project_id s_client_id]. split; [reflexivity|].
  exists c. auto.
Qed.

(** A Santa Elisa record has a reservation date or an observed payment. *)
Lemma derive_sale_date_None (u : SantaElisa.ParsedUnit) :
  SantaElisa.derive_sale_date u = None <->
  SantaElisa.fecha_reserva u = None /\ SantaElisa.actual_payments u = [].
Proof.
  unfold SantaElisa.derive_sale_date.
  destruct (SantaElisa.fecha_reserva u) as [d|].
  - split; [discriminate | intros [H _]; discriminate H].
  - destruct (SantaElisa.actual_payments u) as [|p ps]; simpl.
    + split; auto.
    + split; [discriminate | intros [_ H]; discriminate H].
Qed.

Lemma santa_elisa_build_spec (self : Loader) (u : SantaElisa.ParsedUnit) :
  (exists r, SantaElisa._build_sale_row self u = Built r) <->
  Py.get String.eqb (unit_ids self) (SantaElisa.apto u) <> None /\
  (exists c, SantaElisa.cliente u = Some c /\ c <> "" /\
             Py.get String.eqb (client_ids self) c <> None) /\
  (SantaElisa.fecha_reserva u <> None \/ SantaElisa.actual_payments u <> []).
Proof.
  assert (Hdate : SantaElisa.derive_sale_date u <> None <->
                  SantaElisa.fecha_reserva u <> None \/ SantaElisa.actual_payments u <> []).
  { rewrite derive_sale_date_None.
    destruct (SantaElisa.fecha_reserva u), (SantaElisa.actual_payments u);
      split; intros H; try (left; discriminate); try (right; discriminate);
      try (intros [H1 H2]; discriminate); try tauto. }
  unfold SantaElisa._build_sale_row.
  destruct (Py.get String.eqb (unit_ids self) (SantaElisa.apto u)) as [uid|].
  - destruct (SantaElisa.cliente u) as [c|] eqn:Ec; cbn [Py.truthy_str].
    + destruct (String.eqb c "") eqn:Ee; cbn [negb].
      * apply String.eqb_eq in Ee. split; [intros [r H]; discriminate H|].
        intros (_ & (c' & [= <-] & Hne & _) & _). contradiction.
      * apply String.eqb_neq in Ee.
        destruct (Py.get String.eqb (client_ids self) c) as [cid|] eqn:Eg.
        -- rewrite <- Hdate.
           destruct (SantaElisa.derive_sale_date u) as [[d derived]|].
           ++ split; [|intros _; eauto]. intros _. split; [discriminate|].
              split; [|discriminate]. exists c. rewrite Eg.
              repeat split; auto; discriminate.
           ++ split; [intros [r H]; discriminate H|].
              intros (_ & _ & H). contradiction.
        -- split; [intros [r H]; discriminate H|].
           intros (_ & (c' & [= <-] & _ & Hg) & _). congruence.
    + split; [intros [r H]; discriminate H|].
      intros (_ & (c' & H & _) & _). discriminate H.
  - split; [intros [r H]; discriminate H | intros [H _]; contradiction].
Qed.

Lemma santa_elisa_build_ids (self : Loader) (u : SantaElisa.ParsedUnit) (r : SaleRow) :
  SantaElisa._build_sale_row self u = Built r ->
  s_project_id r = project_id self /\
  exists c, SantaElisa.cliente u = Some c /\ c <> "" /\
            Py.get String.eqb (client_ids self) c = Some (s_client_id r).
Proof.
  unfold SantaElisa._build_sale_row.
  destruct (Py.get String.eqb (unit_ids self) (SantaElisa.apto u)) as [uid|];
    [|discriminate].
  destruct (SantaElisa.cliente u) as [c|] eqn:Ec; cbn [Py.truthy_str]; [|discriminate].
  destruct (String.eqb c "") eqn:Ee; cbn [negb]; [discriminate|].
  apply String.eqb_neq in Ee.
  destruct (Py.get String.eqb (client_ids self) c) as [cid|] eqn:Eg; [|discriminate].
  destruct (SantaElisa.derive_sale_date u) as [[d derived]|]; [|discriminate].
  intros [= <-]. cbn [s_project_id s_client_id]. split; [reflexivity|].
  exists c. auto.
Qed.

(** X18. Which records get a sale.  After a load (from any store), the
    record at a position of [all_units] has a sale identifier exactly when:
    in Boulevard, its status text has a sale status, its unit key is the key
    of a MAIN record and it has a non-empty client name; in Santa Elisa, it
    has a sale status or comes from the refund section, its unit key is the
    key of a MAIN record, it has a non-empty client name, and it has a
    reservation date or at least one observed payment. *)
Theorem sale_is_resolved_exactly_when :
  (forall (main_units desist_units prob_desist : list Boulevard.ParsedUnit)
          (expected : list ParsedExpected) (db : Store) (i : nat),
      get_sale_id (fst (Boulevard.load main_units desist_units prob_desist expected db)) i
        <> None <->
      exists u, nth_error (main_units ++ desist_units ++ prob_desist) i = Some u /\
                Boulevard.normalize_sale_status (Boulevard.estatus_raw u) <> None /\
                In (Boulevard.apto u) (map Boulevard.apto main_units) /\
                (exists c, Boulevard.cliente u = Some c /\ c <> "")) /\
  (forall (main_units desist_units devol_units : list SantaElisa.ParsedUnit)
          (expected : list ParsedExpected) (db : Store) (i : nat),
      get_sale_id (fst (SantaElisa.load main_units desist_units devol_units expected db)) i
        <> None <->
      exists u, nth_error (main_units ++ desist_units ++ devol_units) i = Some u /\
                (SantaElisa.normalize_sale_status (SantaElisa.estatus_raw u) <> None \/
                 SantaElisa.source_section u = "devolucion") /\
                In (SantaElisa.apto u) (map SantaElisa.apto main_units) /\
                (exists c, SantaElisa.cliente u = Some c /\ c <> "") /\
                (SantaElisa.fecha_reserva u <> None \/ SantaElisa.actual_payments u <> [])).
Proof.
  split.
  - intros main_units desist_units prob_desist expected db i.
    rewrite boulevard_load_sequence.
    rewrite (sale_resolution Boulevard.ParsedUnit Boulevard.apto Boulevard.cliente
               Boulevard.actual_payments Boulevard.source_section Boulevard.unit_row
               Boulevard.is_sellable Boulevard._build_sale_row Boulevard.classify_payment
               Boulevard.PROJECT_NAME Boulevard.PROJECT_DISPLAY_NAME
               (Boulevard.upsert_sales_reps (main_units ++ desist_units ++ prob_desist))
               (fun _ => True)
               (upsert_sales_reps_loader _) (upsert_sales_reps_tables _)
               boulevard_build_unit_id (fun _ _ => eq_refl) (fun _ _ => eq_refl)
               boulevard_build_spec).
    split.
    + intros [u (H1 & H2 & H3 & H4 & _)]. exists u. split; [exact H1|].
      split; [|auto]. unfold Boulevard.is_sellable in H2.
      destruct (Boulevard.normalize_sale_status (Boulevard.estatus_raw u));
        [discriminate | discriminate H2].
    + intros [u (H1 & H2 & H3 & H4)]. exists u. split; [exact H1|].
      split; [|auto]. unfold Boulevard.is_sellable.
      destruct (Boulevard.normalize_sale_status (Boulevard.estatus_raw u));
        [reflexivity | contradiction].
  - intros main_units desist_units devol_units expected db i.
    rewrite santa_elisa_load_sequence.
    rewrite (sale_resolution SantaElisa.ParsedUnit SantaElisa.apto SantaElisa.cliente
               SantaElisa.actual_payments SantaElisa.source_section SantaElisa.unit_row
               SantaElisa.is_sellable SantaElisa._build_sale_row SantaElisa.classify_payment
               SantaElisa.PROJECT_NAME SantaElisa.PROJECT_DISPLAY_NAME
               (fun st => st)
               (fun u => SantaElisa.fecha_reserva u <> None \/
                         SantaElisa.actual_payments u <> [])
               (fun _ => eq_refl)
               (fun _ => conj eq_refl (conj eq_refl (conj eq_refl (conj eq_refl eq_refl))))
               santa_elisa_build_unit_id (fun _ _ => eq_refl) (fun _ _ => eq_refl)
               santa_elisa_build_spec).
    split.
    + intros [u (H1 & H2 & H3 & H4 & H5)]. exists u. split; [exact H1|].
      split; [|auto]. unfold SantaElisa.is_sellable in H2.
      destruct (SantaElisa.normalize_sale_status (SantaElisa.estatus_raw u)).
      * left. discriminate.
      * right. now apply String.eqb_eq.
    + intros [u (H1 & H2 & H3 & H4 & H5)]. exists u. split; [exact H1|].
      split; [|auto]. unfold SantaElisa.is_sellable.
      destruct (SantaElisa.normalize_sale_status (SantaElisa.estatus_raw u));
        [reflexivity|].
      destruct H2 as [H2 | H2]; [contradiction | now apply String.eqb_eq].
Qed.

(** X19. No dangling sale.  After a load, in both scripts, every row of the
    sales table either was in the store before, unchanged, or refers to a
    unit, a client and a project that are stored: its [unit_id],
    [client_id] and [project_id] are identifiers of rows of the units, the
    clients and the projects table. *)
Theorem sale_rows_refer_to_stored_rows :
  (forall (main_units desist_units prob_desist : list Boulevard.ParsedUnit)
          (expected : list ParsedExpected) (db : Store),
      let res := Boulevard.load main_units desist_units prob_desist expected db in
      Forall (fun x =>
                In x (sales db) \/
                (In (s_unit_id (snd x)) (map fst (units (snd res))) /\
                 In (s_client_id (snd x)) (map fst (clients (snd res))) /\
                 exists pid, s_project_id (snd x) = Some pid /\
                             In pid (map fst (projects (snd res)))))
             (sales (snd res))) /\
  (forall (main_units desist_units devol_units : list SantaElisa.ParsedUnit)
          (expected : list ParsedExpected) (db : Store),
      let res := SantaElisa.load main_units desist_units devol_units expected db in
      Forall (fun x =>
                In x (sales db) \/
                (In (s_unit_id (snd x)) (map fst (units (snd res))) /\
                 In (s_client_id (snd x)) (map fst (clients (snd res))) /\
                 exists pid, s_project_id (snd x) = Some pid /\
                             In pid (map fst (projects (snd res)))))
             (sales (snd res))).
Proof.
  split.
  - intros main_units desist_units prob_desist expected db res. subst res.
    rewrite boulevard_load_sequence. apply Forall_forall.
    apply (sequence_sales_integrity Boulevard.ParsedUnit Boulevard.apto Boulevard.cliente
             Boulevard.actual_payments Boulevard.source_section Boulevard.unit_row
             Boulevard.is_sellable Boulevard._build_sale_row Boulevard.classify_payment
             Boulevard.PROJECT_NAME Boulevard.PROJECT_DISPLAY_NAME
             (Boulevard.upsert_sales_reps (main_units ++ desist_units ++ prob_desist))
             (upsert_sales_reps_loader _) (upsert_sales_reps_tables _)
             boulevard_build_unit_id (fun _ _ => eq_refl) (fun _ _ => eq_refl)
             boulevard_build_ids).
  - intros main_units desist_units devol_units expected db res. subst res.
    rewrite santa_elisa_load_sequence. apply Forall_forall.
    apply (sequence_sales_integrity SantaElisa.ParsedUnit SantaElisa.apto SantaElisa.cliente
             SantaElisa.actual_payments SantaElisa.source_section SantaElisa.unit_row
             SantaElisa.is_sellable SantaElisa._build_sale_row SantaElisa.classify_payment
             SantaElisa.PROJECT_NAME SantaElisa.PROJECT_DISPLAY_NAME
             (fun st => st)
             (fun _ => eq_refl)
             (fun _ => conj eq_refl (conj eq_refl (conj eq_refl (conj eq_refl eq_refl))))
             santa_elisa_build_unit_id (fun _ _ => eq_refl) (fun _ _ => eq_refl)
             santa_elisa_build_ids).
Qed.

(** X20. No orphan payment.  After a load, in both scripts, every row of
    the payments table either was in the store before or belongs to a sale
    that is stored: its [sale_id] is the identifier of a row of the sales
    table, namely the sale the loader resolved for the record whose
    payments the row was built from. *)
Theorem payment_rows_refer_to_stored_sales :
  (forall (main_units desist_units prob_desist : list Boulevard.ParsedUnit)
          (expected : list ParsedExpected) (db : Store),
      let res := Boulevard.load main_units desist_units prob_desist expected db in
      Forall (fun x =>
                In x (payments db) \/
                (In (p_sale_id (snd x)) (map fst (sales (snd res))) /\
                 exists i u,
                   nth_error (main_units ++ desist_units ++ prob_desist) i = Some u /\
                   get_sale_id (fst res) i = Some (p_sale_id (snd x)) /\
                   In (snd x)
                      (SupabaseLoader.payment_rows_of Boulevard.actual_payments
                         Boulevard.source_section Boulevard.classify_payment
                         (p_sale_id (snd x)) u)))
             (payments (snd res))) /\
  (forall (main_units desist_units devol_units : list SantaElisa.ParsedUnit)
          (expected : list ParsedExpected) (db : Store),
      let res := SantaElisa.load main_units desist_units devol_units expected db in
      Forall (fun x =>
                In x (payments db) \/
                (In (p_sale_id (snd x)) (map fst (sales (snd res))) /\
                 exists i u,
                   nth_error (main_units ++ desist_units ++ devol_units) i = Some u /\
                   get_sale_id (fst res) i = Some (p_sale_id (snd x)) /\
                   In (snd x)
                      (SupabaseLoader.payment_rows_of SantaElisa.actual_payments
                         SantaElisa.source_section SantaElisa.classify_payment
                         (p_sale_id (snd x)) u)))
             (payments (snd res))).
Proof.
  split.
  - intros main_units desist_units prob_desist expected db res. subst res.
    rewrite boulevard_load_sequence. apply Forall_forall.
    apply (sequence_payments_integrity Boulevard.ParsedUnit Boulevard.apto
             Boulevard.cliente
             Boulevard.actual_payments Boulevard.source_section Boulevard.unit_row
             Boulevard.is_sellable Boulevard._build_sale_row Boulevard.classify_payment
             Boulevard.PROJECT_NAME Boulevard.PROJECT_DISPLAY_NAME
             (Boulevard.upsert_sales_reps (main_units ++ desist_units ++ prob_desist))
             (upsert_sales_reps_loader _) (upsert_sales_reps_tables _)
             boulevard_build_unit_id (fun _ _ => eq_refl) (fun _ _ => eq_refl)).
  - intros main_units desist_units devol_units expected db res. subst res.
    rewrite santa_elisa_load_sequence. apply Forall_forall.
    apply (sequence_payments_integrity SantaElisa.ParsedUnit SantaElisa.apto
             SantaElisa.cliente
             SantaElisa.actual_payments SantaElisa.source_section SantaElisa.unit_row
             SantaElisa.is_sellable SantaElisa._build_sale_row SantaElisa.classify_payment
             SantaElisa.PROJECT_NAME SantaElisa.PROJECT_DISPLAY_NAME
             (fun st => st)
             (fun _ => eq_refl)
             (fun _ => conj eq_refl (conj eq_refl (conj eq_refl (conj eq_refl eq_refl))))
             santa_elisa_build_unit_id (fun _ _ => eq_refl) (fun _ _ => eq_refl)).
Qed.

(* ------------------------------------------------------------------------- *)
(** ** One active sale per unit, one cancelled sale per unit and client *)
(* ------------------------------------------------------------------------- *)

Lemma sale_conflict_spec (new old : SaleRow) :
  sale_conflict new old = true <->
  s_status old = active /\ s_status new = active /\ s_unit_id new = s_unit_id old.
Proof.
  unfold sale_conflict.
  now rewrite !andb_true_iff, !sale_status_eqb_spec, Nat.eqb_eq, and_assoc.
Qed.

Lemma active_units_of_app (a b : Table.t SaleRow) :
  active_units_of (a ++ b) = active_units_of a ++ active_units_of b.
Proof. unfold active_units_of. now rewrite filter_app, map_app. Qed.

Lemma cancelled_pairs_of_app (a b : Table.t SaleRow) :
  cancelled_pairs_of (a ++ b) = cancelled_pairs_of a ++ cancelled_pairs_of b.
Proof. unfold cancelled_pairs_of. now rewrite filter_app, map_app. Qed.

Lemma replace_sale_keys (new : SaleRow) (tbl : Table.t SaleRow) :
  active_units_of (Table.replace_conflict sale_conflict new tbl) = active_units_of tbl /\
  cancelled_pairs_of (Table.replace_conflict sale_conflict new tbl) = cancelled_pairs_of tbl.
Proof.
  induction tbl as [|[i old] tbl [IH1 IH2]]; [split; reflexivity|].
  cbn [Table.replace_conflict].
  destruct (sale_conflict new old) eqn:E.
  - apply sale_conflict_spec in E. destruct E as (Eo & En & Eu).
    unfold active_units_of, cancelled_pairs_of. cbn [filter snd].
    rewrite Eo, En. cbn [sale_status_eqb map snd]. now rewrite Eu.
  - change ((i, old) :: Table.replace_conflict sale_conflict new tbl)
      with ([(i, old)] ++ Table.replace_conflict sale_conflict new tbl).
    change ((i, old) :: tbl) with ([(i, old)] ++ tbl).
    rewrite !active_units_of_app, !cancelled_pairs_of_app, IH1, IH2. split; reflexivity.
Qed.

Lemma upsert_sale_row_keys (new : SaleRow) (st : Table.t SaleRow * nat) :
  let tbl' := fst (fst (Table.upsert_row sale_conflict new st)) in
  (NoDup (active_units_of (fst st)) -> NoDup (active_units_of tbl')) /\
  (s_status new = active -> cancelled_pairs_of tbl' = cancelled_pairs_of (fst st)).
Proof.
  destruct st as [tbl n]. cbv zeta. unfold Table.upsert_row. cbn [fst].
  destruct (Table.find_conflict sale_conflict new tbl) as [i|] eqn:E; cbn [fst].
  - destruct (replace_sale_keys new tbl) as [H1 H2]. rewrite H1, H2. auto.
  - rewrite active_units_of_app, cancelled_pairs_of_app. split.
    + intros Hnd. unfold active_units_of at 2. cbn [filter snd].
      destruct (sale_status_eqb (s_status new) active) eqn:Es; cbn [map];
        [|now rewrite app_nil_r].
      apply sale_status_eqb_spec in Es.
      apply NoDup_app; [exact Hnd | apply NoDup_cons; [intros [] | apply NoDup_nil] |].
      intros a Ha [<- | []]. unfold active_units_of in Ha.
      apply in_map_iff in Ha. destruct Ha as [x [Hx Hin]].
      apply filter_In in Hin. destruct Hin as [Hin Hact].
      apply sale_status_eqb_spec in Hact.
      pose proof (find_conflict_None SaleRow sale_conflict new tbl E x Hin) as Hc.
      assert (Ht : sale_conflict new (snd x) = true)
        by (apply sale_conflict_spec; auto).
      congruence.
    + intros Hact. unfold cancelled_pairs_of at 2. cbn [filter snd].
      rewrite Hact. cbn [sale_status_eqb map]. now rewrite app_nil_r.
Qed.

Lemma upsert_sale_rows_keys (rows : list SaleRow) :
  Forall (fun r => s_status r = active) rows ->
  forall st,
    let tbl' := fst (fst (Table.upsert_rows sale_conflict rows st)) in
    (NoDup (active_units_of (fst st)) -> NoDup (active_units_of tbl')) /\
    cancelled_pairs_of tbl' = cancelled_pairs_of (fst st).
Proof.
  induction 1 as [|r rows Hr Hrows IH]; intros st; cbv zeta.
  - change (Table.upsert_rows sale_conflict [] st) with (st, @nil (nat * SaleRow)).
    cbn [fst]. auto.
  - rewrite upsert_rows_cons. cbn [fst].
    destruct (IH (fst (Table.upsert_row sale_conflict r st))) as [I1 I2].
    destruct (upsert_sale_row_keys r st) as [U1 U2]. cbv zeta in U1, U2.
    split; [auto|]. now rewrite I2, U2.
Qed.

Section SaleKeys.
Variable U : Type.
Variable apto : U -> string.
Variable is_sellable : U -> bool.
Variable _build_sale_row : Loader -> U -> BuildResult.

Local Abbreviation row := (@SupabaseLoader.prepared_row U).

Lemma active_batch_keys (st : Loader * Store)
    (batch_units : list (SupabaseLoader.Prepared U)) (batch_rows : list SaleRow) :
  Forall (fun r => s_status r = active) batch_rows ->
  let st' := SupabaseLoader.insert_sales_active_batch apto st (batch_units, batch_rows) in
  (NoDup (active_units_of (sales (snd st))) -> NoDup (active_units_of (sales (snd st')))) /\
  cancelled_pairs_of (sales (snd st')) = cancelled_pairs_of (sales (snd st)).
Proof.
  intros Hact. destruct st as [self db]. cbv zeta.
  rewrite insert_sales_active_batch_eq. cbn [snd]. unfold with_sales. cbn [sales].
  apply (upsert_sale_rows_keys batch_rows Hact (sales db, next_id db)).
Qed.

Lemma cancelled_step_keys (st : Loader * Store) (x : SupabaseLoader.Prepared U) :
  s_status (row x) = cancelled ->
  let st' := SupabaseLoader.insert_sales_cancelled_step st x in
  active_units_of (sales (snd st')) = active_units_of (sales (snd st)) /\
  (NoDup (cancelled_pairs_of (sales (snd st))) ->
   NoDup (cancelled_pairs_of (sales (snd st')))).
Proof.
  intros Hc. destruct st as [self db]. cbv zeta.
  unfold SupabaseLoader.insert_sales_cancelled_step.
  destruct (firstn 1 (Table.select (SupabaseLoader.is_cancelled_sale_of (row x)) (sales db)))
    as [|e rest] eqn:E; [|cbn [snd]; auto].
  unfold Table.insert_row. cbn [fst snd]. unfold with_sales. cbn [sales fst].
  rewrite active_units_of_app, cancelled_pairs_of_app.
  unfold active_units_of at 2, cancelled_pairs_of at 3. cbn [filter snd].
  rewrite Hc. cbn [sale_status_eqb map]. split; [now rewrite app_nil_r|].
  intros Hnd. apply NoDup_app; [exact Hnd | apply NoDup_cons; [intros [] | apply NoDup_nil] |].
  intros a Ha [<- | []]. unfold cancelled_pairs_of in Ha.
  apply in_map_iff in Ha. destruct Ha as [y [Hy Hin]].
  apply filter_In in Hin. destruct Hin as [Hin Hcan]. injection Hy as Hu Hcl.
  assert (Hsel : firstn 1 (Table.select (SupabaseLoader.is_cancelled_sale_of (row x))
                             (sales db)) <> []).
  { apply select_nonempty. exists y. split; [exact Hin|].
    unfold SupabaseLoader.is_cancelled_sale_of.
    rewrite Hu, Hcl, !Nat.eqb_refl, Hcan. reflexivity. }
  contradiction.
Qed.

Lemma insert_sales_keys (all_units : list U) (self : Loader) (db : Store) :
  let res := SupabaseLoader.insert_sales apto is_sellable _build_sale_row all_units
               (self, db) in
  (NoDup (active_units_of (sales db)) -> NoDup (active_units_of (sales (snd res)))) /\
  (NoDup (cancelled_pairs_of (sales db)) -> NoDup (cancelled_pairs_of (sales (snd res)))).
Proof.
  cbv zeta. unfold SupabaseLoader.insert_sales. cbn [fst].
  set (actives := SupabaseLoader.active_units is_sellable _build_sale_row self all_units).
  set (cancelleds := SupabaseLoader.cancelled_units is_sellable _build_sale_row
                       self all_units).
  set (st1 := fold_left (SupabaseLoader.insert_sales_active_batch apto)
                (combine (_batched actives BATCH_SIZE)
                   (_batched (map row actives) BATCH_SIZE)) (self, db)).
  assert (H1 : (NoDup (active_units_of (sales db)) ->
                NoDup (active_units_of (sales (snd st1)))) /\
               cancelled_pairs_of (sales (snd st1)) = cancelled_pairs_of (sales db)).
  { subst st1.
    apply (fold_left_invariant_In
             (fun st => (NoDup (active_units_of (sales db)) ->
                         NoDup (active_units_of (sales (snd st)))) /\
                        cancelled_pairs_of (sales (snd st)) = cancelled_pairs_of (sales db))).
    - intros st [bu br] Hin [I1 I2].
      assert (Hact : Forall (fun r => s_status r = active) br).
      { apply Forall_forall. intros r Hr. apply in_combine_r in Hin.
        apply (_batched_In _ _ r Hin) in Hr. apply in_map_iff in Hr.
        destruct Hr as [p [<- Hp]]. subst actives.
        unfold SupabaseLoader.active_units in Hp. apply filter_In in Hp.
        now apply sale_status_eqb_spec. }
      destruct (active_batch_keys st bu br Hact) as [A1 A2]. cbv zeta in A1, A2.
      split; [auto | now rewrite A2].
    - cbn [snd]. auto. }
  destruct H1 as [H1a H1c].
  assert (H2 : active_units_of
                 (sales (snd (fold_left (@SupabaseLoader.insert_sales_cancelled_step U)
                                cancelleds st1))) = active_units_of (sales (snd st1)) /\
               (NoDup (cancelled_pairs_of (sales (snd st1))) ->
                NoDup (cancelled_pairs_of
                         (sales (snd (fold_left
                                        (@SupabaseLoader.insert_sales_cancelled_step U)
                                        cancelleds st1)))))).
  { apply (fold_left_invariant_In
             (fun st => active_units_of (sales (snd st)) = active_units_of (sales (snd st1)) /\
                        (NoDup (cancelled_pairs_of (sales (snd st1))) ->
                         NoDup (cancelled_pairs_of (sales (snd st)))))).
    - intros st x Hin [I1 I2].
      assert (Hc : s_status (row x) = cancelled).
      { subst cancelleds. unfold SupabaseLoader.cancelled_units in Hin.
        apply filter_In in Hin. destruct Hin as [_ Hin].
        apply negb_true_iff in Hin.
        destruct (s_status (row x)); [discriminate Hin | reflexivity]. }
      destruct (cancelled_step_keys st x Hc) as [C1 C2]. cbv zeta in C1, C2.
      split; [now rewrite C1 | auto].
    - auto. }
  destruct H2 as [H2a H2c].
  split.
  - intros Hnd. rewrite H2a. auto.
  - intros Hnd. apply H2c. now rewrite H1c.
Qed.
End SaleKeys.

(** X21. One active sale per unit, one cancelled sale per unit and client.
    In both scripts a load keeps the sales table free of duplicates: when
    no two active sales of the store are for the same unit, the same holds
    after the load, and when no two cancelled sales of the store are for the
    same unit and client, the same holds after the load.  The empty store
    satisfies both conditions. *)
Theorem load_keeps_sales_unique :
  (forall (main_units desist_units prob_desist : list Boulevard.ParsedUnit)
          (expected : list ParsedExpected) (db : Store),
      let res := Boulevard.load main_units desist_units prob_desist expected db in
      (NoDup (active_units_of (sales db)) -> NoDup (active_units_of (sales (snd res)))) /\
      (NoDup (cancelled_pairs_of (sales db)) ->
       NoDup (cancelled_pairs_of (sales (snd res))))) /\
  (forall (main_units desist_units devol_units : list SantaElisa.ParsedUnit)
          (expected : list ParsedExpected) (db : Store),
      let res := SantaElisa.load main_units desist_units devol_units expected db in
      (NoDup (active_units_of (sales db)) -> NoDup (active_units_of (sales (snd res)))) /\
      (NoDup (cancelled_pairs_of (sales db)) ->
       NoDup (cancelled_pairs_of (sales (snd res))))).
Proof.
  split.
  - intros main_units desist_units prob_desist expected db res. subst res.
    rewrite boulevard_load_sequence.
    set (all_units := main_units ++ desist_units ++ prob_desist).
    destruct (write_sequence_facts Boulevard.ParsedUnit Boulevard.apto Boulevard.cliente
                Boulevard.actual_payments Boulevard.source_section Boulevard.unit_row
                Boulevard.is_sellable Boulevard._build_sale_row Boulevard.classify_payment
                Boulevard.PROJECT_NAME Boulevard.PROJECT_DISPLAY_NAME
                (Boulevard.upsert_sales_reps all_units)
                (upsert_sales_reps_loader _) (upsert_sales_reps_tables _)
                boulevard_build_unit_id main_units all_units expected db)
      as (_ & _ & _ & _ & _ & F5).
    rewrite F5, after_sales_eq.
    destruct (after_between_facts Boulevard.ParsedUnit Boulevard.cliente Boulevard.unit_row
                Boulevard.PROJECT_NAME Boulevard.PROJECT_DISPLAY_NAME
                (Boulevard.upsert_sales_reps all_units)
                (upsert_sales_reps_loader _) (upsert_sales_reps_tables _)
                main_units all_units db) as (_ & _ & _ & _ & B5 & _).
    rewrite <- B5.
    apply (insert_sales_keys Boulevard.ParsedUnit Boulevard.apto Boulevard.is_sellable
             Boulevard._build_sale_row all_units).
  - intros main_units desist_units devol_units expected db res. subst res.
    rewrite santa_elisa_load_sequence.
    set (all_units := main_units ++ desist_units ++ devol_units).
    destruct (write_sequence_facts SantaElisa.ParsedUnit SantaElisa.apto SantaElisa.cliente
                SantaElisa.actual_payments SantaElisa.source_section SantaElisa.unit_row
                SantaElisa.is_sellable SantaElisa._build_sale_row SantaElisa.classify_payment
                SantaElisa.PROJECT_NAME SantaElisa.PROJECT_DISPLAY_NAME
                (fun st => st)
                (fun _ => eq_refl)
                (fun _ => conj eq_refl (conj eq_refl (conj eq_refl (conj eq_refl eq_refl))))
                santa_elisa_build_unit_id main_units all_units expected db)
      as (_ & _ & _ & _ & _ & F5).
    rewrite F5, after_sales_eq.
    destruct (after_between_facts SantaElisa.ParsedUnit SantaElisa.cliente
                SantaElisa.unit_row
                SantaElisa.PROJECT_NAME SantaElisa.PROJECT_DISPLAY_NAME
                (fun st => st)
                (fun _ => eq_refl)
                (fun _ => conj eq_refl (conj eq_refl (conj eq_refl (conj eq_refl eq_refl))))
                main_units all_units db) as (_ & _ & _ & _ & B5 & _).
    rewrite <- B5.
    apply (insert_sales_keys SantaElisa.ParsedUnit SantaElisa.apto SantaElisa.is_sellable
             SantaElisa._build_sale_row all_units).
Qed.

(* ------------------------------------------------------------------------- *)
(** ** The sales representatives of Boulevard *)
(* ------------------------------------------------------------------------- *)

Lemma fold_left_preserves {S X T : Type} (f : S -> T) (step : S -> X -> S) (xs : list X) :
  (forall s x, f (step s x) = f s) -> forall s, f (fold_left step xs s) = f s.
Proof.
  intros H. induction xs as [|x xs IH]; intros s; cbn [fold_left]; [reflexivity|].
  now rewrite IH, H.
Qed.

Section RepsKept.
Variable U : Type.
Variable apto : U -> string.
Variable actual_payments : U -> list (date * Z).
Variable source_section : U -> string.
Variable is_sellable : U -> bool.
Variable _build_sale_row : Loader -> U -> BuildResult.
Variable classify_payment : U -> nat -> Z -> PaymentType * Z.

(** The phases after the sales representatives leave their table alone. *)
Lemma insert_sales_reps (all_units : list U) (st : Loader * Store) :
  sales_reps (snd (SupabaseLoader.insert_sales apto is_sellable _build_sale_row
                     all_units st)) = sales_reps (snd st).
Proof.
  unfold SupabaseLoader.insert_sales.
  rewrite (fold_left_preserves (fun st => sales_reps (snd st))).
  - apply (fold_left_preserves (fun st => sales_reps (snd st))).
    intros [self db] [bu br]. unfold SupabaseLoader.insert_sales_active_batch.
    now destruct (Table.upsert_rows sale_conflict br (sales db, next_id db)).
  - intros [self db] x. unfold SupabaseLoader.insert_sales_cancelled_step.
    destruct (firstn 1 _); [|reflexivity].
    unfold Table.insert_row. reflexivity.
Qed.

Lemma insert_payments_reps (all_units : list U) (st : Loader * Store) :
  sales_reps (snd (SupabaseLoader.insert_payments actual_payments source_section
                     classify_payment all_units st)) = sales_reps (snd st).
Proof.
  destruct st as [self db]. unfold SupabaseLoader.insert_payments. cbn [snd].
  apply (fold_left_preserves sales_reps). reflexivity.
Qed.

Lemma upsert_expected_payments_reps (expected : list ParsedExpected) (st : Loader * Store) :
  sales_reps (snd (SupabaseLoader.upsert_expected_payments expected st)) =
  sales_reps (snd st).
Proof.
  destruct st as [self db]. unfold SupabaseLoader.upsert_expected_payments. cbn [snd].
  apply (fold_left_preserves sales_reps). reflexivity.
Qed.
End RepsKept.

(** [normalize_vendedor(u.vendedor) or "unknown"] *)
Local Abbreviation rep_of u :=
  (match Boulevard.normalize_vendedor (Boulevard.vendedor u) with
   | Some v => if String.eqb v "" then "unknown" else v
   | None => "unknown"
   end).

Lemma boulevard_build_rep (self : Loader) (u : Boulevard.ParsedUnit) (r : SaleRow) :
  Boulevard._build_sale_row self u = Built r -> s_sales_rep_id r = rep_of u.
Proof.
  unfold Boulevard._build_sale_row.
  destruct (Py.get String.eqb (unit_ids self) (Boulevard.apto u)) as [uid|];
    [|discriminate].
  destruct (Boulevard.cliente u) as [c|]; cbn [Py.truthy_str]; [|discriminate].
  destruct (String.eqb c ""); cbn [negb]; [discriminate|].
  destruct (Py.get String.eqb (client_ids self) c) as [cid|]; [|discriminate].
  intros [= <-]. reflexivity.
Qed.

Lemma set_keys {V : Type} (d : Py.dict string V) (k : string) (v : V) (q : string) :
  In q (map fst (Py.set String.eqb d k v)) <-> q = k \/ In q (map fst d).
Proof.
  induction d as [|[k' v'] d IH]; cbn [Py.set map fst In].
  - split; [intros [<- | []]; now left | intros [-> | []]; now left].
  - destruct (String.eqb k k') eqn:E; cbn [map fst In].
    + apply String.eqb_eq in E. subst k'. intuition congruence.
    + rewrite IH. intuition congruence.
Qed.

Lemma unique_reps_keys {X V : Type} (key : X -> string) (value : string -> V)
    (xs : list X) :
  forall (d : Py.dict string V) (q : string),
    In q (map fst d) \/ In q (map key xs) ->
    In q (map fst
            (fold_left (fun d x => if Py.mem String.eqb d (key x) then d
                                   else Py.set String.eqb d (key x) (value (key x)))
               xs d)).
Proof.
  induction xs as [|x xs IH]; intros d q; cbn [fold_left map In].
  - intros [H | []]. exact H.
  - intros H. apply IH.
    assert (Hx : In (key x) (map fst (if Py.mem String.eqb d (key x) then d
                                      else Py.set String.eqb d (key x) (value (key x))))).
    { unfold Py.mem. destruct (Py.get String.eqb d (key x)) as [v|] eqn:E.
      - apply get_In in E. apply in_map_iff. exists (key x, v). auto.
      - apply set_keys. now left. }
    destruct H as [H | [<- | H]]; [left | left; exact Hx | now right].
    destruct (Py.mem String.eqb d (key x)); [exact H | apply set_keys; now right].
Qed.

Lemma upsert_sales_rep_ids (new : SalesRepRow) (tbl : list SalesRepRow) (q : string) :
  q = sr_id new \/ In q (map sr_id tbl) -> In q (map sr_id (upsert_sales_rep new tbl)).
Proof.
  induction tbl as [|old tbl IH]; cbn [upsert_sales_rep map In].
  - intros [-> | []]. now left.
  - unfold sales_rep_conflict. destruct (String.eqb (sr_id new) (sr_id old)) eqn:E;
      cbn [map In].
    + apply String.eqb_eq in E. rewrite E. intuition congruence.
    + intros [H | [H | H]]; [right; apply IH; now left | now left | right; apply IH; now right].
Qed.

Lemma upsert_sales_rep_batches_ids (batches : list (list SalesRepRow)) (q : string) :
  forall db,
    In q (map sr_id (sales_reps db)) \/ In q (map sr_id (List.concat batches)) ->
    In q (map sr_id
            (sales_reps
               (fold_left
                  (fun db0 batch =>
                     with_sales_reps db0
                       (fold_left (fun t r => upsert_sales_rep r t) batch (sales_reps db0)))
                  batches db))).
Proof.
  induction batches as [|b bs IH]; intros db; cbn [fold_left List.concat].
  - intros [H | []]. exact H.
  - rewrite map_app, in_app_iff. intros H. apply IH.
    assert (Hb : forall t, In q (map sr_id t) \/ In q (map sr_id b) ->
                           In q (map sr_id (fold_left (fun t r => upsert_sales_rep r t) b t))).
    { clear. induction b as [|r b IHb]; intros t; cbn [fold_left map In].
      - intros [H | []]. exact H.
      - intros H. apply IHb.
        destruct H as [H | [H | H]];
          [left; apply upsert_sales_rep_ids; now right
          |left; apply upsert_sales_rep_ids; now left
          |now right]. }
    unfold with_sales_reps. cbn [sales_reps].
    destruct H as [H | [H | H]]; [left; apply Hb; now left | left; apply Hb; now right
                                 | now right].
Qed.

(** Every record's representative is stored once [upsert_sales_reps] ran. *)
Lemma upsert_sales_reps_stores (all_units : list Boulevard.ParsedUnit)
    (st : Loader * Store) (u : Boulevard.ParsedUnit) :
  In u all_units ->
  In (rep_of u) (map sr_id (sales_reps (snd (Boulevard.upsert_sales_reps all_units st)))).
Proof.
  intros Hu. destruct st as [self db]. unfold Boulevard.upsert_sales_reps. cbn [snd].
  apply upsert_sales_rep_batches_ids. right.
  rewrite _batched_concat, map_map. cbn [sr_id].
  apply (unique_reps_keys (fun u => rep_of u)
           (fun rid => match Py.get String.eqb Boulevard.name_map rid with
                       | Some n => n
                       | None => rid
                       end)).
  right. apply in_map_iff. exists u. split; [reflexivity | exact Hu].
Qed.

(** X22. Sales representatives of Boulevard.  After a load of Boulevard,
    every sale row is one the store held before or names a representative
    that [sales_reps] holds; and the representative of every parsed record
    (its normalised seller code, or [unknown] without one) is in
    [sales_reps]. *)
Theorem boulevard_sales_name_stored_reps
    (main_units desist_units prob_desist : list Boulevard.ParsedUnit)
    (expected : list ParsedExpected) (db : Store) :
  let res := Boulevard.load main_units desist_units prob_desist expected db in
  Forall (fun x => In x (sales db) \/
                   In (s_sales_rep_id (snd x)) (map sr_id (sales_reps (snd res))))
         (sales (snd res)) /\
  Forall (fun u =>
            In (match Boulevard.normalize_vendedor (Boulevard.vendedor u) with
                | Some v => if String.eqb v "" then "unknown" else v
                | None => "unknown"
                end) (map sr_id (sales_reps (snd res))))
         (main_units ++ desist_units ++ prob_desist).
Proof.
  cbv zeta. rewrite boulevard_load_sequence.
  set (all_units := main_units ++ desist_units ++ prob_desist).
  assert (Hreps : forall u, In u all_units ->
            In (rep_of u)
               (map sr_id
                  (sales_reps
                     (snd (write_sequence Boulevard.apto Boulevard.cliente
                             Boulevard.actual_payments Boulevard.source_section
                             Boulevard.unit_row Boulevard.is_sellable
                             Boulevard._build_sale_row Boulevard.classify_payment
                             Boulevard.PROJECT_NAME Boulevard.PROJECT_DISPLAY_NAME
                             (Boulevard.upsert_sales_reps all_units)
                             main_units all_units expected db))))).
  { intros u Hu. unfold write_sequence, after_payments, after_sales, after_between.
    rewrite upsert_expected_payments_reps, insert_payments_reps, insert_sales_reps.
    now apply upsert_sales_reps_stores. }
  split; apply Forall_forall.
  - intros x Hx.
    destruct (write_sequence_facts Boulevard.ParsedUnit Boulevard.apto Boulevard.cliente
                Boulevard.actual_payments Boulevard.source_section Boulevard.unit_row
                Boulevard.is_sellable Boulevard._build_sale_row Boulevard.classify_payment
                Boulevard.PROJECT_NAME Boulevard.PROJECT_DISPLAY_NAME
                (Boulevard.upsert_sales_reps all_units)
                (upsert_sales_reps_loader _) (upsert_sales_reps_tables _)
                boulevard_build_unit_id main_units all_units expected db)
      as (_ & _ & _ & _ & _ & F5).
    rewrite F5, after_sales_eq in Hx.
    destruct (insert_sales_ok Boulevard.ParsedUnit Boulevard.apto Boulevard.is_sellable
                Boulevard._build_sale_row all_units
                (fst (after_between Boulevard.cliente Boulevard.unit_row
                        Boulevard.PROJECT_NAME Boulevard.PROJECT_DISPLAY_NAME
                        (Boulevard.upsert_sales_reps all_units) main_units all_units db))
                (snd (after_between Boulevard.cliente Boulevard.unit_row
                        Boulevard.PROJECT_NAME Boulevard.PROJECT_DISPLAY_NAME
                        (Boulevard.upsert_sales_reps all_units) main_units all_units db)))
      as (_ & S2 & _).
    cbn [fst snd] in S2. destruct (S2 x Hx) as [H | H].
    + left.
      destruct (after_between_facts Boulevard.ParsedUnit Boulevard.cliente
                  Boulevard.unit_row
                  Boulevard.PROJECT_NAME Boulevard.PROJECT_DISPLAY_NAME
                  (Boulevard.upsert_sales_reps all_units)
                  (upsert_sales_reps_loader _) (upsert_sales_reps_tables _)
                  main_units all_units db) as (_ & _ & _ & _ & B5 & _).
      now rewrite B5 in H.
    + right. apply in_map_iff in H. destruct H as [p [Hp Hin]].
      apply built_units_In in Hin. destruct Hin as (Hnth & _ & Hb). rewrite Hp in Hb.
      rewrite (boulevard_build_rep _ _ _ Hb). apply Hreps.
      now apply nth_error_In in Hnth.
  - intros u Hu. now apply Hreps.
Qed.

(* ------------------------------------------------------------------------- *)
(** ** Expected installments in the store *)
(* ------------------------------------------------------------------------- *)

Section TablePresent.
Variable P : Type.
Variable conflict : P -> P -> bool.
Hypothesis conflict_compat :
  forall q new old, conflict new old = true -> conflict q new = conflict q old.

(** Rows whose keys are all stored are upserted in place: the identifiers
    of the table stay as they are, in their order. *)
Lemma upsert_rows_in_place (rows : list P) :
  forall st,
    Forall (fun r => Table.find_conflict conflict r (fst st) <> None) rows ->
    map fst (fst (fst (Table.upsert_rows conflict rows st))) = map fst (fst st).
Proof.
  induction rows as [|r rows IH]; intros st Hall; [reflexivity|].
  rewrite upsert_rows_cons. cbn [fst].
  inversion Hall as [|? ? Hr Hrows]; subst.
  assert (Hrows' : Forall (fun q => Table.find_conflict conflict q
                                      (fst (fst (Table.upsert_row conflict r st))) <> None)
                          rows).
  { eapply Forall_impl; [|exact Hrows]. intros q Hq.
    destruct (Table.find_conflict conflict q (fst st)) as [k|] eqn:Hk; [|contradiction].
    now rewrite (upsert_row_stable P conflict conflict_compat q r st k Hk). }
  rewrite (IH _ Hrows').
  destruct st as [tbl n]. unfold Table.upsert_row. cbn [fst] in *.
  destruct (Table.find_conflict conflict r tbl); [|contradiction].
  cbn [fst]. apply replace_ids.
Qed.

(** Every upserted row finds a stored row with its key afterwards. *)
Lemma upsert_rows_keys_stored (rows : list P) :
  Forall (fun r => conflict r r = true) rows ->
  forall st r, In r rows ->
    exists i old, In (i, old) (fst (fst (Table.upsert_rows conflict rows st))) /\
                  conflict r old = true.
Proof.
  intros Hrefl st r Hr.
  pose proof (upsert_rows_found P conflict conflict_compat rows Hrefl st) as Hfound.
  pose proof (upsert_rows_data P conflict rows st) as Hdata.
  rewrite <- Hdata in Hr. apply in_map_iff in Hr. destruct Hr as [x [<- Hx]].
  rewrite Forall_forall in Hfound. specialize (Hfound x Hx).
  apply find_conflict_In in Hfound. destruct Hfound as [old [Hin Hc]].
  now exists (fst x), old.
Qed.
End TablePresent.

Lemma NoDup_flat_map_keys {A C K : Type} (f : A -> list C) (group : A -> K)
    (key : C -> K) (l : list A) :
  NoDup (map group l) ->
  (forall a c, In a l -> In c (f a) -> key c = group a) ->
  (forall a, In a l -> NoDup (f a)) ->
  NoDup (flat_map f l).
Proof.
  induction l as [|a l IH]; intros Hnd Hkey Hin; cbn [flat_map]; [constructor|].
  inversion Hnd as [|? ? Ha Hnd']; subst.
  apply NoDup_app.
  - apply Hin. now left.
  - apply IH; [exact Hnd' | |].
    + intros a' c Ha' Hc. apply (Hkey a' c); [now right | exact Hc].
    + intros a' Ha'. apply Hin. now right.
  - intros c Hc Hc'. apply in_flat_map in Hc'. destruct Hc' as [a' [Ha' Hc']].
    apply Ha. apply in_map_iff. exists a'. split; [|exact Ha'].
    rewrite <- (Hkey a' c (or_intror Ha') Hc'). apply (Hkey a c); [now left | exact Hc].
Qed.

Lemma NoDup_map_filter_key {A K1 K2 : Type} (k1 : A -> K1) (k2 : A -> K2)
    (f : A -> bool) (v : K1) (l : list A) :
  (forall a, f a = true -> k1 a = v) ->
  NoDup (map (fun a => (k1 a, k2 a)) l) -> NoDup (map k2 (filter f l)).
Proof.
  intros Hf. induction l as [|a l IH]; cbn [map filter]; [constructor|].
  intros Hnd. inversion Hnd as [|? ? Ha Hnd']; subst.
  destruct (f a) eqn:E; [|now apply IH].
  cbn [map]. constructor; [|now apply IH].
  intros Hin. apply Ha. apply in_map_iff in Hin. destruct Hin as [b [Hb Hin]].
  apply filter_In in Hin. destruct Hin as [Hin Hfb].
  apply in_map_iff. exists b. split; [|exact Hin].
  now rewrite Hb, (Hf a E), (Hf b Hfb).
Qed.

Lemma NoDup_map_pair {K1 K2 : Type} (v : K1) (l : list K2) :
  NoDup l -> NoDup (map (fun d => (v, d)) l).
Proof.
  induction 1 as [|d l Hd _ IH]; cbn [map]; constructor; [|exact IH].
  intros Hin. apply in_map_iff in Hin. destruct Hin as [d' [[= ->] Hin]]. contradiction.
Qed.

(** The rows built from records with distinct (unit key, due date) have
    distinct (unit number, due date). *)
Lemma expected_rows_keys (pid : option nat) (expected : list ParsedExpected) :
  NoDup (map (fun r => (pe_apto r, pe_due_date r)) expected) ->
  NoDup (map (fun row => (e_unit_number row, e_due_date row))
             (SupabaseLoader.expected_rows pid expected)).
Proof.
  intros Hnd. unfold SupabaseLoader.expected_rows. rewrite flat_map_concat_map, concat_map,
    map_map, <- flat_map_concat_map.
  apply (NoDup_flat_map_keys _ (@fst string (list ParsedExpected)) fst).
  - apply group_by_apto_keys.
  - intros [apto records] c _ Hc. cbn [fst]. unfold SupabaseLoader.expected_rows_of in Hc.
    rewrite map_map in Hc. apply in_map_iff in Hc. destruct Hc as [ir [<- _]]. reflexivity.
  - intros [apto records] Hin. unfold SupabaseLoader.expected_rows_of.
    rewrite map_map. cbn [e_unit_number e_due_date].
    assert (Hrec : records = records_of apto expected).
    { pose proof (group_by_apto_get expected apto) as Hget.
      assert (Hg : Py.get String.eqb (SupabaseLoader.group_by_apto expected) apto
                   = Some records).
      { pose proof (group_by_apto_keys expected) as Hk. revert Hin Hk.
        generalize (SupabaseLoader.group_by_apto expected). intros groups.
        induction groups as [|[k rs] groups IH]; [intros []|].
        cbn [In map fst Py.get]. intros [Heq | Hin] Hk; inversion Hk as [|? ? Hk1 Hk2]; subst.
        - injection Heq as -> ->. now rewrite String.eqb_refl.
        - destruct (String.eqb apto k) eqn:E; [|now apply IH].
          apply String.eqb_eq in E. subst k. exfalso. apply Hk1.
          apply in_map_iff. exists (apto, records). auto. }
      rewrite Hg in Hget. destruct (records_of apto expected); congruence. }
    rewrite <- (map_map snd (fun r => (apto, pe_due_date r))), map_snd_enumerate_from.
    rewrite <- (map_map pe_due_date (fun d => (apto, d))).
    apply NoDup_map_pair.
    apply (Permutation_NoDup
             (l := map pe_due_date records)).
    + apply Permutation_map, Permutation_sym.
      apply (sorted_perm _ SupabaseLoader.due_date_leb).
    + rewrite Hrec. unfold records_of.
      apply (NoDup_map_filter_key pe_apto pe_due_date _ apto); [|exact Hnd].
      intros a Ha. now apply String.eqb_eq in Ha.
Qed.

Lemma find_conflict_Some_In {P : Type} (conflict : P -> P -> bool) (new : P)
    (tbl : Table.t P) (x : nat * P) :
  In x tbl -> conflict new (snd x) = true -> Table.find_conflict conflict new tbl <> None.
Proof.
  intros Hin Hc Hnone.
  pose proof (find_conflict_None P conflict new tbl Hnone x Hin). congruence.
Qed.

Lemma expected_rows_no_conflict (pid : option nat) (expected : list ParsedExpected) :
  NoDup (map (fun r => (pe_apto r, pe_due_date r)) expected) ->
  ForallOrdPairs (fun a b => expected_conflict b a = false)
                 (SupabaseLoader.expected_rows pid expected).
Proof.
  intros Hnd.
  apply (ForallOrdPairs_impl
           (fun a b => (e_unit_number a, e_due_date a) <> (e_unit_number b, e_due_date b))).
  - intros a b Hne. destruct (expected_conflict b a) eqn:E; [|reflexivity].
    apply expected_conflict_spec in E. destruct E as (_ & E2 & E3 & _).
    exfalso. apply Hne. now rewrite E2, E3.
  - apply (NoDup_ForallOrdPairs (fun row => (e_unit_number row, e_due_date row))).
    now apply expected_rows_keys.
Qed.

(** What [upsert_expected_payments] leaves in the store. *)
Lemma upsert_expected_payments_store (expected : list ParsedExpected)
    (self : Loader) (db : Store) :
  let st1 := SupabaseLoader.upsert_expected_payments expected (self, db) in
  let built := SupabaseLoader.expected_rows (project_id self) expected in
  let stored := expected_payments (snd st1) in
  fst st1 = self /\
  (projects (snd st1) = projects db /\ units (snd st1) = units db /\
   clients (snd st1) = clients db /\ sales (snd st1) = sales db /\
   payments (snd st1) = payments db) /\
  (forall r, In r built ->
             exists i r', In (i, r') stored /\ expected_conflict r r' = true) /\
  (forall x, In x stored -> In x (expected_payments db) \/ In (snd x) built) /\
  (forall x, In x (expected_payments db) ->
             (forall r, In r built -> expected_conflict r (snd x) = false) ->
             In x stored) /\
  (forall j, In j (map fst (expected_payments db)) -> In j (map fst stored)) /\
  (NoDup (map (fun r => (pe_apto r, pe_due_date r)) expected) ->
   (forall r, In r built -> exists i, In (i, r) stored) /\
   (expected_payments db = [] ->
    stored = combine (seq (next_id db) (List.length built)) built)) /\
  (forall expected2 : list ParsedExpected,
      let built2 := SupabaseLoader.expected_rows (project_id self) expected2 in
      let st2 := SupabaseLoader.upsert_expected_payments expected2 st1 in
      (forall r2, In r2 built2 ->
                  exists r1, In r1 built /\ expected_conflict r2 r1 = true) ->
      List.length (expected_payments (snd st2)) = List.length stored /\
      map fst (expected_payments (snd st2)) = map fst stored /\
      forall r2, In r2 built2 ->
                 exists i r', In (i, r') (expected_payments (snd st2)) /\
                              expected_conflict r2 r' = true).
Proof.
  cbv zeta. rewrite upsert_expected_payments_whole. cbn [fst snd].
  set (built := SupabaseLoader.expected_rows (project_id self) expected).
  set (st := (expected_payments db, next_id db)).
  unfold with_expected_payments.
  cbn [expected_payments projects units clients sales payments].
  assert (Hrefl : forall rows : list ExpectedRow,
             Forall (fun r => expected_conflict r r = true) rows).
  { intros rows. apply Forall_forall. intros r _. apply expected_conflict_refl. }
  assert (Hstored : forall r, In r built ->
            exists i r', In (i, r') (fst (fst (Table.upsert_rows expected_conflict built st)))
                         /\ expected_conflict r r' = true).
  { intros r Hr.
    exact (upsert_rows_keys_stored ExpectedRow expected_conflict expected_conflict_compat
             built (Hrefl built) st r Hr). }
  split; [reflexivity|]. split; [auto|]. split; [exact Hstored|].
  split; [|split; [|split; [|split]]].
  - intros x Hx. exact (upsert_rows_payloads expected_conflict built st x Hx).
  - intros x Hx Hfree.
    apply (upsert_rows_In ExpectedRow expected_conflict built x);
      [apply Forall_forall; exact Hfree | exact Hx].
  - intros j Hj. exact (upsert_rows_ids ExpectedRow expected_conflict built st j Hj).
  - intros Hnd.
    pose proof (expected_rows_no_conflict (project_id self) expected Hnd) as Hord.
    fold built in Hord. split.
    + intros r Hr.
      pose proof (upsert_rows_kept ExpectedRow expected_conflict built Hord st) as Hkept.
      pose proof (upsert_rows_data ExpectedRow expected_conflict built st) as Hdata.
      rewrite <- Hdata in Hr. apply in_map_iff in Hr. destruct Hr as [x [<- Hx]].
      rewrite Forall_forall in Hkept. exists (fst x).
      rewrite <- surjective_pairing. now apply Hkept.
    + intros Hempty. subst st. rewrite Hempty.
      assert (Hfree : Forall (fun r : ExpectedRow =>
                                forall x : nat * ExpectedRow,
                                  In x [] -> expected_conflict r (snd x) = false) built)
        by (apply Forall_forall; intros r _ x []).
      exact (f_equal (fun z => fst (fst z))
               (upsert_rows_fresh ExpectedRow expected_conflict built Hord []
                  (next_id db) Hfree)).
  - intros expected2 Hcover.
    rewrite upsert_expected_payments_whole. cbn [fst snd].
    unfold with_expected_payments. cbn [expected_payments next_id].
    set (built2 := SupabaseLoader.expected_rows (project_id self) expected2) in *.
    set (st1 := fst (Table.upsert_rows expected_conflict built st)).
    assert (Hst1 : (fst st1, snd st1) = st1) by now destruct st1.
    rewrite Hst1.
    assert (Hpresent : Forall (fun r => Table.find_conflict expected_conflict r (fst st1)
                                         <> None) built2).
    { apply Forall_forall. intros r2 Hr2.
      destruct (Hcover r2 Hr2) as (r1 & Hr1 & Hc).
      destruct (Hstored r1 Hr1) as (i & old & Hin & Hc1).
      apply (find_conflict_Some_In expected_conflict r2 (fst st1) (i, old) Hin).
      cbn [snd]. now rewrite <- (expected_conflict_compat r2 r1 old Hc1). }
    destruct (upsert_rows_present ExpectedRow expected_conflict expected_conflict_compat
                (fun _ => tt) built2 (fun _ _ _ _ => eq_refl) st1 Hpresent) as [Hlen _].
    split; [exact Hlen|]. split.
    + exact (upsert_rows_in_place ExpectedRow expected_conflict expected_conflict_compat
               built2 st1 Hpresent).
    + intros r2 Hr2.
      exact (upsert_rows_keys_stored ExpectedRow expected_conflict
               expected_conflict_compat built2 (Hrefl built2) st1 r2 Hr2).
Qed.

(** C8. Expected installments.  For every unit key: the rows built for it
    carry the installment numbers 1, 2, ... in steps of one, as many as the
    key has budget records; their due dates ascend; they hold the due dates
    and amounts of the key's records; and they carry the project and the
    schedule type "budget".  Two rows conflict in the upsert exactly when
    they agree on project, unit number, due date and schedule type, so a
    second upsert of the same records leaves the number of rows unchanged.
    For unit 205 with amounts in 2024-01 and 2024-03 and none in 2024-02 the
    rows are numbered 1 and 2.
    The rows are written: after [upsert_expected_payments], from any store,
    every built row finds a stored row of [expected_payments] with its
    project, unit number, due date and schedule type; every stored row is
    an old one or a built one; old rows keep their identifiers, and those
    no built row conflicts with are kept as they are; the loader and the
    other tables are untouched.  When no unit key has two records with the
    same due date, every built row is itself stored, and on a store without
    expected payments the table is exactly the built rows, in their order,
    under fresh identifiers.  A later upsert of records whose rows all
    conflict with rows of the first one (a rerun, with the same or with
    revised amounts) adds no row and keeps the identifiers, and its rows
    find stored rows with their keys.  On the empty store the two records
    of unit 205 give the rows 1 and 2 under the identifiers 1 and 2, and a
    rerun with a revised amount for 2024-01 updates row 1 in place. *)
Theorem expected_installment_numbering :
  forall (pid : option nat) (expected : list ParsedExpected) (apto : string),
    let rows := rows_of apto (SupabaseLoader.expected_rows pid expected) in
    let records := records_of apto expected in
    map e_installment_number rows = seq 1 (List.length records) /\
    StronglySorted date_le (map e_due_date rows) /\
    Permutation (map (fun row => (e_due_date row, e_amount row)) rows)
                (map (fun r => (pe_due_date r, pe_amount r)) records) /\
    Forall (fun row => e_project_id row = pid /\ e_schedule_type row = "budget") rows /\
    (forall new old,
        expected_conflict new old = true <->
        e_project_id new = e_project_id old /\ e_unit_number new = e_unit_number old /\
        e_due_date new = e_due_date old /\ e_schedule_type new = e_schedule_type old) /\
    (forall (self : Loader) (db : Store),
        let st1 := SupabaseLoader.upsert_expected_payments expected (self, db) in
        let st2 := SupabaseLoader.upsert_expected_payments expected st1 in
        List.length (expected_payments (snd st2)) =
        List.length (expected_payments (snd st1))) /\
    (forall B : PyBuiltins,
        SupabaseLoader.expected_rows pid (Boulevard.parse_ppto budget_sheet_205) =
        [mkExpectedRow pid "205" (mkdate 2024 1 31) 100000 1 "budget";
         mkExpectedRow pid "205" (mkdate 2024 3 31) 100000 2 "budget"]) /\
    (forall (self : Loader) (db : Store),
        let st1 := SupabaseLoader.upsert_expected_payments expected (self, db) in
        let built := SupabaseLoader.expected_rows (project_id self) expected in
        let stored := expected_payments (snd st1) in
        fst st1 = self /\
        (projects (snd st1) = projects db /\ units (snd st1) = units db /\
         clients (snd st1) = clients db /\ sales (snd st1) = sales db /\
         payments (snd st1) = payments db) /\
        (forall r, In r built ->
                   exists i r', In (i, r') stored /\ expected_conflict r r' = true) /\
        (forall x, In x stored -> In x (expected_payments db) \/ In (snd x) built) /\
        (forall x, In x (expected_payments db) ->
                   (forall r, In r built -> expected_conflict r (snd x) = false) ->
                   In x stored) /\
        (forall j, In j (map fst (expected_payments db)) -> In j (map fst stored)) /\
        (NoDup (map (fun r => (pe_apto r, pe_due_date r)) expected) ->
         (forall r, In r built -> exists i, In (i, r) stored) /\
         (expected_payments db = [] ->
          stored = combine (seq (next_id db) (List.length built)) built)) /\
        (forall expected2 : list ParsedExpected,
            let built2 := SupabaseLoader.expected_rows (project_id self) expected2 in
            let st2 := SupabaseLoader.upsert_expected_payments expected2 st1 in
            (forall r2, In r2 built2 ->
                        exists r1, In r1 built /\ expected_conflict r2 r1 = true) ->
            List.length (expected_payments (snd st2)) = List.length stored /\
            map fst (expected_payments (snd st2)) = map fst stored /\
            forall r2, In r2 built2 ->
                       exists i r', In (i, r') (expected_payments (snd st2)) /\
                                    expected_conflict r2 r' = true)) /\
    (let first := SupabaseLoader.upsert_expected_payments
                    [mkParsedExpected "205" (mkdate 2024 3 31) 100000;
                     mkParsedExpected "205" (mkdate 2024 1 31) 100000]
                    (new_loader, empty_store) in
     let second := SupabaseLoader.upsert_expected_payments
                     [mkParsedExpected "205" (mkdate 2024 3 31) 100000;
                      mkParsedExpected "205" (mkdate 2024 1 31) 125000] first in
     expected_payments (snd first) =
       [(1, mkExpectedRow None "205" (mkdate 2024 1 31) 100000 1 "budget");
        (2, mkExpectedRow None "205" (mkdate 2024 3 31) 100000 2 "budget")] /\
     expected_payments (snd second) =
       [(1, mkExpectedRow None "205" (mkdate 2024 1 31) 125000 1 "budget");
        (2, mkExpectedRow None "205" (mkdate 2024 3 31) 100000 2 "budget")]).
Proof.
  intros pid expected apto rows records.
  destruct (expected_rows_numbering pid expected apto)
    as (H1 & H2 & H3 & H4 & H5 & H6 & H7).
  split; [exact H1|]. split; [exact H2|]. split; [exact H3|]. split; [exact H4|].
  split; [exact H5|]. split; [exact H6|]. split; [exact H7|]. split.
  - intros self db. apply upsert_expected_payments_store.
  - vm_compute. split; reflexivity.
Qed.

(* ------------------------------------------------------------------------- *)
(** ** Records whose unit key MAIN lacks *)
(* ------------------------------------------------------------------------- *)

Section AbsentKey.
Variable U : Type.
Variable apto : U -> string.
Variable cliente : U -> option string.
Variable actual_payments : U -> list (date * Z).
Variable source_section : U -> string.
Variable unit_row : option nat -> U -> UnitRow.
Variable is_sellable : U -> bool.
Variable _build_sale_row : Loader -> U -> BuildResult.
Variable classify_payment : U -> nat -> Z -> PaymentType * Z.
Variable PROJECT_NAME PROJECT_DISPLAY_NAME : string.
Variable between : Loader * Store -> Loader * Store.

Hypothesis between_loader : forall st, fst (between st) = fst st.
Hypothesis between_tables :
  forall st,
    projects (snd (between st)) = projects (snd st) /\
    units (snd (between st)) = units (snd st) /\
    clients (snd (between st)) = clients (snd st) /\
    sales (snd (between st)) = sales (snd st) /\
    payments (snd (between st)) = payments (snd st).
Hypothesis build_unit_id :
  forall self u r,
    _build_sale_row self u = Built r ->
    Py.get String.eqb (unit_ids self) (apto u) = Some (s_unit_id r).
Hypothesis unit_row_number : forall pid u, ur_unit_number (unit_row pid u) = apto u.
Hypothesis unit_row_project : forall pid u, ur_project_id (unit_row pid u) = pid.

Local Abbreviation a_project := (after_project PROJECT_NAME PROJECT_DISPLAY_NAME).
Local Abbreviation a_units := (after_units unit_row PROJECT_NAME PROJECT_DISPLAY_NAME).
Local Abbreviation a_between :=
  (after_between cliente unit_row PROJECT_NAME PROJECT_DISPLAY_NAME between).
Local Abbreviation a_sales :=
  (after_sales apto cliente unit_row is_sellable _build_sale_row
     PROJECT_NAME PROJECT_DISPLAY_NAME between).
Local Abbreviation sequence :=
  (write_sequence apto cliente actual_payments source_section unit_row is_sellable
     _build_sale_row classify_payment PROJECT_NAME PROJECT_DISPLAY_NAME between).

(** What the write sequence does for a record whose unit key is the key of
    no MAIN record: no unit row is created for the key, no sale row is
    built from the record, and none of its payments is written. *)
Lemma sequence_absent_key (main_units all_units : list U)
    (expected : list ParsedExpected) (db : Store) (i : nat) (u : U) :
  nth_error all_units i = Some u ->
  ~ In (apto u) (map apto main_units) ->
  let res := sequence main_units all_units expected db in
  (forall x, In x (units (snd res)) -> ur_unit_number (snd x) = apto u ->
             In x (units db)) /\
  (forall x, In x (sales (snd res)) ->
             In x (sales db) \/
             exists j v, nth_error all_units j = Some v /\
                         In (apto v) (map apto main_units) /\
                         Py.get String.eqb (unit_ids (fst res)) (apto v) =
                           Some (s_unit_id (snd x))) /\
  SupabaseLoader.payment_rows_of_unit actual_payments source_section classify_payment
    (fst res) (i, u) = [] /\
  (forall x, In x (payments (snd res)) ->
             In x (payments db) \/
             exists j v, j <> i /\ nth_error all_units j = Some v /\
                         get_sale_id (fst res) j = Some (p_sale_id (snd x)) /\
                         In (snd x) (SupabaseLoader.payment_rows_of actual_payments
                                       source_section classify_payment
                                       (p_sale_id (snd x)) v)) /\
  (actual_payments u <> [] ->
   0 < SupabaseLoader.skipped_no_sale actual_payments (fst res) all_units).
Proof.
  intros Hn Hu. cbv zeta.
  destruct (write_sequence_absent_unit U apto cliente actual_payments source_section
              unit_row is_sellable _build_sale_row classify_payment PROJECT_NAME
              PROJECT_DISPLAY_NAME between between_loader between_tables build_unit_id
              unit_row_number main_units all_units expected db i u Hn Hu)
    as (Hsale & Hkey & _).
  destruct (write_sequence_facts U apto cliente actual_payments source_section unit_row
              is_sellable _build_sale_row classify_payment PROJECT_NAME
              PROJECT_DISPLAY_NAME between between_loader between_tables build_unit_id
              main_units all_units expected db) as (F0 & _ & _ & F3 & _ & F5).
  split; [|split; [|split; [|split]]].
  - (* units *)
    rewrite F3. intros x Hx Hnum.
    pose proof (upsert_units_lookup U apto unit_row unit_row_number unit_row_project
                  main_units (fst (a_project db)) (snd (a_project db))) as Hl.
    rewrite <- (surjective_pairing (a_project db)) in Hl.
    fold (a_units main_units db) in Hl. cbv zeta in Hl.
    destruct Hl as (_ & _ & _ & Hrows & _).
    destruct (Hrows x Hx) as [Hold | (m & Hm & Hrow)].
    + destruct (after_project_tables PROJECT_NAME PROJECT_DISPLAY_NAME db) as (P1 & _).
      now rewrite P1 in Hold.
    + exfalso. apply Hu. rewrite <- Hnum, Hrow, unit_row_number. now apply in_map.
  - (* sales *)
    rewrite F5, F0.
    rewrite (after_sales_eq U apto cliente unit_row is_sellable _build_sale_row
               PROJECT_NAME PROJECT_DISPLAY_NAME between main_units all_units db).
    destruct (insert_sales_ok U apto is_sellable _build_sale_row all_units
                (fst (a_between main_units all_units db))
                (snd (a_between main_units all_units db))) as (_ & S2 & _).
    cbn [fst snd] in S2.
    destruct (insert_sales_facts U apto is_sellable _build_sale_row build_unit_id
                all_units (fst (a_between main_units all_units db))
                (snd (a_between main_units all_units db))) as ((_ & Hids & _) & _).
    destruct (before_sales_loader U apto cliente unit_row PROJECT_NAME
                PROJECT_DISPLAY_NAME between between_loader unit_row_number
                unit_row_project main_units all_units db) as (L1 & _).
    intros x Hx. destruct (S2 x Hx) as [H | H].
    + left.
      destruct (after_between_facts U cliente unit_row PROJECT_NAME PROJECT_DISPLAY_NAME
                  between between_loader between_tables main_units all_units db)
        as (_ & _ & _ & _ & B5 & _).
      now rewrite B5 in H.
    + right. apply in_map_iff in H. destruct H as [p [Hp Hin]].
      apply built_units_In in Hin. destruct Hin as (Hnth & _ & Hb). rewrite Hp in Hb.
      apply build_unit_id in Hb.
      exists (SupabaseLoader.prepared_index p), (SupabaseLoader.prepared_unit p).
      split; [exact Hnth|]. split.
      * apply L1. rewrite Hb. discriminate.
      * rewrite Hids. exact Hb.
  - (* the rows the record contributes *)
    unfold SupabaseLoader.payment_rows_of_unit. cbn [fst snd].
    rewrite Hsale. now destruct (actual_payments u).
  - (* payments *)
    intros x Hx.
    destruct (sequence_payments_integrity U apto cliente actual_payments source_section
                unit_row is_sellable _build_sale_row classify_payment PROJECT_NAME
                PROJECT_DISPLAY_NAME between between_loader between_tables build_unit_id
                unit_row_number unit_row_project main_units all_units expected db x Hx)
      as [Hold | (_ & j & v & Hj & Hid & Hrow)]; [now left|].
    right. exists j, v. split; [|auto].
    intros ->. rewrite Hsale in Hid. discriminate.
  - (* the record is counted as skipped *)
    intros Hpay. unfold SupabaseLoader.skipped_no_sale.
    assert (Hin : In (i, u)
                    (filter (fun iu => match actual_payments (snd iu),
                                             get_sale_id
                                               (fst (sequence main_units all_units
                                                       expected db)) (fst iu) with
                                       | _ :: _, None => true
                                       | _, _ => false
                                       end)
                            (Py.enumerate all_units))).
    { apply filter_In. split; [now apply enumerate_In|]. cbn [fst snd].
      rewrite Hsale. destruct (actual_payments u); [contradiction | reflexivity]. }
    destruct (filter _ (Py.enumerate all_units)); [destruct Hin | simpl; lia].
Qed.
End AbsentKey.

(** C2 (amended). In both scripts, for every record whose unit key is not a
    key of a MAIN record (so every record of a cancellation or refund
    section whose key MAIN lacks) and for every store the load starts from:
    the loader holds no unit identifier for the key, [_build_sale_row] skips
    the record with the warning "unit_id not found", and the record gets no
    sale identifier.  No unit row is created for the key: a unit row with
    that unit number after the load was in the store before, unchanged, so
    from a store without units no unit row carries the key.  No sale is
    built from the record: every sale row after the load was in the store
    before or carries the unit identifier the loader holds for the key of a
    MAIN record.  The payments of the record are skipped: the record
    contributes no row to [insert_payments], every payment row after the
    load was in the store before or was built for a record at another
    position that has a sale identifier, and when the record has observed
    payments it is counted in [skipped_no_sale]. *)
Theorem units_come_from_main_only :
  (forall (main_units desist_units prob_desist : list Boulevard.ParsedUnit)
          (expected : list ParsedExpected) (db : Store) (i : nat)
          (u : Boulevard.ParsedUnit),
      nth_error (main_units ++ desist_units ++ prob_desist) i = Some u ->
      ~ In (Boulevard.apto u) (map Boulevard.apto main_units) ->
      let all_units := main_units ++ desist_units ++ prob_desist in
      let res := Boulevard.load main_units desist_units prob_desist expected db in
      Boulevard._build_sale_row (fst res) u = Skipped unit_id_not_found /\
      get_sale_id (fst res) i = None /\
      (units db = [] ->
       forall x, In x (units (snd res)) -> ur_unit_number (snd x) <> Boulevard.apto u) /\
      Py.get String.eqb (unit_ids (fst res)) (Boulevard.apto u) = None /\
      (forall x, In x (units (snd res)) -> ur_unit_number (snd x) = Boulevard.apto u ->
                 In x (units db)) /\
      (forall x, In x (sales (snd res)) ->
                 In x (sales db) \/
                 exists j v, nth_error all_units j = Some v /\
                             In (Boulevard.apto v) (map Boulevard.apto main_units) /\
                             Py.get String.eqb (unit_ids (fst res)) (Boulevard.apto v) =
                               Some (s_unit_id (snd x))) /\
      SupabaseLoader.payment_rows_of_unit Boulevard.actual_payments
        Boulevard.source_section Boulevard.classify_payment (fst res) (i, u) = [] /\
      (forall x, In x (payments (snd res)) ->
                 In x (payments db) \/
                 exists j v, j <> i /\ nth_error all_units j = Some v /\
                             get_sale_id (fst res) j = Some (p_sale_id (snd x)) /\
                             In (snd x)
                                (SupabaseLoader.payment_rows_of Boulevard.actual_payments
                                   Boulevard.source_section Boulevard.classify_payment
                                   (p_sale_id (snd x)) v)) /\
      (Boulevard.actual_payments u <> [] ->
       0 < SupabaseLoader.skipped_no_sale Boulevard.actual_payments (fst res) all_units)) /\
  (forall (main_units desist_units devol_units : list SantaElisa.ParsedUnit)
          (expected : list ParsedExpected) (db : Store) (i : nat)
          (u : SantaElisa.ParsedUnit),
      nth_error (main_units ++ desist_units ++ devol_units) i = Some u ->
      ~ In (SantaElisa.apto u) (map SantaElisa.apto main_units) ->
      let all_units := main_units ++ desist_units ++ devol_units in
      let res := SantaElisa.load main_units desist_units devol_units expected db in
      SantaElisa._build_sale_row (fst res) u = Skipped unit_id_not_found /\
      get_sale_id (fst res) i = None /\
      (units db = [] ->
       forall x, In x (units (snd res)) -> ur_unit_number (snd x) <> SantaElisa.apto u) /\
      Py.get String.eqb (unit_ids (fst res)) (SantaElisa.apto u) = None /\
      (forall x, In x (units (snd res)) -> ur_unit_number (snd x) = SantaElisa.apto u ->
                 In x (units db)) /\
      (forall x, In x (sales (snd res)) ->
                 In x (sales db) \/
                 exists j v, nth_error all_units j = Some v /\
                             In (SantaElisa.apto v) (map SantaElisa.apto main_units) /\
                             Py.get String.eqb (unit_ids (fst res)) (SantaElisa.apto v) =
                               Some (s_unit_id (snd x))) /\
      SupabaseLoader.payment_rows_of_unit SantaElisa.actual_payments
        SantaElisa.source_section SantaElisa.classify_payment (fst res) (i, u) = [] /\
      (forall x, In x (payments (snd res)) ->
                 In x (payments db) \/
                 exists j v, j <> i /\ nth_error all_units j = Some v /\
                             get_sale_id (fst res) j = Some (p_sale_id (snd x)) /\
                             In (snd x)
                                (SupabaseLoader.payment_rows_of SantaElisa.actual_payments
                                   SantaElisa.source_section SantaElisa.classify_payment
                                   (p_sale_id (snd x)) v)) /\
      (SantaElisa.actual_payments u <> [] ->
       0 < SupabaseLoader.skipped_no_sale SantaElisa.actual_payments (fst res) all_units)).
Proof.
  split.
  - intros main_units desist_units prob_desist expected db i u Hn Hu all_units res.
    subst res all_units. rewrite boulevard_load_sequence.
    destruct (write_sequence_absent_unit Boulevard.ParsedUnit Boulevard.apto
                Boulevard.cliente Boulevard.actual_payments Boulevard.source_section
                Boulevard.unit_row Boulevard.is_sellable Boulevard._build_sale_row
                Boulevard.classify_payment Boulevard.PROJECT_NAME
                Boulevard.PROJECT_DISPLAY_NAME
                (Boulevard.upsert_sales_reps (main_units ++ desist_units ++ prob_desist))
                (upsert_sales_reps_loader _) (upsert_sales_reps_tables _)
                boulevard_build_unit_id (fun _ _ => eq_refl)
                main_units (main_units ++ desist_units ++ prob_desist) expected db i u
                Hn Hu) as (H1 & H2 & H3).
    destruct (sequence_absent_key Boulevard.ParsedUnit Boulevard.apto
                Boulevard.cliente Boulevard.actual_payments Boulevard.source_section
                Boulevard.unit_row Boulevard.is_sellable Boulevard._build_sale_row
                Boulevard.classify_payment Boulevard.PROJECT_NAME
                Boulevard.PROJECT_DISPLAY_NAME
                (Boulevard.upsert_sales_reps (main_units ++ desist_units ++ prob_desist))
                (upsert_sales_reps_loader _) (upsert_sales_reps_tables _)
                boulevard_build_unit_id (fun _ _ => eq_refl) (fun _ _ => eq_refl)
                main_units (main_units ++ desist_units ++ prob_desist) expected db i u
                Hn Hu) as (K1 & K2 & K3 & K4 & K5).
    split; [now apply boulevard_build_without_unit|]. split; [exact H1|]. split; [exact H3|].
    split; [exact H2|]. split; [exact K1|]. split; [exact K2|]. split; [exact K3|].
    split; [exact K4 | exact K5].
  - intros main_units desist_units devol_units expected db i u Hn Hu all_units res.
    subst res all_units. rewrite santa_elisa_load_sequence.
    destruct (write_sequence_absent_unit SantaElisa.ParsedUnit SantaElisa.apto
                SantaElisa.cliente SantaElisa.actual_payments SantaElisa.source_section
                SantaElisa.unit_row SantaElisa.is_sellable SantaElisa._build_sale_row
                SantaElisa.classify_payment SantaElisa.PROJECT_NAME
                SantaElisa.PROJECT_DISPLAY_NAME
                (fun st => st)
                (fun _ => eq_refl) (fun _ => conj eq_refl (conj eq_refl (conj eq_refl (conj eq_refl eq_refl))))
                santa_elisa_build_unit_id (fun _ _ => eq_refl)
                main_units (main_units ++ desist_units ++ devol_units) expected db i u
                Hn Hu) as (H1 & H2 & H3).
    destruct (sequence_absent_key SantaElisa.ParsedUnit SantaElisa.apto
                SantaElisa.cliente SantaElisa.actual_payments SantaElisa.source_section
                SantaElisa.unit_row SantaElisa.is_sellable SantaElisa._build_sale_row
                SantaElisa.classify_payment SantaElisa.PROJECT_NAME
                SantaElisa.PROJECT_DISPLAY_NAME
                (fun st => st)
                (fun _ => eq_refl) (fun _ => conj eq_refl (conj eq_refl (conj eq_refl (conj eq_refl eq_refl))))
                santa_elisa_build_unit_id (fun _ _ => eq_refl) (fun _ _ => eq_refl)
                main_units (main_units ++ desist_units ++ devol_units) expected db i u
                Hn Hu) as (K1 & K2 & K3 & K4 & K5).
    split; [now apply santa_elisa_build_without_unit|]. split; [exact H1|]. split; [exact H3|].
    split; [exact H2|]. split; [exact K1|]. split; [exact K2|]. split; [exact K3|].
    split; [exact K4 | exact K5].
Qed.

Lemma units_come_from_main_only_witness :
  nth_error ([boulevard_main_101] ++ [boulevard_desist "999"] ++ []) 1
    = Some (boulevard_desist "999") /\
  ~ In (Boulevard.apto (boulevard_desist "999"))
       (map Boulevard.apto [boulevard_main_101]) /\
  get_sale_id (fst (Boulevard.load [boulevard_main_101] [boulevard_desist "999"] [] []
                      empty_store)) 1 = None.
Proof.
  assert (Hn : nth_error ([boulevard_main_101] ++ [boulevard_desist "999"] ++ []) 1
               = Some (boulevard_desist "999")) by reflexivity.
  assert (Hu : ~ In (Boulevard.apto (boulevard_desist "999"))
                    (map Boulevard.apto [boulevard_main_101])).
  { simpl. intros [H | []]. discriminate H. }
  split; [exact Hn|]. split; [exact Hu|].
  exact (proj1 (proj2 (proj1 units_come_from_main_only
                         [boulevard_main_101] [boulevard_desist "999"] [] []
                         empty_store 1 (boulevard_desist "999") Hn Hu))).
Defined.
